(* ===== verification/_CoqProject ===== *)
-Q . S2P
Prelude.v
State.v
Machine.v
Ports.v
Uart.v
Adc.v
Irq.v
Sfr.v
Memory.v
Opcodes.v
Dispatch.v
Wf.v
Logic.v
Timers.v
PeriphSafe.v
InstrSafe.v
Interrupts.v
Arbitration.v
Cpu.v
CpuSafe.v
Hooks.v
Run.v
Reset.v
ResetSafe.v
Concrete.v
Effect.v
Stack.v
ExecProps.v
StackProps.v
IrqProps.v
TimerProps.v
AluProps.v
AluInstr.v
AdcProps.v
UartProps.v
PortProps.v
