(* ===== verification/Prelude.v ===== *)
(** * Verification of the emusa80535 CPU core

    emusa80535 is a C emulator of the 8051, the 8052 and the Siemens SAB80535.
    This development is a model of its core, the code that executes programs,
    with proofs of the properties that make it correct. Everything is executable:
    the instances at the end of the property files run the definitions on
    concrete CPUs.

    ** The program

    One [struct em8051] (src/lib/include/emusa80535/emu8051.h) holds memories,
    registers, peripherals, callbacks and counters. [tick] (src/core.c) is one
    machine cycle: it finishes a pending cycle, or arbitrates interrupts and
    executes one opcode through the table that [op_setptrs] (src/opcodes.c)
    built, and then advances the peripherals ([advance_machine_cycle]: timers,
    Timer 2, ADC, the stimulus schedule, level-triggered requests). Timer-1
    overflows clock the UART; peripherals raise request flags in SFRs, which
    [sab_irq_sync] collects for the arbiter. Instructions reach peripherals
    through the SFR gateway ([em8051_sfr_read], [em8051_sfr_write]). The embedder
    hears of all this through function pointers, and may ask for an abort at
    defined points. [run_control] ticks until a stop condition holds.

    ** The model

    A C integer is a [Z] truncated at every assignment to the width of its field
    ([u8], [u16], [u32], [u64] below). An array is a list with checked access; a
    buffer behind a pointer is an element of [heap], so pointers may alias.
    Stateful code is a computation of type [M W A] (Machine): a function of the
    CPU and of the embedder's state [W] that ends in [Done], in [Undef]
    (behaviour that C leaves undefined: NULL or out-of-range access, a shift by
    the width or more) or in [NoFuel]. The code behind the function pointers is the class [Host]; what the
    core relies on is the class [HostOk] (Logic): callbacks that get the CPU keep
    it well formed and leave the clock, the instruction count, the variant and
    the interrupt nesting alone. Some theorems assume more, by name:
    [never_aborts]; [abort_from_world] (the abort predicate reads the embedder's
    state only); [refusals_abort] (an observer that refuses a context makes the
    predicate true, as the observer of src/emu_cpu_facade.c does) (CpuSafe); and
    [callbacks_keep_abort] (callbacks do not replace the predicate) (Hooks).
    Concrete has two hosts: a recorder of every observation, which satisfies all
    of them, and one with the facade's discipline, where exceptions and refused
    contexts latch a fault that aborts; it satisfies all but [never_aborts].

    - State: the struct, its setters, the register map, the observer records.
    - Machine: the monad, the host, aborts, exceptions, the observation seam
      (src/emu_cpu_observation_internal.h).
    - Ports, Uart, Adc, Irq, Sfr, Timers, Interrupts, Cpu, Reset: the parts of
      src/core.c, one definition per C function under its C name. A long function
      is split at its blocks: [timer_tick] into [timer0_mode3_tick],
      [timer0_tick] and [timer1_tick]; [handle_sab_interrupts] into
      [sab_irq_select] and [sab_irq_enter]; [tick] has [execute_opcode];
      [run_control] has [run_stop], [drain_delay] and [run_loop]; [reset] has
      one definition per group of fields.
    - Memory, Opcodes, Dispatch: src/opcodes.c, all 111 handlers, the tables and
      the switch of [do_op]; handlers with the same body share a helper.

    ** The proofs

    - Wf: the invariant [wf]. Logic: [safe R m P], total correctness with a frame
      [R], and the tactic that proves it by symbolic execution. PeriphSafe,
      InstrSafe, CpuSafe, Run, ResetSafe: every operation is safe, bottom up.
      Hooks: the execution loop never replaces the abort predicate.
      Arbitration: the arbitration loop computes a maximum.
    - Effect, Stack: functional reasoning, [eff m c a c'], for the values and the
      CPU a computation leaves; internal memory as one 256-byte space.
    - ExecProps: a tick is safe and counts correctly, run control terminates and
      gives the first reason that holds ([justified], in Run, which does not use
      the loop's tests), the machine cycle is invisible to the program, only RETI
      changes nesting, the two dispatchers agree, reset establishes [wf] and fills
      the memories. ResetSafe also shows where the code departs from its comment:
      a warm reset clears the power-off flag.
    - IrqProps: arbitration, vector entry, nesting, inhibition, release (and the
      abort that prevents it), and the round trip of an interrupt and its RETI.
    - StackProps, AluProps, AluInstr: push and pop, LCALL and RET, the flags of
      the adder, MUL, DIV, rotates, parity, the reset generator; and two
      deviations of the code from the instruction set (auxiliary carry, XCHD).
    - TimerProps, AdcProps, UartProps: exact overflow times, the conversion, its
      arithmetic, and the frames the UART sends and receives.
    - PortProps: pins, edge detection, and the event ring as a bounded ordered
      queue.

    ** Bounds and fuel

    [apply_scheduled_loop] gets 256 iterations: each lowers an 8-bit count.
    [drain_delay] gets 256: each lowers the 8-bit delay. [run_control] takes its
    fuel as an argument, one unit per iteration of [run_loop], and [5 * limit + 6]
    is enough: an iteration drains the pending cycles and then starts an
    instruction or enters a vector, and an instruction can be preceded by at most
    four vector entries ([entries]), one per priority level. This is no bound on
    ticks, since draining takes one tick per pending cycle. No theorem is about a
    run that lacks fuel.

    ** Not modelled

    The text of the disassembler and [decode]; NULL [aCPU] arguments; the classic
    Timer-2 interrupt under [__8052__], which no build defines; the layers above
    the core (facade, session, debugger, trace storage, JSON, loaders, runtime,
    curses interface). [rand()] is a parameter of [reset]. The layers above
    call the core only through the operations modelled here, and the core calls
    them only through the function pointers of [Host]. *)
From Stdlib Require Export ZArith Lia Bool.
From stdpp Require Export base tactics numbers list option sets.
#[global] Open Scope Z_scope.

(** * Machine integers

    A C integer of width [w] is a [Z] kept in range by an explicit
    truncation at every assignment, as the C conversion rules do. *)

Definition u8 (x : Z) : Z := x mod 256.
Definition u16 (x : Z) : Z := x mod 65536.
Definition u32 (x : Z) : Z := x mod 4294967296.
Definition u64 (x : Z) : Z := x mod 18446744073709551616.

(** The value of [(signed char)x]. *)
Definition s8 (x : Z) : Z := if u8 x <? 128 then u8 x else u8 x - 256.

Definition byte (x : Z) : Prop := 0 <= x < 256.
Definition word (x : Z) : Prop := 0 <= x < 65536.

(** The truth value of the C expression [v & m]. *)
Definition has (v m : Z) : bool := negb (Z.land v m =? 0).

(** [(uint8_t)~m], and [v & (uint8_t)~m]. *)
Definition not8 (m : Z) : Z := u8 (Z.lnot m).
Definition clr (v m : Z) : Z := Z.land v (not8 m).

(** * Arrays: a checked read and a checked write.

    [None] is an access outside the array, which C leaves undefined. *)

Definition aget {A} (l : list A) (i : Z) : option A :=
  if 0 <=? i then l !! Z.to_nat i else None.

Definition aset {A} (l : list A) (i : Z) (x : A) : option (list A) :=
  if (0 <=? i) && (i <? Z.of_nat (length l)) then Some (<[Z.to_nat i := x]> l)
  else None.

(** Reads and writes at an index known to be in range. *)
Definition geti (l : list Z) (i : Z) : Z := l !!! Z.to_nat i.
Definition seti (l : list Z) (i x : Z) : list Z := <[Z.to_nat i := x]> l.

Arguments geti : simpl never.
Arguments seti : simpl never.

(** * Automation *)

Create HintDb emu discriminated.
Create HintDb width discriminated.
#[global] Hint Constants Opaque : emu.

(** Splits the conjunctions and existentials of the context. *)
Ltac destr_all :=
  repeat match goal with
  | H : _ /\ _ |- _ => destruct H
  | H : exists _, _ |- _ => destruct H
  end.

(** Case analysis on the boolean scrutinee of an [if] in the goal. *)
Ltac case_if :=
  match goal with
  | |- context [if ?b then _ else _] => let E := fresh "E" in destruct b eqn:E
  end.

(** * Generic lemmas *)

Lemma u8_byte x : byte (u8 x).
Proof. unfold byte, u8. apply Z.mod_pos_bound; lia. Qed.

Lemma u16_word x : word (u16 x).
Proof. unfold word, u16. apply Z.mod_pos_bound; lia. Qed.

Lemma u8_id x : byte x -> u8 x = x.
Proof. unfold byte, u8. intros. apply Z.mod_small; lia. Qed.

Lemma u16_id x : word x -> u16 x = x.
Proof. unfold word, u16. intros. apply Z.mod_small; lia. Qed.

Lemma u8_mod x n : 0 < n <= 256 -> 0 <= u8 (x mod n) < n.
Proof.
  intros Hn. pose proof (Z.mod_pos_bound x n). rewrite u8_id by (unfold byte; lia). lia.
Qed.

Lemma u8_u8 x : u8 (u8 x) = u8 x.
Proof. apply u8_id, u8_byte. Qed.

#[export] Hint Resolve u8_byte u16_word : width.

(** Bounds of the bitwise operations: a value below [2^n] has no bit at or
    above [n]. *)
Lemma bits_bound n x :
  0 <= n -> 0 <= x -> (forall i, n <= i -> Z.testbit x i = false) -> x < 2 ^ n.
Proof.
  intros Hn Hx Hb. destruct (Z.eq_dec x 0) as [->|Hne]; [lia|].
  apply Z.log2_lt_pow2; [lia|]. destruct (Z.lt_ge_cases (Z.log2 x) n); [done|].
  pose proof (Z.bit_log2 x ltac:(lia)). rewrite Hb in * by done. done.
Qed.

Lemma testbit_high n x i : 0 <= x < 2 ^ n -> 0 <= n <= i -> Z.testbit x i = false.
Proof.
  intros Hx Hi. rewrite <- (Z.mod_small x (2 ^ n)) by done.
  apply Z.mod_pow2_bits_high; lia.
Qed.

Lemma lor_bound n x y : 0 <= n -> 0 <= x < 2 ^ n -> 0 <= y < 2 ^ n -> 0 <= Z.lor x y < 2 ^ n.
Proof.
  intros Hn Hx Hy. split; [apply Z.lor_nonneg; lia|].
  apply bits_bound; [lia|apply Z.lor_nonneg; lia|]. intros i Hi.
  rewrite Z.lor_spec, !(testbit_high n) by lia. done.
Qed.

Lemma lxor_bound n x y : 0 <= n -> 0 <= x < 2 ^ n -> 0 <= y < 2 ^ n -> 0 <= Z.lxor x y < 2 ^ n.
Proof.
  intros Hn Hx Hy. assert (0 <= Z.lxor x y) by (apply Z.lxor_nonneg; lia).
  split; [done|]. apply bits_bound; [done..|]. intros i Hi.
  rewrite Z.lxor_spec, !(testbit_high n) by lia. done.
Qed.

Lemma land_bound_l n x y : 0 <= n -> 0 <= x < 2 ^ n -> 0 <= Z.land x y < 2 ^ n.
Proof.
  intros Hn Hx. assert (0 <= Z.land x y) by (apply Z.land_nonneg; lia).
  split; [done|]. apply bits_bound; [done..|]. intros i Hi.
  rewrite Z.land_spec, (testbit_high n x) by lia. done.
Qed.

Lemma byte_lor x y : byte x -> byte y -> byte (Z.lor x y).
Proof. apply (lor_bound 8); lia. Qed.
Lemma byte_lxor x y : byte x -> byte y -> byte (Z.lxor x y).
Proof. apply (lxor_bound 8); lia. Qed.
Lemma byte_land_l x y : byte x -> byte (Z.land x y).
Proof. apply (land_bound_l 8); lia. Qed.
Lemma byte_land_r x y : byte y -> byte (Z.land x y).
Proof. rewrite Z.land_comm. apply byte_land_l. Qed.
Lemma byte_not8 m : byte (not8 m).
Proof. apply u8_byte. Qed.
Lemma byte_clr x m : byte x -> byte (clr x m).
Proof. apply byte_land_l. Qed.

#[export] Hint Resolve byte_lor byte_lxor byte_land_l byte_land_r byte_not8 byte_clr : width.

Lemma word_lor x y : word x -> word y -> word (Z.lor x y).
Proof. apply (lor_bound 16); lia. Qed.
Lemma word_land_l x y : word x -> word (Z.land x y).
Proof. apply (land_bound_l 16); lia. Qed.
#[export] Hint Resolve word_lor word_land_l : width.

Lemma land_le x m : 0 <= m -> 0 <= Z.land x m < m + 1.
Proof.
  intros Hm. assert (0 <= Z.land x m) by (apply Z.land_nonneg; lia). split; [done|].
  assert (0 <= Z.ldiff m x) by (apply Z.ldiff_nonneg; lia).
  assert (Z.land (Z.ldiff m x) (Z.land m x) = 0).
  { apply Z.bits_inj'. intros i _. rewrite !Z.land_spec, Z.ldiff_spec, Z.bits_0.
    by destruct (Z.testbit m i), (Z.testbit x i). }
  pose proof (Z.lor_ldiff_and m x) as E. rewrite <- Z.add_nocarry_lor in E by done.
  rewrite Z.land_comm. lia.
Qed.

(** A 16-bit value from its bytes, and its bytes from a 16-bit value. *)
Lemma lor_bytes h l : byte h -> byte l -> Z.lor (Z.shiftl h 8) l = h * 256 + l.
Proof.
  unfold byte. intros Hh Hl. rewrite <- Z.add_nocarry_lor.
  - rewrite Z.shiftl_mul_pow2 by lia. lia.
  - apply Z.bits_inj'. intros i Hi. rewrite Z.land_spec, Z.bits_0.
    destruct (Z.lt_ge_cases i 8); [by rewrite Z.shiftl_spec_low|].
    rewrite (testbit_high 8 l) by lia. apply andb_false_r.
Qed.

Lemma u16_bytes x :
  0 <= x -> Z.lor (u16 (Z.shiftl (u8 (Z.shiftr x 8)) 8)) (u8 (Z.land x 255)) = u16 x.
Proof.
  intros Hx. pose proof (u8_byte (Z.shiftr x 8)) as Hh. pose proof (u8_byte (Z.land x 255)) as Hl.
  rewrite (u16_id (Z.shiftl _ _)).
  - rewrite lor_bytes by done. unfold u8, u16 in *. rewrite Z.shiftr_div_pow2 by lia.
    change 255 with (Z.ones 8). rewrite Z.land_ones by lia. change (2 ^ 8) with 256.
    rewrite Zmod_mod. pose proof (Z.rem_mul_r x 256 256 ltac:(lia) ltac:(lia)) as E.
    change (256 * 256) with 65536 in E. lia.
  - unfold word. rewrite Z.shiftl_mul_pow2 by lia. unfold byte in Hh. lia.
Qed.

(** A word from its bytes, arithmetically. *)
Lemma split_word v : word v ->
  u8 (Z.shiftr v 8) * 256 + u8 (Z.land v 255) = v.
Proof.
  intros Hv. unfold word in Hv. change 255 with (Z.ones 8). rewrite Z.land_ones, Z.shiftr_div_pow2 by lia.
  unfold u8. change (2 ^ 8) with 256. Z.div_mod_to_equations. lia.
Qed.

(** Set, test and clear of flag masks. *)
Lemma has_lor_same v m : m <> 0 -> has (Z.lor v m) m = true.
Proof.
  intros Hm. unfold has. rewrite Z.land_comm, Z.lor_comm, Z.land_lor_distr_r, Z.land_diag.
  rewrite Z.lor_land_distr_r, Z.lor_diag.
  replace (Z.land m (Z.lor m v)) with m.
  - by destruct (Z.eqb_spec m 0).
  - apply Z.bits_inj'. intros i _. rewrite Z.land_spec, Z.lor_spec. by destruct (Z.testbit m i).
Qed.

Lemma has_lor_disjoint v m k : Z.land m k = 0 -> has (Z.lor v m) k = has v k.
Proof. intros Hd. unfold has. by rewrite Z.land_lor_distr_l, Hd, Z.lor_0_r. Qed.

Lemma has_submask v m k : Z.land m k = k -> has v m = false -> has v k = false.
Proof.
  unfold has. intros Hk Hm. assert (Z.land v m = 0) as E by lia.
  by rewrite <- Hk, Z.land_assoc, E.
Qed.

Lemma not8_testbit m i : 0 <= i < 8 -> Z.testbit (not8 m) i = negb (Z.testbit m i).
Proof.
  intros Hi. unfold not8, u8. change 256 with (2 ^ 8).
  rewrite Z.mod_pow2_bits_low, Z.lnot_spec by lia. done.
Qed.

Lemma u16_lnot_testbit m i : 0 <= i < 16 -> Z.testbit (u16 (Z.lnot m)) i = negb (Z.testbit m i).
Proof.
  intros Hi. unfold u16. change 65536 with (2 ^ 16).
  rewrite Z.mod_pow2_bits_low, Z.lnot_spec by lia. done.
Qed.

Lemma has_clr_same v m : byte m -> has (clr v m) m = false.
Proof.
  intros Hm. unfold has, clr. apply negb_false_iff, Z.eqb_eq, Z.bits_inj'. intros i Hi.
  rewrite !Z.land_spec, Z.bits_0. destruct (Z.lt_ge_cases i 8).
  - rewrite not8_testbit by lia. destruct (Z.testbit v i), (Z.testbit m i); done.
  - rewrite (testbit_high 8 m) by (unfold byte in Hm; lia). by rewrite andb_false_r.
Qed.

Lemma has_clr_disjoint v m k : byte k -> Z.land m k = 0 -> has (clr v m) k = has v k.
Proof.
  intros Hk Hd. unfold has, clr. do 2 f_equal. apply Z.bits_inj'. intros i Hi.
  rewrite !Z.land_spec. destruct (Z.lt_ge_cases i 8).
  - rewrite not8_testbit by lia.
    assert (Z.testbit m i && Z.testbit k i = false) by (rewrite <- Z.land_spec, Hd; apply Z.bits_0).
    destruct (Z.testbit v i), (Z.testbit m i), (Z.testbit k i); done.
  - rewrite (testbit_high 8 k) by (unfold byte in Hk; lia). by rewrite !andb_false_r.
Qed.

(** Arrays. *)
Lemma aget_Some {A} (l : list A) i :
  0 <= i < Z.of_nat (length l) -> exists x, aget l i = Some x /\ l !! Z.to_nat i = Some x.
Proof.
  intros Hi. unfold aget. destruct (Z.leb_spec 0 i); [|lia].
  destruct (lookup_lt_is_Some_2 l (Z.to_nat i)) as [x Hx]; [lia|]. eauto.
Qed.

Lemma aget_geti (l : list Z) i : 0 <= i < Z.of_nat (length l) -> aget l i = Some (geti l i).
Proof.
  intros Hi. destruct (aget_Some l i Hi) as (x & -> & Hx). unfold geti.
  by rewrite (list_lookup_total_correct _ _ _ Hx).
Qed.

Lemma aset_Some {A} (l : list A) i x :
  0 <= i < Z.of_nat (length l) -> aset l i x = Some (<[Z.to_nat i := x]> l).
Proof.
  intros Hi. unfold aset. destruct (Z.leb_spec 0 i); [|lia].
  by destruct (Z.ltb_spec i (Z.of_nat (length l))); [|lia].
Qed.

Lemma length_seti l i x : length (seti l i x) = length l.
Proof. apply length_insert. Qed.

Lemma geti_seti_eq l i x : 0 <= i < Z.of_nat (length l) -> geti (seti l i x) i = x.
Proof.
  intros Hi. unfold geti, seti. apply list_lookup_total_correct, list_lookup_insert_eq. lia.
Qed.

Lemma geti_seti_ne l i j x : 0 <= i -> 0 <= j -> i <> j -> geti (seti l i x) j = geti l j.
Proof.
  intros Hi Hj Hne. unfold geti, seti. rewrite !list_lookup_total_alt, list_lookup_insert_ne; [done|].
  lia.
Qed.

Lemma seti_seti l i x y : seti (seti l i x) i y = seti l i y.
Proof. apply list_insert_insert_eq. Qed.

Lemma Forall_seti (P : Z -> Prop) l i x : Forall P l -> P x -> Forall P (seti l i x).
Proof. intros. by apply Forall_insert. Qed.

Lemma Forall_geti (P : Z -> Prop) l i : Forall P l -> 0 <= i < Z.of_nat (length l) -> P (geti l i).
Proof.
  intros Hl Hi. destruct (aget_Some l i Hi) as (x & _ & Hx). unfold geti.
  rewrite (list_lookup_total_correct _ _ _ Hx). by apply (Forall_lookup_1 _ _ _ _ Hl Hx).
Qed.

(** Exhaustive check of a boolean property on an initial segment of [Z]. *)
Lemma forall_range (p : Z -> bool) n :
  forallb p (seqZ 0 n) = true -> forall x, 0 <= x < n -> p x = true.
Proof.
  intros Hp x Hx. rewrite forallb_forall in Hp. apply Hp.
  apply list_elem_of_In, elem_of_seqZ. lia.
Qed.
