(* ===== verification/State.v ===== *)
(** The CPU state: [struct em8051] of src/lib/include/emusa80535/emu8051.h, the
    register and mask enumerations of that header, the records handed to
    observers, and the setters of every field. An assignment to an unsigned
    field truncates to the width of the field. *)
From S2P Require Import Prelude.

(** A function pointer or a user context: 0 is NULL. *)
Definition ptr := Z.

(** The handlers of opcodes.c (and, through the [dec] table, the decoders
    disasm_<name> of disasm.c). *)
Inductive handler :=
  | H_inc_rx | H_dec_rx | H_add_a_rx | H_addc_a_rx | H_orl_a_rx | H_anl_a_rx
  | H_xrl_a_rx | H_mov_rx_imm | H_mov_mem_rx | H_subb_a_rx | H_mov_rx_mem
  | H_cjne_rx_imm_offset | H_xch_a_rx | H_djnz_rx_offset | H_mov_a_rx | H_mov_rx_a
  | H_nop | H_ajmp_offset | H_ljmp_address | H_rr_a | H_inc_a | H_inc_mem
  | H_inc_indir_rx | H_jbc_bitaddr_offset | H_acall_offset | H_lcall_address | H_rrc_a
  | H_dec_a | H_dec_mem | H_dec_indir_rx | H_jb_bitaddr_offset | H_ret | H_rl_a
  | H_add_a_imm | H_add_a_mem | H_add_a_indir_rx | H_jnb_bitaddr_offset | H_reti
  | H_rlc_a | H_addc_a_imm | H_addc_a_mem | H_addc_a_indir_rx | H_jc_offset
  | H_orl_mem_a | H_orl_mem_imm | H_orl_a_imm | H_orl_a_mem | H_orl_a_indir_rx
  | H_jnc_offset | H_anl_mem_a | H_anl_mem_imm | H_anl_a_imm | H_anl_a_mem
  | H_anl_a_indir_rx | H_jz_offset | H_xrl_mem_a | H_xrl_mem_imm | H_xrl_a_imm
  | H_xrl_a_mem | H_xrl_a_indir_rx | H_jnz_offset | H_orl_c_bitaddr
  | H_jmp_indir_a_dptr | H_mov_a_imm | H_mov_mem_imm | H_mov_indir_rx_imm
  | H_sjmp_offset | H_anl_c_bitaddr | H_movc_a_indir_a_pc | H_div_ab | H_mov_mem_mem
  | H_mov_mem_indir_rx | H_mov_dptr_imm | H_mov_bitaddr_c | H_movc_a_indir_a_dptr
  | H_subb_a_imm | H_subb_a_mem | H_subb_a_indir_rx | H_orl_c_compl_bitaddr
  | H_mov_c_bitaddr | H_inc_dptr | H_mul_ab | H_mov_indir_rx_mem
  | H_anl_c_compl_bitaddr | H_cpl_bitaddr | H_cpl_c | H_cjne_a_imm_offset
  | H_cjne_a_mem_offset | H_cjne_indir_rx_imm_offset | H_push_mem | H_clr_bitaddr
  | H_clr_c | H_swap_a | H_xch_a_mem | H_xch_a_indir_rx | H_pop_mem | H_setb_bitaddr
  | H_setb_c | H_da_a | H_djnz_mem_offset | H_xchd_a_indir_rx | H_movx_a_indir_dptr
  | H_movx_a_indir_rx | H_clr_a | H_mov_a_mem | H_mov_a_indir_rx | H_movx_indir_dptr_a
  | H_movx_indir_rx_a | H_cpl_a | H_mov_mem_a | H_mov_indir_rx_a.


(** [struct em8051_sab_external_schedule_event]. *)
Record schedule_event := {
  se_machine_cycle : Z;
  se_source : Z;
  se_action : Z;
  se_level : bool
}.


Set Primitive Projections.

(** The memories. Buffers reached through pointers live in [heap]: a pointer is
    [None] (NULL) or the number of a buffer, so two pointers may alias
    (mExtData and mCodeMem when code memory is writable). Buffer 0 is the
    embedded array mOwnedUpperData. *)
Record memory := mk_memory {
  heap : list (list Z);
  mCodeMem : option nat;
  mCodeMemMaxIdx : Z;
  mExtData : option nat;
  mExtDataMaxIdx : Z;
  mLowerData : list Z;
  mUpperData : option nat;
  mSFR : list Z
}.

(** Program counter, timing, tables of opcode handlers and decoders, run
    control. mVariant is an int-valued enumeration that may be out of range. *)
Record exec := mk_exec {
  mPC : Z;
  mTickDelay : Z;
  op : list (option handler);
  dec : list (option handler);
  mVariant : Z;
  mOscillatorHz : Z;
  mResetSeed : Z;
  mResetSeedConfigured : bool;
  mInstructionCount : Z;
  mMachineCycleCount : Z;
  mTimerOverflowCount : list Z;
  mBreakpointEnabled : bool;
  mBreakpoint : Z;
  mExceptionRaised : bool;
  mLastException : Z;
  mTracePC : Z;
  mInInstruction : bool
}.

(** The function pointers the host installs, and their user contexts. *)
Record hooks := mk_hooks {
  except : ptr;
  sfrread : list ptr;
  sfrwrite : list ptr;
  xread : ptr;
  xwrite : ptr;
  movx_observer : ptr;
  movx_observer_user : ptr;
  sab_external_trace : ptr;
  sab_external_trace_user : ptr;
  sab_adc_trace : ptr;
  sab_adc_trace_user : ptr;
  trace : ptr;
  trace_user : ptr;
  sab_irq_trace : ptr;
  sab_irq_trace_user : ptr;
  timer_overflow : ptr;
  timer_overflow_user : ptr;
  sab_uart_trace : ptr;
  sab_uart_trace_user : ptr;
  execution_abort : ptr;
  execution_abort_user : ptr;
  mObservation : ptr
}.

(** Virtual SAB ports, external-interrupt sampling, scheduled stimulus. *)
Record ports := mk_ports {
  mSABPortExternalMask : list Z;
  mSABPortExternalLevels : list Z;
  mSABExternalSampledLevels : Z;
  mSABExternalLevelAsserted : Z;
  mSABExternalSchedule : list schedule_event;
  mSABExternalScheduleHead : Z;
  mSABExternalScheduleCount : Z
}.

(** The SAB80535 single-conversion ADC. *)
Record adc := mk_adc {
  mSABADCInputs : list Z;
  mSABADCLatchedInput : Z;
  mSABSfrWriteDepth : Z;
  mSABADCLatchedChannel : Z;
  mSABADCLatchedDAPR : Z;
  mSABADCCycles : Z;
  mSABADCStartPending : bool;
  mSABADCArmRestart : bool;
  mSABADCArmed : bool;
  mSABADCActive : bool;
  mSABADCBusy : bool;
  mSABADCReferenceValid : bool;
  mSABADCContinuousRequested : bool
}.

(** Classic two-level and Siemens four-level interrupt state. *)
Record irq := mk_irq {
  mInterruptActive : Z;
  int_a : list Z;
  int_psw : list Z;
  int_sp : list Z;
  mSABIrqPending : Z;
  mSABIrqEnabled : Z;
  mSABIrqInService : Z;
  mSABIrqDepth : Z;
  mSABIrqSourceStack : list Z;
  mSABIrqPriorityStack : list Z;
  mSABIrqSavedACC : list Z;
  mSABIrqSavedPSW : list Z;
  mSABIrqSavedSP : list Z;
  mSABIrqInhibitInstructions : Z
}.

(** The SAB mode-3 UART and the classic serial output. *)
Record uart := mk_uart {
  mSABUartDividerPhase : Z;
  mSABUartRxDividerPhase : Z;
  mSABUartRxData : Z;
  mSABUartTxPendingData : Z;
  mSABUartTxData : Z;
  mSABUartTxBitIndex : Z;
  mSABUartRxPendingData : Z;
  mSABUartRxBitIndex : Z;
  mSABUartTxPendingNinth : bool;
  mSABUartTxNinth : bool;
  mSABUartTxPending : bool;
  mSABUartTxActive : bool;
  mSABUartRxPendingNinth : bool;
  mSABUartRxActive : bool;
  serial_out : list Z;
  serial_out_idx : Z;
  serial_out_remaining_bits : Z;
  serial_interrupt_trigger : bool
}.

(** [struct em8051]. *)
Record em8051 := mk_em8051 {
  cpu_mem : memory;
  cpu_exec : exec;
  cpu_hooks : hooks;
  cpu_ports : ports;
  cpu_adc : adc;
  cpu_irq : irq;
  cpu_uart : uart
}.

Unset Primitive Projections.

Coercion cpu_mem : em8051 >-> memory.
Coercion cpu_exec : em8051 >-> exec.
Coercion cpu_hooks : em8051 >-> hooks.
Coercion cpu_ports : em8051 >-> ports.
Coercion cpu_adc : em8051 >-> adc.
Coercion cpu_irq : em8051 >-> irq.
Coercion cpu_uart : em8051 >-> uart.

(** ** Assignments to fields *)

Definition set_memory (x : memory) (c : em8051) : em8051 :=
  mk_em8051 x (cpu_exec c) (cpu_hooks c) (cpu_ports c) (cpu_adc c) (cpu_irq c) (cpu_uart c).
Definition set_exec (x : exec) (c : em8051) : em8051 :=
  mk_em8051 (cpu_mem c) x (cpu_hooks c) (cpu_ports c) (cpu_adc c) (cpu_irq c) (cpu_uart c).
Definition set_hooks (x : hooks) (c : em8051) : em8051 :=
  mk_em8051 (cpu_mem c) (cpu_exec c) x (cpu_ports c) (cpu_adc c) (cpu_irq c) (cpu_uart c).
Definition set_ports (x : ports) (c : em8051) : em8051 :=
  mk_em8051 (cpu_mem c) (cpu_exec c) (cpu_hooks c) x (cpu_adc c) (cpu_irq c) (cpu_uart c).
Definition set_adc (x : adc) (c : em8051) : em8051 :=
  mk_em8051 (cpu_mem c) (cpu_exec c) (cpu_hooks c) (cpu_ports c) x (cpu_irq c) (cpu_uart c).
Definition set_irq (x : irq) (c : em8051) : em8051 :=
  mk_em8051 (cpu_mem c) (cpu_exec c) (cpu_hooks c) (cpu_ports c) (cpu_adc c) x (cpu_uart c).
Definition set_uart (x : uart) (c : em8051) : em8051 :=
  mk_em8051 (cpu_mem c) (cpu_exec c) (cpu_hooks c) (cpu_ports c) (cpu_adc c) (cpu_irq c) x.

Definition set_heap (v : list (list Z)) (c : em8051) : em8051 :=
  set_memory (mk_memory v (mCodeMem c) (mCodeMemMaxIdx c) (mExtData c) (mExtDataMaxIdx c)
    (mLowerData c) (mUpperData c) (mSFR c)) c.
Definition set_mCodeMem (v : option nat) (c : em8051) : em8051 :=
  set_memory (mk_memory (heap c) v (mCodeMemMaxIdx c) (mExtData c) (mExtDataMaxIdx c)
    (mLowerData c) (mUpperData c) (mSFR c)) c.
Definition set_mCodeMemMaxIdx (v : Z) (c : em8051) : em8051 :=
  set_memory (mk_memory (heap c) (mCodeMem c) (u16 v) (mExtData c) (mExtDataMaxIdx c)
    (mLowerData c) (mUpperData c) (mSFR c)) c.
Definition set_mExtData (v : option nat) (c : em8051) : em8051 :=
  set_memory (mk_memory (heap c) (mCodeMem c) (mCodeMemMaxIdx c) v (mExtDataMaxIdx c)
    (mLowerData c) (mUpperData c) (mSFR c)) c.
Definition set_mExtDataMaxIdx (v : Z) (c : em8051) : em8051 :=
  set_memory (mk_memory (heap c) (mCodeMem c) (mCodeMemMaxIdx c) (mExtData c) (u16 v)
    (mLowerData c) (mUpperData c) (mSFR c)) c.
Definition set_mLowerData (v : list Z) (c : em8051) : em8051 :=
  set_memory (mk_memory (heap c) (mCodeMem c) (mCodeMemMaxIdx c) (mExtData c)
    (mExtDataMaxIdx c) v (mUpperData c) (mSFR c)) c.
Definition set_mUpperData (v : option nat) (c : em8051) : em8051 :=
  set_memory (mk_memory (heap c) (mCodeMem c) (mCodeMemMaxIdx c) (mExtData c)
    (mExtDataMaxIdx c) (mLowerData c) v (mSFR c)) c.
Definition set_mSFR (v : list Z) (c : em8051) : em8051 :=
  set_memory (mk_memory (heap c) (mCodeMem c) (mCodeMemMaxIdx c) (mExtData c)
    (mExtDataMaxIdx c) (mLowerData c) (mUpperData c) v) c.

Definition set_mPC (v : Z) (c : em8051) : em8051 :=
  set_exec (mk_exec (u16 v) (mTickDelay c) (op c) (dec c) (mVariant c) (mOscillatorHz c)
    (mResetSeed c) (mResetSeedConfigured c) (mInstructionCount c) (mMachineCycleCount c)
    (mTimerOverflowCount c) (mBreakpointEnabled c) (mBreakpoint c) (mExceptionRaised c)
    (mLastException c) (mTracePC c) (mInInstruction c)) c.
Definition set_mTickDelay (v : Z) (c : em8051) : em8051 :=
  set_exec (mk_exec (mPC c) (u8 v) (op c) (dec c) (mVariant c) (mOscillatorHz c)
    (mResetSeed c) (mResetSeedConfigured c) (mInstructionCount c) (mMachineCycleCount c)
    (mTimerOverflowCount c) (mBreakpointEnabled c) (mBreakpoint c) (mExceptionRaised c)
    (mLastException c) (mTracePC c) (mInInstruction c)) c.
Definition set_op (v : list (option handler)) (c : em8051) : em8051 :=
  set_exec (mk_exec (mPC c) (mTickDelay c) v (dec c) (mVariant c) (mOscillatorHz c)
    (mResetSeed c) (mResetSeedConfigured c) (mInstructionCount c) (mMachineCycleCount c)
    (mTimerOverflowCount c) (mBreakpointEnabled c) (mBreakpoint c) (mExceptionRaised c)
    (mLastException c) (mTracePC c) (mInInstruction c)) c.
Definition set_dec (v : list (option handler)) (c : em8051) : em8051 :=
  set_exec (mk_exec (mPC c) (mTickDelay c) (op c) v (mVariant c) (mOscillatorHz c)
    (mResetSeed c) (mResetSeedConfigured c) (mInstructionCount c) (mMachineCycleCount c)
    (mTimerOverflowCount c) (mBreakpointEnabled c) (mBreakpoint c) (mExceptionRaised c)
    (mLastException c) (mTracePC c) (mInInstruction c)) c.
Definition set_mVariant (v : Z) (c : em8051) : em8051 :=
  set_exec (mk_exec (mPC c) (mTickDelay c) (op c) (dec c) v (mOscillatorHz c) (mResetSeed
    c) (mResetSeedConfigured c) (mInstructionCount c) (mMachineCycleCount c)
    (mTimerOverflowCount c) (mBreakpointEnabled c) (mBreakpoint c) (mExceptionRaised c)
    (mLastException c) (mTracePC c) (mInInstruction c)) c.
Definition set_mOscillatorHz (v : Z) (c : em8051) : em8051 :=
  set_exec (mk_exec (mPC c) (mTickDelay c) (op c) (dec c) (mVariant c) (u32 v) (mResetSeed
    c) (mResetSeedConfigured c) (mInstructionCount c) (mMachineCycleCount c)
    (mTimerOverflowCount c) (mBreakpointEnabled c) (mBreakpoint c) (mExceptionRaised c)
    (mLastException c) (mTracePC c) (mInInstruction c)) c.
Definition set_mResetSeed (v : Z) (c : em8051) : em8051 :=
  set_exec (mk_exec (mPC c) (mTickDelay c) (op c) (dec c) (mVariant c) (mOscillatorHz c)
    (u32 v) (mResetSeedConfigured c) (mInstructionCount c) (mMachineCycleCount c)
    (mTimerOverflowCount c) (mBreakpointEnabled c) (mBreakpoint c) (mExceptionRaised c)
    (mLastException c) (mTracePC c) (mInInstruction c)) c.
Definition set_mResetSeedConfigured (v : bool) (c : em8051) : em8051 :=
  set_exec (mk_exec (mPC c) (mTickDelay c) (op c) (dec c) (mVariant c) (mOscillatorHz c)
    (mResetSeed c) v (mInstructionCount c) (mMachineCycleCount c) (mTimerOverflowCount c)
    (mBreakpointEnabled c) (mBreakpoint c) (mExceptionRaised c) (mLastException c)
    (mTracePC c) (mInInstruction c)) c.
Definition set_mInstructionCount (v : Z) (c : em8051) : em8051 :=
  set_exec (mk_exec (mPC c) (mTickDelay c) (op c) (dec c) (mVariant c) (mOscillatorHz c)
    (mResetSeed c) (mResetSeedConfigured c) (u64 v) (mMachineCycleCount c)
    (mTimerOverflowCount c) (mBreakpointEnabled c) (mBreakpoint c) (mExceptionRaised c)
    (mLastException c) (mTracePC c) (mInInstruction c)) c.
Definition set_mMachineCycleCount (v : Z) (c : em8051) : em8051 :=
  set_exec (mk_exec (mPC c) (mTickDelay c) (op c) (dec c) (mVariant c) (mOscillatorHz c)
    (mResetSeed c) (mResetSeedConfigured c) (mInstructionCount c) (u64 v)
    (mTimerOverflowCount c) (mBreakpointEnabled c) (mBreakpoint c) (mExceptionRaised c)
    (mLastException c) (mTracePC c) (mInInstruction c)) c.
Definition set_mTimerOverflowCount (v : list Z) (c : em8051) : em8051 :=
  set_exec (mk_exec (mPC c) (mTickDelay c) (op c) (dec c) (mVariant c) (mOscillatorHz c)
    (mResetSeed c) (mResetSeedConfigured c) (mInstructionCount c) (mMachineCycleCount c) v
    (mBreakpointEnabled c) (mBreakpoint c) (mExceptionRaised c) (mLastException c)
    (mTracePC c) (mInInstruction c)) c.
Definition set_mBreakpointEnabled (v : bool) (c : em8051) : em8051 :=
  set_exec (mk_exec (mPC c) (mTickDelay c) (op c) (dec c) (mVariant c) (mOscillatorHz c)
    (mResetSeed c) (mResetSeedConfigured c) (mInstructionCount c) (mMachineCycleCount c)
    (mTimerOverflowCount c) v (mBreakpoint c) (mExceptionRaised c) (mLastException c)
    (mTracePC c) (mInInstruction c)) c.
Definition set_mBreakpoint (v : Z) (c : em8051) : em8051 :=
  set_exec (mk_exec (mPC c) (mTickDelay c) (op c) (dec c) (mVariant c) (mOscillatorHz c)
    (mResetSeed c) (mResetSeedConfigured c) (mInstructionCount c) (mMachineCycleCount c)
    (mTimerOverflowCount c) (mBreakpointEnabled c) (u16 v) (mExceptionRaised c)
    (mLastException c) (mTracePC c) (mInInstruction c)) c.
Definition set_mExceptionRaised (v : bool) (c : em8051) : em8051 :=
  set_exec (mk_exec (mPC c) (mTickDelay c) (op c) (dec c) (mVariant c) (mOscillatorHz c)
    (mResetSeed c) (mResetSeedConfigured c) (mInstructionCount c) (mMachineCycleCount c)
    (mTimerOverflowCount c) (mBreakpointEnabled c) (mBreakpoint c) v (mLastException c)
    (mTracePC c) (mInInstruction c)) c.
Definition set_mLastException (v : Z) (c : em8051) : em8051 :=
  set_exec (mk_exec (mPC c) (mTickDelay c) (op c) (dec c) (mVariant c) (mOscillatorHz c)
    (mResetSeed c) (mResetSeedConfigured c) (mInstructionCount c) (mMachineCycleCount c)
    (mTimerOverflowCount c) (mBreakpointEnabled c) (mBreakpoint c) (mExceptionRaised c) v
    (mTracePC c) (mInInstruction c)) c.
Definition set_mTracePC (v : Z) (c : em8051) : em8051 :=
  set_exec (mk_exec (mPC c) (mTickDelay c) (op c) (dec c) (mVariant c) (mOscillatorHz c)
    (mResetSeed c) (mResetSeedConfigured c) (mInstructionCount c) (mMachineCycleCount c)
    (mTimerOverflowCount c) (mBreakpointEnabled c) (mBreakpoint c) (mExceptionRaised c)
    (mLastException c) (u16 v) (mInInstruction c)) c.
Definition set_mInInstruction (v : bool) (c : em8051) : em8051 :=
  set_exec (mk_exec (mPC c) (mTickDelay c) (op c) (dec c) (mVariant c) (mOscillatorHz c)
    (mResetSeed c) (mResetSeedConfigured c) (mInstructionCount c) (mMachineCycleCount c)
    (mTimerOverflowCount c) (mBreakpointEnabled c) (mBreakpoint c) (mExceptionRaised c)
    (mLastException c) (mTracePC c) v) c.

Definition set_except (v : ptr) (c : em8051) : em8051 :=
  set_hooks (mk_hooks v (sfrread c) (sfrwrite c) (xread c) (xwrite c) (movx_observer c)
    (movx_observer_user c) (sab_external_trace c) (sab_external_trace_user c)
    (sab_adc_trace c) (sab_adc_trace_user c) (trace c) (trace_user c) (sab_irq_trace c)
    (sab_irq_trace_user c) (timer_overflow c) (timer_overflow_user c) (sab_uart_trace c)
    (sab_uart_trace_user c) (execution_abort c) (execution_abort_user c) (mObservation c))
    c.
Definition set_sfrread (v : list ptr) (c : em8051) : em8051 :=
  set_hooks (mk_hooks (except c) v (sfrwrite c) (xread c) (xwrite c) (movx_observer c)
    (movx_observer_user c) (sab_external_trace c) (sab_external_trace_user c)
    (sab_adc_trace c) (sab_adc_trace_user c) (trace c) (trace_user c) (sab_irq_trace c)
    (sab_irq_trace_user c) (timer_overflow c) (timer_overflow_user c) (sab_uart_trace c)
    (sab_uart_trace_user c) (execution_abort c) (execution_abort_user c) (mObservation c))
    c.
Definition set_sfrwrite (v : list ptr) (c : em8051) : em8051 :=
  set_hooks (mk_hooks (except c) (sfrread c) v (xread c) (xwrite c) (movx_observer c)
    (movx_observer_user c) (sab_external_trace c) (sab_external_trace_user c)
    (sab_adc_trace c) (sab_adc_trace_user c) (trace c) (trace_user c) (sab_irq_trace c)
    (sab_irq_trace_user c) (timer_overflow c) (timer_overflow_user c) (sab_uart_trace c)
    (sab_uart_trace_user c) (execution_abort c) (execution_abort_user c) (mObservation c))
    c.
Definition set_xread (v : ptr) (c : em8051) : em8051 :=
  set_hooks (mk_hooks (except c) (sfrread c) (sfrwrite c) v (xwrite c) (movx_observer c)
    (movx_observer_user c) (sab_external_trace c) (sab_external_trace_user c)
    (sab_adc_trace c) (sab_adc_trace_user c) (trace c) (trace_user c) (sab_irq_trace c)
    (sab_irq_trace_user c) (timer_overflow c) (timer_overflow_user c) (sab_uart_trace c)
    (sab_uart_trace_user c) (execution_abort c) (execution_abort_user c) (mObservation c))
    c.
Definition set_xwrite (v : ptr) (c : em8051) : em8051 :=
  set_hooks (mk_hooks (except c) (sfrread c) (sfrwrite c) (xread c) v (movx_observer c)
    (movx_observer_user c) (sab_external_trace c) (sab_external_trace_user c)
    (sab_adc_trace c) (sab_adc_trace_user c) (trace c) (trace_user c) (sab_irq_trace c)
    (sab_irq_trace_user c) (timer_overflow c) (timer_overflow_user c) (sab_uart_trace c)
    (sab_uart_trace_user c) (execution_abort c) (execution_abort_user c) (mObservation c))
    c.
Definition set_movx_observer (v : ptr) (c : em8051) : em8051 :=
  set_hooks (mk_hooks (except c) (sfrread c) (sfrwrite c) (xread c) (xwrite c) v
    (movx_observer_user c) (sab_external_trace c) (sab_external_trace_user c)
    (sab_adc_trace c) (sab_adc_trace_user c) (trace c) (trace_user c) (sab_irq_trace c)
    (sab_irq_trace_user c) (timer_overflow c) (timer_overflow_user c) (sab_uart_trace c)
    (sab_uart_trace_user c) (execution_abort c) (execution_abort_user c) (mObservation c))
    c.
Definition set_movx_observer_user (v : ptr) (c : em8051) : em8051 :=
  set_hooks (mk_hooks (except c) (sfrread c) (sfrwrite c) (xread c) (xwrite c)
    (movx_observer c) v (sab_external_trace c) (sab_external_trace_user c) (sab_adc_trace
    c) (sab_adc_trace_user c) (trace c) (trace_user c) (sab_irq_trace c)
    (sab_irq_trace_user c) (timer_overflow c) (timer_overflow_user c) (sab_uart_trace c)
    (sab_uart_trace_user c) (execution_abort c) (execution_abort_user c) (mObservation c))
    c.
Definition set_sab_external_trace (v : ptr) (c : em8051) : em8051 :=
  set_hooks (mk_hooks (except c) (sfrread c) (sfrwrite c) (xread c) (xwrite c)
    (movx_observer c) (movx_observer_user c) v (sab_external_trace_user c) (sab_adc_trace
    c) (sab_adc_trace_user c) (trace c) (trace_user c) (sab_irq_trace c)
    (sab_irq_trace_user c) (timer_overflow c) (timer_overflow_user c) (sab_uart_trace c)
    (sab_uart_trace_user c) (execution_abort c) (execution_abort_user c) (mObservation c))
    c.
Definition set_sab_external_trace_user (v : ptr) (c : em8051) : em8051 :=
  set_hooks (mk_hooks (except c) (sfrread c) (sfrwrite c) (xread c) (xwrite c)
    (movx_observer c) (movx_observer_user c) (sab_external_trace c) v (sab_adc_trace c)
    (sab_adc_trace_user c) (trace c) (trace_user c) (sab_irq_trace c) (sab_irq_trace_user
    c) (timer_overflow c) (timer_overflow_user c) (sab_uart_trace c) (sab_uart_trace_user
    c) (execution_abort c) (execution_abort_user c) (mObservation c)) c.
Definition set_sab_adc_trace (v : ptr) (c : em8051) : em8051 :=
  set_hooks (mk_hooks (except c) (sfrread c) (sfrwrite c) (xread c) (xwrite c)
    (movx_observer c) (movx_observer_user c) (sab_external_trace c)
    (sab_external_trace_user c) v (sab_adc_trace_user c) (trace c) (trace_user c)
    (sab_irq_trace c) (sab_irq_trace_user c) (timer_overflow c) (timer_overflow_user c)
    (sab_uart_trace c) (sab_uart_trace_user c) (execution_abort c) (execution_abort_user c)
    (mObservation c)) c.
Definition set_sab_adc_trace_user (v : ptr) (c : em8051) : em8051 :=
  set_hooks (mk_hooks (except c) (sfrread c) (sfrwrite c) (xread c) (xwrite c)
    (movx_observer c) (movx_observer_user c) (sab_external_trace c)
    (sab_external_trace_user c) (sab_adc_trace c) v (trace c) (trace_user c) (sab_irq_trace
    c) (sab_irq_trace_user c) (timer_overflow c) (timer_overflow_user c) (sab_uart_trace c)
    (sab_uart_trace_user c) (execution_abort c) (execution_abort_user c) (mObservation c))
    c.
Definition set_trace (v : ptr) (c : em8051) : em8051 :=
  set_hooks (mk_hooks (except c) (sfrread c) (sfrwrite c) (xread c) (xwrite c)
    (movx_observer c) (movx_observer_user c) (sab_external_trace c)
    (sab_external_trace_user c) (sab_adc_trace c) (sab_adc_trace_user c) v (trace_user c)
    (sab_irq_trace c) (sab_irq_trace_user c) (timer_overflow c) (timer_overflow_user c)
    (sab_uart_trace c) (sab_uart_trace_user c) (execution_abort c) (execution_abort_user c)
    (mObservation c)) c.
Definition set_trace_user (v : ptr) (c : em8051) : em8051 :=
  set_hooks (mk_hooks (except c) (sfrread c) (sfrwrite c) (xread c) (xwrite c)
    (movx_observer c) (movx_observer_user c) (sab_external_trace c)
    (sab_external_trace_user c) (sab_adc_trace c) (sab_adc_trace_user c) (trace c) v
    (sab_irq_trace c) (sab_irq_trace_user c) (timer_overflow c) (timer_overflow_user c)
    (sab_uart_trace c) (sab_uart_trace_user c) (execution_abort c) (execution_abort_user c)
    (mObservation c)) c.
Definition set_sab_irq_trace (v : ptr) (c : em8051) : em8051 :=
  set_hooks (mk_hooks (except c) (sfrread c) (sfrwrite c) (xread c) (xwrite c)
    (movx_observer c) (movx_observer_user c) (sab_external_trace c)
    (sab_external_trace_user c) (sab_adc_trace c) (sab_adc_trace_user c) (trace c)
    (trace_user c) v (sab_irq_trace_user c) (timer_overflow c) (timer_overflow_user c)
    (sab_uart_trace c) (sab_uart_trace_user c) (execution_abort c) (execution_abort_user c)
    (mObservation c)) c.
Definition set_sab_irq_trace_user (v : ptr) (c : em8051) : em8051 :=
  set_hooks (mk_hooks (except c) (sfrread c) (sfrwrite c) (xread c) (xwrite c)
    (movx_observer c) (movx_observer_user c) (sab_external_trace c)
    (sab_external_trace_user c) (sab_adc_trace c) (sab_adc_trace_user c) (trace c)
    (trace_user c) (sab_irq_trace c) v (timer_overflow c) (timer_overflow_user c)
    (sab_uart_trace c) (sab_uart_trace_user c) (execution_abort c) (execution_abort_user c)
    (mObservation c)) c.
Definition set_timer_overflow (v : ptr) (c : em8051) : em8051 :=
  set_hooks (mk_hooks (except c) (sfrread c) (sfrwrite c) (xread c) (xwrite c)
    (movx_observer c) (movx_observer_user c) (sab_external_trace c)
    (sab_external_trace_user c) (sab_adc_trace c) (sab_adc_trace_user c) (trace c)
    (trace_user c) (sab_irq_trace c) (sab_irq_trace_user c) v (timer_overflow_user c)
    (sab_uart_trace c) (sab_uart_trace_user c) (execution_abort c) (execution_abort_user c)
    (mObservation c)) c.
Definition set_timer_overflow_user (v : ptr) (c : em8051) : em8051 :=
  set_hooks (mk_hooks (except c) (sfrread c) (sfrwrite c) (xread c) (xwrite c)
    (movx_observer c) (movx_observer_user c) (sab_external_trace c)
    (sab_external_trace_user c) (sab_adc_trace c) (sab_adc_trace_user c) (trace c)
    (trace_user c) (sab_irq_trace c) (sab_irq_trace_user c) (timer_overflow c) v
    (sab_uart_trace c) (sab_uart_trace_user c) (execution_abort c) (execution_abort_user c)
    (mObservation c)) c.
Definition set_sab_uart_trace (v : ptr) (c : em8051) : em8051 :=
  set_hooks (mk_hooks (except c) (sfrread c) (sfrwrite c) (xread c) (xwrite c)
    (movx_observer c) (movx_observer_user c) (sab_external_trace c)
    (sab_external_trace_user c) (sab_adc_trace c) (sab_adc_trace_user c) (trace c)
    (trace_user c) (sab_irq_trace c) (sab_irq_trace_user c) (timer_overflow c)
    (timer_overflow_user c) v (sab_uart_trace_user c) (execution_abort c)
    (execution_abort_user c) (mObservation c)) c.
Definition set_sab_uart_trace_user (v : ptr) (c : em8051) : em8051 :=
  set_hooks (mk_hooks (except c) (sfrread c) (sfrwrite c) (xread c) (xwrite c)
    (movx_observer c) (movx_observer_user c) (sab_external_trace c)
    (sab_external_trace_user c) (sab_adc_trace c) (sab_adc_trace_user c) (trace c)
    (trace_user c) (sab_irq_trace c) (sab_irq_trace_user c) (timer_overflow c)
    (timer_overflow_user c) (sab_uart_trace c) v (execution_abort c) (execution_abort_user
    c) (mObservation c)) c.
Definition set_execution_abort (v : ptr) (c : em8051) : em8051 :=
  set_hooks (mk_hooks (except c) (sfrread c) (sfrwrite c) (xread c) (xwrite c)
    (movx_observer c) (movx_observer_user c) (sab_external_trace c)
    (sab_external_trace_user c) (sab_adc_trace c) (sab_adc_trace_user c) (trace c)
    (trace_user c) (sab_irq_trace c) (sab_irq_trace_user c) (timer_overflow c)
    (timer_overflow_user c) (sab_uart_trace c) (sab_uart_trace_user c) v
    (execution_abort_user c) (mObservation c)) c.
Definition set_execution_abort_user (v : ptr) (c : em8051) : em8051 :=
  set_hooks (mk_hooks (except c) (sfrread c) (sfrwrite c) (xread c) (xwrite c)
    (movx_observer c) (movx_observer_user c) (sab_external_trace c)
    (sab_external_trace_user c) (sab_adc_trace c) (sab_adc_trace_user c) (trace c)
    (trace_user c) (sab_irq_trace c) (sab_irq_trace_user c) (timer_overflow c)
    (timer_overflow_user c) (sab_uart_trace c) (sab_uart_trace_user c) (execution_abort c)
    v (mObservation c)) c.
Definition set_mObservation (v : ptr) (c : em8051) : em8051 :=
  set_hooks (mk_hooks (except c) (sfrread c) (sfrwrite c) (xread c) (xwrite c)
    (movx_observer c) (movx_observer_user c) (sab_external_trace c)
    (sab_external_trace_user c) (sab_adc_trace c) (sab_adc_trace_user c) (trace c)
    (trace_user c) (sab_irq_trace c) (sab_irq_trace_user c) (timer_overflow c)
    (timer_overflow_user c) (sab_uart_trace c) (sab_uart_trace_user c) (execution_abort c)
    (execution_abort_user c) v) c.

Definition set_mSABPortExternalMask (v : list Z) (c : em8051) : em8051 :=
  set_ports (mk_ports v (mSABPortExternalLevels c) (mSABExternalSampledLevels c)
    (mSABExternalLevelAsserted c) (mSABExternalSchedule c) (mSABExternalScheduleHead c)
    (mSABExternalScheduleCount c)) c.
Definition set_mSABPortExternalLevels (v : list Z) (c : em8051) : em8051 :=
  set_ports (mk_ports (mSABPortExternalMask c) v (mSABExternalSampledLevels c)
    (mSABExternalLevelAsserted c) (mSABExternalSchedule c) (mSABExternalScheduleHead c)
    (mSABExternalScheduleCount c)) c.
Definition set_mSABExternalSampledLevels (v : Z) (c : em8051) : em8051 :=
  set_ports (mk_ports (mSABPortExternalMask c) (mSABPortExternalLevels c) (u8 v)
    (mSABExternalLevelAsserted c) (mSABExternalSchedule c) (mSABExternalScheduleHead c)
    (mSABExternalScheduleCount c)) c.
Definition set_mSABExternalLevelAsserted (v : Z) (c : em8051) : em8051 :=
  set_ports (mk_ports (mSABPortExternalMask c) (mSABPortExternalLevels c)
    (mSABExternalSampledLevels c) (u8 v) (mSABExternalSchedule c) (mSABExternalScheduleHead
    c) (mSABExternalScheduleCount c)) c.
Definition set_mSABExternalSchedule (v : list schedule_event) (c : em8051) : em8051 :=
  set_ports (mk_ports (mSABPortExternalMask c) (mSABPortExternalLevels c)
    (mSABExternalSampledLevels c) (mSABExternalLevelAsserted c) v (mSABExternalScheduleHead
    c) (mSABExternalScheduleCount c)) c.
Definition set_mSABExternalScheduleHead (v : Z) (c : em8051) : em8051 :=
  set_ports (mk_ports (mSABPortExternalMask c) (mSABPortExternalLevels c)
    (mSABExternalSampledLevels c) (mSABExternalLevelAsserted c) (mSABExternalSchedule c)
    (u8 v) (mSABExternalScheduleCount c)) c.
Definition set_mSABExternalScheduleCount (v : Z) (c : em8051) : em8051 :=
  set_ports (mk_ports (mSABPortExternalMask c) (mSABPortExternalLevels c)
    (mSABExternalSampledLevels c) (mSABExternalLevelAsserted c) (mSABExternalSchedule c)
    (mSABExternalScheduleHead c) (u8 v)) c.

Definition set_mSABADCInputs (v : list Z) (c : em8051) : em8051 :=
  set_adc (mk_adc v (mSABADCLatchedInput c) (mSABSfrWriteDepth c) (mSABADCLatchedChannel c)
    (mSABADCLatchedDAPR c) (mSABADCCycles c) (mSABADCStartPending c) (mSABADCArmRestart c)
    (mSABADCArmed c) (mSABADCActive c) (mSABADCBusy c) (mSABADCReferenceValid c)
    (mSABADCContinuousRequested c)) c.
Definition set_mSABADCLatchedInput (v : Z) (c : em8051) : em8051 :=
  set_adc (mk_adc (mSABADCInputs c) (u16 v) (mSABSfrWriteDepth c) (mSABADCLatchedChannel c)
    (mSABADCLatchedDAPR c) (mSABADCCycles c) (mSABADCStartPending c) (mSABADCArmRestart c)
    (mSABADCArmed c) (mSABADCActive c) (mSABADCBusy c) (mSABADCReferenceValid c)
    (mSABADCContinuousRequested c)) c.
Definition set_mSABSfrWriteDepth (v : Z) (c : em8051) : em8051 :=
  set_adc (mk_adc (mSABADCInputs c) (mSABADCLatchedInput c) (u16 v) (mSABADCLatchedChannel
    c) (mSABADCLatchedDAPR c) (mSABADCCycles c) (mSABADCStartPending c) (mSABADCArmRestart
    c) (mSABADCArmed c) (mSABADCActive c) (mSABADCBusy c) (mSABADCReferenceValid c)
    (mSABADCContinuousRequested c)) c.
Definition set_mSABADCLatchedChannel (v : Z) (c : em8051) : em8051 :=
  set_adc (mk_adc (mSABADCInputs c) (mSABADCLatchedInput c) (mSABSfrWriteDepth c) (u8 v)
    (mSABADCLatchedDAPR c) (mSABADCCycles c) (mSABADCStartPending c) (mSABADCArmRestart c)
    (mSABADCArmed c) (mSABADCActive c) (mSABADCBusy c) (mSABADCReferenceValid c)
    (mSABADCContinuousRequested c)) c.
Definition set_mSABADCLatchedDAPR (v : Z) (c : em8051) : em8051 :=
  set_adc (mk_adc (mSABADCInputs c) (mSABADCLatchedInput c) (mSABSfrWriteDepth c)
    (mSABADCLatchedChannel c) (u8 v) (mSABADCCycles c) (mSABADCStartPending c)
    (mSABADCArmRestart c) (mSABADCArmed c) (mSABADCActive c) (mSABADCBusy c)
    (mSABADCReferenceValid c) (mSABADCContinuousRequested c)) c.
Definition set_mSABADCCycles (v : Z) (c : em8051) : em8051 :=
  set_adc (mk_adc (mSABADCInputs c) (mSABADCLatchedInput c) (mSABSfrWriteDepth c)
    (mSABADCLatchedChannel c) (mSABADCLatchedDAPR c) (u8 v) (mSABADCStartPending c)
    (mSABADCArmRestart c) (mSABADCArmed c) (mSABADCActive c) (mSABADCBusy c)
    (mSABADCReferenceValid c) (mSABADCContinuousRequested c)) c.
Definition set_mSABADCStartPending (v : bool) (c : em8051) : em8051 :=
  set_adc (mk_adc (mSABADCInputs c) (mSABADCLatchedInput c) (mSABSfrWriteDepth c)
    (mSABADCLatchedChannel c) (mSABADCLatchedDAPR c) (mSABADCCycles c) v (mSABADCArmRestart
    c) (mSABADCArmed c) (mSABADCActive c) (mSABADCBusy c) (mSABADCReferenceValid c)
    (mSABADCContinuousRequested c)) c.
Definition set_mSABADCArmRestart (v : bool) (c : em8051) : em8051 :=
  set_adc (mk_adc (mSABADCInputs c) (mSABADCLatchedInput c) (mSABSfrWriteDepth c)
    (mSABADCLatchedChannel c) (mSABADCLatchedDAPR c) (mSABADCCycles c) (mSABADCStartPending
    c) v (mSABADCArmed c) (mSABADCActive c) (mSABADCBusy c) (mSABADCReferenceValid c)
    (mSABADCContinuousRequested c)) c.
Definition set_mSABADCArmed (v : bool) (c : em8051) : em8051 :=
  set_adc (mk_adc (mSABADCInputs c) (mSABADCLatchedInput c) (mSABSfrWriteDepth c)
    (mSABADCLatchedChannel c) (mSABADCLatchedDAPR c) (mSABADCCycles c) (mSABADCStartPending
    c) (mSABADCArmRestart c) v (mSABADCActive c) (mSABADCBusy c) (mSABADCReferenceValid c)
    (mSABADCContinuousRequested c)) c.
Definition set_mSABADCActive (v : bool) (c : em8051) : em8051 :=
  set_adc (mk_adc (mSABADCInputs c) (mSABADCLatchedInput c) (mSABSfrWriteDepth c)
    (mSABADCLatchedChannel c) (mSABADCLatchedDAPR c) (mSABADCCycles c) (mSABADCStartPending
    c) (mSABADCArmRestart c) (mSABADCArmed c) v (mSABADCBusy c) (mSABADCReferenceValid c)
    (mSABADCContinuousRequested c)) c.
Definition set_mSABADCBusy (v : bool) (c : em8051) : em8051 :=
  set_adc (mk_adc (mSABADCInputs c) (mSABADCLatchedInput c) (mSABSfrWriteDepth c)
    (mSABADCLatchedChannel c) (mSABADCLatchedDAPR c) (mSABADCCycles c) (mSABADCStartPending
    c) (mSABADCArmRestart c) (mSABADCArmed c) (mSABADCActive c) v (mSABADCReferenceValid c)
    (mSABADCContinuousRequested c)) c.
Definition set_mSABADCReferenceValid (v : bool) (c : em8051) : em8051 :=
  set_adc (mk_adc (mSABADCInputs c) (mSABADCLatchedInput c) (mSABSfrWriteDepth c)
    (mSABADCLatchedChannel c) (mSABADCLatchedDAPR c) (mSABADCCycles c) (mSABADCStartPending
    c) (mSABADCArmRestart c) (mSABADCArmed c) (mSABADCActive c) (mSABADCBusy c) v
    (mSABADCContinuousRequested c)) c.
Definition set_mSABADCContinuousRequested (v : bool) (c : em8051) : em8051 :=
  set_adc (mk_adc (mSABADCInputs c) (mSABADCLatchedInput c) (mSABSfrWriteDepth c)
    (mSABADCLatchedChannel c) (mSABADCLatchedDAPR c) (mSABADCCycles c) (mSABADCStartPending
    c) (mSABADCArmRestart c) (mSABADCArmed c) (mSABADCActive c) (mSABADCBusy c)
    (mSABADCReferenceValid c) v) c.

Definition set_mInterruptActive (v : Z) (c : em8051) : em8051 :=
  set_irq (mk_irq (u8 v) (int_a c) (int_psw c) (int_sp c) (mSABIrqPending c)
    (mSABIrqEnabled c) (mSABIrqInService c) (mSABIrqDepth c) (mSABIrqSourceStack c)
    (mSABIrqPriorityStack c) (mSABIrqSavedACC c) (mSABIrqSavedPSW c) (mSABIrqSavedSP c)
    (mSABIrqInhibitInstructions c)) c.
Definition set_int_a (v : list Z) (c : em8051) : em8051 :=
  set_irq (mk_irq (mInterruptActive c) v (int_psw c) (int_sp c) (mSABIrqPending c)
    (mSABIrqEnabled c) (mSABIrqInService c) (mSABIrqDepth c) (mSABIrqSourceStack c)
    (mSABIrqPriorityStack c) (mSABIrqSavedACC c) (mSABIrqSavedPSW c) (mSABIrqSavedSP c)
    (mSABIrqInhibitInstructions c)) c.
Definition set_int_psw (v : list Z) (c : em8051) : em8051 :=
  set_irq (mk_irq (mInterruptActive c) (int_a c) v (int_sp c) (mSABIrqPending c)
    (mSABIrqEnabled c) (mSABIrqInService c) (mSABIrqDepth c) (mSABIrqSourceStack c)
    (mSABIrqPriorityStack c) (mSABIrqSavedACC c) (mSABIrqSavedPSW c) (mSABIrqSavedSP c)
    (mSABIrqInhibitInstructions c)) c.
Definition set_int_sp (v : list Z) (c : em8051) : em8051 :=
  set_irq (mk_irq (mInterruptActive c) (int_a c) (int_psw c) v (mSABIrqPending c)
    (mSABIrqEnabled c) (mSABIrqInService c) (mSABIrqDepth c) (mSABIrqSourceStack c)
    (mSABIrqPriorityStack c) (mSABIrqSavedACC c) (mSABIrqSavedPSW c) (mSABIrqSavedSP c)
    (mSABIrqInhibitInstructions c)) c.
Definition set_mSABIrqPending (v : Z) (c : em8051) : em8051 :=
  set_irq (mk_irq (mInterruptActive c) (int_a c) (int_psw c) (int_sp c) (u16 v)
    (mSABIrqEnabled c) (mSABIrqInService c) (mSABIrqDepth c) (mSABIrqSourceStack c)
    (mSABIrqPriorityStack c) (mSABIrqSavedACC c) (mSABIrqSavedPSW c) (mSABIrqSavedSP c)
    (mSABIrqInhibitInstructions c)) c.
Definition set_mSABIrqEnabled (v : Z) (c : em8051) : em8051 :=
  set_irq (mk_irq (mInterruptActive c) (int_a c) (int_psw c) (int_sp c) (mSABIrqPending c)
    (u16 v) (mSABIrqInService c) (mSABIrqDepth c) (mSABIrqSourceStack c)
    (mSABIrqPriorityStack c) (mSABIrqSavedACC c) (mSABIrqSavedPSW c) (mSABIrqSavedSP c)
    (mSABIrqInhibitInstructions c)) c.
Definition set_mSABIrqInService (v : Z) (c : em8051) : em8051 :=
  set_irq (mk_irq (mInterruptActive c) (int_a c) (int_psw c) (int_sp c) (mSABIrqPending c)
    (mSABIrqEnabled c) (u16 v) (mSABIrqDepth c) (mSABIrqSourceStack c)
    (mSABIrqPriorityStack c) (mSABIrqSavedACC c) (mSABIrqSavedPSW c) (mSABIrqSavedSP c)
    (mSABIrqInhibitInstructions c)) c.
Definition set_mSABIrqDepth (v : Z) (c : em8051) : em8051 :=
  set_irq (mk_irq (mInterruptActive c) (int_a c) (int_psw c) (int_sp c) (mSABIrqPending c)
    (mSABIrqEnabled c) (mSABIrqInService c) (u8 v) (mSABIrqSourceStack c)
    (mSABIrqPriorityStack c) (mSABIrqSavedACC c) (mSABIrqSavedPSW c) (mSABIrqSavedSP c)
    (mSABIrqInhibitInstructions c)) c.
Definition set_mSABIrqSourceStack (v : list Z) (c : em8051) : em8051 :=
  set_irq (mk_irq (mInterruptActive c) (int_a c) (int_psw c) (int_sp c) (mSABIrqPending c)
    (mSABIrqEnabled c) (mSABIrqInService c) (mSABIrqDepth c) v (mSABIrqPriorityStack c)
    (mSABIrqSavedACC c) (mSABIrqSavedPSW c) (mSABIrqSavedSP c) (mSABIrqInhibitInstructions
    c)) c.
Definition set_mSABIrqPriorityStack (v : list Z) (c : em8051) : em8051 :=
  set_irq (mk_irq (mInterruptActive c) (int_a c) (int_psw c) (int_sp c) (mSABIrqPending c)
    (mSABIrqEnabled c) (mSABIrqInService c) (mSABIrqDepth c) (mSABIrqSourceStack c) v
    (mSABIrqSavedACC c) (mSABIrqSavedPSW c) (mSABIrqSavedSP c) (mSABIrqInhibitInstructions
    c)) c.
Definition set_mSABIrqSavedACC (v : list Z) (c : em8051) : em8051 :=
  set_irq (mk_irq (mInterruptActive c) (int_a c) (int_psw c) (int_sp c) (mSABIrqPending c)
    (mSABIrqEnabled c) (mSABIrqInService c) (mSABIrqDepth c) (mSABIrqSourceStack c)
    (mSABIrqPriorityStack c) v (mSABIrqSavedPSW c) (mSABIrqSavedSP c)
    (mSABIrqInhibitInstructions c)) c.
Definition set_mSABIrqSavedPSW (v : list Z) (c : em8051) : em8051 :=
  set_irq (mk_irq (mInterruptActive c) (int_a c) (int_psw c) (int_sp c) (mSABIrqPending c)
    (mSABIrqEnabled c) (mSABIrqInService c) (mSABIrqDepth c) (mSABIrqSourceStack c)
    (mSABIrqPriorityStack c) (mSABIrqSavedACC c) v (mSABIrqSavedSP c)
    (mSABIrqInhibitInstructions c)) c.
Definition set_mSABIrqSavedSP (v : list Z) (c : em8051) : em8051 :=
  set_irq (mk_irq (mInterruptActive c) (int_a c) (int_psw c) (int_sp c) (mSABIrqPending c)
    (mSABIrqEnabled c) (mSABIrqInService c) (mSABIrqDepth c) (mSABIrqSourceStack c)
    (mSABIrqPriorityStack c) (mSABIrqSavedACC c) (mSABIrqSavedPSW c) v
    (mSABIrqInhibitInstructions c)) c.
Definition set_mSABIrqInhibitInstructions (v : Z) (c : em8051) : em8051 :=
  set_irq (mk_irq (mInterruptActive c) (int_a c) (int_psw c) (int_sp c) (mSABIrqPending c)
    (mSABIrqEnabled c) (mSABIrqInService c) (mSABIrqDepth c) (mSABIrqSourceStack c)
    (mSABIrqPriorityStack c) (mSABIrqSavedACC c) (mSABIrqSavedPSW c) (mSABIrqSavedSP c) (u8
    v)) c.

Definition set_mSABUartDividerPhase (v : Z) (c : em8051) : em8051 :=
  set_uart (mk_uart (u8 v) (mSABUartRxDividerPhase c) (mSABUartRxData c)
    (mSABUartTxPendingData c) (mSABUartTxData c) (mSABUartTxBitIndex c)
    (mSABUartRxPendingData c) (mSABUartRxBitIndex c) (mSABUartTxPendingNinth c)
    (mSABUartTxNinth c) (mSABUartTxPending c) (mSABUartTxActive c) (mSABUartRxPendingNinth
    c) (mSABUartRxActive c) (serial_out c) (serial_out_idx c) (serial_out_remaining_bits c)
    (serial_interrupt_trigger c)) c.
Definition set_mSABUartRxDividerPhase (v : Z) (c : em8051) : em8051 :=
  set_uart (mk_uart (mSABUartDividerPhase c) (u8 v) (mSABUartRxData c)
    (mSABUartTxPendingData c) (mSABUartTxData c) (mSABUartTxBitIndex c)
    (mSABUartRxPendingData c) (mSABUartRxBitIndex c) (mSABUartTxPendingNinth c)
    (mSABUartTxNinth c) (mSABUartTxPending c) (mSABUartTxActive c) (mSABUartRxPendingNinth
    c) (mSABUartRxActive c) (serial_out c) (serial_out_idx c) (serial_out_remaining_bits c)
    (serial_interrupt_trigger c)) c.
Definition set_mSABUartRxData (v : Z) (c : em8051) : em8051 :=
  set_uart (mk_uart (mSABUartDividerPhase c) (mSABUartRxDividerPhase c) (u8 v)
    (mSABUartTxPendingData c) (mSABUartTxData c) (mSABUartTxBitIndex c)
    (mSABUartRxPendingData c) (mSABUartRxBitIndex c) (mSABUartTxPendingNinth c)
    (mSABUartTxNinth c) (mSABUartTxPending c) (mSABUartTxActive c) (mSABUartRxPendingNinth
    c) (mSABUartRxActive c) (serial_out c) (serial_out_idx c) (serial_out_remaining_bits c)
    (serial_interrupt_trigger c)) c.
Definition set_mSABUartTxPendingData (v : Z) (c : em8051) : em8051 :=
  set_uart (mk_uart (mSABUartDividerPhase c) (mSABUartRxDividerPhase c) (mSABUartRxData c)
    (u8 v) (mSABUartTxData c) (mSABUartTxBitIndex c) (mSABUartRxPendingData c)
    (mSABUartRxBitIndex c) (mSABUartTxPendingNinth c) (mSABUartTxNinth c)
    (mSABUartTxPending c) (mSABUartTxActive c) (mSABUartRxPendingNinth c) (mSABUartRxActive
    c) (serial_out c) (serial_out_idx c) (serial_out_remaining_bits c)
    (serial_interrupt_trigger c)) c.
Definition set_mSABUartTxData (v : Z) (c : em8051) : em8051 :=
  set_uart (mk_uart (mSABUartDividerPhase c) (mSABUartRxDividerPhase c) (mSABUartRxData c)
    (mSABUartTxPendingData c) (u8 v) (mSABUartTxBitIndex c) (mSABUartRxPendingData c)
    (mSABUartRxBitIndex c) (mSABUartTxPendingNinth c) (mSABUartTxNinth c)
    (mSABUartTxPending c) (mSABUartTxActive c) (mSABUartRxPendingNinth c) (mSABUartRxActive
    c) (serial_out c) (serial_out_idx c) (serial_out_remaining_bits c)
    (serial_interrupt_trigger c)) c.
Definition set_mSABUartTxBitIndex (v : Z) (c : em8051) : em8051 :=
  set_uart (mk_uart (mSABUartDividerPhase c) (mSABUartRxDividerPhase c) (mSABUartRxData c)
    (mSABUartTxPendingData c) (mSABUartTxData c) (u8 v) (mSABUartRxPendingData c)
    (mSABUartRxBitIndex c) (mSABUartTxPendingNinth c) (mSABUartTxNinth c)
    (mSABUartTxPending c) (mSABUartTxActive c) (mSABUartRxPendingNinth c) (mSABUartRxActive
    c) (serial_out c) (serial_out_idx c) (serial_out_remaining_bits c)
    (serial_interrupt_trigger c)) c.
Definition set_mSABUartRxPendingData (v : Z) (c : em8051) : em8051 :=
  set_uart (mk_uart (mSABUartDividerPhase c) (mSABUartRxDividerPhase c) (mSABUartRxData c)
    (mSABUartTxPendingData c) (mSABUartTxData c) (mSABUartTxBitIndex c) (u8 v)
    (mSABUartRxBitIndex c) (mSABUartTxPendingNinth c) (mSABUartTxNinth c)
    (mSABUartTxPending c) (mSABUartTxActive c) (mSABUartRxPendingNinth c) (mSABUartRxActive
    c) (serial_out c) (serial_out_idx c) (serial_out_remaining_bits c)
    (serial_interrupt_trigger c)) c.
Definition set_mSABUartRxBitIndex (v : Z) (c : em8051) : em8051 :=
  set_uart (mk_uart (mSABUartDividerPhase c) (mSABUartRxDividerPhase c) (mSABUartRxData c)
    (mSABUartTxPendingData c) (mSABUartTxData c) (mSABUartTxBitIndex c)
    (mSABUartRxPendingData c) (u8 v) (mSABUartTxPendingNinth c) (mSABUartTxNinth c)
    (mSABUartTxPending c) (mSABUartTxActive c) (mSABUartRxPendingNinth c) (mSABUartRxActive
    c) (serial_out c) (serial_out_idx c) (serial_out_remaining_bits c)
    (serial_interrupt_trigger c)) c.
Definition set_mSABUartTxPendingNinth (v : bool) (c : em8051) : em8051 :=
  set_uart (mk_uart (mSABUartDividerPhase c) (mSABUartRxDividerPhase c) (mSABUartRxData c)
    (mSABUartTxPendingData c) (mSABUartTxData c) (mSABUartTxBitIndex c)
    (mSABUartRxPendingData c) (mSABUartRxBitIndex c) v (mSABUartTxNinth c)
    (mSABUartTxPending c) (mSABUartTxActive c) (mSABUartRxPendingNinth c) (mSABUartRxActive
    c) (serial_out c) (serial_out_idx c) (serial_out_remaining_bits c)
    (serial_interrupt_trigger c)) c.
Definition set_mSABUartTxNinth (v : bool) (c : em8051) : em8051 :=
  set_uart (mk_uart (mSABUartDividerPhase c) (mSABUartRxDividerPhase c) (mSABUartRxData c)
    (mSABUartTxPendingData c) (mSABUartTxData c) (mSABUartTxBitIndex c)
    (mSABUartRxPendingData c) (mSABUartRxBitIndex c) (mSABUartTxPendingNinth c) v
    (mSABUartTxPending c) (mSABUartTxActive c) (mSABUartRxPendingNinth c) (mSABUartRxActive
    c) (serial_out c) (serial_out_idx c) (serial_out_remaining_bits c)
    (serial_interrupt_trigger c)) c.
Definition set_mSABUartTxPending (v : bool) (c : em8051) : em8051 :=
  set_uart (mk_uart (mSABUartDividerPhase c) (mSABUartRxDividerPhase c) (mSABUartRxData c)
    (mSABUartTxPendingData c) (mSABUartTxData c) (mSABUartTxBitIndex c)
    (mSABUartRxPendingData c) (mSABUartRxBitIndex c) (mSABUartTxPendingNinth c)
    (mSABUartTxNinth c) v (mSABUartTxActive c) (mSABUartRxPendingNinth c) (mSABUartRxActive
    c) (serial_out c) (serial_out_idx c) (serial_out_remaining_bits c)
    (serial_interrupt_trigger c)) c.
Definition set_mSABUartTxActive (v : bool) (c : em8051) : em8051 :=
  set_uart (mk_uart (mSABUartDividerPhase c) (mSABUartRxDividerPhase c) (mSABUartRxData c)
    (mSABUartTxPendingData c) (mSABUartTxData c) (mSABUartTxBitIndex c)
    (mSABUartRxPendingData c) (mSABUartRxBitIndex c) (mSABUartTxPendingNinth c)
    (mSABUartTxNinth c) (mSABUartTxPending c) v (mSABUartRxPendingNinth c)
    (mSABUartRxActive c) (serial_out c) (serial_out_idx c) (serial_out_remaining_bits c)
    (serial_interrupt_trigger c)) c.
Definition set_mSABUartRxPendingNinth (v : bool) (c : em8051) : em8051 :=
  set_uart (mk_uart (mSABUartDividerPhase c) (mSABUartRxDividerPhase c) (mSABUartRxData c)
    (mSABUartTxPendingData c) (mSABUartTxData c) (mSABUartTxBitIndex c)
    (mSABUartRxPendingData c) (mSABUartRxBitIndex c) (mSABUartTxPendingNinth c)
    (mSABUartTxNinth c) (mSABUartTxPending c) (mSABUartTxActive c) v (mSABUartRxActive c)
    (serial_out c) (serial_out_idx c) (serial_out_remaining_bits c)
    (serial_interrupt_trigger c)) c.
Definition set_mSABUartRxActive (v : bool) (c : em8051) : em8051 :=
  set_uart (mk_uart (mSABUartDividerPhase c) (mSABUartRxDividerPhase c) (mSABUartRxData c)
    (mSABUartTxPendingData c) (mSABUartTxData c) (mSABUartTxBitIndex c)
    (mSABUartRxPendingData c) (mSABUartRxBitIndex c) (mSABUartTxPendingNinth c)
    (mSABUartTxNinth c) (mSABUartTxPending c) (mSABUartTxActive c) (mSABUartRxPendingNinth
    c) v (serial_out c) (serial_out_idx c) (serial_out_remaining_bits c)
    (serial_interrupt_trigger c)) c.
Definition set_serial_out (v : list Z) (c : em8051) : em8051 :=
  set_uart (mk_uart (mSABUartDividerPhase c) (mSABUartRxDividerPhase c) (mSABUartRxData c)
    (mSABUartTxPendingData c) (mSABUartTxData c) (mSABUartTxBitIndex c)
    (mSABUartRxPendingData c) (mSABUartRxBitIndex c) (mSABUartTxPendingNinth c)
    (mSABUartTxNinth c) (mSABUartTxPending c) (mSABUartTxActive c) (mSABUartRxPendingNinth
    c) (mSABUartRxActive c) v (serial_out_idx c) (serial_out_remaining_bits c)
    (serial_interrupt_trigger c)) c.
Definition set_serial_out_idx (v : Z) (c : em8051) : em8051 :=
  set_uart (mk_uart (mSABUartDividerPhase c) (mSABUartRxDividerPhase c) (mSABUartRxData c)
    (mSABUartTxPendingData c) (mSABUartTxData c) (mSABUartTxBitIndex c)
    (mSABUartRxPendingData c) (mSABUartRxBitIndex c) (mSABUartTxPendingNinth c)
    (mSABUartTxNinth c) (mSABUartTxPending c) (mSABUartTxActive c) (mSABUartRxPendingNinth
    c) (mSABUartRxActive c) (serial_out c) (u8 v) (serial_out_remaining_bits c)
    (serial_interrupt_trigger c)) c.
Definition set_serial_out_remaining_bits (v : Z) (c : em8051) : em8051 :=
  set_uart (mk_uart (mSABUartDividerPhase c) (mSABUartRxDividerPhase c) (mSABUartRxData c)
    (mSABUartTxPendingData c) (mSABUartTxData c) (mSABUartTxBitIndex c)
    (mSABUartRxPendingData c) (mSABUartRxBitIndex c) (mSABUartTxPendingNinth c)
    (mSABUartTxNinth c) (mSABUartTxPending c) (mSABUartTxActive c) (mSABUartRxPendingNinth
    c) (mSABUartRxActive c) (serial_out c) (serial_out_idx c) (u8 v)
    (serial_interrupt_trigger c)) c.
Definition set_serial_interrupt_trigger (v : bool) (c : em8051) : em8051 :=
  set_uart (mk_uart (mSABUartDividerPhase c) (mSABUartRxDividerPhase c) (mSABUartRxData c)
    (mSABUartTxPendingData c) (mSABUartTxData c) (mSABUartTxBitIndex c)
    (mSABUartRxPendingData c) (mSABUartRxBitIndex c) (mSABUartTxPendingNinth c)
    (mSABUartTxNinth c) (mSABUartTxPending c) (mSABUartTxActive c) (mSABUartRxPendingNinth
    c) (mSABUartRxActive c) (serial_out c) (serial_out_idx c) (serial_out_remaining_bits c)
    v) c.

(** ** Enumerations of the header, with their numeric values *)

(** enum em8051_variant *)
Definition EM8051_VARIANT_8051 : Z := 0.
Definition EM8051_VARIANT_8052 : Z := 1.
Definition EM8051_VARIANT_SAB80535 : Z := 2.

(** enum em8051_sab80535_sfr *)
Definition EM8051_SAB_SFR_IEN0 : Z := 0xA8.
Definition EM8051_SAB_SFR_IP0 : Z := 0xA9.
Definition EM8051_SAB_SFR_IEN1 : Z := 0xB8.
Definition EM8051_SAB_SFR_IP1 : Z := 0xB9.
Definition EM8051_SAB_SFR_IRCON : Z := 0xC0.
Definition EM8051_SAB_SFR_CCEN : Z := 0xC1.
Definition EM8051_SAB_SFR_T2CON : Z := 0xC8.
Definition EM8051_SAB_SFR_CRCL : Z := 0xCA.
Definition EM8051_SAB_SFR_CRCH : Z := 0xCB.
Definition EM8051_SAB_SFR_TL2 : Z := 0xCC.
Definition EM8051_SAB_SFR_TH2 : Z := 0xCD.
Definition EM8051_SAB_SFR_ADCON : Z := 0xD8.
Definition EM8051_SAB_SFR_ADDAT : Z := 0xD9.
Definition EM8051_SAB_SFR_DAPR : Z := 0xDA.
Definition EM8051_SAB_SFR_P6 : Z := 0xDB.
Definition EM8051_SAB_SFR_P4 : Z := 0xE8.
Definition EM8051_SAB_SFR_P5 : Z := 0xF8.

(** enum em8051_sab_port *)
Definition EM8051_SAB_PORT_P1 : Z := 0x90.
Definition EM8051_SAB_PORT_P3 : Z := 0xB0.
Definition EM8051_SAB_PORT_P4 : Z := 0xE8.
Definition EM8051_SAB_PORT_P5 : Z := 0xF8.
Definition EM8051_SAB_PORT_COUNT : Z := 4.

(** enum em8051_sab_irq_source *)
Definition EM8051_SAB_IRQ_INT0 : Z := 0.
Definition EM8051_SAB_IRQ_TIMER0 : Z := 1.
Definition EM8051_SAB_IRQ_INT1 : Z := 2.
Definition EM8051_SAB_IRQ_TIMER1 : Z := 3.
Definition EM8051_SAB_IRQ_UART : Z := 4.
Definition EM8051_SAB_IRQ_TIMER2 : Z := 5.
Definition EM8051_SAB_IRQ_ADC : Z := 6.
Definition EM8051_SAB_IRQ_INT2 : Z := 7.
Definition EM8051_SAB_IRQ_INT3 : Z := 8.
Definition EM8051_SAB_IRQ_INT4 : Z := 9.
Definition EM8051_SAB_IRQ_INT5 : Z := 10.
Definition EM8051_SAB_IRQ_INT6 : Z := 11.
Definition EM8051_SAB_IRQ_SOURCE_COUNT : Z := 12.

(** enum em8051_sab_irq_vector *)
Definition EM8051_SAB_VECTOR_INT0 : Z := 0x0003.
Definition EM8051_SAB_VECTOR_TIMER0 : Z := 0x000B.
Definition EM8051_SAB_VECTOR_INT1 : Z := 0x0013.
Definition EM8051_SAB_VECTOR_TIMER1 : Z := 0x001B.
Definition EM8051_SAB_VECTOR_UART : Z := 0x0023.
Definition EM8051_SAB_VECTOR_TIMER2 : Z := 0x002B.
Definition EM8051_SAB_VECTOR_ADC : Z := 0x0043.
Definition EM8051_SAB_VECTOR_INT2 : Z := 0x004B.
Definition EM8051_SAB_VECTOR_INT3 : Z := 0x0053.
Definition EM8051_SAB_VECTOR_INT4 : Z := 0x005B.
Definition EM8051_SAB_VECTOR_INT5 : Z := 0x0063.
Definition EM8051_SAB_VECTOR_INT6 : Z := 0x006B.

(** enum em8051_timer *)
Definition EM8051_TIMER0 : Z := 0.
Definition EM8051_TIMER1 : Z := 1.
Definition EM8051_TIMER2 : Z := 2.
Definition EM8051_TIMER_COUNT : Z := 3.

(** enum em8051_sab_external_source *)
Definition EM8051_SAB_EXTERNAL_INT0 : Z := 0.
Definition EM8051_SAB_EXTERNAL_INT1 : Z := 1.
Definition EM8051_SAB_EXTERNAL_INT2 : Z := 2.
Definition EM8051_SAB_EXTERNAL_INT3 : Z := 3.
Definition EM8051_SAB_EXTERNAL_INT4 : Z := 4.
Definition EM8051_SAB_EXTERNAL_INT5 : Z := 5.
Definition EM8051_SAB_EXTERNAL_INT6 : Z := 6.
Definition EM8051_SAB_EXTERNAL_SOURCE_COUNT : Z := 7.

(** enum em8051_sab_external_schedule_action *)
Definition EM8051_SAB_EXTERNAL_SCHEDULE_DRIVE : Z := 0.
Definition EM8051_SAB_EXTERNAL_SCHEDULE_RELEASE : Z := 1.

(** enum SFR_REGS *)
Definition REG_ACC : Z := 0xE0 - 0x80.
Definition REG_B : Z := 0xF0 - 0x80.
Definition REG_PSW : Z := 0xD0 - 0x80.
Definition REG_SP : Z := 0x81 - 0x80.
Definition REG_DPL : Z := 0x82 - 0x80.
Definition REG_DPH : Z := 0x83 - 0x80.
Definition REG_P0 : Z := 0x80 - 0x80.
Definition REG_P1 : Z := 0x90 - 0x80.
Definition REG_P2 : Z := 0xA0 - 0x80.
Definition REG_P3 : Z := 0xB0 - 0x80.
Definition REG_IP : Z := 0xB8 - 0x80.
Definition REG_IE : Z := 0xA8 - 0x80.
Definition REG_TMOD : Z := 0x89 - 0x80.
Definition REG_TCON : Z := 0x88 - 0x80.
Definition REG_TH0 : Z := 0x8C - 0x80.
Definition REG_TL0 : Z := 0x8A - 0x80.
Definition REG_TH1 : Z := 0x8D - 0x80.
Definition REG_TL1 : Z := 0x8B - 0x80.
Definition REG_SCON : Z := 0x98 - 0x80.
Definition REG_SBUF : Z := 0x99 - 0x80.
Definition REG_PCON : Z := 0x87 - 0x80.

(** enum PSW_MASKS *)
Definition PSWMASK_P : Z := 0x01.
Definition PSWMASK_OV : Z := 0x04.
Definition PSWMASK_RS0 : Z := 0x08.
Definition PSWMASK_RS1 : Z := 0x10.
Definition PSWMASK_F0 : Z := 0x20.
Definition PSWMASK_AC : Z := 0x40.
Definition PSWMASK_C : Z := 0x80.

(** enum PSW_BITS *)
Definition PSW_P : Z := 0.
Definition PSW_OV : Z := 2.
Definition PSW_RS0 : Z := 3.
Definition PSW_RS1 : Z := 4.
Definition PSW_F0 : Z := 5.
Definition PSW_AC : Z := 6.
Definition PSW_C : Z := 7.

(** enum IE_MASKS *)
Definition IEMASK_EX0 : Z := 0x01.
Definition IEMASK_ET0 : Z := 0x02.
Definition IEMASK_EX1 : Z := 0x04.
Definition IEMASK_ET1 : Z := 0x08.
Definition IEMASK_ES : Z := 0x10.
Definition IEMASK_ET2 : Z := 0x20.
Definition IEMASK_EA : Z := 0x80.

(** enum TCON_MASKS *)
Definition TCONMASK_IT0 : Z := 0x01.
Definition TCONMASK_IE0 : Z := 0x02.
Definition TCONMASK_IT1 : Z := 0x04.
Definition TCONMASK_IE1 : Z := 0x08.
Definition TCONMASK_TR0 : Z := 0x10.
Definition TCONMASK_TF0 : Z := 0x20.
Definition TCONMASK_TR1 : Z := 0x40.
Definition TCONMASK_TF1 : Z := 0x80.

(** enum TMOD_MASKS *)
Definition TMODMASK_M0_0 : Z := 0x01.
Definition TMODMASK_M1_0 : Z := 0x02.
Definition TMODMASK_CT_0 : Z := 0x04.
Definition TMODMASK_GATE_0 : Z := 0x08.
Definition TMODMASK_M0_1 : Z := 0x10.
Definition TMODMASK_M1_1 : Z := 0x20.
Definition TMODMASK_CT_1 : Z := 0x40.
Definition TMODMASK_GATE_1 : Z := 0x80.

(** enum IP_MASKS *)
Definition IPMASK_PX0 : Z := 0x01.
Definition IPMASK_PT0 : Z := 0x02.
Definition IPMASK_PX1 : Z := 0x04.
Definition IPMASK_PT1 : Z := 0x08.
Definition IPMASK_PS : Z := 0x10.
Definition IPMASK_PT2 : Z := 0x20.

(** enum SCON_MASKS *)
Definition SCONMASK_RI : Z := 0x01.
Definition SCONMASK_TI : Z := 0x02.
Definition SCONMASK_RB8 : Z := 0x04.
Definition SCONMASK_TB8 : Z := 0x08.
Definition SCONMASK_REN : Z := 0x10.
Definition SCONMASK_SM2 : Z := 0x20.
Definition SCONMASK_SM1 : Z := 0x40.
Definition SCONMASK_SM0 : Z := 0x80.

(** enum PCON_MASKS *)
Definition PCONMASK_IDLE : Z := 0x01.
Definition PCONMASK_POWER_DOWN : Z := 0x02.
Definition PCONMASK_SMOD : Z := 0x80.

(** enum ISR_VECTORS *)
Definition ISR_RST : Z := 0x00.
Definition ISR_INT0 : Z := 0x03.
Definition ISR_TF0 : Z := 0x0B.
Definition ISR_INT1 : Z := 0x13.
Definition ISR_TF1 : Z := 0x1B.
Definition ISR_SR : Z := 0x23.

(** enum EM8051_EXCEPTION *)
Definition EXCEPTION_STACK : Z := 0.
Definition EXCEPTION_ACC_TO_A : Z := 1.
Definition EXCEPTION_IRET_PSW_MISMATCH : Z := 2.
Definition EXCEPTION_IRET_SP_MISMATCH : Z := 3.
Definition EXCEPTION_IRET_ACC_MISMATCH : Z := 4.
Definition EXCEPTION_ILLEGAL_OPCODE : Z := 5.

(** enum SAB_IEN1_MASKS *)
Definition SAB_IEN1MASK_EADC : Z := 0x01.
Definition SAB_IEN1MASK_EX2 : Z := 0x02.
Definition SAB_IEN1MASK_EX3 : Z := 0x04.
Definition SAB_IEN1MASK_EX4 : Z := 0x08.
Definition SAB_IEN1MASK_EX5 : Z := 0x10.
Definition SAB_IEN1MASK_EX6 : Z := 0x20.
Definition SAB_IEN1MASK_SWDT : Z := 0x40.
Definition SAB_IEN1MASK_EXEN2 : Z := 0x80.

(** enum SAB_IRCON_MASKS *)
Definition SAB_IRCONMASK_IADC : Z := 0x01.
Definition SAB_IRCONMASK_IEX2 : Z := 0x02.
Definition SAB_IRCONMASK_IEX3 : Z := 0x04.
Definition SAB_IRCONMASK_IEX4 : Z := 0x08.
Definition SAB_IRCONMASK_IEX5 : Z := 0x10.
Definition SAB_IRCONMASK_IEX6 : Z := 0x20.
Definition SAB_IRCONMASK_TF2 : Z := 0x40.
Definition SAB_IRCONMASK_EXF2 : Z := 0x80.

(** enum SAB_T2CON_MASKS *)
Definition SAB_T2CONMASK_T2I0 : Z := 0x01.
Definition SAB_T2CONMASK_T2I1 : Z := 0x02.
Definition SAB_T2CONMASK_T2CM : Z := 0x04.
Definition SAB_T2CONMASK_T2R0 : Z := 0x08.
Definition SAB_T2CONMASK_T2R1 : Z := 0x10.
Definition SAB_T2CONMASK_I2FR : Z := 0x20.
Definition SAB_T2CONMASK_I3FR : Z := 0x40.
Definition SAB_T2CONMASK_T2PS : Z := 0x80.

(** enum SAB_ADCON_MASKS *)
Definition SAB_ADCONMASK_MX : Z := 0x07.
Definition SAB_ADCONMASK_ADM : Z := 0x08.
Definition SAB_ADCONMASK_BSY : Z := 0x10.
Definition SAB_ADCONMASK_RESERVED : Z := 0x20.
Definition SAB_ADCONMASK_CLK : Z := 0x40.
Definition SAB_ADCONMASK_BD : Z := 0x80.
Definition EM8051_SAB_EXTERNAL_SCHEDULE_CAPACITY : Z := 64.
Definition EM8051_SAB_ADC_CHANNEL_COUNT : Z := 8.
Definition EM8051_SFR_UNAVAILABLE : Z := 0xFFFF.

(** [SAB_SFR_INDEX] and [SAB_IRQ_BIT] of core.c. *)
Definition SAB_SFR_INDEX (aAddress : Z) : Z := u8 (aAddress - 0x80).
Definition SAB_IRQ_BIT (aSource : Z) : Z := u16 (Z.shiftl 1 aSource).

(** ** Records handed to observers *)

Inductive trace_type :=
  | EM8051_TRACE_INSTRUCTION | EM8051_TRACE_SFR_WRITE | EM8051_TRACE_MOVX_READ
  | EM8051_TRACE_MOVX_WRITE | EM8051_TRACE_UNSUPPORTED_MOVX_READ
  | EM8051_TRACE_UNSUPPORTED_MOVX_WRITE.

Record trace_record := {
  tr_type : trace_type; tr_machine_cycle : Z; tr_pc : Z; tr_address : Z; tr_value : Z }.

Inductive irq_trace_event :=
  | EM8051_SAB_IRQ_TRACE_REQUEST | EM8051_SAB_IRQ_TRACE_ACCEPT | EM8051_SAB_IRQ_TRACE_RELEASE.

Record irq_trace_record := {
  ir_event : irq_trace_event; ir_machine_cycle : Z; ir_pc : Z; ir_source : Z;
  ir_priority : Z; ir_asserted : bool; ir_global_enabled : bool; ir_pending_mask : Z;
  ir_enabled_mask : Z; ir_in_service_mask : Z; ir_in_service_depth : Z }.

Record timer_overflow_record := {
  to_timer : Z; to_machine_cycle : Z; to_tl : Z; to_th : Z }.

Inductive uart_trace_event :=
  | EM8051_SAB_UART_TRACE_TX_START | EM8051_SAB_UART_TRACE_TX_BIT
  | EM8051_SAB_UART_TRACE_TX_STOP | EM8051_SAB_UART_TRACE_TX_END
  | EM8051_SAB_UART_TRACE_RX_START | EM8051_SAB_UART_TRACE_RX_ACCEPT
  | EM8051_SAB_UART_TRACE_RX_DROP | EM8051_SAB_UART_TRACE_RX_END.

Record uart_trace_record := {
  ur_event : uart_trace_event; ur_machine_cycle : Z; ur_pc : Z; ur_data : Z;
  ur_ninth_bit : bool; ur_bit_index : Z; ur_bit_value : bool }.

Inductive movx_direction := EM8051_MOVX_READ | EM8051_MOVX_WRITE.

Record movx_context := {
  mx_machine_cycle : Z; mx_pc : Z; mx_address : Z; mx_direction : movx_direction;
  mx_value : Z; mx_p1_latch : Z }.

Inductive external_trace_trigger :=
  | EM8051_SAB_EXTERNAL_TRACE_NON_QUALIFYING | EM8051_SAB_EXTERNAL_TRACE_FALLING_EDGE
  | EM8051_SAB_EXTERNAL_TRACE_RISING_EDGE | EM8051_SAB_EXTERNAL_TRACE_LOW_LEVEL_ASSERT
  | EM8051_SAB_EXTERNAL_TRACE_LEVEL_RELEASE.

Record external_trace_record := {
  er_machine_cycle : Z; er_source : Z; er_old_level : bool; er_new_level : bool;
  er_trigger : external_trace_trigger; er_request_pending : bool }.

Inductive adc_trace_event :=
  | EM8051_SAB_ADC_TRACE_START | EM8051_SAB_ADC_TRACE_RESTART | EM8051_SAB_ADC_TRACE_COMPLETE.

Record adc_trace_record := {
  ar_event : adc_trace_event; ar_machine_cycle : Z; ar_channel : Z; ar_dapr : Z;
  ar_normalized_input : Z; ar_addat : Z; ar_busy : bool; ar_iadc : bool;
  ar_references_valid : bool; ar_continuous_requested : bool }.

Inductive stop_reason :=
  | EM8051_STOP_INSTRUCTION_LIMIT | EM8051_STOP_BREAKPOINT | EM8051_STOP_TARGET_PC
  | EM8051_STOP_EXCEPTION | EM8051_STOP_HALT | EM8051_STOP_ABORTED.

Record run_result := {
  rr_reason : stop_reason; rr_instructions : Z; rr_machine_cycles : Z; rr_pc : Z;
  rr_exception_code : Z }.

(** Raw facts of emu_cpu_observation_internal.h. *)
Inductive raw_fact :=
  | EMU_RAW_BEGIN | EMU_RAW_OPERAND | EMU_RAW_OPCODE_END | EMU_RAW_CYCLE_BEGIN
  | EMU_RAW_CONTEXT_PREFLIGHT | EMU_RAW_CALL | EMU_RAW_RET | EMU_RAW_RETI
  | EMU_RAW_IRQ_ENTER | EMU_RAW_IRQ_REQUEST | EMU_RAW_TX_HOLD | EMU_RAW_TX_START
  | EMU_RAW_TX_STOP | EMU_RAW_TX_TI | EMU_RAW_TX_END | EMU_RAW_RX_START
  | EMU_RAW_RX_ACCEPT | EMU_RAW_RX_DROP | EMU_RAW_RX_END | EMU_RAW_ACCESS_BEGIN
  | EMU_RAW_ACCESS_OLD | EMU_RAW_ACCESS_END.

(** ** Reads and writes of the SFR file at a constant index *)

Definition sfr (c : em8051) (i : Z) : Z := geti (mSFR c) i.
Definition set_sfr (i v : Z) (c : em8051) : em8051 := set_mSFR (seti (mSFR c) i (u8 v)) c.
Arguments sfr : simpl never.
Arguments set_sfr : simpl never.
