(* ===== verification/Machine.v ===== *)
(** The execution monad, the host's callbacks, and the observation seam of
    src/emu_cpu_observation_internal.h and src/core.c.

    A computation on the CPU ends in one of three ways: it returns a value and
    a machine, it runs into behaviour C leaves undefined (a NULL dereference,
    an index outside an array), or it exhausts the fuel of a loop. *)
From S2P Require Import Prelude State.

(** The CPU together with the caller-owned state [W] that callbacks may read
    and write. *)
Set Primitive Projections.
Record machine (W : Type) := mk_machine { cpu : em8051; world : W }.
Unset Primitive Projections.
Arguments mk_machine {W}.
Arguments cpu {W}.
Arguments world {W}.

Inductive res (W A : Type) :=
  | Done (a : A) (s : machine W)
  | Undef
  | NoFuel.
Arguments Done {W A}.
Arguments Undef {W A}.
Arguments NoFuel {W A}.

Definition M (W A : Type) : Type := machine W -> res W A.

#[export] Instance M_ret W : MRet (M W) := fun A a s => Done a s.

Definition bind {W A B} (m : M W A) (k : A -> M W B) : M W B := fun s =>
  match m s with
  | Done a s' => k a s'
  | Undef => Undef
  | NoFuel => NoFuel
  end.

Declare Scope emu_scope.
Delimit Scope emu_scope with emu.
Notation "x ← m ; k" := (bind m (fun x => k))
  (at level 20, m at level 100, k at level 200, only parsing) : emu_scope.
Notation "' x ← m ; k" := (bind m (fun x => k))
  (at level 20, x pattern, m at level 100, k at level 200, only parsing) : emu_scope.
Notation "m ;; k" := (bind m (fun _ => k))
  (at level 100, k at level 200, right associativity, only parsing) : emu_scope.
#[global] Open Scope emu_scope.

(** The code behind the function pointers of [struct em8051]. Callbacks that
    receive the CPU may change it; observers receive an immutable record and
    their own context and only change [W]; the abort predicate is pure. A
    callback's C return type bounds its result. *)
Class Host (W : Type) := {
  call_except : ptr -> Z -> machine W -> machine W;
  call_sfrread : ptr -> Z -> machine W -> Z * machine W;
  call_sfrwrite : ptr -> Z -> machine W -> machine W;
  call_xread : ptr -> Z -> machine W -> Z * machine W;
  call_xwrite : ptr -> Z -> Z -> machine W -> machine W;
  call_abort : ptr -> em8051 -> ptr -> W -> bool;
  call_trace : ptr -> trace_record -> ptr -> W -> W;
  call_irq_trace : ptr -> irq_trace_record -> ptr -> W -> W;
  call_timer_overflow : ptr -> timer_overflow_record -> ptr -> W -> W;
  call_uart_trace : ptr -> uart_trace_record -> ptr -> W -> W;
  call_movx : ptr -> movx_context -> ptr -> W -> W;
  call_external_trace : ptr -> external_trace_record -> ptr -> W -> W;
  call_adc_trace : ptr -> adc_trace_record -> ptr -> W -> W;
  call_raw : ptr -> raw_fact -> Z -> Z -> Z -> Z -> Z -> W -> Z * W
}.

Section Machine.
Context {W : Type} {HostW : Host W}.

(** ** Primitive computations *)

Definition gets {A} (f : em8051 -> A) : M W A := fun s => Done (f (cpu s)) s.
Definition get_cpu : M W em8051 := fun s => Done (cpu s) s.
Definition modify (f : em8051 -> em8051) : M W () :=
  fun s => Done () (mk_machine (f (cpu s)) (world s)).
Definition observe (f : W -> W) : M W () :=
  fun s => Done () (mk_machine (cpu s) (f (world s))).
Definition callback (f : machine W -> machine W) : M W () := fun s => Done () (f s).
(** A callback whose C return type is uint8_t. *)
Definition callback8 (f : machine W -> Z * machine W) : M W Z := fun s =>
  let '(v, s') := f s in Done (u8 v) s'.
Definition undef {A} : M W A := fun _ => Undef.
Definition when (b : bool) (m : M W ()) : M W () := if b then m else mret ().

(** The value of an array access, undefined behaviour outside the array. *)
Definition in_range {A} (o : option A) : M W A :=
  match o with Some a => mret a | None => undef end.

Fixpoint for_each {A} (l : list A) (f : A -> M W ()) : M W () :=
  match l with
  | [] => mret ()
  | x :: l' => f x ;; for_each l' f
  end.

(** ** Aborts, exceptions, tracing *)

Definition execution_aborted (s : machine W) : bool :=
  negb (execution_abort (cpu s) =? 0) &&
  call_abort (execution_abort (cpu s)) (cpu s) (execution_abort_user (cpu s)) (world s).

Definition em8051_execution_aborted : M W bool := fun s => Done (execution_aborted s) s.

Definition em8051_raise_exception (aCode : Z) : M W () :=
  modify (set_mExceptionRaised true) ;;
  modify (set_mLastException aCode) ;;
  p ← gets except;
  when (negb (p =? 0)) (callback (call_except p aCode)).

Definition em8051_trace_emit (aType : trace_type) (aAddress aValue : Z) : M W () :=
  b ← em8051_execution_aborted;
  c ← get_cpu;
  if b || (trace c =? 0) then mret ()
  else observe (call_trace (trace c)
    {| tr_type := aType; tr_machine_cycle := mMachineCycleCount c;
       tr_pc := if mInInstruction c then mTracePC c else mPC c;
       tr_address := aAddress; tr_value := aValue |} (trace_user c)).

(** ** The private observation seam *)

Definition EMUIF_SPACE_SFR : Z := 2.
Definition EMUIF_OBS_ACCESS_WRITE : Z := 4.
Definition EMUIF_OBS_ACCESS_RMW : Z := 8.
Definition EMUIF_OBS_REASON_RI : Z := 3.
Definition EMUIF_OBS_REASON_SM2 : Z := 4.

Definition emu_cpu_raw (kind : raw_fact) (cycle a b c d : Z) : M W Z := fun s =>
  let o := mObservation (cpu s) in
  if o =? 0 then Done 0 s
  else let '(r, w) := call_raw o kind (u64 cycle) (u64 a) (u32 b) (u32 c) (u32 d) (world s) in
       Done (u64 r) (mk_machine (cpu s) w).

(** The request register and mask of the [source] loop of [emu_cpu_irq_write]. *)
Definition irq_request (source : Z) : Z * Z :=
  if source <? 4 then
    (REG_TCON, Z.shiftl 1 (if source =? 0 then 1 else if source =? 1 then 5
                           else if source =? 2 then 3 else 7))
  else if source =? 4 then (REG_SCON, Z.lor SCONMASK_RI SCONMASK_TI)
  else (EM8051_SAB_SFR_IRCON - 128,
        if source =? 5 then Z.lor SAB_IRCONMASK_TF2 SAB_IRCONMASK_EXF2
        else Z.shiftl 1 (source - 6)).

Definition emu_cpu_irq_write (index value cycle : Z) : M W () :=
  old ← gets (fun c => sfr c index);
  modify (set_sfr index value) ;;
  c ← get_cpu;
  if (mObservation c =? 0) || negb (mVariant c =? EM8051_VARIANT_SAB80535) then mret ()
  else for_each (seqZ 0 12) (fun source =>
    let '(reg, mask) := irq_request source in
    when ((index =? reg) && negb (has old mask) && has (u8 value) mask)
      (_ ← emu_cpu_raw EMU_RAW_IRQ_REQUEST cycle source 0 0 0; mret ())).

(** ** Running a sequence whose first part is known *)

Lemma exec_bind {A B} (m : M W A) (k : A -> M W B) s a s' :
  m s = Done a s' -> bind m k s = k a s'.
Proof. intros E. unfold bind. by rewrite E. Qed.

Lemma exec_get {B} (k : em8051 -> M W B) s : bind get_cpu k s = k (cpu s) s.
Proof. done. Qed.
Lemma exec_gets {A B} (f : em8051 -> A) (k : A -> M W B) s : bind (gets f) k s = k (f (cpu s)) s.
Proof. done. Qed.
Lemma exec_ret {A B} (a : A) (k : A -> M W B) s : bind (mret a) k s = k a s.
Proof. done. Qed.
Lemma exec_modify {B} f (k : () -> M W B) s :
  bind (modify f) k s = k () (mk_machine (f (cpu s)) (world s)).
Proof. done. Qed.
Lemma exec_assoc {A B C} (m : M W A) (k : A -> M W B) (h : B -> M W C) s :
  bind (bind m k) h s = bind m (fun a => bind (k a) h) s.
Proof. unfold bind. by destruct (m s). Qed.
Lemma exec_some {A B} (a : A) (k : A -> M W B) s : bind (in_range (Some a)) k s = k a s.
Proof. done. Qed.

End Machine.

Create Rewrite HintDb exec.
#[export] Hint Rewrite @exec_get @exec_gets @exec_ret @exec_modify @exec_assoc @exec_some : exec.
