(* ===== verification/Ports.v ===== *)
(** SAB80535 virtual ports, external-interrupt inputs and scheduled stimulus
    (src/core.c): sab_port_*, sab_external_*, and sab_irq_sync, which the edge
    detector calls to refresh the pending and enabled maps. *)
From S2P Require Import Prelude State Machine.

(** ** Pins, latches and request flags *)

Definition is_sab (c : em8051) : bool := mVariant c =? EM8051_VARIANT_SAB80535.

(** [None] is the false result; the pair is (port, mask). *)
Definition sab_external_pin (aSource : Z) : option (Z * Z) :=
  if aSource =? EM8051_SAB_EXTERNAL_INT0 then Some (EM8051_SAB_PORT_P3, 0x04)
  else if aSource =? EM8051_SAB_EXTERNAL_INT1 then Some (EM8051_SAB_PORT_P3, 0x08)
  else if aSource =? EM8051_SAB_EXTERNAL_INT2 then Some (EM8051_SAB_PORT_P1, 0x10)
  else if aSource =? EM8051_SAB_EXTERNAL_INT3 then Some (EM8051_SAB_PORT_P1, 0x01)
  else if aSource =? EM8051_SAB_EXTERNAL_INT4 then Some (EM8051_SAB_PORT_P1, 0x02)
  else if aSource =? EM8051_SAB_EXTERNAL_INT5 then Some (EM8051_SAB_PORT_P1, 0x04)
  else if aSource =? EM8051_SAB_EXTERNAL_INT6 then Some (EM8051_SAB_PORT_P1, 0x08)
  else None.

Definition sab_external_sample_bit (aSource : Z) : Z := u8 (Z.shiftl 1 aSource).

(** The SFR index of the request register and the request mask. *)
Definition sab_external_request_sfr (aSource : Z) : option (Z * Z) :=
  if aSource =? EM8051_SAB_EXTERNAL_INT0 then Some (REG_TCON, TCONMASK_IE0)
  else if aSource =? EM8051_SAB_EXTERNAL_INT1 then Some (REG_TCON, TCONMASK_IE1)
  else if (EM8051_SAB_EXTERNAL_INT2 <=? aSource) && (aSource <=? EM8051_SAB_EXTERNAL_INT6) then
    Some (SAB_SFR_INDEX EM8051_SAB_SFR_IRCON,
          u8 (Z.shiftl SAB_IRCONMASK_IEX2 (aSource - EM8051_SAB_EXTERNAL_INT2)))
  else None.

Definition sab_port_index (c : em8051) (aPort : Z) : Z :=
  if negb (is_sab c) then -1
  else if aPort =? EM8051_SAB_PORT_P1 then 0
  else if aPort =? EM8051_SAB_PORT_P3 then 1
  else if aPort =? EM8051_SAB_PORT_P4 then 2
  else if aPort =? EM8051_SAB_PORT_P5 then 3
  else -1.

Definition em8051_sab_port_get_latch (c : em8051) (aPort : Z) : option Z :=
  if sab_port_index c aPort <? 0 then None else Some (sfr c (aPort - 0x80)).

Definition em8051_sab_port_get_pins (c : em8051) (aPort : Z) : option Z :=
  let index := sab_port_index c aPort in
  if index <? 0 then None
  else
    let latch := sfr c (aPort - 0x80) in
    Some (u8 (Z.land latch (Z.lor (not8 (geti (mSABPortExternalMask c) index))
                                  (geti (mSABPortExternalLevels c) index)))).

(** ** Interrupt-controller maps *)

(** The pending map computed from the request flags by [sab_irq_sync]. *)
Definition sab_pending_map (tcon scon ircon : Z) : Z :=
  let add (b : bool) (source pending : Z) :=
    if b then Z.lor pending (SAB_IRQ_BIT source) else pending in
  add (has ircon SAB_IRCONMASK_IEX6) EM8051_SAB_IRQ_INT6 (
  add (has ircon SAB_IRCONMASK_IEX5) EM8051_SAB_IRQ_INT5 (
  add (has ircon SAB_IRCONMASK_IEX4) EM8051_SAB_IRQ_INT4 (
  add (has ircon SAB_IRCONMASK_IEX3) EM8051_SAB_IRQ_INT3 (
  add (has ircon SAB_IRCONMASK_IEX2) EM8051_SAB_IRQ_INT2 (
  add (has ircon SAB_IRCONMASK_IADC) EM8051_SAB_IRQ_ADC (
  add (has ircon (Z.lor SAB_IRCONMASK_TF2 SAB_IRCONMASK_EXF2)) EM8051_SAB_IRQ_TIMER2 (
  add (has scon (Z.lor SCONMASK_RI SCONMASK_TI)) EM8051_SAB_IRQ_UART (
  add (has tcon TCONMASK_TF1) EM8051_SAB_IRQ_TIMER1 (
  add (has tcon TCONMASK_IE1) EM8051_SAB_IRQ_INT1 (
  add (has tcon TCONMASK_TF0) EM8051_SAB_IRQ_TIMER0 (
  add (has tcon TCONMASK_IE0) EM8051_SAB_IRQ_INT0 0))))))))))).

(** The enabled map: two loops over the sources around the Timer-2 case. *)
Definition sab_enabled_map (ien0 ien1 : Z) : Z :=
  let low := foldl (fun enabled source =>
    if has ien0 (u8 (Z.shiftl 1 source)) then Z.lor enabled (SAB_IRQ_BIT source) else enabled)
    0 (seqZ EM8051_SAB_IRQ_INT0 5) in
  let mid := if has ien0 IEMASK_ET2 || has ien1 SAB_IEN1MASK_EXEN2
             then Z.lor low (SAB_IRQ_BIT EM8051_SAB_IRQ_TIMER2) else low in
  foldl (fun enabled source =>
    if has ien1 (u8 (Z.shiftl 1 (source - EM8051_SAB_IRQ_ADC)))
    then Z.lor enabled (SAB_IRQ_BIT source) else enabled)
    mid (seqZ EM8051_SAB_IRQ_ADC 6).

Section Ports.
Context {W : Type} {HostW : Host W}.

(** The body of the loop over INT0 and INT1, with the P3 pins. *)
Definition maintain_level (pins source : Z) : M W () :=
  let int0 := source =? EM8051_SAB_EXTERNAL_INT0 in
  let pin_mask := if int0 then 0x04 else 0x08 in
  let mode_mask := if int0 then TCONMASK_IT0 else TCONMASK_IT1 in
  let request_mask := if int0 then TCONMASK_IE0 else TCONMASK_IE1 in
  let sample_bit := sab_external_sample_bit source in
  c ← get_cpu;
  if has (sfr c REG_TCON) mode_mask then
    modify (set_mSABExternalLevelAsserted (clr (mSABExternalLevelAsserted c) sample_bit))
  else if negb (has pins pin_mask) then
    emu_cpu_irq_write REG_TCON (Z.lor (sfr c REG_TCON) request_mask)
      (mMachineCycleCount c) ;;
    modify (fun c => set_mSABExternalLevelAsserted
                       (Z.lor (mSABExternalLevelAsserted c) sample_bit) c)
  else if has (mSABExternalLevelAsserted c) sample_bit then
    modify (set_sfr REG_TCON (clr (sfr c REG_TCON) request_mask)) ;;
    modify (set_mSABExternalLevelAsserted (clr (mSABExternalLevelAsserted c) sample_bit))
  else mret ().

Definition sab_external_maintain_level_requests : M W () :=
  c ← get_cpu;
  if negb (is_sab c) then mret () else
  match em8051_sab_port_get_pins c EM8051_SAB_PORT_P3 with
  | None => mret ()
  | Some pins =>
    for_each [EM8051_SAB_EXTERNAL_INT0; EM8051_SAB_EXTERNAL_INT1] (maintain_level pins)
  end.

Definition sab_irq_sync : M W () :=
  c ← get_cpu;
  let scon := sfr c REG_SCON in
  let ien0 := sfr c (SAB_SFR_INDEX EM8051_SAB_SFR_IEN0) in
  let ien1 := sfr c (SAB_SFR_INDEX EM8051_SAB_SFR_IEN1) in
  let ircon := sfr c (SAB_SFR_INDEX EM8051_SAB_SFR_IRCON) in
  sab_external_maintain_level_requests ;;
  tcon ← gets (fun c => sfr c REG_TCON);
  modify (set_mSABIrqPending (sab_pending_map tcon scon ircon)) ;;
  modify (set_mSABIrqEnabled (sab_enabled_map ien0 ien1)).

(** ** Edge detection *)

Definition sab_external_request_is_set (c : em8051) (aSource : Z) : bool :=
  match sab_external_request_sfr aSource with
  | Some (index, mask) => has (sfr c index) mask
  | None => false
  end.

Definition sab_external_trace_emit (aSource : Z) (aOldLevel aNewLevel : bool)
    (aTrigger : external_trace_trigger) : M W () :=
  c ← get_cpu;
  when (negb (sab_external_trace c =? 0))
    (observe (call_external_trace (sab_external_trace c)
      {| er_machine_cycle := mMachineCycleCount c; er_source := aSource;
         er_old_level := aOldLevel; er_new_level := aNewLevel; er_trigger := aTrigger;
         er_request_pending := sab_external_request_is_set c aSource |}
      (sab_external_trace_user c))).

Definition sab_external_observe_change (aSource : Z) (aOldLevel aNewLevel : bool) : M W () :=
  match sab_external_request_sfr aSource with
  | None => mret ()
  | Some (request_index, request_mask) =>
    c ← get_cpu;
    '(qualifying, trigger) ←
      (if (aSource =? EM8051_SAB_EXTERNAL_INT0) || (aSource =? EM8051_SAB_EXTERNAL_INT1) then
         let mode_mask := if aSource =? EM8051_SAB_EXTERNAL_INT0
                          then TCONMASK_IT0 else TCONMASK_IT1 in
         let sample_bit := sab_external_sample_bit aSource in
         if has (sfr c REG_TCON) mode_mask then
           mret (if aOldLevel && negb aNewLevel
                 then (true, EM8051_SAB_EXTERNAL_TRACE_FALLING_EDGE)
                 else (false, EM8051_SAB_EXTERNAL_TRACE_NON_QUALIFYING))
         else if negb aNewLevel then
           modify (set_mSABExternalLevelAsserted
                     (Z.lor (mSABExternalLevelAsserted c) sample_bit)) ;;
           mret (true, EM8051_SAB_EXTERNAL_TRACE_LOW_LEVEL_ASSERT)
         else
           when (has (mSABExternalLevelAsserted c) sample_bit)
             (modify (set_sfr request_index (clr (sfr c request_index) request_mask))) ;;
           modify (set_mSABExternalLevelAsserted
                     (clr (mSABExternalLevelAsserted c) sample_bit)) ;;
           mret (false, EM8051_SAB_EXTERNAL_TRACE_LEVEL_RELEASE)
       else if (aSource =? EM8051_SAB_EXTERNAL_INT2) || (aSource =? EM8051_SAB_EXTERNAL_INT3) then
         let selection_mask := if aSource =? EM8051_SAB_EXTERNAL_INT2
                               then SAB_T2CONMASK_I2FR else SAB_T2CONMASK_I3FR in
         let select_rising := has (sfr c (SAB_SFR_INDEX EM8051_SAB_SFR_T2CON)) selection_mask in
         let qualifying := if select_rising then negb aOldLevel && aNewLevel
                           else aOldLevel && negb aNewLevel in
         mret (qualifying,
               if qualifying then
                 if select_rising then EM8051_SAB_EXTERNAL_TRACE_RISING_EDGE
                 else EM8051_SAB_EXTERNAL_TRACE_FALLING_EDGE
               else EM8051_SAB_EXTERNAL_TRACE_NON_QUALIFYING)
       else
         let qualifying := negb aOldLevel && aNewLevel in
         mret (qualifying,
               if qualifying then EM8051_SAB_EXTERNAL_TRACE_RISING_EDGE
               else EM8051_SAB_EXTERNAL_TRACE_NON_QUALIFYING));
    c ← get_cpu;
    when qualifying
      (emu_cpu_irq_write request_index (Z.lor (sfr c request_index) request_mask)
         (mMachineCycleCount c)) ;;
    sab_irq_sync ;;
    sab_external_trace_emit aSource aOldLevel aNewLevel trigger
  end.

Definition sab_external_sample_port (aPort : Z) : M W () :=
  c ← get_cpu;
  match em8051_sab_port_get_pins c aPort with
  | None => mret ()
  | Some pins =>
    for_each (seqZ EM8051_SAB_EXTERNAL_INT0 EM8051_SAB_EXTERNAL_SOURCE_COUNT) (fun source =>
      match sab_external_pin source with
      | None => mret ()
      | Some (source_port, pin_mask) =>
        let sample_bit := sab_external_sample_bit source in
        c ← get_cpu;
        let old_level := has (mSABExternalSampledLevels c) sample_bit in
        let new_level := has pins pin_mask in
        if negb (source_port =? aPort) || eqb old_level new_level then mret ()
        else
          modify (set_mSABExternalSampledLevels
            (if new_level then Z.lor (mSABExternalSampledLevels c) sample_bit
             else clr (mSABExternalSampledLevels c) sample_bit)) ;;
          sab_external_observe_change source old_level new_level
      end)
  end.

(** ** Driving ports and external inputs *)

Definition em8051_sab_port_drive (aPort aMask aLevels : Z) : M W bool :=
  c ← get_cpu;
  let index := sab_port_index c aPort in
  if index <? 0 then mret false
  else
    modify (fun c => set_mSABPortExternalLevels
      (seti (mSABPortExternalLevels c) index
        (u8 (Z.lor (clr (geti (mSABPortExternalLevels c) index) aMask) (Z.land aLevels aMask)))) c) ;;
    modify (fun c => set_mSABPortExternalMask
      (seti (mSABPortExternalMask c) index
        (u8 (Z.lor (geti (mSABPortExternalMask c) index) aMask))) c) ;;
    sab_external_sample_port aPort ;;
    mret true.

Definition em8051_sab_port_release (aPort aMask : Z) : M W bool :=
  c ← get_cpu;
  let index := sab_port_index c aPort in
  if index <? 0 then mret false
  else
    modify (fun c => set_mSABPortExternalMask
      (seti (mSABPortExternalMask c) index
        (u8 (clr (geti (mSABPortExternalMask c) index) aMask))) c) ;;
    modify (fun c => set_mSABPortExternalLevels
      (seti (mSABPortExternalLevels c) index
        (u8 (clr (geti (mSABPortExternalLevels c) index) aMask))) c) ;;
    sab_external_sample_port aPort ;;
    mret true.

Definition em8051_sab_external_drive (aSource : Z) (aLevel : bool) : M W bool :=
  c ← get_cpu;
  match (if is_sab c then sab_external_pin aSource else None) with
  | None => mret false
  | Some (port, mask) => em8051_sab_port_drive port mask (if aLevel then mask else 0)
  end.

Definition em8051_sab_external_release (aSource : Z) : M W bool :=
  c ← get_cpu;
  match (if is_sab c then sab_external_pin aSource else None) with
  | None => mret false
  | Some (port, mask) => em8051_sab_port_release port mask
  end.

(** ** The stimulus schedule: a ring of 64 events *)

Definition sab_external_apply_event (aEvent : schedule_event) : M W bool :=
  if se_action aEvent =? EM8051_SAB_EXTERNAL_SCHEDULE_DRIVE then
    em8051_sab_external_drive (se_source aEvent) (se_level aEvent)
  else em8051_sab_external_release (se_source aEvent).

Definition em8051_sab_external_schedule (aEvent : schedule_event) : M W bool :=
  c ← get_cpu;
  if negb (is_sab c) || (EM8051_SAB_EXTERNAL_SOURCE_COUNT <=? u32 (se_source aEvent)) ||
     (EM8051_SAB_EXTERNAL_SCHEDULE_RELEASE <? u32 (se_action aEvent)) ||
     (se_machine_cycle aEvent <? mMachineCycleCount c) then mret false
  else if se_machine_cycle aEvent =? mMachineCycleCount c then sab_external_apply_event aEvent
  else
    let head := mSABExternalScheduleHead c in
    let count := mSABExternalScheduleCount c in
    in_order ←
      (if count =? 0 then mret true
       else
         last ← in_range (aget (mSABExternalSchedule c)
                 (u8 ((head + count - 1) mod EM8051_SAB_EXTERNAL_SCHEDULE_CAPACITY)));
         mret (se_machine_cycle last <=? se_machine_cycle aEvent));
    if negb in_order || (EM8051_SAB_EXTERNAL_SCHEDULE_CAPACITY <=? count) then mret false
    else
      schedule ← in_range (aset (mSABExternalSchedule c)
        (u8 ((head + count) mod EM8051_SAB_EXTERNAL_SCHEDULE_CAPACITY)) aEvent);
      modify (set_mSABExternalSchedule schedule) ;;
      modify (set_mSABExternalScheduleCount (count + 1)) ;;
      mret true.

Definition em8051_sab_external_clear_schedule : M W () :=
  c ← get_cpu;
  when (is_sab c)
    (modify (set_mSABExternalScheduleHead 0) ;; modify (set_mSABExternalScheduleCount 0)).

Definition em8051_sab_external_scheduled_count (c : em8051) : Z :=
  if is_sab c then mSABExternalScheduleCount c else 0.

(** The loop of [sab_external_apply_scheduled]. Every iteration lowers the
    8-bit event count, so 256 iterations are enough. *)
Fixpoint apply_scheduled_loop (fuel : nat) : M W () :=
  match fuel with
  | O => fun _ => NoFuel
  | S fuel =>
    c ← get_cpu;
    if is_sab c && negb (mSABExternalScheduleCount c =? 0) then
      event ← in_range (aget (mSABExternalSchedule c) (mSABExternalScheduleHead c));
      if mMachineCycleCount c <? se_machine_cycle event then mret ()
      else
        modify (set_mSABExternalScheduleHead
          ((mSABExternalScheduleHead c + 1) mod EM8051_SAB_EXTERNAL_SCHEDULE_CAPACITY)) ;;
        modify (set_mSABExternalScheduleCount (mSABExternalScheduleCount c - 1)) ;;
        _ ← sab_external_apply_event event;
        apply_scheduled_loop fuel
    else mret ()
  end.

Definition sab_external_apply_scheduled : M W () :=
  apply_scheduled_loop 256 ;;
  c ← get_cpu;
  when (mSABExternalScheduleCount c =? 0) (modify (set_mSABExternalScheduleHead 0)).

End Ports.
