(* ===== verification/Uart.v ===== *)
(** The SAB80535 mode-3 9-bit UART (src/core.c): sab_uart_*, and the classic
    serial output serial_tx. *)
From S2P Require Import Prelude State Machine Ports.

Definition sab_uart_mode3 (c : em8051) : bool :=
  is_sab c &&
  (Z.land (sfr c REG_SCON) (Z.lor SCONMASK_SM0 SCONMASK_SM1) =? Z.lor SCONMASK_SM0 SCONMASK_SM1) &&
  (Z.land (sfr c (SAB_SFR_INDEX EM8051_SAB_SFR_ADCON)) SAB_ADCONMASK_BD =? 0).

(** The new phase, and whether it is a bit boundary. *)
Definition sab_uart_divider_step (aPhase : Z) (aSmod : bool) : Z * bool :=
  let phase := u8 (Z.land (aPhase + 1) 0x1f) in
  (phase, (phase =? 0) || (aSmod && (phase =? 16))).

Definition sab_uart_tx_bit_value (c : em8051) (aBitIndex : Z) : bool :=
  if aBitIndex =? 0 then false
  else if aBitIndex <=? 8 then
    negb (Z.land (Z.shiftr (mSABUartTxData c) (aBitIndex - 1)) 1 =? 0)
  else if aBitIndex =? 9 then mSABUartTxNinth c
  else true.

Section Uart.
Context {W : Type} {HostW : Host W}.

Definition sab_uart_trace_emit (aEvent : uart_trace_event) (aMachineCycle aData : Z)
    (aNinthBit : bool) (aBitIndex : Z) (aBitValue : bool) : M W () :=
  c ← get_cpu;
  when (negb (sab_uart_trace c =? 0))
    (observe (call_uart_trace (sab_uart_trace c)
      {| ur_event := aEvent; ur_machine_cycle := aMachineCycle; ur_pc := mPC c;
         ur_data := aData; ur_ninth_bit := aNinthBit; ur_bit_index := aBitIndex;
         ur_bit_value := aBitValue |} (sab_uart_trace_user c))).

Definition raw (kind : raw_fact) (cycle a b c d : Z) : M W () :=
  _ ← emu_cpu_raw kind cycle a b c d; mret ().

Definition sab_uart_tx_start (aMachineCycle : Z) : M W () :=
  c ← get_cpu;
  modify (set_mSABUartTxData (mSABUartTxPendingData c)) ;;
  modify (set_mSABUartTxNinth (mSABUartTxPendingNinth c)) ;;
  modify (set_mSABUartTxPending false) ;;
  modify (set_mSABUartTxActive true) ;;
  modify (set_mSABUartTxBitIndex 0) ;;
  c ← get_cpu;
  raw EMU_RAW_TX_START aMachineCycle (mSABUartTxData c) (Z.b2z (mSABUartTxNinth c)) 0 0 ;;
  sab_uart_trace_emit EM8051_SAB_UART_TRACE_TX_START aMachineCycle (mSABUartTxData c)
    (mSABUartTxNinth c) 0 false.

Definition sab_uart_tx_boundary (aMachineCycle : Z) : M W () :=
  c ← get_cpu;
  if negb (mSABUartTxActive c) then
    when (mSABUartTxPending c) (sab_uart_tx_start aMachineCycle)
  else if mSABUartTxBitIndex c <? 9 then
    modify (set_mSABUartTxBitIndex (mSABUartTxBitIndex c + 1)) ;;
    c ← get_cpu;
    sab_uart_trace_emit EM8051_SAB_UART_TRACE_TX_BIT aMachineCycle (mSABUartTxData c)
      (mSABUartTxNinth c) (mSABUartTxBitIndex c)
      (sab_uart_tx_bit_value c (mSABUartTxBitIndex c))
  else if mSABUartTxBitIndex c =? 9 then
    modify (set_mSABUartTxBitIndex 10) ;;
    let ti_edge := negb (has (sfr c REG_SCON) SCONMASK_TI) in
    emu_cpu_irq_write REG_SCON (Z.lor (sfr c REG_SCON) SCONMASK_TI) aMachineCycle ;;
    raw EMU_RAW_TX_STOP aMachineCycle 0 0 0 0 ;;
    when ti_edge (raw EMU_RAW_TX_TI aMachineCycle 0 0 0 0) ;;
    sab_uart_trace_emit EM8051_SAB_UART_TRACE_TX_STOP aMachineCycle (mSABUartTxData c)
      (mSABUartTxNinth c) 10 true
  else
    raw EMU_RAW_TX_END aMachineCycle 0 0 0 0 ;;
    sab_uart_trace_emit EM8051_SAB_UART_TRACE_TX_END aMachineCycle (mSABUartTxData c)
      (mSABUartTxNinth c) 10 true ;;
    b ← em8051_execution_aborted;
    if b then mret ()
    else
      modify (set_mSABUartTxActive false) ;;
      when (mSABUartTxPending c) (sab_uart_tx_start aMachineCycle).

(** The acceptance test of a received frame at its STOP bit. *)
Definition sab_uart_rx_accepts (c : em8051) : bool :=
  negb (has (sfr c REG_SCON) SCONMASK_RI) &&
  (negb (has (sfr c REG_SCON) SCONMASK_SM2) || mSABUartRxPendingNinth c).

Definition sab_uart_rx_boundary (aMachineCycle : Z) : M W () :=
  modify (fun c => set_mSABUartRxBitIndex (mSABUartRxBitIndex c + 1) c) ;;
  c ← get_cpu;
  let data := mSABUartRxPendingData c in
  let ninth := mSABUartRxPendingNinth c in
  if mSABUartRxBitIndex c =? 10 then
    if sab_uart_rx_accepts c then
      modify (set_mSABUartRxData data) ;;
      modify (fun c => set_sfr REG_SBUF (mSABUartRxData c) c) ;;
      modify (fun c => set_sfr REG_SCON (clr (sfr c REG_SCON) SCONMASK_RB8) c) ;;
      when ninth
        (modify (fun c => set_sfr REG_SCON (Z.lor (sfr c REG_SCON) SCONMASK_RB8) c)) ;;
      scon ← gets (fun c => sfr c REG_SCON);
      emu_cpu_irq_write REG_SCON (Z.lor scon SCONMASK_RI) aMachineCycle ;;
      raw EMU_RAW_RX_ACCEPT aMachineCycle data (Z.b2z ninth) 0 0 ;;
      sab_uart_trace_emit EM8051_SAB_UART_TRACE_RX_ACCEPT aMachineCycle data ninth 10 true
    else
      raw EMU_RAW_RX_DROP aMachineCycle
        (if has (sfr c REG_SCON) SCONMASK_RI then EMUIF_OBS_REASON_RI else EMUIF_OBS_REASON_SM2)
        0 0 0 ;;
      sab_uart_trace_emit EM8051_SAB_UART_TRACE_RX_DROP aMachineCycle data ninth 10 true
  else if mSABUartRxBitIndex c =? 11 then
    modify (set_mSABUartRxActive false) ;;
    raw EMU_RAW_RX_END aMachineCycle 0 0 0 0 ;;
    sab_uart_trace_emit EM8051_SAB_UART_TRACE_RX_END aMachineCycle data ninth 10 true
  else mret ().

Definition sab_uart_timer1_overflow : M W () :=
  c ← get_cpu;
  if negb (sab_uart_mode3 c) then mret () else
  let smod := has (sfr c REG_PCON) PCONMASK_SMOD in
  let completed_cycle := u64 (mMachineCycleCount c + 1) in
  let '(phase, boundary) := sab_uart_divider_step (mSABUartDividerPhase c) smod in
  modify (set_mSABUartDividerPhase phase) ;;
  when boundary (sab_uart_tx_boundary completed_cycle) ;;
  b ← em8051_execution_aborted;
  if b then mret () else
  c ← get_cpu;
  if mSABUartRxActive c then
    let '(rx_phase, rx_boundary) := sab_uart_divider_step (mSABUartRxDividerPhase c) smod in
    modify (set_mSABUartRxDividerPhase rx_phase) ;;
    when rx_boundary (sab_uart_rx_boundary completed_cycle)
  else mret ().

Definition sab_uart_sbuf_write (aValue : Z) : M W () :=
  c ← get_cpu;
  if negb (sab_uart_mode3 c) then mret () else
  modify (set_mSABUartTxPendingData aValue) ;;
  modify (set_mSABUartTxPendingNinth (has (sfr c REG_SCON) SCONMASK_TB8)) ;;
  modify (set_mSABUartTxPending true) ;;
  raw EMU_RAW_TX_HOLD (mMachineCycleCount c) aValue
    (Z.b2z (has (sfr c REG_SCON) SCONMASK_TB8)) 0 0.

Definition em8051_sab_uart_inject_rx_frame (aData : Z) (aNinthBit : bool) : M W bool :=
  c ← get_cpu;
  if negb (sab_uart_mode3 c) || negb (has (sfr c REG_SCON) SCONMASK_REN) || mSABUartRxActive c
  then mret false
  else
    modify (set_mSABUartRxPendingData aData) ;;
    modify (set_mSABUartRxPendingNinth aNinthBit) ;;
    modify (set_mSABUartRxDividerPhase 0) ;;
    modify (set_mSABUartRxBitIndex 0) ;;
    modify (set_mSABUartRxActive true) ;;
    raw EMU_RAW_RX_START (mMachineCycleCount c) aData (Z.b2z aNinthBit) 0 0 ;;
    sab_uart_trace_emit EM8051_SAB_UART_TRACE_RX_START (mMachineCycleCount c) aData aNinthBit
      0 false ;;
    mret true.

(** The inherited classic serial shortcut. [tx_bit] is the C conversion of the
    shifted register to bool; SBUF is promoted to a 32-bit int, so a shift by 32
    or more is undefined. *)
Definition serial_tx : M W () :=
  c ← get_cpu;
  if serial_out_remaining_bits c =? 0 then mret () else
  modify (set_serial_out_remaining_bits (serial_out_remaining_bits c - 1)) ;;
  c ← get_cpu;
  if 32 <=? serial_out_remaining_bits c then undef else
  let tx_bit := negb (Z.shiftr (sfr c REG_SBUF) (serial_out_remaining_bits c) =? 0) in
  modify (set_sfr REG_P3 (clr (sfr c REG_P3) (Z.shiftl 1 1))) ;;
  when tx_bit (modify (fun c => set_sfr REG_P3 (Z.lor (sfr c REG_P3) (Z.shiftl 1 1)) c)) ;;
  when (serial_out_remaining_bits c =? 0)
    (out ← in_range (aset (serial_out c) (serial_out_idx c) (sfr c REG_SBUF));
     modify (set_serial_out out) ;;
     modify (set_serial_out_idx ((serial_out_idx c + 1) mod 18)) ;;
     modify (fun c => set_sfr REG_SCON (Z.lor (sfr c REG_SCON) (Z.shiftl 1 1)) c) ;;
     when (has (sfr c REG_IE) IEMASK_ES) (modify (set_serial_interrupt_trigger true))).

End Uart.
