(* ===== verification/Adc.v ===== *)
(** The SAB80535 single-conversion ADC (src/core.c): sab_adc_*. *)
From S2P Require Import Prelude State Machine Ports.

Definition sab_adc_set_busy (aBusy : bool) (c : em8051) : em8051 :=
  let i := SAB_SFR_INDEX EM8051_SAB_SFR_ADCON in
  let c := set_mSABADCBusy aBusy c in
  if aBusy then set_sfr i (Z.lor (sfr c i) SAB_ADCONMASK_BSY) c
  else set_sfr i (clr (sfr c i) SAB_ADCONMASK_BSY) c.

Definition sab_adc_references_valid (aDAPR : Z) : bool :=
  let lower := u8 (Z.land aDAPR 0x0f) in
  let upper_nibble := u8 (Z.shiftr aDAPR 4) in
  let upper := if upper_nibble =? 0 then 16 else upper_nibble in
  if (12 <? lower) || (negb (upper_nibble =? 0) && (upper_nibble <? 4)) || (upper <? lower)
  then false
  else 4 <=? u8 (upper - lower).

(** 32-bit unsigned arithmetic throughout; [u8] at the return. *)
Definition sab_adc_convert (aInput aDAPR : Z) : Z :=
  let lower := u32 (Z.land aDAPR 0x0f) in
  let upper_nibble := u32 (Z.shiftr aDAPR 4) in
  let upper := if upper_nibble =? 0 then 16 else upper_nibble in
  let scaled_input := u32 (16 * u32 aInput) in
  let lower_endpoint := u32 (65535 * lower) in
  let upper_endpoint := u32 (65535 * upper) in
  if scaled_input <=? lower_endpoint then 0
  else if upper_endpoint <=? scaled_input then 0xff
  else
    let numerator := u32 (u32 (scaled_input - lower_endpoint) * 256) in
    let denominator := u32 (65535 * u32 (upper - lower)) in
    let result := numerator / denominator in
    u8 (if 0xff <? result then 0xff else result).

Definition sab_adc_request_start (c : em8051) : em8051 :=
  let c := if negb (mSABADCStartPending c)
           then set_mSABADCArmRestart (mSABADCActive c || mSABADCArmed c) c else c in
  set_mSABADCStartPending true
    (set_mSABADCCycles 0 (set_mSABADCArmed false (set_mSABADCActive false c))).

Definition sab_adc_finish_sfr_transaction (c : em8051) : em8051 :=
  if negb (is_sab c) then c else
  let c := if negb (mSABSfrWriteDepth c =? 0)
           then set_mSABSfrWriteDepth (mSABSfrWriteDepth c - 1) c else c in
  let c := sab_adc_set_busy (mSABADCBusy c) c in
  if (mSABSfrWriteDepth c =? 0) && mSABADCStartPending c
  then set_mSABADCArmed true (set_mSABADCStartPending false c)
  else c.

Definition em8051_sab_adc_set_input (aChannel aNormalizedInput : Z) (c : em8051) : bool * em8051 :=
  if negb (is_sab c) || (EM8051_SAB_ADC_CHANNEL_COUNT <=? aChannel) then (false, c)
  else (true, set_mSABADCInputs (seti (mSABADCInputs c) aChannel (u16 aNormalizedInput)) c).

(** The sample and the mode latched in the first cycle of a conversion. *)
Definition sab_adc_latch (c : em8051) : em8051 :=
  let adcon := sfr c (SAB_SFR_INDEX EM8051_SAB_SFR_ADCON) in
  let c := set_mSABADCLatchedChannel (Z.land adcon SAB_ADCONMASK_MX) c in
  let c := set_mSABADCLatchedDAPR (sfr c (SAB_SFR_INDEX EM8051_SAB_SFR_DAPR)) c in
  let c := set_mSABADCLatchedInput (geti (mSABADCInputs c) (mSABADCLatchedChannel c)) c in
  let c := set_mSABADCReferenceValid (sab_adc_references_valid (mSABADCLatchedDAPR c)) c in
  let c := set_mSABADCContinuousRequested (has adcon SAB_ADCONMASK_ADM) c in
  sab_adc_set_busy true
    (set_mSABADCCycles 1 (set_mSABADCActive true (set_mSABADCArmed false c))).

Section Adc.
Context {W : Type} {HostW : Host W}.

Definition sab_adc_trace_emit (aEvent : adc_trace_event) (aMachineCycle : Z) : M W () :=
  c ← get_cpu;
  when (negb (sab_adc_trace c =? 0))
    (observe (call_adc_trace (sab_adc_trace c)
      {| ar_event := aEvent; ar_machine_cycle := aMachineCycle;
         ar_channel := mSABADCLatchedChannel c; ar_dapr := mSABADCLatchedDAPR c;
         ar_normalized_input := mSABADCLatchedInput c;
         ar_addat := sfr c (SAB_SFR_INDEX EM8051_SAB_SFR_ADDAT);
         ar_busy := mSABADCBusy c;
         ar_iadc := has (sfr c (SAB_SFR_INDEX EM8051_SAB_SFR_IRCON)) SAB_IRCONMASK_IADC;
         ar_references_valid := mSABADCReferenceValid c;
         ar_continuous_requested := mSABADCContinuousRequested c |} (sab_adc_trace_user c))).

Definition sab_adc_tick : M W () :=
  c ← get_cpu;
  if negb (is_sab c) || mSABADCStartPending c then mret () else
  let machine_cycle := u64 (mMachineCycleCount c + 1) in
  if mSABADCArmed c then
    modify sab_adc_latch ;;
    sab_adc_trace_emit (if mSABADCArmRestart c then EM8051_SAB_ADC_TRACE_RESTART
                        else EM8051_SAB_ADC_TRACE_START) machine_cycle ;;
    modify (set_mSABADCArmRestart false)
  else if negb (mSABADCActive c) then mret ()
  else
    modify (set_mSABADCCycles (mSABADCCycles c + 1)) ;;
    c ← get_cpu;
    if mSABADCCycles c <? 15 then mret ()
    else
      when (mSABADCReferenceValid c)
        (modify (set_sfr (SAB_SFR_INDEX EM8051_SAB_SFR_ADDAT)
          (sab_adc_convert (mSABADCLatchedInput c) (mSABADCLatchedDAPR c)))) ;;
      modify (set_mSABADCActive false) ;;
      modify (sab_adc_set_busy false) ;;
      ircon ← gets (fun c => sfr c (SAB_SFR_INDEX EM8051_SAB_SFR_IRCON));
      emu_cpu_irq_write (SAB_SFR_INDEX EM8051_SAB_SFR_IRCON)
        (Z.lor ircon SAB_IRCONMASK_IADC) machine_cycle ;;
      sab_irq_sync ;;
      sab_adc_trace_emit EM8051_SAB_ADC_TRACE_COMPLETE machine_cycle.

End Adc.
