(* ===== verification/Irq.v ===== *)
(** The Siemens interrupt controller (src/core.c): priorities, request flags,
    vector-entry clearing and RETI. Arbitration itself (handle_sab_interrupts)
    pushes on the CPU stack and is modelled in Interrupts.v. *)
From S2P Require Import Prelude State Machine Ports.

Definition gSABIrqVectors : list Z :=
  [EM8051_SAB_VECTOR_INT0; EM8051_SAB_VECTOR_TIMER0; EM8051_SAB_VECTOR_INT1;
   EM8051_SAB_VECTOR_TIMER1; EM8051_SAB_VECTOR_UART; EM8051_SAB_VECTOR_TIMER2;
   EM8051_SAB_VECTOR_ADC; EM8051_SAB_VECTOR_INT2; EM8051_SAB_VECTOR_INT3;
   EM8051_SAB_VECTOR_INT4; EM8051_SAB_VECTOR_INT5; EM8051_SAB_VECTOR_INT6].

Definition sab_irq_arm_inhibit (c : em8051) : em8051 :=
  set_mSABIrqInhibitInstructions (if mInInstruction c then 2 else 1) c.

Definition sab_irq_priority (c : em8051) (aSource : Z) : Z :=
  let pair := if EM8051_SAB_IRQ_ADC <=? aSource then aSource - EM8051_SAB_IRQ_ADC else aSource in
  let bit := u8 (Z.shiftl 1 pair) in
  let ip0 := sfr c (SAB_SFR_INDEX EM8051_SAB_SFR_IP0) in
  let ip1 := sfr c (SAB_SFR_INDEX EM8051_SAB_SFR_IP1) in
  u8 (Z.lor (if has ip0 bit then 1 else 0) (if has ip1 bit then 2 else 0)).

Definition sab_irq_timer2_is_enabled (c : em8051) : bool :=
  let ien0 := sfr c (SAB_SFR_INDEX EM8051_SAB_SFR_IEN0) in
  let ien1 := sfr c (SAB_SFR_INDEX EM8051_SAB_SFR_IEN1) in
  let ircon := sfr c (SAB_SFR_INDEX EM8051_SAB_SFR_IRCON) in
  (has ircon SAB_IRCONMASK_TF2 && has ien0 IEMASK_ET2) ||
  (has ircon SAB_IRCONMASK_EXF2 && has ien1 SAB_IEN1MASK_EXEN2).

Definition sab_irq_auto_clear (aSource : Z) (c : em8051) : em8051 :=
  let tcon := sfr c REG_TCON in
  let i := SAB_SFR_INDEX EM8051_SAB_SFR_IRCON in
  if aSource =? EM8051_SAB_IRQ_INT0 then
    if has tcon TCONMASK_IT0 then set_sfr REG_TCON (clr tcon TCONMASK_IE0) c else c
  else if aSource =? EM8051_SAB_IRQ_TIMER0 then set_sfr REG_TCON (clr tcon TCONMASK_TF0) c
  else if aSource =? EM8051_SAB_IRQ_INT1 then
    if has tcon TCONMASK_IT1 then set_sfr REG_TCON (clr tcon TCONMASK_IE1) c else c
  else if aSource =? EM8051_SAB_IRQ_TIMER1 then set_sfr REG_TCON (clr tcon TCONMASK_TF1) c
  else if (EM8051_SAB_IRQ_INT2 <=? aSource) && (aSource <=? EM8051_SAB_IRQ_INT6) then
    set_sfr i (clr (sfr c i) (Z.shiftl 1 (aSource - EM8051_SAB_IRQ_ADC))) c
  else c.

(** The request register and the mask of both members of a source. *)
Definition sab_irq_request_flag (aSource : Z) : option (Z * Z) :=
  let ircon := SAB_SFR_INDEX EM8051_SAB_SFR_IRCON in
  if aSource =? EM8051_SAB_IRQ_INT0 then Some (REG_TCON, TCONMASK_IE0)
  else if aSource =? EM8051_SAB_IRQ_TIMER0 then Some (REG_TCON, TCONMASK_TF0)
  else if aSource =? EM8051_SAB_IRQ_INT1 then Some (REG_TCON, TCONMASK_IE1)
  else if aSource =? EM8051_SAB_IRQ_TIMER1 then Some (REG_TCON, TCONMASK_TF1)
  else if aSource =? EM8051_SAB_IRQ_UART then Some (REG_SCON, Z.lor SCONMASK_RI SCONMASK_TI)
  else if aSource =? EM8051_SAB_IRQ_TIMER2 then
    Some (ircon, Z.lor SAB_IRCONMASK_TF2 SAB_IRCONMASK_EXF2)
  else if aSource =? EM8051_SAB_IRQ_ADC then Some (ircon, SAB_IRCONMASK_IADC)
  else if (EM8051_SAB_IRQ_INT2 <=? aSource) && (aSource <=? EM8051_SAB_IRQ_INT6) then
    Some (ircon, u8 (Z.shiftl 1 (aSource - EM8051_SAB_IRQ_ADC)))
  else None.

Section Irq.
Context {W : Type} {HostW : Host W}.

Definition sab_irq_trace_emit (aEvent : irq_trace_event) (aSource aPriority : Z)
    (aAsserted : bool) (aPendingSnapshot : Z) : M W () :=
  c ← get_cpu;
  when (negb (sab_irq_trace c =? 0))
    (observe (call_irq_trace (sab_irq_trace c)
      {| ir_event := aEvent; ir_machine_cycle := mMachineCycleCount c;
         ir_pc := if mInInstruction c then mTracePC c else mPC c;
         ir_source := aSource; ir_priority := aPriority; ir_asserted := aAsserted;
         ir_global_enabled := has (sfr c (SAB_SFR_INDEX EM8051_SAB_SFR_IEN0)) IEMASK_EA;
         ir_pending_mask := aPendingSnapshot; ir_enabled_mask := mSABIrqEnabled c;
         ir_in_service_mask := mSABIrqInService c;
         ir_in_service_depth := mSABIrqDepth c |} (sab_irq_trace_user c))).

Definition em8051_sab_irq_set_pending (aSource : Z) (aPending : bool) : M W bool :=
  c ← get_cpu;
  if negb (is_sab c) || (EM8051_SAB_IRQ_SOURCE_COUNT <=? u32 aSource) then mret false else
  match sab_irq_request_flag aSource with
  | None => mret false
  | Some (request_index, request_mask) =>
    (if aPending then
       let request_mask :=
         if aSource =? EM8051_SAB_IRQ_UART then SCONMASK_RI
         else if aSource =? EM8051_SAB_IRQ_TIMER2 then SAB_IRCONMASK_TF2 else request_mask in
       emu_cpu_irq_write request_index (Z.lor (sfr c request_index) request_mask)
         (mMachineCycleCount c)
     else modify (set_sfr request_index (clr (sfr c request_index) request_mask))) ;;
    sab_irq_sync ;;
    c ← get_cpu;
    sab_irq_trace_emit EM8051_SAB_IRQ_TRACE_REQUEST aSource (sab_irq_priority c aSource)
      aPending (mSABIrqPending c) ;;
    mret true
  end.

(** The PSW bits RETI compares. *)
Definition PSW_CHECKED : Z :=
  Z.lor PSWMASK_OV (Z.lor PSWMASK_RS0 (Z.lor PSWMASK_RS1 (Z.lor PSWMASK_AC PSWMASK_C))).

(** The three saved-register comparisons of a return from interrupt, against
    entry [index] of the arrays [accs], [psws] and [sps] of the CPU; [true] when
    an abort was requested, which ends the instruction. *)
Definition iret_checks (accs psws sps : em8051 -> list Z) (index aOriginalSP : Z) : M W bool :=
  c ← get_cpu;
  acc ← in_range (aget (accs c) index);
  when (negb (acc =? sfr c REG_ACC)) (em8051_raise_exception EXCEPTION_IRET_ACC_MISMATCH) ;;
  b ← em8051_execution_aborted;
  if b then mret true else
  c ← get_cpu;
  sp ← in_range (aget (sps c) index);
  when (negb (sp =? aOriginalSP)) (em8051_raise_exception EXCEPTION_IRET_SP_MISMATCH) ;;
  b ← em8051_execution_aborted;
  if b then mret true else
  c ← get_cpu;
  psw ← in_range (aget (psws c) index);
  if negb (Z.land psw PSW_CHECKED =? Z.land (sfr c REG_PSW) PSW_CHECKED) then
    em8051_raise_exception EXCEPTION_IRET_PSW_MISMATCH ;;
    em8051_execution_aborted
  else mret false.

Definition em8051_sab_irq_reti (aOriginalSP : Z) : M W () :=
  c ← get_cpu;
  if negb (is_sab c) then mret () else
  let depth := mSABIrqDepth c in
  if depth =? 0 then modify sab_irq_arm_inhibit
  else
    let index := u8 (depth - 1) in
    source ← in_range (aget (mSABIrqSourceStack c) index);
    priority ← in_range (aget (mSABIrqPriorityStack c) index);
    aborted ← iret_checks mSABIrqSavedACC mSABIrqSavedPSW mSABIrqSavedSP index aOriginalSP;
    if aborted then mret ()
    else
      modify (set_mSABIrqDepth index) ;;
      modify (fun c => set_mSABIrqInService
        (Z.land (mSABIrqInService c) (u16 (Z.lnot (SAB_IRQ_BIT source)))) c) ;;
      sab_irq_sync ;;
      c ← get_cpu;
      sab_irq_trace_emit EM8051_SAB_IRQ_TRACE_RELEASE source priority false (mSABIrqPending c) ;;
      modify sab_irq_arm_inhibit.

End Irq.
