(* ===== verification/Sfr.v ===== *)
(** The SFR access gateways of src/core.c: em8051_sfr_read,
    em8051_sfr_rmw_read and em8051_sfr_write. *)
From S2P Require Import Prelude State Machine Ports Uart Adc Irq.

Section Sfr.
Context {W : Type} {HostW : Host W}.

Definition em8051_sfr_read (aAddress : Z) : M W Z :=
  if aAddress <? 0x80 then mret 0xff else
  c ← get_cpu;
  let index := u8 (aAddress - 0x80) in
  p ← in_range (aget (sfrread c) index);
  if negb (p =? 0) then callback8 (call_sfrread p aAddress)
  else if is_sab c && (aAddress =? u8 (REG_SBUF + 0x80)) then mret (mSABUartRxData c)
  else match em8051_sab_port_get_pins c aAddress with
       | Some pins => mret pins
       | None => in_range (aget (mSFR c) index)
       end.

Definition em8051_sfr_rmw_read (aAddress : Z) : M W Z :=
  if aAddress <? 0x80 then mret 0xff else
  c ← get_cpu;
  match em8051_sab_port_get_latch c aAddress with
  | Some latch => mret latch
  | None => em8051_sfr_read aAddress
  end.

(** The installed write callback of an SFR, if any. *)
Definition sfr_write_callback (index aAddress : Z) : M W () :=
  c ← get_cpu;
  p ← in_range (aget (sfrwrite c) index);
  when (negb (p =? 0)) (callback (call_sfrwrite p aAddress)).

(** A write to SBUF on the SAB80535: the byte goes to the transmitter, the
    mirror keeps the received byte. *)
Definition sab_sbuf_write (index aAddress aValue : Z) : M W () :=
  c ← get_cpu;
  observed_access ← emu_cpu_raw EMU_RAW_ACCESS_BEGIN (mMachineCycleCount c) aAddress
    EMUIF_SPACE_SFR EMUIF_OBS_ACCESS_WRITE aValue;
  b ← em8051_execution_aborted;
  if b then mret () else
  sab_uart_sbuf_write aValue ;;
  modify (set_sfr index aValue) ;;
  sfr_write_callback index aAddress ;;
  b ← em8051_execution_aborted;
  c ← get_cpu;
  let access_end := fun cycle => raw EMU_RAW_ACCESS_END cycle observed_access aAddress
    (Z.lor (Z.shiftl EMUIF_SPACE_SFR 16) EMUIF_OBS_ACCESS_WRITE) aValue in
  if b then access_end (mMachineCycleCount c)
  else
    modify (set_sfr index (mSABUartRxData c)) ;;
    em8051_trace_emit EM8051_TRACE_SFR_WRITE aAddress aValue ;;
    modify sab_adc_finish_sfr_transaction ;;
    access_end (mMachineCycleCount c).

Definition is_irq_control_sfr (aAddress : Z) : bool :=
  (aAddress =? EM8051_SAB_SFR_IEN0) || (aAddress =? EM8051_SAB_SFR_IEN1) ||
  (aAddress =? EM8051_SAB_SFR_IP0) || (aAddress =? EM8051_SAB_SFR_IP1).

Definition em8051_sfr_write (aAddress aValue : Z) : M W () :=
  if aAddress <? 0x80 then mret () else
  let index := u8 (aAddress - 0x80) in
  c ← get_cpu;
  let sab := is_sab c in
  when sab (modify (set_mSABSfrWriteDepth (mSABSfrWriteDepth c + 1))) ;;
  let aValue :=
    if sab && (aAddress =? EM8051_SAB_SFR_ADCON)
    then u8 (Z.lor (clr aValue SAB_ADCONMASK_BSY)
                   (if mSABADCBusy c then SAB_ADCONMASK_BSY else 0))
    else aValue in
  if sab && (aAddress =? u8 (REG_SBUF + 0x80)) then sab_sbuf_write index aAddress aValue
  else
    emu_cpu_irq_write index aValue (mMachineCycleCount c) ;;
    when (sab && (aAddress =? EM8051_SAB_SFR_DAPR)) (modify sab_adc_request_start) ;;
    sfr_write_callback index aAddress ;;
    b ← em8051_execution_aborted;
    if b then mret () else
    c ← get_cpu;
    when (0 <=? sab_port_index c aAddress) (sab_external_sample_port aAddress) ;;
    em8051_trace_emit EM8051_TRACE_SFR_WRITE aAddress aValue ;;
    c ← get_cpu;
    when (is_sab c && is_irq_control_sfr aAddress) (modify sab_irq_arm_inhibit) ;;
    modify sab_adc_finish_sfr_transaction.

End Sfr.
