(* ===== verification/Memory.v ===== *)
(** Memory accesses of the opcode engine (src/opcodes.c, top of the file):
    code, direct and indirect data memory, the stack, and MOVX records. *)
From S2P Require Import Prelude State Machine Ports Uart Adc Irq Sfr.

Section Memory.
Context {W : Type} {HostW : Host W}.

(** A dereference [p[i]] of a buffer pointer: NULL and out-of-range indexes
    are undefined. *)
Definition load (p : option nat) (i : Z) : M W Z :=
  c ← get_cpu;
  b ← in_range p;
  buffer ← in_range (heap c !! b);
  in_range (aget buffer i).

Definition store (p : option nat) (i v : Z) : M W () :=
  c ← get_cpu;
  b ← in_range p;
  buffer ← in_range (heap c !! b);
  buffer' ← in_range (aset buffer i (u8 v));
  modify (set_heap (<[b := buffer']> (heap c))).

Definition lower_get (i : Z) : M W Z := c ← get_cpu; in_range (aget (mLowerData c) i).
Definition lower_set (i v : Z) : M W () :=
  c ← get_cpu;
  l ← in_range (aset (mLowerData c) i (u8 v));
  modify (set_mLowerData l).

(** The macros CODEMEM and EXTDATA. *)
Definition CODEMEM (x : Z) : M W Z :=
  c ← get_cpu; load (mCodeMem c) (Z.land x (mCodeMemMaxIdx c)).
Definition EXTDATA (x : Z) : M W Z :=
  c ← get_cpu; load (mExtData c) (Z.land x (mExtDataMaxIdx c)).
Definition EXTDATA_set (x v : Z) : M W () :=
  c ← get_cpu; store (mExtData c) (Z.land x (mExtDataMaxIdx c)) v.

Definition emu_cpu_operand (offset : Z) : M W Z :=
  c ← get_cpu;
  value ← CODEMEM (mPC c + offset);
  when (negb (mObservation c =? 0))
    (raw EMU_RAW_OPERAND (mMachineCycleCount c) offset value 0 0) ;;
  mret value.

Definition OPCODE : M W Z := c ← get_cpu; CODEMEM (mPC c + 0).
Definition OPERAND1 : M W Z := emu_cpu_operand 1.
Definition OPERAND2 : M W Z := emu_cpu_operand 2.

Definition PSW_BANK (c : em8051) : Z :=
  Z.shiftr (Z.land (sfr c REG_PSW) (Z.lor PSWMASK_RS0 PSWMASK_RS1)) PSW_RS0.
Definition CARRY (c : em8051) : Z := Z.shiftr (Z.land (sfr c REG_PSW) PSWMASK_C) PSW_C.
Definition DPTR (c : em8051) : Z := Z.lor (Z.shiftl (sfr c REG_DPH) 8) (sfr c REG_DPL).

Definition INDIR_RX_ADDRESS : M W Z :=
  opcode ← OPCODE;
  c ← get_cpu;
  lower_get (Z.land opcode 1 + 8 * PSW_BANK c).
Definition RX_ADDRESS : M W Z :=
  opcode ← OPCODE;
  c ← get_cpu;
  mret (u8 (Z.land opcode 7 + 8 * PSW_BANK c)).

Definition read_mem (aAddress : Z) : M W Z :=
  if 0x7f <? aAddress then em8051_sfr_read aAddress else lower_get aAddress.

Definition read_mem_rmw (aAddress : Z) : M W Z :=
  if aAddress =? 0x99 then
    c ← get_cpu;
    id ← emu_cpu_raw EMU_RAW_ACCESS_BEGIN (mMachineCycleCount c) aAddress EMUIF_SPACE_SFR
           EMUIF_OBS_ACCESS_RMW 0;
    value ← em8051_sfr_rmw_read aAddress;
    c ← get_cpu;
    raw EMU_RAW_ACCESS_OLD (mMachineCycleCount c) id value 0 0 ;;
    mret value
  else if 0x7f <? aAddress then em8051_sfr_rmw_read aAddress
  else lower_get aAddress.

Definition movx_context_capture (c : em8051) (aAddress : Z) (aDirection : movx_direction)
    (aValue : Z) : movx_context :=
  {| mx_machine_cycle := mMachineCycleCount c; mx_pc := mPC c; mx_address := aAddress;
     mx_direction := aDirection; mx_value := aValue; mx_p1_latch := sfr c REG_P1 |}.

Definition movx_context_emit (aContext : movx_context) (aValue : Z) : M W () :=
  c ← get_cpu;
  when (negb (movx_observer c =? 0))
    (observe (call_movx (movx_observer c)
      {| mx_machine_cycle := mx_machine_cycle aContext; mx_pc := mx_pc aContext;
         mx_address := mx_address aContext; mx_direction := mx_direction aContext;
         mx_value := aValue; mx_p1_latch := mx_p1_latch aContext |} (movx_observer_user c))).

Definition BAD_VALUE : Z := 0x77.

Definition read_mem_indir (aAddress : Z) : M W Z :=
  if 0x7f <? aAddress then
    c ← get_cpu;
    match mUpperData c with
    | Some _ => load (mUpperData c) (aAddress - 0x80)
    | None => mret BAD_VALUE
    end
  else lower_get aAddress.

Definition write_mem (aAddress value : Z) : M W () :=
  if 0x7f <? aAddress then em8051_sfr_write aAddress (u8 value) else lower_set aAddress value.

Definition write_mem_indir (aAddress value : Z) : M W () :=
  if 0x7f <? aAddress then
    c ← get_cpu;
    match mUpperData c with
    | Some _ => store (mUpperData c) (aAddress - 0x80) value
    | None => mret ()
    end
  else lower_set aAddress value.

Definition push_to_stack (aValue : Z) : M W bool :=
  modify (fun c => set_sfr REG_SP (sfr c REG_SP + 1) c) ;;
  c ← get_cpu;
  if (0x7f <? sfr c REG_SP) && (match mUpperData c with None => true | Some _ => false end) then
    em8051_raise_exception EXCEPTION_STACK ;; mret false
  else
    write_mem_indir (sfr c REG_SP) aValue ;;
    c ← get_cpu;
    if sfr c REG_SP =? 0 then em8051_raise_exception EXCEPTION_STACK ;; mret false
    else mret true.

(** [None] is the false result, with the output parameter left unset. *)
Definition pop_from_stack : M W (option Z) :=
  c ← get_cpu;
  if (0x7f <? sfr c REG_SP) && (match mUpperData c with None => true | Some _ => false end) then
    em8051_raise_exception EXCEPTION_STACK ;; mret None
  else
    value ← read_mem_indir (sfr c REG_SP);
    modify (fun c => set_sfr REG_SP (sfr c REG_SP - 1) c) ;;
    c ← get_cpu;
    if sfr c REG_SP =? 0xff then em8051_raise_exception EXCEPTION_STACK ;; mret None
    else mret (Some value).

End Memory.
