(* ===== verification/Opcodes.v ===== *)
(** The opcode handlers of src/opcodes.c, one definition per C function. A
    handler returns the number of further machine cycles of its instruction.
    Operands passed to one call are read left to right. *)
From S2P Require Import Prelude State Machine Ports Uart Adc Irq Sfr Memory.

Section Opcodes.
Context {W : Type} {HostW : Host W}.

(** The macros ACC, PSW and PC, and the assignments to them. *)
Definition ACC : M W Z := gets (fun c => sfr c REG_ACC).
Definition PSW : M W Z := gets (fun c => sfr c REG_PSW).
Definition set_ACC (v : Z) : M W () := modify (set_sfr REG_ACC v).
Definition set_PSW (v : Z) : M W () := modify (set_sfr REG_PSW v).
Definition set_PC (v : Z) : M W () := modify (set_mPC v).
Definition add_PC (n : Z) : M W () := modify (fun c => set_mPC (mPC c + n) c).
Definition carry_flag : M W Z := gets CARRY.

(** [PC += n; return d;] *)
Definition next (n d : Z) : M W Z := add_PC n ;; mret d.
(** [if (em8051_execution_aborted(aCPU)) return 0;] *)
Definition unless_aborted (k : M W Z) : M W Z :=
  b ← em8051_execution_aborted; if b then mret 0 else k.

(** ** Flags *)

Definition add_flags (psw value1 value2 carryin : Z) : Z :=
  let carry := Z.b2z (negb (Z.shiftr (Z.land value1 255 + Z.land value2 255 + carryin) 8 =? 0)) in
  let auxcarry := Z.b2z (negb (Z.shiftr (Z.land value1 7 + Z.land value2 7 + carryin) 3 =? 0)) in
  let overflow := Z.b2z (negb (Z.lxor
    (Z.shiftr (Z.land value1 127 + Z.land value2 127 + carryin) 7) carry =? 0)) in
  Z.lor (Z.lor (Z.lor (clr psw (Z.lor PSWMASK_C (Z.lor PSWMASK_AC PSWMASK_OV)))
    (Z.shiftl carry PSW_C)) (Z.shiftl auxcarry PSW_AC)) (Z.shiftl overflow PSW_OV).

Definition sub_flags (psw value1 value2 carryin : Z) : Z :=
  let carry := Z.land (Z.shiftr (Z.land value1 255 - Z.land value2 255 - carryin) 8) 1 in
  let auxcarry := Z.land (Z.shiftr (Z.land value1 7 - Z.land value2 7 - carryin) 3) 1 in
  let overflow := Z.lxor
    (Z.land (Z.shiftr (Z.land value1 127 - Z.land value2 127 - carryin) 7) 1) carry in
  Z.lor (Z.lor (Z.lor (clr psw (Z.lor PSWMASK_C (Z.lor PSWMASK_AC PSWMASK_OV)))
    (Z.shiftl carry PSW_C)) (Z.shiftl auxcarry PSW_AC)) (Z.shiftl overflow PSW_OV).

Definition add_solve_flags (value1 value2 carryin : Z) : M W () :=
  psw ← PSW; set_PSW (add_flags psw value1 value2 carryin).
Definition sub_solve_flags (value1 value2 carryin : Z) : M W () :=
  psw ← PSW; set_PSW (sub_flags psw value1 value2 carryin).

(** [PSW = (PSW & ~PSWMASK_C) | (PSWMASK_C * value)] *)
Definition set_carry (value : Z) : M W () :=
  psw ← PSW; set_PSW (Z.lor (clr psw PSWMASK_C) (PSWMASK_C * value)).

(** The carry of CJNE, then the jump. *)
Definition cjne_compare (value1 value2 : Z) : M W Z :=
  psw ← PSW;
  set_PSW (if value1 <? value2 then Z.lor psw PSWMASK_C else clr psw PSWMASK_C) ;;
  if negb (value1 =? value2) then o ← OPERAND2; next (s8 o + 3) 1 else next 3 1.

(** ** Bit addresses *)

Definition bitmask (address : Z) : Z := u8 (Z.shiftl 1 (Z.land address 7)).
Definition bit_sfr (address : Z) : Z := Z.land address 0xf8.
Definition bit_lower (address : Z) : Z := Z.shiftr address 3 + 0x20.

(** The addressed bit, read through the SFR read gateway. *)
Definition read_bit (address : Z) : M W bool :=
  if 0x7f <? address then
    value ← em8051_sfr_read (bit_sfr address); mret (has value (bitmask address))
  else
    value ← lower_get (bit_lower address); mret (has value (bitmask address)).

(** A bit write: the SFR form modifies the latch and writes through the gateway. *)
Definition update_bit (address : Z) (f : Z -> Z) : M W () :=
  if 0x7f <? address then
    c ← get_cpu;
    latch ← in_range (aget (mSFR c) (bit_sfr address - 0x80));
    em8051_sfr_write (bit_sfr address) (u8 (f latch))
  else
    value ← lower_get (bit_lower address);
    lower_set (bit_lower address) (f value).

(** ** Jumps, calls and returns *)

Definition ajmp_offset : M W Z :=
  c ← get_cpu;
  o ← OPERAND1;
  opcode ← OPCODE;
  set_PC (Z.lor (Z.lor (Z.land (mPC c + 2) 0xf800) o) (Z.shiftl (Z.land opcode 0xe0) 3)) ;;
  mret 1.

Definition ljmp_address : M W Z :=
  high ← OPERAND1;
  low ← OPERAND2;
  set_PC (Z.lor (Z.shiftl high 8) low) ;;
  mret 1.

Definition jbc_bitaddr_offset : M W Z :=
  address ← OPERAND1;
  if 0x7f <? address then
    c ← get_cpu;
    value ← in_range (aget (mSFR c) (bit_sfr address - 0x80));
    if has value (bitmask address) then
      em8051_sfr_write (bit_sfr address) (clr value (bitmask address)) ;;
      unless_aborted (o ← OPERAND2; next (s8 o + 3) 1)
    else next 3 1
  else
    value ← lower_get (bit_lower address);
    if has value (bitmask address) then
      lower_set (bit_lower address) (clr value (bitmask address)) ;;
      o ← OPERAND2; next (s8 o + 3) 1
    else next 3 1.

(** [mObservation && !emu_cpu_raw(CONTEXT_PREFLIGHT)] *)
Definition preflight_refused : M W bool :=
  c ← get_cpu;
  if mObservation c =? 0 then mret false
  else r ← emu_cpu_raw EMU_RAW_CONTEXT_PREFLIGHT (mMachineCycleCount c) 0 0 0 0; mret (r =? 0).

Definition raw_call (target return_pc : Z) : M W () :=
  c ← get_cpu;
  raw EMU_RAW_CALL (mMachineCycleCount c) target (u16 return_pc)
    (u8 (sfr c REG_SP - 2)) (sfr c REG_SP).

Definition acall_offset : M W Z :=
  c ← get_cpu;
  o ← OPERAND1;
  opcode ← OPCODE;
  let address := u16 (Z.lor (Z.lor (Z.land (mPC c + 2) 0xf800) o)
                            (Z.shiftl (Z.land opcode 0xe0) 3)) in
  refused ← preflight_refused;
  if refused then mret 1 else
  c ← get_cpu;
  ok ← push_to_stack (Z.land (mPC c + 2) 0xff);
  if negb ok then mret 1 else
  c ← get_cpu;
  ok ← push_to_stack (u8 (Z.shiftr (mPC c + 2) 8));
  if negb ok then mret 1 else
  c ← get_cpu;
  raw_call address (mPC c + 2) ;;
  set_PC address ;;
  mret 1.

Definition lcall_address : M W Z :=
  refused ← preflight_refused;
  if refused then mret 1 else
  c ← get_cpu;
  ok ← push_to_stack (Z.land (mPC c + 3) 0xff);
  if negb ok then mret 1 else
  c ← get_cpu;
  ok ← push_to_stack (u8 (Z.shiftr (mPC c + 3) 8));
  if negb ok then mret 1 else
  high ← OPERAND1;
  low ← OPERAND2;
  let target := u16 (Z.lor (Z.shiftl high 8) low) in
  c ← get_cpu;
  raw_call target (mPC c + 3) ;;
  set_PC target ;;
  mret 1.

Definition jb_bitaddr_offset : M W Z :=
  address ← OPERAND1;
  b ← read_bit address;
  if b then o ← OPERAND2; next (s8 o + 3) 1 else next 3 1.

Definition jnb_bitaddr_offset : M W Z :=
  address ← OPERAND1;
  b ← read_bit address;
  if negb b then o ← OPERAND2; next (s8 o + 3) 1 else next 3 1.

Definition raw_return (kind : raw_fact) : M W () :=
  c ← get_cpu;
  raw kind (mMachineCycleCount c) (mPC c) 0 (u8 (sfr c REG_SP + 2)) (sfr c REG_SP).

Definition ret : M W Z :=
  high ← pop_from_stack;
  match high with
  | None => mret 1
  | Some high =>
    low ← pop_from_stack;
    match low with
    | None => mret 1
    | Some low =>
      set_PC (Z.lor (u16 (Z.shiftl high 8)) low) ;;
      raw_return EMU_RAW_RET ;;
      mret 1
    end
  end.

(** The interrupt bookkeeping of RETI; [true] when an abort was requested. *)
Definition reti_release (original_sp : Z) : M W bool :=
  c ← get_cpu;
  if is_sab c then em8051_sab_irq_reti original_sp ;; em8051_execution_aborted
  else if negb (mInterruptActive c =? 0) then
    let hi := if 1 <? mInterruptActive c then 1 else 0 in
    aborted ← iret_checks int_a int_psw int_sp hi original_sp;
    if aborted then mret true
    else
      modify (fun c => set_mInterruptActive
        (if has (mInterruptActive c) 2 then clr (mInterruptActive c) 2 else 0) c) ;;
      mret false
  else mret false.

Definition reti : M W Z :=
  original_sp ← gets (fun c => sfr c REG_SP);
  high ← pop_from_stack;
  match high with
  | None => mret 1
  | Some high =>
    low ← pop_from_stack;
    match low with
    | None => mret 1
    | Some low =>
      aborted ← reti_release original_sp;
      if aborted then mret 0
      else
        set_PC (Z.lor (u16 (Z.shiftl high 8)) low) ;;
        raw_return EMU_RAW_RETI ;;
        mret 1
    end
  end.

Definition jump_if (b : bool) : M W Z :=
  if b then o ← OPERAND1; next (s8 o + 2) 1 else next 2 1.

Definition jc_offset : M W Z := psw ← PSW; jump_if (has psw PSWMASK_C).
Definition jnc_offset : M W Z := psw ← PSW; jump_if (negb (has psw PSWMASK_C)).
Definition jz_offset : M W Z := a ← ACC; jump_if (a =? 0).
Definition jnz_offset : M W Z := a ← ACC; jump_if (negb (a =? 0)).
Definition sjmp_offset : M W Z := o ← OPERAND1; next (s8 o + 2) 1.
Definition jmp_indir_a_dptr : M W Z := c ← get_cpu; a ← ACC; set_PC (DPTR c + a) ;; mret 1.

(** ** Accumulator *)

Definition rr_a : M W Z := a ← ACC; set_ACC (Z.lor (Z.shiftr a 1) (Z.shiftl a 7)) ;; next 1 0.
Definition rl_a : M W Z := a ← ACC; set_ACC (Z.lor (Z.shiftl a 1) (Z.shiftr a 7)) ;; next 1 0.
Definition rrc_a : M W Z :=
  psw ← PSW; a ← ACC;
  let c := Z.shiftr (Z.land psw PSWMASK_C) PSW_C in
  let newc := Z.land a 1 in
  set_ACC (Z.lor (Z.shiftr a 1) (Z.shiftl c 7)) ;;
  set_PSW (Z.lor (clr psw PSWMASK_C) (Z.shiftl newc PSW_C)) ;;
  next 1 0.
Definition rlc_a : M W Z :=
  psw ← PSW; a ← ACC; carry ← carry_flag;
  let new_carry := Z.b2z (negb (Z.shiftr a 7 =? 0)) in
  set_ACC (Z.lor (Z.shiftl a 1) carry) ;;
  set_PSW (Z.lor (clr psw PSWMASK_C) (Z.shiftl new_carry PSW_C)) ;;
  next 1 0.
Definition inc_a : M W Z := a ← ACC; set_ACC (a + 1) ;; next 1 0.
Definition dec_a : M W Z := a ← ACC; set_ACC (a - 1) ;; next 1 0.
Definition clr_a : M W Z := set_ACC 0 ;; next 1 0.
Definition cpl_a : M W Z := a ← ACC; set_ACC (Z.lnot a) ;; next 1 0.
Definition swap_a : M W Z := a ← ACC; set_ACC (Z.lor (Z.shiftl a 4) (Z.shiftr a 4)) ;; next 1 0.

Definition da_result (acc psw : Z) : Z :=
  let result := acc in
  let result := if (9 <? Z.land result 0xf) || has psw PSWMASK_AC then u16 (result + 0x6) else result in
  if (0x90 <? Z.land result 0xff0) || has psw PSWMASK_C then u16 (result + 0x60) else result.
Definition da_a : M W Z :=
  a ← ACC; psw ← PSW;
  let result := da_result a psw in
  when (0x99 <? result) (set_PSW (Z.lor psw PSWMASK_C)) ;;
  set_ACC result ;;
  next 1 0.

Definition div_ab : M W Z :=
  a ← ACC;
  b ← gets (fun c => sfr c REG_B);
  psw ← PSW;
  set_PSW (clr psw (Z.lor PSWMASK_C PSWMASK_OV)) ;;
  (if negb (b =? 0) then
     set_ACC (a / b) ;; modify (set_sfr REG_B (a mod b))
   else
     psw ← PSW;
     set_PSW (Z.lor psw PSWMASK_OV) ;; set_ACC a ;; modify (set_sfr REG_B b)) ;;
  next 1 3.

Definition mul_ab : M W Z :=
  a ← ACC;
  b ← gets (fun c => sfr c REG_B);
  let res := u16 (a * b) in
  set_ACC (Z.land res 0xff) ;;
  modify (set_sfr REG_B (Z.shiftr res 8)) ;;
  psw ← PSW;
  set_PSW (clr psw (Z.lor PSWMASK_C PSWMASK_OV)) ;;
  b ← gets (fun c => sfr c REG_B);
  psw ← PSW;
  when (negb (b =? 0)) (set_PSW (Z.lor psw PSWMASK_OV)) ;;
  next 1 3.

Definition add_a_imm : M W Z :=
  a ← ACC; o ← OPERAND1; add_solve_flags a o 0 ;;
  o ← OPERAND1; a ← ACC; set_ACC (a + o) ;; next 2 0.
Definition add_to_a (value carry n : Z) : M W Z :=
  a ← ACC; add_solve_flags a value carry ;; a ← ACC; set_ACC (a + (value + carry)) ;; next n 0.
Definition add_a_mem : M W Z := o ← OPERAND1; value ← read_mem o; add_to_a value 0 2.
Definition add_a_indir_rx : M W Z :=
  address ← INDIR_RX_ADDRESS; value ← read_mem_indir address; add_to_a value 0 1.
Definition addc_a_imm : M W Z :=
  carry ← carry_flag; a ← ACC; o ← OPERAND1; add_solve_flags a o carry ;;
  o ← OPERAND1; a ← ACC; set_ACC (a + (o + carry)) ;; next 2 0.
Definition addc_a_mem : M W Z :=
  carry ← carry_flag; o ← OPERAND1; value ← read_mem o; add_to_a value carry 2.
Definition addc_a_indir_rx : M W Z :=
  carry ← carry_flag; address ← INDIR_RX_ADDRESS; value ← read_mem_indir address;
  add_to_a value carry 1.
Definition subb_a_imm : M W Z :=
  carry ← carry_flag; a ← ACC; o ← OPERAND1; sub_solve_flags a o carry ;;
  o ← OPERAND1; a ← ACC; set_ACC (a - (o + carry)) ;; next 2 0.
Definition sub_from_a (value carry n : Z) : M W Z :=
  a ← ACC; sub_solve_flags a value carry ;; a ← ACC; set_ACC (a - (value + carry)) ;; next n 0.
Definition subb_a_mem : M W Z :=
  carry ← carry_flag; o ← OPERAND1; value ← read_mem o; sub_from_a value carry 2.
Definition subb_a_indir_rx : M W Z :=
  carry ← carry_flag; address ← INDIR_RX_ADDRESS; value ← read_mem_indir address;
  sub_from_a value carry 1.

(** ACC op= value; PC += n *)
Definition acc_op (f : Z -> Z -> Z) (value n : Z) : M W Z :=
  a ← ACC; set_ACC (f a value) ;; next n 0.
Definition orl_a_imm : M W Z := o ← OPERAND1; acc_op Z.lor o 2.
Definition orl_a_mem : M W Z := o ← OPERAND1; value ← read_mem o; acc_op Z.lor value 2.
Definition orl_a_indir_rx : M W Z :=
  address ← INDIR_RX_ADDRESS; value ← read_mem_indir address; acc_op Z.lor value 1.
Definition anl_a_imm : M W Z := o ← OPERAND1; acc_op Z.land o 2.
Definition anl_a_mem : M W Z := o ← OPERAND1; value ← read_mem o; acc_op Z.land value 2.
Definition anl_a_indir_rx : M W Z :=
  address ← INDIR_RX_ADDRESS; value ← read_mem_indir address; acc_op Z.land value 1.
Definition xrl_a_imm : M W Z := o ← OPERAND1; acc_op Z.lxor o 2.
Definition xrl_a_mem : M W Z := o ← OPERAND1; value ← read_mem o; acc_op Z.lxor value 2.
Definition xrl_a_indir_rx : M W Z :=
  address ← INDIR_RX_ADDRESS; value ← read_mem_indir address; acc_op Z.lxor value 1.

(** ** Read-modify-write of direct memory *)

Definition rmw_mem (f : Z -> Z) : M W Z :=
  address ← OPERAND1;
  value ← read_mem_rmw address;
  write_mem address (f value) ;;
  unless_aborted (next 2 0).
Definition inc_mem : M W Z := rmw_mem (fun v => v + 1).
Definition dec_mem : M W Z := rmw_mem (fun v => v - 1).
Definition orl_mem_a : M W Z :=
  address ← OPERAND1;
  value ← read_mem_rmw address;
  a ← ACC;
  write_mem address (Z.lor value a) ;;
  unless_aborted (next 2 0).

Definition rmw_mem_imm (f : Z -> Z -> Z) : M W Z :=
  address ← OPERAND1;
  value ← read_mem_rmw address;
  o ← OPERAND2;
  write_mem address (f value o) ;;
  unless_aborted (next 3 1).
Definition orl_mem_imm : M W Z := rmw_mem_imm Z.lor.
Definition anl_mem_imm : M W Z := rmw_mem_imm Z.land.
Definition xrl_mem_imm : M W Z := rmw_mem_imm Z.lxor.

(** ANL and XRL on direct memory read the SFR latch itself. *)
Definition latch_mem_a (f : Z -> Z -> Z) : M W Z :=
  address ← OPERAND1;
  a ← ACC;
  if 0x7f <? address then
    c ← get_cpu;
    latch ← in_range (aget (mSFR c) (address - 0x80));
    em8051_sfr_write address (u8 (f latch a)) ;;
    unless_aborted (next 2 0)
  else
    value ← lower_get address;
    lower_set address (f value a) ;;
    next 2 0.
Definition anl_mem_a : M W Z := latch_mem_a Z.land.
Definition xrl_mem_a : M W Z := latch_mem_a Z.lxor.

Definition djnz_mem_offset : M W Z :=
  address ← OPERAND1;
  value ← read_mem_rmw address;
  let value := u8 (value - 1) in
  write_mem address value ;;
  unless_aborted
    (if negb (value =? 0) then o ← OPERAND2; next (s8 o + 3) 1 else next 3 1).

Definition inc_indir_rx : M W Z :=
  address ← INDIR_RX_ADDRESS; value ← read_mem_indir address;
  write_mem_indir address (value + 1) ;; next 1 0.
Definition dec_indir_rx : M W Z :=
  address ← INDIR_RX_ADDRESS; value ← read_mem_indir address;
  write_mem_indir address (value - 1) ;; next 1 0.

(** ** Carry and bit operations *)

Definition cpl_c : M W Z := psw ← PSW; set_PSW (Z.lxor psw PSWMASK_C) ;; next 1 0.
Definition clr_c : M W Z := psw ← PSW; set_PSW (clr psw PSWMASK_C) ;; next 1 0.
Definition setb_c : M W Z := psw ← PSW; set_PSW (Z.lor psw PSWMASK_C) ;; next 1 0.

(** C becomes a function of C and the addressed bit; [d] extra cycles. *)
Definition carry_bit_op (f : Z -> bool -> Z) (d : Z) : M W Z :=
  address ← OPERAND1;
  carry ← carry_flag;
  b ← read_bit address;
  set_carry (f carry b) ;;
  next 2 d.
Definition orl_c_bitaddr : M W Z := carry_bit_op (fun carry b => if b then 1 else carry) 1.
Definition anl_c_bitaddr : M W Z := carry_bit_op (fun carry b => if b then carry else 0) 0.
Definition orl_c_compl_bitaddr : M W Z := carry_bit_op (fun carry b => if b then carry else 1) 0.
Definition anl_c_compl_bitaddr : M W Z := carry_bit_op (fun carry b => if b then 0 else carry) 0.
Definition mov_c_bitaddr : M W Z := carry_bit_op (fun _ b => if b then 1 else 0) 0.

Definition mov_bitaddr_c : M W Z :=
  address ← OPERAND1;
  carry ← carry_flag;
  update_bit address (fun v => Z.lor (clr v (bitmask address)) (Z.shiftl carry (Z.land address 7))) ;;
  (if 0x7f <? address then unless_aborted (next 2 1) else next 2 1).
Definition bit_rmw (f : Z -> Z -> Z) : M W Z :=
  address ← OPERAND1;
  update_bit address (fun v => f v (bitmask address)) ;;
  (if 0x7f <? address then unless_aborted (next 2 0) else next 2 0).
Definition cpl_bitaddr : M W Z := bit_rmw Z.lxor.
Definition clr_bitaddr : M W Z := bit_rmw clr.
Definition setb_bitaddr : M W Z := bit_rmw Z.lor.

(** ** Moves, exchanges, stack *)

Definition mov_a_imm : M W Z := o ← OPERAND1; set_ACC o ;; next 2 0.
Definition mov_mem_imm : M W Z :=
  address ← OPERAND1; value ← OPERAND2; write_mem address value ;; unless_aborted (next 3 1).
Definition mov_indir_rx_imm : M W Z :=
  address ← INDIR_RX_ADDRESS; value ← OPERAND1; write_mem_indir address value ;; next 2 0.
Definition mov_mem_mem : M W Z :=
  address_from ← OPERAND1; address_to ← OPERAND2;
  value ← read_mem address_from;
  write_mem address_to value ;; unless_aborted (next 3 1).
Definition mov_mem_indir_rx : M W Z :=
  address_from ← INDIR_RX_ADDRESS; address_to ← OPERAND1;
  value ← read_mem_indir address_from;
  write_mem address_to value ;; unless_aborted (next 2 1).
Definition mov_dptr_imm : M W Z :=
  high ← OPERAND1; modify (set_sfr REG_DPH high) ;;
  low ← OPERAND2; modify (set_sfr REG_DPL low) ;;
  next 3 1.
Definition movc_a_indir_a_pc : M W Z :=
  c ← get_cpu; a ← ACC;
  value ← CODEMEM (u16 (mPC c + 1 + a)); set_ACC value ;; next 1 0.
Definition movc_a_indir_a_dptr : M W Z :=
  c ← get_cpu; a ← ACC;
  value ← CODEMEM (u16 (DPTR c + a)); set_ACC value ;; next 1 1.
Definition inc_dptr : M W Z :=
  modify (fun c => set_sfr REG_DPL (sfr c REG_DPL + 1) c) ;;
  c ← get_cpu;
  when (sfr c REG_DPL =? 0) (modify (set_sfr REG_DPH (sfr c REG_DPH + 1))) ;;
  next 1 1.
Definition mov_indir_rx_mem : M W Z :=
  address_to ← INDIR_RX_ADDRESS; address_from ← OPERAND1;
  value ← read_mem address_from;
  write_mem_indir address_to value ;; next 2 1.
Definition mov_a_mem : M W Z :=
  address ← OPERAND1;
  value ← read_mem address;
  when (REG_ACC =? address - 0x80) (em8051_raise_exception EXCEPTION_ACC_TO_A) ;;
  unless_aborted (set_ACC value ;; next 2 0).
Definition mov_a_indir_rx : M W Z :=
  address ← INDIR_RX_ADDRESS; value ← read_mem_indir address; set_ACC value ;; next 1 0.
Definition mov_mem_a : M W Z :=
  address ← OPERAND1; a ← ACC; write_mem address a ;; unless_aborted (next 2 0).
Definition mov_indir_rx_a : M W Z :=
  address ← INDIR_RX_ADDRESS; a ← ACC; write_mem_indir address a ;; next 1 0.
Definition push_mem : M W Z :=
  o ← OPERAND1; value ← read_mem o;
  ok ← push_to_stack value;
  if negb ok then mret 1 else next 2 1.
Definition pop_mem : M W Z :=
  address ← OPERAND1;
  value ← pop_from_stack;
  match value with
  | None => mret 1
  | Some value => write_mem address value ;; unless_aborted (next 2 1)
  end.
Definition xch_a_mem : M W Z :=
  address ← OPERAND1;
  value ← read_mem address;
  a ← ACC;
  write_mem address a ;;
  unless_aborted (set_ACC value ;; next 2 0).
Definition xch_a_indir_rx : M W Z :=
  address ← INDIR_RX_ADDRESS; value ← read_mem_indir address;
  a ← ACC; write_mem_indir address a ;; set_ACC value ;; next 1 0.
Definition xchd_a_indir_rx : M W Z :=
  address ← INDIR_RX_ADDRESS; value ← read_mem_indir address;
  a ← ACC; set_ACC (Z.lor (Z.land a 0xf0) (Z.land value 0x0f)) ;;
  a ← ACC;
  let value := u8 (Z.lor (Z.land value 0xf0) (Z.land a 0x0f)) in
  write_mem_indir address value ;; next 1 0.
Definition cjne_a_imm_offset : M W Z := value ← OPERAND1; a ← ACC; cjne_compare a value.
Definition cjne_a_mem_offset : M W Z :=
  address ← OPERAND1; value ← read_mem address; a ← ACC; cjne_compare a value.
Definition cjne_indir_rx_imm_offset : M W Z :=
  address ← INDIR_RX_ADDRESS; value1 ← read_mem_indir address; value2 ← OPERAND1;
  cjne_compare value1 value2.
Definition nop : M W Z :=
  c ← get_cpu;
  opcode ← CODEMEM (mPC c);
  when (negb (opcode =? 0)) (em8051_raise_exception EXCEPTION_ILLEGAL_OPCODE) ;;
  unless_aborted (next 1 0).

(** ** External data *)

Definition movx_read (address : Z) : M W Z :=
  c ← get_cpu;
  let context := movx_context_capture c address EM8051_MOVX_READ (sfr c REG_ACC) in
  let finish (supported : bool) :=
    a ← ACC;
    movx_context_emit context a ;;
    em8051_trace_emit (if supported then EM8051_TRACE_MOVX_READ
                       else EM8051_TRACE_UNSUPPORTED_MOVX_READ) address a ;;
    next 1 1 in
  if negb (xread c =? 0) then
    result ← callback8 (call_xread (xread c) address);
    unless_aborted (set_ACC result ;; finish true)
  else match mExtData c with
       | Some _ => value ← EXTDATA address; set_ACC value ;; finish true
       | None => finish false
       end.
Definition movx_a_indir_dptr : M W Z := c ← get_cpu; movx_read (u16 (DPTR c)).
Definition movx_a_indir_rx : M W Z := address ← INDIR_RX_ADDRESS; movx_read address.

Definition movx_write (address : Z) : M W Z :=
  c ← get_cpu;
  let context := movx_context_capture c address EM8051_MOVX_WRITE (sfr c REG_ACC) in
  let finish (supported : bool) :=
    movx_context_emit context (mx_value context) ;;
    a ← ACC;
    em8051_trace_emit (if supported then EM8051_TRACE_MOVX_WRITE
                       else EM8051_TRACE_UNSUPPORTED_MOVX_WRITE) address a ;;
    next 1 1 in
  if negb (xwrite c =? 0) then
    callback (call_xwrite (xwrite c) address (sfr c REG_ACC)) ;;
    unless_aborted (finish true)
  else match mExtData c with
       | Some _ => EXTDATA_set address (sfr c REG_ACC) ;; finish true
       | None => finish false
       end.
Definition movx_indir_dptr_a : M W Z := c ← get_cpu; movx_write (u16 (DPTR c)).
Definition movx_indir_rx_a : M W Z := address ← INDIR_RX_ADDRESS; movx_write address.

(** ** Register forms *)

Definition inc_rx : M W Z := rx ← RX_ADDRESS; v ← lower_get rx; lower_set rx (v + 1) ;; next 1 0.
Definition dec_rx : M W Z := rx ← RX_ADDRESS; v ← lower_get rx; lower_set rx (v - 1) ;; next 1 0.
Definition add_a_rx : M W Z :=
  rx ← RX_ADDRESS; v ← lower_get rx; a ← ACC; add_solve_flags v a 0 ;;
  a ← ACC; set_ACC (a + v) ;; next 1 0.
Definition addc_a_rx : M W Z :=
  rx ← RX_ADDRESS; carry ← carry_flag; v ← lower_get rx; a ← ACC; add_solve_flags v a carry ;;
  a ← ACC; set_ACC (a + (v + carry)) ;; next 1 0.
Definition subb_a_rx : M W Z :=
  rx ← RX_ADDRESS; carry ← carry_flag; v ← lower_get rx; sub_from_a v carry 1.
Definition orl_a_rx : M W Z := rx ← RX_ADDRESS; v ← lower_get rx; acc_op Z.lor v 1.
Definition anl_a_rx : M W Z := rx ← RX_ADDRESS; v ← lower_get rx; acc_op Z.land v 1.
Definition xrl_a_rx : M W Z := rx ← RX_ADDRESS; v ← lower_get rx; acc_op Z.lxor v 1.
Definition mov_rx_imm : M W Z := rx ← RX_ADDRESS; o ← OPERAND1; lower_set rx o ;; next 2 0.
Definition mov_mem_rx : M W Z :=
  rx ← RX_ADDRESS; address ← OPERAND1; v ← lower_get rx;
  write_mem address v ;; unless_aborted (next 2 1).
Definition mov_rx_mem : M W Z :=
  rx ← RX_ADDRESS; o ← OPERAND1; value ← read_mem o; lower_set rx value ;; next 2 1.
Definition cjne_rx_imm_offset : M W Z :=
  rx ← RX_ADDRESS; value ← OPERAND1; v ← lower_get rx; cjne_compare v value.
Definition xch_a_rx : M W Z :=
  rx ← RX_ADDRESS; a ← ACC; v ← lower_get rx; set_ACC v ;; lower_set rx a ;; next 1 0.
Definition djnz_rx_offset : M W Z :=
  rx ← RX_ADDRESS; v ← lower_get rx; lower_set rx (v - 1) ;;
  v ← lower_get rx; jump_if (negb (v =? 0)).
Definition mov_a_rx : M W Z := rx ← RX_ADDRESS; v ← lower_get rx; set_ACC v ;; next 1 0.
Definition mov_rx_a : M W Z := rx ← RX_ADDRESS; a ← ACC; lower_set rx a ;; next 1 0.

End Opcodes.
