(* ===== verification/Dispatch.v ===== *)
(** Dispatch: the handler tables built by op_setptrs (src/opcodes.c) and
    disasm_setptrs (src/disasm.c), and the switch of do_op, the alternate way to
    execute an opcode. *)
From S2P Require Import Prelude State Machine Ports Uart Adc Irq Sfr Memory Opcodes.

(** [aCPU->op[i] = &h] *)
Definition assign (table : list (option handler)) (e : Z * handler) : list (option handler) :=
  <[Z.to_nat (fst e) := Some (snd e)]> table.

(** The assignments of the loop [for (i = 0; i < 8; i++)], at offset [i]. *)
Definition rx_rows (rows : list (Z * handler)) (table : list (option handler)) :
    list (option handler) :=
  foldl (fun t i => foldl (fun t e => assign t (fst e + i, snd e)) t rows) table (seqZ 0 8).

Definition op_rx_assignments : list (Z * handler) :=
  [(0x08, H_inc_rx); (0x18, H_dec_rx); (0x28, H_add_a_rx); (0x38, H_addc_a_rx);
   (0x48, H_orl_a_rx); (0x58, H_anl_a_rx); (0x68, H_xrl_a_rx); (0x78, H_mov_rx_imm);
   (0x88, H_mov_mem_rx); (0x98, H_subb_a_rx); (0xa8, H_mov_rx_mem);
   (0xb8, H_cjne_rx_imm_offset); (0xc8, H_xch_a_rx); (0xd8, H_djnz_rx_offset);
   (0xe8, H_mov_a_rx); (0xf8, H_mov_rx_a)].

Definition op_assignments : list (Z * handler) :=
  [(0x00, H_nop); (0x01, H_ajmp_offset); (0x02, H_ljmp_address); (0x03, H_rr_a);
   (0x04, H_inc_a); (0x05, H_inc_mem); (0x06, H_inc_indir_rx); (0x07, H_inc_indir_rx);
   (0x10, H_jbc_bitaddr_offset); (0x11, H_acall_offset); (0x12, H_lcall_address);
   (0x13, H_rrc_a); (0x14, H_dec_a); (0x15, H_dec_mem); (0x16, H_dec_indir_rx);
   (0x17, H_dec_indir_rx); (0x20, H_jb_bitaddr_offset); (0x21, H_ajmp_offset);
   (0x22, H_ret); (0x23, H_rl_a); (0x24, H_add_a_imm); (0x25, H_add_a_mem);
   (0x26, H_add_a_indir_rx); (0x27, H_add_a_indir_rx); (0x30, H_jnb_bitaddr_offset);
   (0x31, H_acall_offset); (0x32, H_reti); (0x33, H_rlc_a); (0x34, H_addc_a_imm);
   (0x35, H_addc_a_mem); (0x36, H_addc_a_indir_rx); (0x37, H_addc_a_indir_rx);
   (0x40, H_jc_offset); (0x41, H_ajmp_offset); (0x42, H_orl_mem_a); (0x43, H_orl_mem_imm);
   (0x44, H_orl_a_imm); (0x45, H_orl_a_mem); (0x46, H_orl_a_indir_rx);
   (0x47, H_orl_a_indir_rx); (0x50, H_jnc_offset); (0x51, H_acall_offset);
   (0x52, H_anl_mem_a); (0x53, H_anl_mem_imm); (0x54, H_anl_a_imm); (0x55, H_anl_a_mem);
   (0x56, H_anl_a_indir_rx); (0x57, H_anl_a_indir_rx); (0x60, H_jz_offset);
   (0x61, H_ajmp_offset); (0x62, H_xrl_mem_a); (0x63, H_xrl_mem_imm); (0x64, H_xrl_a_imm);
   (0x65, H_xrl_a_mem); (0x66, H_xrl_a_indir_rx); (0x67, H_xrl_a_indir_rx);
   (0x70, H_jnz_offset); (0x71, H_acall_offset); (0x72, H_orl_c_bitaddr);
   (0x73, H_jmp_indir_a_dptr); (0x74, H_mov_a_imm); (0x75, H_mov_mem_imm);
   (0x76, H_mov_indir_rx_imm); (0x77, H_mov_indir_rx_imm); (0x80, H_sjmp_offset);
   (0x81, H_ajmp_offset); (0x82, H_anl_c_bitaddr); (0x83, H_movc_a_indir_a_pc);
   (0x84, H_div_ab); (0x85, H_mov_mem_mem); (0x86, H_mov_mem_indir_rx);
   (0x87, H_mov_mem_indir_rx); (0x90, H_mov_dptr_imm); (0x91, H_acall_offset);
   (0x92, H_mov_bitaddr_c); (0x93, H_movc_a_indir_a_dptr); (0x94, H_subb_a_imm);
   (0x95, H_subb_a_mem); (0x96, H_subb_a_indir_rx); (0x97, H_subb_a_indir_rx);
   (0xa0, H_orl_c_compl_bitaddr); (0xa1, H_ajmp_offset); (0xa2, H_mov_c_bitaddr);
   (0xa3, H_inc_dptr); (0xa4, H_mul_ab); (0xa5, H_nop); (0xa6, H_mov_indir_rx_mem);
   (0xa7, H_mov_indir_rx_mem); (0xb0, H_anl_c_compl_bitaddr); (0xb1, H_acall_offset);
   (0xb2, H_cpl_bitaddr); (0xb3, H_cpl_c); (0xb4, H_cjne_a_imm_offset);
   (0xb5, H_cjne_a_mem_offset); (0xb6, H_cjne_indir_rx_imm_offset);
   (0xb7, H_cjne_indir_rx_imm_offset); (0xc0, H_push_mem); (0xc1, H_ajmp_offset);
   (0xc2, H_clr_bitaddr); (0xc3, H_clr_c); (0xc4, H_swap_a); (0xc5, H_xch_a_mem);
   (0xc6, H_xch_a_indir_rx); (0xc7, H_xch_a_indir_rx); (0xd0, H_pop_mem);
   (0xd1, H_acall_offset); (0xd2, H_setb_bitaddr); (0xd3, H_setb_c); (0xd4, H_da_a);
   (0xd5, H_djnz_mem_offset); (0xd6, H_xchd_a_indir_rx); (0xd7, H_xchd_a_indir_rx);
   (0xe0, H_movx_a_indir_dptr); (0xe1, H_ajmp_offset); (0xe2, H_movx_a_indir_rx);
   (0xe3, H_movx_a_indir_rx); (0xe4, H_clr_a); (0xe5, H_mov_a_mem);
   (0xe6, H_mov_a_indir_rx); (0xe7, H_mov_a_indir_rx); (0xf0, H_movx_indir_dptr_a);
   (0xf1, H_acall_offset); (0xf2, H_movx_indir_rx_a); (0xf3, H_movx_indir_rx_a);
   (0xf4, H_cpl_a); (0xf5, H_mov_mem_a); (0xf6, H_mov_indir_rx_a);
   (0xf7, H_mov_indir_rx_a)].

Definition op_setptrs (c : em8051) : em8051 :=
  set_op (foldl assign (rx_rows op_rx_assignments (op c)) op_assignments) c.

(** The decoder table: [H_x] stands for disasm_x. *)
Definition dec_rx_assignments : list (Z * handler) :=
  [(0x08, H_inc_rx); (0x18, H_dec_rx); (0x28, H_add_a_rx); (0x38, H_addc_a_rx);
   (0x48, H_orl_a_rx); (0x58, H_anl_a_rx); (0x68, H_xrl_a_rx); (0x78, H_mov_rx_imm);
   (0x88, H_mov_mem_rx); (0x98, H_subb_a_rx); (0xa8, H_mov_rx_mem);
   (0xb8, H_cjne_rx_imm_offset); (0xc8, H_xch_a_rx); (0xd8, H_djnz_rx_offset);
   (0xe8, H_mov_a_rx); (0xf8, H_mov_rx_a)].

Definition dec_assignments : list (Z * handler) :=
  [(0x00, H_nop); (0x01, H_ajmp_offset); (0x02, H_ljmp_address); (0x03, H_rr_a);
   (0x04, H_inc_a); (0x05, H_inc_mem); (0x06, H_inc_indir_rx); (0x07, H_inc_indir_rx);
   (0x10, H_jbc_bitaddr_offset); (0x11, H_acall_offset); (0x12, H_lcall_address);
   (0x13, H_rrc_a); (0x14, H_dec_a); (0x15, H_dec_mem); (0x16, H_dec_indir_rx);
   (0x17, H_dec_indir_rx); (0x20, H_jb_bitaddr_offset); (0x21, H_ajmp_offset);
   (0x22, H_ret); (0x23, H_rl_a); (0x24, H_add_a_imm); (0x25, H_add_a_mem);
   (0x26, H_add_a_indir_rx); (0x27, H_add_a_indir_rx); (0x30, H_jnb_bitaddr_offset);
   (0x31, H_acall_offset); (0x32, H_reti); (0x33, H_rlc_a); (0x34, H_addc_a_imm);
   (0x35, H_addc_a_mem); (0x36, H_addc_a_indir_rx); (0x37, H_addc_a_indir_rx);
   (0x40, H_jc_offset); (0x41, H_ajmp_offset); (0x42, H_orl_mem_a); (0x43, H_orl_mem_imm);
   (0x44, H_orl_a_imm); (0x45, H_orl_a_mem); (0x46, H_orl_a_indir_rx);
   (0x47, H_orl_a_indir_rx); (0x50, H_jnc_offset); (0x51, H_acall_offset);
   (0x52, H_anl_mem_a); (0x53, H_anl_mem_imm); (0x54, H_anl_a_imm); (0x55, H_anl_a_mem);
   (0x56, H_anl_a_indir_rx); (0x57, H_anl_a_indir_rx); (0x60, H_jz_offset);
   (0x61, H_ajmp_offset); (0x62, H_xrl_mem_a); (0x63, H_xrl_mem_imm); (0x64, H_xrl_a_imm);
   (0x65, H_xrl_a_mem); (0x66, H_xrl_a_indir_rx); (0x67, H_xrl_a_indir_rx);
   (0x70, H_jnz_offset); (0x71, H_acall_offset); (0x72, H_orl_c_bitaddr);
   (0x73, H_jmp_indir_a_dptr); (0x74, H_mov_a_imm); (0x75, H_mov_mem_imm);
   (0x76, H_mov_indir_rx_imm); (0x77, H_mov_indir_rx_imm); (0x80, H_sjmp_offset);
   (0x81, H_ajmp_offset); (0x82, H_anl_c_bitaddr); (0x83, H_movc_a_indir_a_pc);
   (0x84, H_div_ab); (0x85, H_mov_mem_mem); (0x86, H_mov_mem_indir_rx);
   (0x87, H_mov_mem_indir_rx); (0x90, H_mov_dptr_imm); (0x91, H_acall_offset);
   (0x92, H_mov_bitaddr_c); (0x93, H_movc_a_indir_a_dptr); (0x94, H_subb_a_imm);
   (0x95, H_subb_a_mem); (0x96, H_subb_a_indir_rx); (0x97, H_subb_a_indir_rx);
   (0xa0, H_orl_c_compl_bitaddr); (0xa1, H_ajmp_offset); (0xa2, H_mov_c_bitaddr);
   (0xa3, H_inc_dptr); (0xa4, H_mul_ab); (0xa5, H_nop); (0xa6, H_mov_indir_rx_mem);
   (0xa7, H_mov_indir_rx_mem); (0xb0, H_anl_c_compl_bitaddr); (0xb1, H_acall_offset);
   (0xb2, H_cpl_bitaddr); (0xb3, H_cpl_c); (0xb4, H_cjne_a_imm_offset);
   (0xb5, H_cjne_a_mem_offset); (0xb6, H_cjne_indir_rx_imm_offset);
   (0xb7, H_cjne_indir_rx_imm_offset); (0xc0, H_push_mem); (0xc1, H_ajmp_offset);
   (0xc2, H_clr_bitaddr); (0xc3, H_clr_c); (0xc4, H_swap_a); (0xc5, H_xch_a_mem);
   (0xc6, H_xch_a_indir_rx); (0xc7, H_xch_a_indir_rx); (0xd0, H_pop_mem);
   (0xd1, H_acall_offset); (0xd2, H_setb_bitaddr); (0xd3, H_setb_c); (0xd4, H_da_a);
   (0xd5, H_djnz_mem_offset); (0xd6, H_xchd_a_indir_rx); (0xd7, H_xchd_a_indir_rx);
   (0xe0, H_movx_a_indir_dptr); (0xe1, H_ajmp_offset); (0xe2, H_movx_a_indir_rx);
   (0xe3, H_movx_a_indir_rx); (0xe4, H_clr_a); (0xe5, H_mov_a_mem);
   (0xe6, H_mov_a_indir_rx); (0xe7, H_mov_a_indir_rx); (0xf0, H_movx_indir_dptr_a);
   (0xf1, H_acall_offset); (0xf2, H_movx_indir_rx_a); (0xf3, H_movx_indir_rx_a);
   (0xf4, H_cpl_a); (0xf5, H_mov_mem_a); (0xf6, H_mov_indir_rx_a);
   (0xf7, H_mov_indir_rx_a)].

Definition disasm_setptrs (c : em8051) : em8051 :=
  set_dec (foldl assign (rx_rows dec_rx_assignments (dec c)) dec_assignments) c.

(** The switch of do_op. *)
Definition do_op_switch (opcode : Z) : option handler :=
  match opcode with
  | 0x00 => Some H_nop
  | 0x01 => Some H_ajmp_offset
  | 0x02 => Some H_ljmp_address
  | 0x03 => Some H_rr_a
  | 0x04 => Some H_inc_a
  | 0x05 => Some H_inc_mem
  | 0x06 => Some H_inc_indir_rx
  | 0x07 => Some H_inc_indir_rx
  | 0x08 | 0x09 | 0x0a | 0x0b | 0x0c | 0x0d | 0x0e | 0x0f => Some H_inc_rx
  | 0x10 => Some H_jbc_bitaddr_offset
  | 0x11 => Some H_acall_offset
  | 0x12 => Some H_lcall_address
  | 0x13 => Some H_rrc_a
  | 0x14 => Some H_dec_a
  | 0x15 => Some H_dec_mem
  | 0x16 => Some H_dec_indir_rx
  | 0x17 => Some H_dec_indir_rx
  | 0x18 | 0x19 | 0x1a | 0x1b | 0x1c | 0x1d | 0x1e | 0x1f => Some H_dec_rx
  | 0x20 => Some H_jb_bitaddr_offset
  | 0x21 => Some H_ajmp_offset
  | 0x22 => Some H_ret
  | 0x23 => Some H_rl_a
  | 0x24 => Some H_add_a_imm
  | 0x25 => Some H_add_a_mem
  | 0x26 => Some H_add_a_indir_rx
  | 0x27 => Some H_add_a_indir_rx
  | 0x28 | 0x29 | 0x2a | 0x2b | 0x2c | 0x2d | 0x2e | 0x2f => Some H_add_a_rx
  | 0x30 => Some H_jnb_bitaddr_offset
  | 0x31 => Some H_acall_offset
  | 0x32 => Some H_reti
  | 0x33 => Some H_rlc_a
  | 0x34 => Some H_addc_a_imm
  | 0x35 => Some H_addc_a_mem
  | 0x36 => Some H_addc_a_indir_rx
  | 0x37 => Some H_addc_a_indir_rx
  | 0x38 | 0x39 | 0x3a | 0x3b | 0x3c | 0x3d | 0x3e | 0x3f => Some H_addc_a_rx
  | 0x40 => Some H_jc_offset
  | 0x41 => Some H_ajmp_offset
  | 0x42 => Some H_orl_mem_a
  | 0x43 => Some H_orl_mem_imm
  | 0x44 => Some H_orl_a_imm
  | 0x45 => Some H_orl_a_mem
  | 0x46 => Some H_orl_a_indir_rx
  | 0x47 => Some H_orl_a_indir_rx
  | 0x48 | 0x49 | 0x4a | 0x4b | 0x4c | 0x4d | 0x4e | 0x4f => Some H_orl_a_rx
  | 0x50 => Some H_jnc_offset
  | 0x51 => Some H_acall_offset
  | 0x52 => Some H_anl_mem_a
  | 0x53 => Some H_anl_mem_imm
  | 0x54 => Some H_anl_a_imm
  | 0x55 => Some H_anl_a_mem
  | 0x56 => Some H_anl_a_indir_rx
  | 0x57 => Some H_anl_a_indir_rx
  | 0x58 | 0x59 | 0x5a | 0x5b | 0x5c | 0x5d | 0x5e | 0x5f => Some H_anl_a_rx
  | 0x60 => Some H_jz_offset
  | 0x61 => Some H_ajmp_offset
  | 0x62 => Some H_xrl_mem_a
  | 0x63 => Some H_xrl_mem_imm
  | 0x64 => Some H_xrl_a_imm
  | 0x65 => Some H_xrl_a_mem
  | 0x66 => Some H_xrl_a_indir_rx
  | 0x67 => Some H_xrl_a_indir_rx
  | 0x68 | 0x69 | 0x6a | 0x6b | 0x6c | 0x6d | 0x6e | 0x6f => Some H_xrl_a_rx
  | 0x70 => Some H_jnz_offset
  | 0x71 => Some H_acall_offset
  | 0x72 => Some H_orl_c_bitaddr
  | 0x73 => Some H_jmp_indir_a_dptr
  | 0x74 => Some H_mov_a_imm
  | 0x75 => Some H_mov_mem_imm
  | 0x76 => Some H_mov_indir_rx_imm
  | 0x77 => Some H_mov_indir_rx_imm
  | 0x78 | 0x79 | 0x7a | 0x7b | 0x7c | 0x7d | 0x7e | 0x7f => Some H_mov_rx_imm
  | 0x80 => Some H_sjmp_offset
  | 0x81 => Some H_ajmp_offset
  | 0x82 => Some H_anl_c_bitaddr
  | 0x83 => Some H_movc_a_indir_a_pc
  | 0x84 => Some H_div_ab
  | 0x85 => Some H_mov_mem_mem
  | 0x86 => Some H_mov_mem_indir_rx
  | 0x87 => Some H_mov_mem_indir_rx
  | 0x88 | 0x89 | 0x8a | 0x8b | 0x8c | 0x8d | 0x8e | 0x8f => Some H_mov_mem_rx
  | 0x90 => Some H_mov_dptr_imm
  | 0x91 => Some H_acall_offset
  | 0x92 => Some H_mov_bitaddr_c
  | 0x93 => Some H_movc_a_indir_a_dptr
  | 0x94 => Some H_subb_a_imm
  | 0x95 => Some H_subb_a_mem
  | 0x96 => Some H_subb_a_indir_rx
  | 0x97 => Some H_subb_a_indir_rx
  | 0x98 | 0x99 | 0x9a | 0x9b | 0x9c | 0x9d | 0x9e | 0x9f => Some H_subb_a_rx
  | 0xa0 => Some H_orl_c_compl_bitaddr
  | 0xa1 => Some H_ajmp_offset
  | 0xa2 => Some H_mov_c_bitaddr
  | 0xa3 => Some H_inc_dptr
  | 0xa4 => Some H_mul_ab
  | 0xa5 => Some H_nop
  | 0xa6 => Some H_mov_indir_rx_mem
  | 0xa7 => Some H_mov_indir_rx_mem
  | 0xa8 | 0xa9 | 0xaa | 0xab | 0xac | 0xad | 0xae | 0xaf => Some H_mov_rx_mem
  | 0xb0 => Some H_anl_c_compl_bitaddr
  | 0xb1 => Some H_acall_offset
  | 0xb2 => Some H_cpl_bitaddr
  | 0xb3 => Some H_cpl_c
  | 0xb4 => Some H_cjne_a_imm_offset
  | 0xb5 => Some H_cjne_a_mem_offset
  | 0xb6 => Some H_cjne_indir_rx_imm_offset
  | 0xb7 => Some H_cjne_indir_rx_imm_offset
  | 0xb8 | 0xb9 | 0xba | 0xbb | 0xbc | 0xbd | 0xbe | 0xbf => Some H_cjne_rx_imm_offset
  | 0xc0 => Some H_push_mem
  | 0xc1 => Some H_ajmp_offset
  | 0xc2 => Some H_clr_bitaddr
  | 0xc3 => Some H_clr_c
  | 0xc4 => Some H_swap_a
  | 0xc5 => Some H_xch_a_mem
  | 0xc6 => Some H_xch_a_indir_rx
  | 0xc7 => Some H_xch_a_indir_rx
  | 0xc8 | 0xc9 | 0xca | 0xcb | 0xcc | 0xcd | 0xce | 0xcf => Some H_xch_a_rx
  | 0xd0 => Some H_pop_mem
  | 0xd1 => Some H_acall_offset
  | 0xd2 => Some H_setb_bitaddr
  | 0xd3 => Some H_setb_c
  | 0xd4 => Some H_da_a
  | 0xd5 => Some H_djnz_mem_offset
  | 0xd6 => Some H_xchd_a_indir_rx
  | 0xd7 => Some H_xchd_a_indir_rx
  | 0xd8 | 0xd9 | 0xda | 0xdb | 0xdc | 0xdd | 0xde | 0xdf => Some H_djnz_rx_offset
  | 0xe0 => Some H_movx_a_indir_dptr
  | 0xe1 => Some H_ajmp_offset
  | 0xe2 => Some H_movx_a_indir_rx
  | 0xe3 => Some H_movx_a_indir_rx
  | 0xe4 => Some H_clr_a
  | 0xe5 => Some H_mov_a_mem
  | 0xe6 => Some H_mov_a_indir_rx
  | 0xe7 => Some H_mov_a_indir_rx
  | 0xe8 | 0xe9 | 0xea | 0xeb | 0xec | 0xed | 0xee | 0xef => Some H_mov_a_rx
  | 0xf0 => Some H_movx_indir_dptr_a
  | 0xf1 => Some H_acall_offset
  | 0xf2 => Some H_movx_indir_rx_a
  | 0xf3 => Some H_movx_indir_rx_a
  | 0xf4 => Some H_cpl_a
  | 0xf5 => Some H_mov_mem_a
  | 0xf6 => Some H_mov_indir_rx_a
  | 0xf7 => Some H_mov_indir_rx_a
  | 0xf8 | 0xf9 | 0xfa | 0xfb | 0xfc | 0xfd | 0xfe | 0xff => Some H_mov_rx_a
  | _ => None
  end.

Section Dispatch.
Context {W : Type} {HostW : Host W}.

(** A call through a handler pointer. *)
Definition call_handler (h : handler) : M W Z :=
  match h with
  | H_inc_rx => inc_rx
  | H_dec_rx => dec_rx
  | H_add_a_rx => add_a_rx
  | H_addc_a_rx => addc_a_rx
  | H_orl_a_rx => orl_a_rx
  | H_anl_a_rx => anl_a_rx
  | H_xrl_a_rx => xrl_a_rx
  | H_mov_rx_imm => mov_rx_imm
  | H_mov_mem_rx => mov_mem_rx
  | H_subb_a_rx => subb_a_rx
  | H_mov_rx_mem => mov_rx_mem
  | H_cjne_rx_imm_offset => cjne_rx_imm_offset
  | H_xch_a_rx => xch_a_rx
  | H_djnz_rx_offset => djnz_rx_offset
  | H_mov_a_rx => mov_a_rx
  | H_mov_rx_a => mov_rx_a
  | H_nop => nop
  | H_ajmp_offset => ajmp_offset
  | H_ljmp_address => ljmp_address
  | H_rr_a => rr_a
  | H_inc_a => inc_a
  | H_inc_mem => inc_mem
  | H_inc_indir_rx => inc_indir_rx
  | H_jbc_bitaddr_offset => jbc_bitaddr_offset
  | H_acall_offset => acall_offset
  | H_lcall_address => lcall_address
  | H_rrc_a => rrc_a
  | H_dec_a => dec_a
  | H_dec_mem => dec_mem
  | H_dec_indir_rx => dec_indir_rx
  | H_jb_bitaddr_offset => jb_bitaddr_offset
  | H_ret => ret
  | H_rl_a => rl_a
  | H_add_a_imm => add_a_imm
  | H_add_a_mem => add_a_mem
  | H_add_a_indir_rx => add_a_indir_rx
  | H_jnb_bitaddr_offset => jnb_bitaddr_offset
  | H_reti => reti
  | H_rlc_a => rlc_a
  | H_addc_a_imm => addc_a_imm
  | H_addc_a_mem => addc_a_mem
  | H_addc_a_indir_rx => addc_a_indir_rx
  | H_jc_offset => jc_offset
  | H_orl_mem_a => orl_mem_a
  | H_orl_mem_imm => orl_mem_imm
  | H_orl_a_imm => orl_a_imm
  | H_orl_a_mem => orl_a_mem
  | H_orl_a_indir_rx => orl_a_indir_rx
  | H_jnc_offset => jnc_offset
  | H_anl_mem_a => anl_mem_a
  | H_anl_mem_imm => anl_mem_imm
  | H_anl_a_imm => anl_a_imm
  | H_anl_a_mem => anl_a_mem
  | H_anl_a_indir_rx => anl_a_indir_rx
  | H_jz_offset => jz_offset
  | H_xrl_mem_a => xrl_mem_a
  | H_xrl_mem_imm => xrl_mem_imm
  | H_xrl_a_imm => xrl_a_imm
  | H_xrl_a_mem => xrl_a_mem
  | H_xrl_a_indir_rx => xrl_a_indir_rx
  | H_jnz_offset => jnz_offset
  | H_orl_c_bitaddr => orl_c_bitaddr
  | H_jmp_indir_a_dptr => jmp_indir_a_dptr
  | H_mov_a_imm => mov_a_imm
  | H_mov_mem_imm => mov_mem_imm
  | H_mov_indir_rx_imm => mov_indir_rx_imm
  | H_sjmp_offset => sjmp_offset
  | H_anl_c_bitaddr => anl_c_bitaddr
  | H_movc_a_indir_a_pc => movc_a_indir_a_pc
  | H_div_ab => div_ab
  | H_mov_mem_mem => mov_mem_mem
  | H_mov_mem_indir_rx => mov_mem_indir_rx
  | H_mov_dptr_imm => mov_dptr_imm
  | H_mov_bitaddr_c => mov_bitaddr_c
  | H_movc_a_indir_a_dptr => movc_a_indir_a_dptr
  | H_subb_a_imm => subb_a_imm
  | H_subb_a_mem => subb_a_mem
  | H_subb_a_indir_rx => subb_a_indir_rx
  | H_orl_c_compl_bitaddr => orl_c_compl_bitaddr
  | H_mov_c_bitaddr => mov_c_bitaddr
  | H_inc_dptr => inc_dptr
  | H_mul_ab => mul_ab
  | H_mov_indir_rx_mem => mov_indir_rx_mem
  | H_anl_c_compl_bitaddr => anl_c_compl_bitaddr
  | H_cpl_bitaddr => cpl_bitaddr
  | H_cpl_c => cpl_c
  | H_cjne_a_imm_offset => cjne_a_imm_offset
  | H_cjne_a_mem_offset => cjne_a_mem_offset
  | H_cjne_indir_rx_imm_offset => cjne_indir_rx_imm_offset
  | H_push_mem => push_mem
  | H_clr_bitaddr => clr_bitaddr
  | H_clr_c => clr_c
  | H_swap_a => swap_a
  | H_xch_a_mem => xch_a_mem
  | H_xch_a_indir_rx => xch_a_indir_rx
  | H_pop_mem => pop_mem
  | H_setb_bitaddr => setb_bitaddr
  | H_setb_c => setb_c
  | H_da_a => da_a
  | H_djnz_mem_offset => djnz_mem_offset
  | H_xchd_a_indir_rx => xchd_a_indir_rx
  | H_movx_a_indir_dptr => movx_a_indir_dptr
  | H_movx_a_indir_rx => movx_a_indir_rx
  | H_clr_a => clr_a
  | H_mov_a_mem => mov_a_mem
  | H_mov_a_indir_rx => mov_a_indir_rx
  | H_movx_indir_dptr_a => movx_indir_dptr_a
  | H_movx_indir_rx_a => movx_indir_rx_a
  | H_cpl_a => cpl_a
  | H_mov_mem_a => mov_mem_a
  | H_mov_indir_rx_a => mov_indir_rx_a
  end.

(** [aCPU->op[opcode](aCPU)] *)
Definition call_op (opcode : Z) : M W Z :=
  c ← get_cpu;
  entry ← in_range (aget (op c) opcode);
  h ← in_range entry;
  call_handler h.

Definition do_op : M W Z :=
  opcode ← OPCODE;
  match do_op_switch opcode with
  | Some h => call_handler h
  | None => mret 0
  end.

End Dispatch.
