(* ===== verification/Wf.v ===== *)
(** Well-formed CPU states: what the code assumes of the struct em8051 it is
    given (allocated memories, array sizes, field ranges, the handler table and
    the in-service stack), and that every assignment keeps it. *)
From S2P Require Import Prelude State Machine Ports Dispatch.
From Stdlib Require Export ZifyBool.

(** ** Well-formedness *)

(** A pointer is NULL or the start of a buffer of at least [n] bytes. *)
Definition ptr_ok (h : list (list Z)) (p : option nat) (n : Z) : Prop :=
  match p with
  | None => True
  | Some b => exists buffer, h !! b = Some buffer /\ n <= Z.of_nat (length buffer)
  end.

Record wf_memory (m : memory) : Prop := {
  wf_sfr_length : length (mSFR m) = 128%nat;
  wf_sfr_bytes : Forall byte (mSFR m);
  wf_lower_length : length (mLowerData m) = 128%nat;
  wf_lower_bytes : Forall byte (mLowerData m);
  wf_heap_bytes : Forall (Forall byte) (heap m);
  wf_code_present : mCodeMem m <> None;
  wf_code_idx : word (mCodeMemMaxIdx m);
  wf_code_ptr : ptr_ok (heap m) (mCodeMem m) (mCodeMemMaxIdx m + 1);
  wf_ext_idx : word (mExtDataMaxIdx m);
  wf_ext_ptr : ptr_ok (heap m) (mExtData m) (mExtDataMaxIdx m + 1);
  wf_upper_ptr : ptr_ok (heap m) (mUpperData m) 128
}.

(** The table op_setptrs builds. *)
Definition op_table : list (option handler) :=
  foldl assign (rx_rows op_rx_assignments (replicate 256 None)) op_assignments.

Definition word64 (x : Z) : Prop := 0 <= x < 18446744073709551616.

Record wf_exec (e : exec) : Prop := {
  wf_pc : word (mPC e);
  wf_delay : byte (mTickDelay e);
  wf_op : op e = op_table;
  wf_icount : word64 (mInstructionCount e);
  wf_ccount : word64 (mMachineCycleCount e);
  wf_overflow_length : length (mTimerOverflowCount e) = 3%nat
}.

Record wf_hooks (h : hooks) : Prop := {
  wf_sfrread_length : length (sfrread h) = 128%nat;
  wf_sfrwrite_length : length (sfrwrite h) = 128%nat
}.

Record wf_ports (p : ports) : Prop := {
  wf_mask_length : length (mSABPortExternalMask p) = 4%nat;
  wf_mask_bytes : Forall byte (mSABPortExternalMask p);
  wf_levels_length : length (mSABPortExternalLevels p) = 4%nat;
  wf_levels_bytes : Forall byte (mSABPortExternalLevels p);
  wf_sampled : byte (mSABExternalSampledLevels p);
  wf_asserted : byte (mSABExternalLevelAsserted p);
  wf_schedule_length : length (mSABExternalSchedule p) = 64%nat;
  wf_schedule_head : 0 <= mSABExternalScheduleHead p < 64;
  wf_schedule_count : 0 <= mSABExternalScheduleCount p <= 64
}.

Record wf_adc (a : adc) : Prop := {
  wf_inputs_length : length (mSABADCInputs a) = 8%nat;
  wf_adc_cycles : byte (mSABADCCycles a)
}.

(** The Siemens in-service stack: at most four entries, distinct sources of
    strictly increasing priority, and an in-service mask that is exactly the
    set of stacked sources. *)
Record wf_irq (i : irq) : Prop := {
  wf_int_a : length (int_a i) = 2%nat;
  wf_int_psw : length (int_psw i) = 2%nat;
  wf_int_sp : length (int_sp i) = 2%nat;
  wf_active : byte (mInterruptActive i);
  wf_source_length : length (mSABIrqSourceStack i) = 4%nat;
  wf_priority_length : length (mSABIrqPriorityStack i) = 4%nat;
  wf_saved_acc : length (mSABIrqSavedACC i) = 4%nat;
  wf_saved_psw : length (mSABIrqSavedPSW i) = 4%nat;
  wf_saved_sp : length (mSABIrqSavedSP i) = 4%nat;
  wf_inhibit : byte (mSABIrqInhibitInstructions i);
  wf_depth : 0 <= mSABIrqDepth i <= 4;
  wf_sources : forall k, 0 <= k < mSABIrqDepth i -> 0 <= geti (mSABIrqSourceStack i) k < 12;
  wf_priorities : forall k, 0 <= k < mSABIrqDepth i -> 0 <= geti (mSABIrqPriorityStack i) k < 4;
  wf_nesting : forall j k, 0 <= j < k -> k < mSABIrqDepth i ->
    geti (mSABIrqPriorityStack i) j < geti (mSABIrqPriorityStack i) k;
  wf_distinct : forall j k, 0 <= j < k -> k < mSABIrqDepth i ->
    geti (mSABIrqSourceStack i) j <> geti (mSABIrqSourceStack i) k;
  wf_in_service_word : word (mSABIrqInService i);
  wf_in_service : forall b, 0 <= b ->
    Z.testbit (mSABIrqInService i) b = true <->
    exists k, 0 <= k < mSABIrqDepth i /\ geti (mSABIrqSourceStack i) k = b
}.

Record wf_uart (u : uart) : Prop := {
  wf_serial_length : length (serial_out u) = 18%nat;
  wf_serial_idx : 0 <= serial_out_idx u < 18;
  wf_serial_bits : 0 <= serial_out_remaining_bits u <= 32;
  wf_rx_data : byte (mSABUartRxData u)
}.

Record wf (c : em8051) : Prop := {
  wf_cpu_memory : wf_memory c;
  wf_cpu_exec : wf_exec c;
  wf_cpu_hooks : wf_hooks c;
  wf_cpu_ports : wf_ports c;
  wf_cpu_adc : wf_adc c;
  wf_cpu_irq : wf_irq c;
  wf_cpu_uart : wf_uart c
}.

(** The parts of [wf] that assignments to one group of fields must restore. *)

Lemma wf_set_memory x c : wf c -> wf_memory x -> wf (set_memory x c).
Proof. intros [] Hx. by constructor. Qed.
Lemma wf_set_exec x c : wf c -> wf_exec x -> wf (set_exec x c).
Proof. intros [] Hx. by constructor. Qed.
Lemma wf_set_hooks x c : wf c -> wf_hooks x -> wf (set_hooks x c).
Proof. intros [] Hx. by constructor. Qed.
Lemma wf_set_ports x c : wf c -> wf_ports x -> wf (set_ports x c).
Proof. intros [] Hx. by constructor. Qed.
Lemma wf_set_adc x c : wf c -> wf_adc x -> wf (set_adc x c).
Proof. intros [] Hx. by constructor. Qed.
Lemma wf_set_irq x c : wf c -> wf_irq x -> wf (set_irq x c).
Proof. intros [] Hx. by constructor. Qed.
Lemma wf_set_uart x c : wf c -> wf_uart x -> wf (set_uart x c).
Proof. intros [] Hx. by constructor. Qed.

Ltac wf_setter lem :=
  let H := fresh in intros H; intros; apply lem; [exact H|];
  destruct H as [[] [] [] [] [] [] []];
  constructor; cbn; try assumption; eauto with width.

Lemma word64_u64 x : word64 (u64 x).
Proof. unfold word64, u64. apply Z.mod_pos_bound. lia. Qed.
#[export] Hint Resolve word64_u64 : width.

Lemma wf_set_mLowerData v c : wf c -> length v = 128%nat -> Forall byte v -> wf (set_mLowerData v c).
Proof. wf_setter wf_set_memory. Qed.
Lemma wf_set_mUpperData v c : wf c -> ptr_ok (heap c) v 128 -> wf (set_mUpperData v c).
Proof. wf_setter wf_set_memory. Qed.
Lemma wf_set_mSFR v c : wf c -> length v = 128%nat -> Forall byte v -> wf (set_mSFR v c).
Proof. wf_setter wf_set_memory. Qed.
Lemma wf_set_mPC v c : wf c -> wf (set_mPC v c).
Proof. wf_setter wf_set_exec. Qed.
Lemma wf_set_mTickDelay v c : wf c -> wf (set_mTickDelay v c).
Proof. wf_setter wf_set_exec. Qed.
Lemma wf_set_op v c : wf c -> v = op_table -> wf (set_op v c).
Proof. wf_setter wf_set_exec. Qed.
Lemma wf_set_dec v c : wf c -> wf (set_dec v c).
Proof. wf_setter wf_set_exec. Qed.
Lemma wf_set_mVariant v c : wf c -> wf (set_mVariant v c).
Proof. wf_setter wf_set_exec. Qed.
Lemma wf_set_mOscillatorHz v c : wf c -> wf (set_mOscillatorHz v c).
Proof. wf_setter wf_set_exec. Qed.
Lemma wf_set_mResetSeed v c : wf c -> wf (set_mResetSeed v c).
Proof. wf_setter wf_set_exec. Qed.
Lemma wf_set_mResetSeedConfigured v c : wf c -> wf (set_mResetSeedConfigured v c).
Proof. wf_setter wf_set_exec. Qed.
Lemma wf_set_mInstructionCount v c : wf c -> wf (set_mInstructionCount v c).
Proof. wf_setter wf_set_exec. Qed.
Lemma wf_set_mMachineCycleCount v c : wf c -> wf (set_mMachineCycleCount v c).
Proof. wf_setter wf_set_exec. Qed.
Lemma wf_set_mTimerOverflowCount v c : wf c -> length v = 3%nat -> wf (set_mTimerOverflowCount v c).
Proof. wf_setter wf_set_exec. Qed.
Lemma wf_set_mBreakpointEnabled v c : wf c -> wf (set_mBreakpointEnabled v c).
Proof. wf_setter wf_set_exec. Qed.
Lemma wf_set_mBreakpoint v c : wf c -> wf (set_mBreakpoint v c).
Proof. wf_setter wf_set_exec. Qed.
Lemma wf_set_mExceptionRaised v c : wf c -> wf (set_mExceptionRaised v c).
Proof. wf_setter wf_set_exec. Qed.
Lemma wf_set_mLastException v c : wf c -> wf (set_mLastException v c).
Proof. wf_setter wf_set_exec. Qed.
Lemma wf_set_mTracePC v c : wf c -> wf (set_mTracePC v c).
Proof. wf_setter wf_set_exec. Qed.
Lemma wf_set_mInInstruction v c : wf c -> wf (set_mInInstruction v c).
Proof. wf_setter wf_set_exec. Qed.
Lemma wf_set_except v c : wf c -> wf (set_except v c).
Proof. wf_setter wf_set_hooks. Qed.
Lemma wf_set_sfrread v c : wf c -> length v = 128%nat -> wf (set_sfrread v c).
Proof. wf_setter wf_set_hooks. Qed.
Lemma wf_set_sfrwrite v c : wf c -> length v = 128%nat -> wf (set_sfrwrite v c).
Proof. wf_setter wf_set_hooks. Qed.
Lemma wf_set_xread v c : wf c -> wf (set_xread v c).
Proof. wf_setter wf_set_hooks. Qed.
Lemma wf_set_xwrite v c : wf c -> wf (set_xwrite v c).
Proof. wf_setter wf_set_hooks. Qed.
Lemma wf_set_movx_observer v c : wf c -> wf (set_movx_observer v c).
Proof. wf_setter wf_set_hooks. Qed.
Lemma wf_set_movx_observer_user v c : wf c -> wf (set_movx_observer_user v c).
Proof. wf_setter wf_set_hooks. Qed.
Lemma wf_set_sab_external_trace v c : wf c -> wf (set_sab_external_trace v c).
Proof. wf_setter wf_set_hooks. Qed.
Lemma wf_set_sab_external_trace_user v c : wf c -> wf (set_sab_external_trace_user v c).
Proof. wf_setter wf_set_hooks. Qed.
Lemma wf_set_sab_adc_trace v c : wf c -> wf (set_sab_adc_trace v c).
Proof. wf_setter wf_set_hooks. Qed.
Lemma wf_set_sab_adc_trace_user v c : wf c -> wf (set_sab_adc_trace_user v c).
Proof. wf_setter wf_set_hooks. Qed.
Lemma wf_set_trace v c : wf c -> wf (set_trace v c).
Proof. wf_setter wf_set_hooks. Qed.
Lemma wf_set_trace_user v c : wf c -> wf (set_trace_user v c).
Proof. wf_setter wf_set_hooks. Qed.
Lemma wf_set_sab_irq_trace v c : wf c -> wf (set_sab_irq_trace v c).
Proof. wf_setter wf_set_hooks. Qed.
Lemma wf_set_sab_irq_trace_user v c : wf c -> wf (set_sab_irq_trace_user v c).
Proof. wf_setter wf_set_hooks. Qed.
Lemma wf_set_timer_overflow v c : wf c -> wf (set_timer_overflow v c).
Proof. wf_setter wf_set_hooks. Qed.
Lemma wf_set_timer_overflow_user v c : wf c -> wf (set_timer_overflow_user v c).
Proof. wf_setter wf_set_hooks. Qed.
Lemma wf_set_sab_uart_trace v c : wf c -> wf (set_sab_uart_trace v c).
Proof. wf_setter wf_set_hooks. Qed.
Lemma wf_set_sab_uart_trace_user v c : wf c -> wf (set_sab_uart_trace_user v c).
Proof. wf_setter wf_set_hooks. Qed.
Lemma wf_set_execution_abort v c : wf c -> wf (set_execution_abort v c).
Proof. wf_setter wf_set_hooks. Qed.
Lemma wf_set_execution_abort_user v c : wf c -> wf (set_execution_abort_user v c).
Proof. wf_setter wf_set_hooks. Qed.
Lemma wf_set_mObservation v c : wf c -> wf (set_mObservation v c).
Proof. wf_setter wf_set_hooks. Qed.
Lemma wf_set_mSABPortExternalMask v c : wf c -> length v = 4%nat -> Forall byte v -> wf (set_mSABPortExternalMask v c).
Proof. wf_setter wf_set_ports. Qed.
Lemma wf_set_mSABPortExternalLevels v c : wf c -> length v = 4%nat -> Forall byte v -> wf (set_mSABPortExternalLevels v c).
Proof. wf_setter wf_set_ports. Qed.
Lemma wf_set_mSABExternalSampledLevels v c : wf c -> wf (set_mSABExternalSampledLevels v c).
Proof. wf_setter wf_set_ports. Qed.
Lemma wf_set_mSABExternalLevelAsserted v c : wf c -> wf (set_mSABExternalLevelAsserted v c).
Proof. wf_setter wf_set_ports. Qed.
Lemma wf_set_mSABExternalSchedule v c : wf c -> length v = 64%nat -> wf (set_mSABExternalSchedule v c).
Proof. wf_setter wf_set_ports. Qed.
Lemma wf_set_mSABExternalScheduleHead v c : wf c -> 0 <= u8 v < 64 -> wf (set_mSABExternalScheduleHead v c).
Proof. wf_setter wf_set_ports. Qed.
Lemma wf_set_mSABExternalScheduleCount v c : wf c -> 0 <= u8 v <= 64 -> wf (set_mSABExternalScheduleCount v c).
Proof. wf_setter wf_set_ports. Qed.
Lemma wf_set_mSABADCInputs v c : wf c -> length v = 8%nat -> wf (set_mSABADCInputs v c).
Proof. wf_setter wf_set_adc. Qed.
Lemma wf_set_mSABADCLatchedInput v c : wf c -> wf (set_mSABADCLatchedInput v c).
Proof. wf_setter wf_set_adc. Qed.
Lemma wf_set_mSABSfrWriteDepth v c : wf c -> wf (set_mSABSfrWriteDepth v c).
Proof. wf_setter wf_set_adc. Qed.
Lemma wf_set_mSABADCLatchedChannel v c : wf c -> wf (set_mSABADCLatchedChannel v c).
Proof. wf_setter wf_set_adc. Qed.
Lemma wf_set_mSABADCLatchedDAPR v c : wf c -> wf (set_mSABADCLatchedDAPR v c).
Proof. wf_setter wf_set_adc. Qed.
Lemma wf_set_mSABADCCycles v c : wf c -> wf (set_mSABADCCycles v c).
Proof. wf_setter wf_set_adc. Qed.
Lemma wf_set_mSABADCStartPending v c : wf c -> wf (set_mSABADCStartPending v c).
Proof. wf_setter wf_set_adc. Qed.
Lemma wf_set_mSABADCArmRestart v c : wf c -> wf (set_mSABADCArmRestart v c).
Proof. wf_setter wf_set_adc. Qed.
Lemma wf_set_mSABADCArmed v c : wf c -> wf (set_mSABADCArmed v c).
Proof. wf_setter wf_set_adc. Qed.
Lemma wf_set_mSABADCActive v c : wf c -> wf (set_mSABADCActive v c).
Proof. wf_setter wf_set_adc. Qed.
Lemma wf_set_mSABADCBusy v c : wf c -> wf (set_mSABADCBusy v c).
Proof. wf_setter wf_set_adc. Qed.
Lemma wf_set_mSABADCReferenceValid v c : wf c -> wf (set_mSABADCReferenceValid v c).
Proof. wf_setter wf_set_adc. Qed.
Lemma wf_set_mSABADCContinuousRequested v c : wf c -> wf (set_mSABADCContinuousRequested v c).
Proof. wf_setter wf_set_adc. Qed.
Lemma wf_set_mInterruptActive v c : wf c -> wf (set_mInterruptActive v c).
Proof. wf_setter wf_set_irq. Qed.
Lemma wf_set_int_a v c : wf c -> length v = 2%nat -> wf (set_int_a v c).
Proof. wf_setter wf_set_irq. Qed.
Lemma wf_set_int_psw v c : wf c -> length v = 2%nat -> wf (set_int_psw v c).
Proof. wf_setter wf_set_irq. Qed.
Lemma wf_set_int_sp v c : wf c -> length v = 2%nat -> wf (set_int_sp v c).
Proof. wf_setter wf_set_irq. Qed.
Lemma wf_set_mSABIrqPending v c : wf c -> wf (set_mSABIrqPending v c).
Proof. wf_setter wf_set_irq. Qed.
Lemma wf_set_mSABIrqEnabled v c : wf c -> wf (set_mSABIrqEnabled v c).
Proof. wf_setter wf_set_irq. Qed.
Lemma wf_set_mSABIrqSavedACC v c : wf c -> length v = 4%nat -> wf (set_mSABIrqSavedACC v c).
Proof. wf_setter wf_set_irq. Qed.
Lemma wf_set_mSABIrqSavedPSW v c : wf c -> length v = 4%nat -> wf (set_mSABIrqSavedPSW v c).
Proof. wf_setter wf_set_irq. Qed.
Lemma wf_set_mSABIrqSavedSP v c : wf c -> length v = 4%nat -> wf (set_mSABIrqSavedSP v c).
Proof. wf_setter wf_set_irq. Qed.
Lemma wf_set_mSABIrqInhibitInstructions v c : wf c -> wf (set_mSABIrqInhibitInstructions v c).
Proof. wf_setter wf_set_irq. Qed.
Lemma wf_set_mSABUartDividerPhase v c : wf c -> wf (set_mSABUartDividerPhase v c).
Proof. wf_setter wf_set_uart. Qed.
Lemma wf_set_mSABUartRxDividerPhase v c : wf c -> wf (set_mSABUartRxDividerPhase v c).
Proof. wf_setter wf_set_uart. Qed.
Lemma wf_set_mSABUartRxData v c : wf c -> wf (set_mSABUartRxData v c).
Proof. wf_setter wf_set_uart. Qed.
Lemma wf_set_mSABUartTxPendingData v c : wf c -> wf (set_mSABUartTxPendingData v c).
Proof. wf_setter wf_set_uart. Qed.
Lemma wf_set_mSABUartTxData v c : wf c -> wf (set_mSABUartTxData v c).
Proof. wf_setter wf_set_uart. Qed.
Lemma wf_set_mSABUartTxBitIndex v c : wf c -> wf (set_mSABUartTxBitIndex v c).
Proof. wf_setter wf_set_uart. Qed.
Lemma wf_set_mSABUartRxPendingData v c : wf c -> wf (set_mSABUartRxPendingData v c).
Proof. wf_setter wf_set_uart. Qed.
Lemma wf_set_mSABUartRxBitIndex v c : wf c -> wf (set_mSABUartRxBitIndex v c).
Proof. wf_setter wf_set_uart. Qed.
Lemma wf_set_mSABUartTxPendingNinth v c : wf c -> wf (set_mSABUartTxPendingNinth v c).
Proof. wf_setter wf_set_uart. Qed.
Lemma wf_set_mSABUartTxNinth v c : wf c -> wf (set_mSABUartTxNinth v c).
Proof. wf_setter wf_set_uart. Qed.
Lemma wf_set_mSABUartTxPending v c : wf c -> wf (set_mSABUartTxPending v c).
Proof. wf_setter wf_set_uart. Qed.
Lemma wf_set_mSABUartTxActive v c : wf c -> wf (set_mSABUartTxActive v c).
Proof. wf_setter wf_set_uart. Qed.
Lemma wf_set_mSABUartRxPendingNinth v c : wf c -> wf (set_mSABUartRxPendingNinth v c).
Proof. wf_setter wf_set_uart. Qed.
Lemma wf_set_mSABUartRxActive v c : wf c -> wf (set_mSABUartRxActive v c).
Proof. wf_setter wf_set_uart. Qed.
Lemma wf_set_serial_out v c : wf c -> length v = 18%nat -> wf (set_serial_out v c).
Proof. wf_setter wf_set_uart. Qed.
Lemma wf_set_serial_out_idx v c : wf c -> 0 <= u8 v < 18 -> wf (set_serial_out_idx v c).
Proof. wf_setter wf_set_uart. Qed.
Lemma wf_set_serial_out_remaining_bits v c :
  wf c -> 0 <= u8 v <= 32 -> wf (set_serial_out_remaining_bits v c).
Proof. wf_setter wf_set_uart. Qed.
Lemma wf_set_serial_interrupt_trigger v c : wf c -> wf (set_serial_interrupt_trigger v c).
Proof. wf_setter wf_set_uart. Qed.

#[export] Hint Resolve wf_set_mLowerData wf_set_mUpperData wf_set_mSFR wf_set_mPC
  wf_set_mTickDelay wf_set_op wf_set_dec wf_set_mVariant wf_set_mOscillatorHz
  wf_set_mResetSeed wf_set_mResetSeedConfigured wf_set_mInstructionCount
  wf_set_mMachineCycleCount wf_set_mTimerOverflowCount wf_set_mBreakpointEnabled
  wf_set_mBreakpoint wf_set_mExceptionRaised wf_set_mLastException wf_set_mTracePC
  wf_set_mInInstruction wf_set_except wf_set_sfrread wf_set_sfrwrite wf_set_xread
  wf_set_xwrite wf_set_movx_observer wf_set_movx_observer_user wf_set_sab_external_trace
  wf_set_sab_external_trace_user wf_set_sab_adc_trace wf_set_sab_adc_trace_user wf_set_trace
  wf_set_trace_user wf_set_sab_irq_trace wf_set_sab_irq_trace_user wf_set_timer_overflow
  wf_set_timer_overflow_user wf_set_sab_uart_trace wf_set_sab_uart_trace_user
  wf_set_execution_abort wf_set_execution_abort_user wf_set_mObservation
  wf_set_mSABPortExternalMask wf_set_mSABPortExternalLevels wf_set_mSABExternalSampledLevels
  wf_set_mSABExternalLevelAsserted wf_set_mSABExternalSchedule
  wf_set_mSABExternalScheduleHead wf_set_mSABExternalScheduleCount wf_set_mSABADCInputs
  wf_set_mSABADCLatchedInput wf_set_mSABSfrWriteDepth wf_set_mSABADCLatchedChannel
  wf_set_mSABADCLatchedDAPR wf_set_mSABADCCycles wf_set_mSABADCStartPending
  wf_set_mSABADCArmRestart wf_set_mSABADCArmed wf_set_mSABADCActive wf_set_mSABADCBusy
  wf_set_mSABADCReferenceValid wf_set_mSABADCContinuousRequested wf_set_mInterruptActive
  wf_set_int_a wf_set_int_psw wf_set_int_sp wf_set_mSABIrqPending wf_set_mSABIrqEnabled
  wf_set_mSABIrqSavedACC wf_set_mSABIrqSavedPSW wf_set_mSABIrqSavedSP
  wf_set_mSABIrqInhibitInstructions wf_set_mSABUartDividerPhase
  wf_set_mSABUartRxDividerPhase wf_set_mSABUartRxData wf_set_mSABUartTxPendingData
  wf_set_mSABUartTxData wf_set_mSABUartTxBitIndex wf_set_mSABUartRxPendingData
  wf_set_mSABUartRxBitIndex wf_set_mSABUartTxPendingNinth wf_set_mSABUartTxNinth
  wf_set_mSABUartTxPending wf_set_mSABUartTxActive wf_set_mSABUartRxPendingNinth
  wf_set_mSABUartRxActive wf_set_serial_out wf_set_serial_out_idx
  wf_set_serial_out_remaining_bits wf_set_serial_interrupt_trigger : emu.
