(* ===== verification/Logic.v ===== *)
(** The total-correctness logic: SFR algebra, frames, the laws a host keeps,
    [safe] computations and the tactic that proves them. *)
From S2P Require Import Prelude State Machine Ports Dispatch Wf.

(** ** SFR algebra *)

Lemma sfr_set_sfr_eq c i v : wf c -> 0 <= i < 128 -> sfr (set_sfr i v c) i = u8 v.
Proof.
  intros H Hi. apply geti_seti_eq. rewrite (wf_sfr_length _ (wf_cpu_memory _ H)). lia.
Qed.

Lemma sfr_set_sfr_ne c i j v : i <> j -> 0 <= i -> 0 <= j -> sfr (set_sfr i v c) j = sfr c j.
Proof. intros. by apply geti_seti_ne. Qed.

Lemma wf_set_sfr i v c : wf c -> wf (set_sfr i v c).
Proof.
  intros H. apply wf_set_mSFR; [done| |].
  - rewrite length_seti. apply H.
  - apply Forall_seti; [apply H|apply u8_byte].
Qed.

Lemma sfr_byte c i : wf c -> 0 <= i < 128 -> byte (sfr c i).
Proof.
  intros H Hi. apply (Forall_geti byte); [apply H|]. rewrite (wf_sfr_length _ (wf_cpu_memory _ H)). lia.
Qed.

#[export] Hint Resolve wf_set_sfr : emu.
#[export] Hint Resolve wf_cpu_memory wf_cpu_exec wf_cpu_hooks wf_cpu_ports wf_cpu_adc wf_cpu_irq
  wf_cpu_uart wf_mask_length wf_mask_bytes wf_levels_length wf_levels_bytes wf_overflow_length
  wf_inputs_length wf_serial_length wf_schedule_length wf_int_a wf_int_psw wf_int_sp
  wf_saved_acc wf_saved_psw wf_saved_sp : emu.
#[export] Hint Resolve Forall_seti u8_byte : emu.
#[export] Hint Extern 2 (length (seti _ _ _) = _) => rewrite length_seti : emu.
#[export] Hint Extern 2 (length (<[_ := _]> _) = _) => rewrite length_insert : emu.

(** Equalities of SFR reads after writes, at constant indexes. *)
Ltac const_side := first [done | by vm_compute | lia].
Ltac sfr_simpl :=
  repeat first
    [ rewrite sfr_set_sfr_eq by (first [assumption | const_side | eauto 8 with emu])
    | rewrite sfr_set_sfr_ne by const_side ].

(** ** Frames *)

(** The registers no peripheral writes. *)
Definition core_regs : list Z :=
  [REG_ACC; REG_B; REG_PSW; REG_SP; REG_DPL; REG_DPH; REG_PCON; REG_TMOD;
   SAB_SFR_INDEX EM8051_SAB_SFR_IEN0; SAB_SFR_INDEX EM8051_SAB_SFR_IP0;
   SAB_SFR_INDEX EM8051_SAB_SFR_IEN1; SAB_SFR_INDEX EM8051_SAB_SFR_IP1].

(** An SFR index that is not a core register. *)
Definition peripheral_sfr (i : Z) : bool := (0 <=? i) && negb (existsb (Z.eqb i) core_regs).

Lemma peripheral_sfr_ne i j : peripheral_sfr i = true -> j ∈ core_regs -> 0 <= i /\ 0 <= j /\ i <> j.
Proof.
  unfold peripheral_sfr. intros [Hi Hn]%andb_prop Hj. split; [lia|]. split.
  - assert (forallb (Z.leb 0) core_regs = true) as Ha by reflexivity.
    rewrite forallb_forall in Ha. apply Z.leb_le, Ha. by apply list_elem_of_In.
  - intros ->. apply negb_true_iff in Hn.
    assert (existsb (Z.eqb j) core_regs = true); [|congruence].
    apply existsb_exists. exists j. split; [by apply list_elem_of_In|lia].
Qed.

(** What the end of a machine cycle leaves alone: memories, program counter,
    delay, instruction count, callbacks, the in-service stack and the core
    registers. *)
Record cycle (c c' : em8051) : Prop := {
  cy_heap : heap c' = heap c;
  cy_lower : mLowerData c' = mLowerData c;
  cy_pointers : (mCodeMem c', mExtData c', mUpperData c') = (mCodeMem c, mExtData c, mUpperData c);
  cy_limits : (mCodeMemMaxIdx c', mExtDataMaxIdx c') = (mCodeMemMaxIdx c, mExtDataMaxIdx c);
  cy_core : forall i, i ∈ core_regs -> sfr c' i = sfr c i;
  cy_pc : mPC c' = mPC c;
  cy_delay : mTickDelay c' = mTickDelay c;
  cy_variant : mVariant c' = mVariant c;
  cy_icount : mInstructionCount c' = mInstructionCount c;
  cy_except : mExceptionRaised c' = mExceptionRaised c;
  cy_in_instruction : mInInstruction c' = mInInstruction c;
  cy_hooks : cpu_hooks c' = cpu_hooks c;
  cy_active : mInterruptActive c' = mInterruptActive c;
  cy_depth : mSABIrqDepth c' = mSABIrqDepth c;
  cy_sources : mSABIrqSourceStack c' = mSABIrqSourceStack c;
  cy_priorities : mSABIrqPriorityStack c' = mSABIrqPriorityStack c;
  cy_saved : (mSABIrqSavedACC c', mSABIrqSavedPSW c', mSABIrqSavedSP c')
    = (mSABIrqSavedACC c, mSABIrqSavedPSW c, mSABIrqSavedSP c);
  cy_in_service : mSABIrqInService c' = mSABIrqInService c;
  cy_inhibit : mSABIrqInhibitInstructions c' = mSABIrqInhibitInstructions c
}.

(** What a single peripheral step leaves alone besides: the virtual clock and
    the stimulus schedule. *)
Record periph (c c' : em8051) : Prop := {
  pf_cycle : cycle c c';
  pf_ccount : mMachineCycleCount c' = mMachineCycleCount c;
  pf_schedule : (mSABExternalSchedule c', mSABExternalScheduleHead c', mSABExternalScheduleCount c')
    = (mSABExternalSchedule c, mSABExternalScheduleHead c, mSABExternalScheduleCount c)
}.

(** What every instruction leaves alone: the virtual clock, the instruction
    count, the variant; a raised exception stays raised. *)
Record step (c c' : em8051) : Prop := {
  st_icount : mInstructionCount c' = mInstructionCount c;
  st_ccount : mMachineCycleCount c' = mMachineCycleCount c;
  st_variant : mVariant c' = mVariant c;
  st_except : mExceptionRaised c = true -> mExceptionRaised c' = true
}.

(** Interrupt nesting: the Siemens in-service stack and the classic active
    level. *)
Definition irq_stack (c : em8051) : Z * list Z * list Z * Z * Z :=
  (mSABIrqDepth c, mSABIrqSourceStack c, mSABIrqPriorityStack c, mSABIrqInService c,
   mInterruptActive c).

(** What an instruction other than RETI, or a callback during it, leaves alone:
    interrupt nesting as well. *)
Record instr (c c' : em8051) : Prop := {
  in_step : step c c';
  in_stack : irq_stack c' = irq_stack c
}.

#[export] Instance cycle_preorder : PreOrder cycle.
Proof.
  split; [by constructor|].
  intros a b c [] []. constructor; try congruence.
  intros i Hi. transitivity (sfr b i); auto.
Qed.

#[export] Instance periph_preorder : PreOrder periph.
Proof.
  split; [by constructor|]. intros a b c [] []. constructor; [by etransitivity|congruence..].
Qed.

#[export] Instance step_preorder : PreOrder step.
Proof. split; [by constructor|]. intros a b c [] []. constructor; try congruence. auto. Qed.

#[export] Instance instr_preorder : PreOrder instr.
Proof. split; [by constructor|]. intros a b c [] []. constructor; [by etransitivity|congruence]. Qed.

Lemma periph_instr c c' : periph c c' -> instr c c'.
Proof.
  intros [[]]. constructor; [constructor; congruence|]. unfold irq_stack. congruence.
Qed.

Lemma periph_set_sfr c i v : peripheral_sfr i = true -> periph c (set_sfr i v c).
Proof.
  intros Hi. constructor; [|reflexivity..]. constructor; try reflexivity. intros j Hj.
  destruct (peripheral_sfr_ne i j Hi Hj) as (? & ? & ?). by apply sfr_set_sfr_ne.
Qed.

(** What a machine cycle and interrupt entry leave alone. *)
Record idle (c c' : em8051) : Prop := {
  id_icount : mInstructionCount c' = mInstructionCount c;
  id_variant : mVariant c' = mVariant c;
  id_except : mExceptionRaised c = true -> mExceptionRaised c' = true
}.

#[export] Instance idle_preorder : PreOrder idle.
Proof. split; [by constructor|]. intros a b c [] []. constructor; try congruence. auto. Qed.

Lemma cycle_idle c c' : cycle c c' -> idle c c'.
Proof. intros []. constructor; congruence. Qed.
Lemma step_idle c c' : step c c' -> idle c c'.
Proof. intros []. by constructor. Qed.

(** Scheduled stimulus keeps the clock. *)
Record sched (c c' : em8051) : Prop := {
  sc_cycle : cycle c c';
  sc_ccount : mMachineCycleCount c' = mMachineCycleCount c
}.
#[export] Instance sched_preorder : PreOrder sched.
Proof. split; [by constructor|]. intros a b c [] []. constructor; [by etransitivity|congruence]. Qed.

Lemma periph_sched c c' : periph c c' -> sched c c'.
Proof. intros []. by constructor. Qed.

(** No frame at all. *)
Definition whole (_ _ : em8051) : Prop := True.
#[export] Instance whole_preorder : PreOrder whole.
Proof. done. Qed.

(** Frame of one assignment. *)
Ltac frame_tac :=
  lazymatch goal with
  | |- periph ?c ?c => reflexivity
  | |- cycle ?c ?c => reflexivity
  | |- instr ?c ?c => reflexivity
  | |- step ?c ?c => reflexivity
  | |- sched ?c ?c => reflexivity
  | |- idle ?c ?c => reflexivity
  | |- periph _ (set_sfr _ _ _) =>
      apply periph_set_sfr; reflexivity
  | |- cycle _ (set_sfr _ _ _) => apply pf_cycle, periph_set_sfr; reflexivity
  | |- cycle _ _ => constructor; reflexivity
  | |- periph _ _ =>
      first [solve [eauto with emu] | constructor; [constructor; reflexivity|reflexivity..]]
  | |- instr _ _ =>
      first [solve [eauto with emu]
            | constructor; [constructor; first [reflexivity | intros; assumption]|reflexivity]]
  | |- sched _ _ => constructor; [constructor; reflexivity|reflexivity]
  | |- idle _ _ => constructor; first [reflexivity | intros; assumption]
  | |- step _ _ => first [solve [eauto with emu] | constructor; first [reflexivity | intros; assumption]]
  end.

(** ** What a host promises *)

(** The contract of callbacks that receive the CPU: they keep it well formed
    and do not touch the clock, the instruction count, the variant or the
    interrupt nesting, nor clear a raised exception. *)
Definition good_callback {W} (f : machine W -> machine W) : Prop :=
  forall s, wf (cpu s) -> wf (cpu (f s)) /\ instr (cpu s) (cpu (f s)).

Class HostOk (W : Type) {HostW : Host W} : Prop := {
  good_except : forall p code, good_callback (call_except p code);
  good_sfrread : forall p a, good_callback (fun s => snd (call_sfrread p a s));
  good_sfrwrite : forall p a, good_callback (call_sfrwrite p a);
  good_xread : forall p a, good_callback (fun s => snd (call_xread p a s));
  good_xwrite : forall p a v, good_callback (call_xwrite p a v)
}.

Section Logic.
Context {W : Type} {HostW : Host W}.

(** From machine [s], [m] ends normally in a well-formed CPU, related to [c0]
    by [R], with a result that satisfies [Q]. *)
Definition ok (R : em8051 -> em8051 -> Prop) (c0 : em8051) {A} (m : M W A)
    (Q : A -> machine W -> Prop) (s : machine W) : Prop :=
  exists a s', m s = Done a s' /\ wf (cpu s') /\ R c0 (cpu s') /\ Q a s'.

Definition safe (R : em8051 -> em8051 -> Prop) {A} (m : M W A) (Q : A -> Prop) : Prop :=
  forall s, wf (cpu s) -> ok R (cpu s) m (fun a _ => Q a) s.

Definition any {A} (_ : A) : Prop := True.

Context (R : em8051 -> em8051 -> Prop) `{!PreOrder R}.

Lemma ok_ret c0 {A} (a : A) Q s :
  wf (cpu s) -> R c0 (cpu s) -> Q a s -> ok R c0 (mret a) Q s.
Proof. intros. by exists a, s. Qed.

Lemma ok_bind_ret c0 {A B} (a : A) (k : A -> M W B) Q s :
  ok R c0 (k a) Q s -> ok R c0 (bind (mret a) k) Q s.
Proof. done. Qed.

Lemma ok_get c0 {B} (k : em8051 -> M W B) Q s :
  ok R c0 (k (cpu s)) Q s -> ok R c0 (bind get_cpu k) Q s.
Proof. done. Qed.

Lemma ok_gets c0 {A B} (f : em8051 -> A) (k : A -> M W B) Q s :
  ok R c0 (k (f (cpu s))) Q s -> ok R c0 (bind (gets f) k) Q s.
Proof. done. Qed.

Lemma ok_aborted c0 {B} (k : bool -> M W B) Q s :
  (forall b, ok R c0 (k b) Q s) -> ok R c0 (bind em8051_execution_aborted k) Q s.
Proof. intros H. apply H. Qed.

(** The same, keeping what the test returned. *)
Lemma ok_aborted_eq c0 {B} (k : bool -> M W B) Q s :
  (forall b, execution_aborted s = b -> ok R c0 (k b) Q s) ->
  ok R c0 (bind em8051_execution_aborted k) Q s.
Proof. intros H. by apply (H _ eq_refl). Qed.

Lemma ok_modify c0 {B} f (k : () -> M W B) Q s :
  wf (f (cpu s)) -> R c0 (cpu s) -> R (cpu s) (f (cpu s)) ->
  (forall s', cpu s' = f (cpu s) -> wf (cpu s') -> R c0 (cpu s') -> ok R c0 (k ()) Q s') ->
  ok R c0 (bind (modify f) k) Q s.
Proof. intros Hw H0 H1 H. apply H; [done..|]. by etransitivity. Qed.

Lemma ok_modify2 c0 {B} f g (k : () -> M W B) Q s :
  ok R c0 (bind (modify (fun c => g (f c))) k) Q s ->
  ok R c0 (bind (modify f) (fun _ => bind (modify g) k)) Q s.
Proof. done. Qed.

Lemma ok_in_range c0 {A B} (o : option A) x (k : A -> M W B) Q s :
  o = Some x -> ok R c0 (k x) Q s -> ok R c0 (bind (in_range o) k) Q s.
Proof. by intros ->. Qed.

Lemma ok_in_range_end c0 {A} (o : option A) x (Q : A -> machine W -> Prop) s :
  o = Some x -> wf (cpu s) -> R c0 (cpu s) -> Q x s -> ok R c0 (in_range o) Q s.
Proof. intros -> ? ? ?. by exists x, s. Qed.

Lemma ok_call c0 {A B} (m : M W A) (P : A -> Prop) (k : A -> M W B) Q s :
  safe R m P -> wf (cpu s) -> R c0 (cpu s) ->
  (forall a s', P a -> wf (cpu s') -> R c0 (cpu s') -> R (cpu s) (cpu s') -> ok R c0 (k a) Q s') ->
  ok R c0 (bind m k) Q s.
Proof.
  intros Hm Hw H0 Hk. destruct (Hm s Hw) as (a & s' & E & Hw' & H1 & HP).
  destruct (Hk a s' HP Hw' (transitivity H0 H1) H1) as (b & s'' & E' & ?).
  exists b, s''. split; [|done]. unfold bind. by rewrite E.
Qed.

Lemma ok_bind c0 {A B} (m : M W A) (P : A -> machine W -> Prop) (k : A -> M W B) Q s :
  ok R c0 m P s ->
  (forall a s', P a s' -> wf (cpu s') -> R c0 (cpu s') -> ok R c0 (k a) Q s') ->
  ok R c0 (bind m k) Q s.
Proof.
  intros (a & s' & E & Hw & H0 & HP) Hk. destruct (Hk a s' HP Hw H0) as (b & s'' & E' & ?).
  exists b, s''. split; [|done]. unfold bind. by rewrite E.
Qed.

(** A call whose outcome is known. *)
Lemma ok_exec c0 {A B} (m : M W A) (k : A -> M W B) Q s a s' :
  m s = Done a s' -> ok R c0 (k a) Q s' -> ok R c0 (bind m k) Q s.
Proof. intros E (b & s'' & ? & ?). exists b, s''. split; [|done]. unfold bind. by rewrite E. Qed.

(** A call to a computation with a narrower frame. *)
Lemma ok_call_within c0 (R' : em8051 -> em8051 -> Prop) {A B} (m : M W A) (P : A -> Prop)
    (k : A -> M W B) Q s :
  safe R' m P -> (forall c c', R' c c' -> R c c') -> wf (cpu s) -> R c0 (cpu s) ->
  (forall a s', P a -> wf (cpu s') -> R c0 (cpu s') -> R' (cpu s) (cpu s') -> ok R c0 (k a) Q s') ->
  ok R c0 (bind m k) Q s.
Proof.
  intros Hm Hsub Hw H0 Hk. destruct (Hm s Hw) as (a & s' & E & Hw' & H1 & HP).
  destruct (Hk a s' HP Hw' (transitivity H0 (Hsub _ _ H1)) H1) as (b & s'' & E' & ?).
  exists b, s''. split; [|done]. unfold bind. by rewrite E.
Qed.

Lemma ok_assoc c0 {A B C} (m : M W A) (k : A -> M W B) (h : B -> M W C) Q s :
  ok R c0 (bind m (fun a => bind (k a) h)) Q s -> ok R c0 (bind (bind m k) h) Q s.
Proof.
  intros (a & s' & E & H). exists a, s'. split; [|done]. revert E. unfold bind.
  by destruct (m s).
Qed.

Lemma ok_trans c0 {A} (m : M W A) Q s :
  R c0 (cpu s) -> ok R (cpu s) m Q s -> ok R c0 m Q s.
Proof. intros H0 (a & s' & ? & ? & ? & ?). exists a, s'. split_and!; [done..| |done]. by etransitivity. Qed.

Lemma ok_weaken c0 {A} (m : M W A) (Q Q' : A -> machine W -> Prop) s :
  ok R c0 m Q s -> (forall a s', wf (cpu s') -> R c0 (cpu s') -> Q a s' -> Q' a s') -> ok R c0 m Q' s.
Proof. intros (a & s' & ? & ? & ? & ?) HQ. exists a, s'. split_and!; auto. Qed.

(** A tail call. *)
Lemma ok_tail c0 {A} (m : M W A) (P : A -> Prop) (Q : A -> machine W -> Prop) s :
  safe R m P -> wf (cpu s) -> R c0 (cpu s) -> (forall a s', P a -> wf (cpu s') -> R (cpu s) (cpu s') -> Q a s') ->
  ok R c0 m Q s.
Proof.
  intros Hm Hw H0 HQ. destruct (Hm s Hw) as (a & s' & E & Hw' & H1 & HP).
  exists a, s'. split_and!; [done..| |auto]. by etransitivity.
Qed.

Lemma ok_modify_end c0 f (Q : () -> machine W -> Prop) s :
  wf (f (cpu s)) -> R c0 (cpu s) -> R (cpu s) (f (cpu s)) -> Q () (mk_machine (f (cpu s)) (world s)) ->
  ok R c0 (modify f) Q s.
Proof. intros ? ? ? HQ. eexists _, _. split_and!; [done..| |exact HQ]. by etransitivity. Qed.

Lemma safe_weaken {A} (R' : em8051 -> em8051 -> Prop) (m : M W A) (P P' : A -> Prop) :
  safe R' m P -> (forall c c', R' c c' -> R c c') -> (forall a, P a -> P' a) -> safe R m P'.
Proof. intros Hm HR HP s Hw. destruct (Hm s Hw) as (a & s' & ? & ? & ? & ?). exists a, s'. auto. Qed.

Lemma safe_any {A} (m : M W A) (P : A -> Prop) : safe R m P -> safe R m any.
Proof. intros Hm. by eapply safe_weaken. Qed.

Lemma safe_ret {A} (a : A) (P : A -> Prop) : P a -> safe R (mret a) P.
Proof. intros HP s Hw. by apply ok_ret. Qed.

Lemma safe_observe f : safe R (observe f) any.
Proof. intros s Hw. exists (), (mk_machine (cpu s) (f (world s))). split_and!; done. Qed.

Lemma safe_aborted : safe R em8051_execution_aborted any.
Proof. intros s Hw. by eexists _, s. Qed.

Lemma safe_when b m : (b = true -> safe R m any) -> safe R (when b m) any.
Proof. intros Hm. destruct b; [by apply Hm|by apply safe_ret]. Qed.

Lemma safe_if {A} (b : bool) (m1 m2 : M W A) P :
  (b = true -> safe R m1 P) -> (b = false -> safe R m2 P) -> safe R (if b then m1 else m2) P.
Proof. destruct b; auto. Qed.

Lemma safe_for_each {A} (l : list A) (f : A -> M W ()) :
  (forall x, x ∈ l -> safe R (f x) any) -> safe R (for_each l f) any.
Proof.
  induction l as [|x l IH]; intros Hf; [by apply safe_ret|]. intros s Hw.
  eapply ok_call; [apply Hf; set_solver|done|reflexivity|]. intros _ s' _ Hw' H' _.
  eapply ok_tail; [apply IH; set_solver|done|done|done].
Qed.

Lemma safe_raw kind cycle a b c d : safe R (emu_cpu_raw kind cycle a b c d) any.
Proof.
  intros s Hw. unfold ok, emu_cpu_raw. case_if; [by eexists _, s|].
  destruct (call_raw _ _ _ _ _ _ _ _) as [r w]. eexists _, _. split; [done|]. done.
Qed.

End Logic.

#[export] Hint Extern 0 (PreOrder _) => typeclasses eauto : emu.
#[export] Hint Resolve safe_observe safe_raw safe_aborted : emu.

(** One step of symbolic execution of an [ok] goal; [call] steps use the
    [safe] lemmas of the hint database. *)
Ltac ok_side := first [assumption | reflexivity | solve [eauto 8 with emu]].

(** Proves [safe R m P] for a sub-computation. *)
Ltac safe_call := solve [eauto 8 with emu].

Ltac ok_step :=
  lazymatch goal with
  | |- safe _ (let _ := _ in _) _ => cbv zeta
  | |- ok _ _ (let _ := _ in _) _ _ => cbv zeta
  | |- ok _ _ (bind (in_range _) _) _ _ => fail
  | |- ok _ _ (in_range _) _ _ => fail
  | |- safe _ (in_range _) _ => fail
  | |- safe _ (when _ _) _ => apply safe_when; [typeclasses eauto|intros]
  | |- safe _ (if _ then _ else _) _ => apply safe_if; intros
  | |- safe _ (bind _ _) _ => first [safe_call | intros ? ?]
  | |- safe _ (modify _) _ => intros ? ?
  | |- safe _ (mret _) _ => apply safe_ret; [typeclasses eauto|try done]
  | |- safe _ (match ?b with _ => _ end) _ => first [safe_call | let E := fresh "E" in destruct b eqn:E]
  | |- safe _ _ _ => safe_call
  | |- ok _ _ (bind (bind _ _) _) _ _ => apply ok_assoc
  | |- ok _ _ (bind get_cpu _) _ _ => apply ok_get
  | |- ok _ _ (bind (gets _) _) _ _ => apply ok_gets
  | |- ok _ _ (bind (mret _) _) _ _ => apply ok_bind_ret
  | |- ok _ _ (bind em8051_execution_aborted _) _ _ => apply ok_aborted; intros
  | |- ok _ _ (bind (modify _) _) _ _ =>
      apply ok_modify; [typeclasses eauto|cbv beta; eauto 8 with emu|assumption || reflexivity|cbv beta; frame_tac|intros]
  | |- ok _ _ (mret _) _ _ => apply ok_ret; [eauto 8 with emu|assumption || reflexivity|try done]
  | |- ok _ _ (modify _) _ _ =>
      apply ok_modify_end;
      [typeclasses eauto|cbv beta; eauto 8 with emu|assumption || reflexivity|cbv beta; frame_tac|try done]
  | |- ok _ _ (if ?b then _ else _) _ _ => let E := fresh "E" in destruct b eqn:E
  | |- ok _ _ (match ?b with _ => _ end) _ _ => let E := fresh "E" in destruct b eqn:E
  | |- ok _ _ (bind (if _ then _ else _) _) _ _ =>
      eapply ok_call with (P := any);
      [typeclasses eauto| |eassumption|assumption || reflexivity|intros ? ? ? ? ? ?]
  | |- ok _ _ (bind (match _ with _ => _ end) _) _ _ =>
      eapply ok_call with (P := any);
      [typeclasses eauto| |eassumption|assumption || reflexivity|intros ? ? ? ? ? ?]
  | |- ok _ _ (bind _ _) _ _ =>
      eapply ok_call; [typeclasses eauto| |eassumption|assumption || reflexivity|intros ? ? ? ? ? ?]
  | |- ok _ _ _ _ _ =>
      eapply ok_tail; [typeclasses eauto| |eassumption|assumption || reflexivity|try done]
  end.

Ltac ok_auto := repeat ok_step.
