(* ===== verification/Timers.v ===== *)
(** The shared Timer0/Timer1 engine and Timer 2 (src/core.c): timer_tick,
    timer_overflow_emit and sab_timer2_tick. *)
From S2P Require Import Prelude State Machine Ports Uart.

Definition T0_MODE3_MASK : Z := Z.lor TMODMASK_M0_0 TMODMASK_M1_0.

(** Run-enabled, and a timer rather than a counter: the value of [increment]. *)
Definition timer0_increment (c : em8051) : bool :=
  negb (has (sfr c REG_TMOD) TMODMASK_GATE_0) && has (sfr c REG_TCON) TCONMASK_TR0 &&
  negb (has (sfr c REG_TMOD) TMODMASK_CT_0).
Definition timer1_increment (c : em8051) : bool :=
  negb (has (sfr c REG_TMOD) TMODMASK_GATE_1) && has (sfr c REG_TCON) TCONMASK_TR1 &&
  negb (has (sfr c REG_TMOD) TMODMASK_CT_1).
Definition timer0_mode3 (c : em8051) : bool :=
  Z.land (sfr c REG_TMOD) T0_MODE3_MASK =? T0_MODE3_MASK.

Section Timers.
Context {W : Type} {HostW : Host W}.

Definition timer_overflow_emit (aTimer : Z) : M W () :=
  c ← get_cpu;
  count ← in_range (aget (mTimerOverflowCount c) aTimer);
  counts ← in_range (aset (mTimerOverflowCount c) aTimer (u64 (count + 1)));
  modify (set_mTimerOverflowCount counts) ;;
  when ((aTimer =? EM8051_TIMER1) && is_sab c) sab_uart_timer1_overflow ;;
  b ← em8051_execution_aborted;
  c ← get_cpu;
  if b || (timer_overflow c =? 0) then mret ()
  else
    let '(tl, th) :=
      if aTimer =? EM8051_TIMER0 then (sfr c REG_TL0, sfr c REG_TH0)
      else if aTimer =? EM8051_TIMER1 then (sfr c REG_TL1, sfr c REG_TH1)
      else (sfr c (SAB_SFR_INDEX EM8051_SAB_SFR_TL2), sfr c (SAB_SFR_INDEX EM8051_SAB_SFR_TH2)) in
    observe (call_timer_overflow (timer_overflow c)
      {| to_timer := aTimer; to_machine_cycle := u64 (mMachineCycleCount c + 1);
         to_tl := tl; to_th := th |} (timer_overflow_user c)).

(** [emu_cpu_irq_write(aCPU, REG_TCON, mSFR[REG_TCON] | flag, cycle + 1)] *)
Definition set_tcon_flag (flag : Z) : M W () :=
  c ← get_cpu;
  emu_cpu_irq_write REG_TCON (Z.lor (sfr c REG_TCON) flag) (u64 (mMachineCycleCount c + 1)).

(** Increments the byte register [reg]; [true] when it wrapped. *)
Definition count_up (reg : Z) : M W bool :=
  c ← get_cpu;
  let v := u16 (sfr c reg + 1) in
  modify (set_sfr reg (Z.land v 0xff)) ;;
  mret (0xff <? v).

(** Increments the low five bits of [reg]; [true] when they wrapped. *)
Definition count_up5 (reg : Z) : M W bool :=
  c ← get_cpu;
  let v := u16 (Z.land (sfr c reg) 0x1f + 1) in
  modify (set_sfr reg (Z.lor (Z.land (sfr c reg) (Z.lnot 0x1f)) (Z.land v 0x1f))) ;;
  mret (0x1f <? v).

Definition timer0_mode3_tick : M W () :=
  c ← get_cpu;
  when (timer0_increment c)
    (wrapped ← count_up REG_TL0; when wrapped (set_tcon_flag TCONMASK_TF0)) ;;
  c ← get_cpu;
  when (timer1_increment c)
    (wrapped ← count_up REG_TH0; when wrapped (set_tcon_flag TCONMASK_TF1)).

Definition timer0_tick : M W () :=
  c ← get_cpu;
  when (timer0_increment c)
    (let mode := Z.land (sfr c REG_TMOD) (Z.lor TMODMASK_M0_0 TMODMASK_M1_0) in
     if mode =? 0 then
       wrapped ← count_up5 REG_TL0;
       when wrapped (wrapped ← count_up REG_TH0; when wrapped (set_tcon_flag TCONMASK_TF0))
     else if mode =? TMODMASK_M0_0 then
       wrapped ← count_up REG_TL0;
       when wrapped
         (wrapped ← count_up REG_TH0;
          when wrapped (set_tcon_flag TCONMASK_TF0 ;; timer_overflow_emit EM8051_TIMER0))
     else if mode =? TMODMASK_M1_0 then
       wrapped ← count_up REG_TL0;
       when wrapped
         (modify (fun c => set_sfr REG_TL0 (sfr c REG_TH0) c) ;; set_tcon_flag TCONMASK_TF0)
     else mret ()).

Definition timer1_tick : M W () :=
  c ← get_cpu;
  when (timer1_increment c)
    (let mode := Z.land (sfr c REG_TMOD) (Z.lor TMODMASK_M0_1 TMODMASK_M1_1) in
     (if mode =? 0 then
        wrapped ← count_up5 REG_TL1;
        when wrapped
          (wrapped ← count_up REG_TH1;
           c ← get_cpu;
           when (wrapped && negb (timer0_mode3 c)) (set_tcon_flag TCONMASK_TF1))
      else if mode =? TMODMASK_M0_1 then
        wrapped ← count_up REG_TL1;
        when wrapped
          (wrapped ← count_up REG_TH1;
           c ← get_cpu;
           when (wrapped && negb (timer0_mode3 c)) (set_tcon_flag TCONMASK_TF1))
      else if mode =? TMODMASK_M1_1 then
        wrapped ← count_up REG_TL1;
        when wrapped
          (modify (fun c => set_sfr REG_TL1 (sfr c REG_TH1) c) ;;
           c ← get_cpu;
           when (negb (timer0_mode3 c))
             (set_tcon_flag TCONMASK_TF1 ;; timer_overflow_emit EM8051_TIMER1))
      else mret ()) ;;
     c ← get_cpu;
     when (negb (is_sab c) && has (sfr c REG_TCON) TCONMASK_TF1 &&
           has (sfr c REG_SCON) SCONMASK_SM1)
       (serial_tx ;;
        modify (fun c => set_sfr REG_TCON (clr (sfr c REG_TCON) TCONMASK_TF1) c))).

Definition timer_tick : M W () :=
  c ← get_cpu;
  when (timer0_mode3 c) timer0_mode3_tick ;;
  timer0_tick ;;
  b ← em8051_execution_aborted;
  if b then mret () else timer1_tick.

Definition sab_timer2_tick : M W () :=
  c ← get_cpu;
  let t2con := sfr c (SAB_SFR_INDEX EM8051_SAB_SFR_T2CON) in
  let completed_cycle := u64 (mMachineCycleCount c + 1) in
  if negb (is_sab c) ||
     negb (Z.land t2con (Z.lor SAB_T2CONMASK_T2I1 SAB_T2CONMASK_T2I0) =? SAB_T2CONMASK_T2I0) ||
     has t2con SAB_T2CONMASK_T2R1 ||
     (has t2con SAB_T2CONMASK_T2PS && negb (Z.land completed_cycle 1 =? 0)) then mret ()
  else
    let value := u16 (Z.lor (Z.shiftl (sfr c (SAB_SFR_INDEX EM8051_SAB_SFR_TH2)) 8)
                            (sfr c (SAB_SFR_INDEX EM8051_SAB_SFR_TL2))) in
    let value := u16 (value + 1) in
    modify (set_sfr (SAB_SFR_INDEX EM8051_SAB_SFR_TL2) (Z.land value 0xff)) ;;
    modify (set_sfr (SAB_SFR_INDEX EM8051_SAB_SFR_TH2) (Z.shiftr value 8)) ;;
    when (value =? 0)
      (ircon ← gets (fun c => sfr c (SAB_SFR_INDEX EM8051_SAB_SFR_IRCON));
       emu_cpu_irq_write (SAB_SFR_INDEX EM8051_SAB_SFR_IRCON) (Z.lor ircon SAB_IRCONMASK_TF2)
         completed_cycle ;;
       timer_overflow_emit EM8051_TIMER2 ;;
       b ← em8051_execution_aborted;
       if b then mret () else sab_irq_sync).

End Timers.
