(* ===== verification/PeriphSafe.v ===== *)
(** Peripheral progress is safe and stays within the peripheral frame: the
    observation seam, ports and external inputs, UART, ADC and timers. *)
From S2P Require Import Prelude State Machine Ports Uart Adc Irq Dispatch Wf Logic Timers.

Section PeriphSafe.
Context {W : Type} {HostW : Host W}.

Lemma safe_raw_unit R `{!PreOrder R} kind cycle a b c d : safe R (raw kind cycle a b c d) any.
Proof. intros s Hw. unfold raw. ok_auto. Qed.
Hint Resolve safe_raw_unit : emu.

Lemma safe_trace_emit R `{!PreOrder R} t a v : safe R (em8051_trace_emit t a v) any.
Proof. intros s Hw. unfold em8051_trace_emit. ok_auto. Qed.

Lemma safe_irq_write index value cycle :
  peripheral_sfr index = true -> safe periph (emu_cpu_irq_write index value cycle) any.
Proof.
  intros Hi s Hw. unfold emu_cpu_irq_write. do 1 ok_step.
  apply ok_modify; [typeclasses eauto|eauto with emu|done|by apply periph_set_sfr|]. intros.
  ok_auto. apply safe_for_each; [typeclasses eauto|]. intros source _.
  destruct (irq_request source). ok_auto.
Qed.

Hint Extern 1 (safe periph (emu_cpu_irq_write _ _ _) _) =>
  apply safe_irq_write; reflexivity : emu.
Hint Resolve safe_trace_emit : emu.

(** ** Ports *)

Lemma safe_maintain : safe periph sab_external_maintain_level_requests any.
Proof.
  intros s Hw. unfold sab_external_maintain_level_requests. ok_auto.
  apply safe_for_each; [typeclasses eauto|]. intros source _. unfold maintain_level. ok_auto.
Qed.
Hint Resolve safe_maintain : emu.

Lemma safe_irq_sync : safe periph sab_irq_sync any.
Proof. intros s Hw. unfold sab_irq_sync. ok_auto. Qed.
Hint Resolve safe_irq_sync : emu.

Lemma safe_external_trace source b1 b2 t : safe periph (sab_external_trace_emit source b1 b2 t) any.
Proof. intros s Hw. unfold sab_external_trace_emit. ok_auto. Qed.
Hint Resolve safe_external_trace : emu.

(** The request registers are TCON and IRCON, which are not core registers. *)
Lemma request_sfr_cases source i m :
  sab_external_request_sfr source = Some (i, m) ->
  i = REG_TCON \/ i = SAB_SFR_INDEX EM8051_SAB_SFR_IRCON.
Proof. unfold sab_external_request_sfr. intros. repeat case_match; simplify_eq; auto. Qed.

Lemma safe_observe_change source b1 b2 : safe periph (sab_external_observe_change source b1 b2) any.
Proof.
  unfold sab_external_observe_change.
  destruct (sab_external_request_sfr source) as [[i m]|] eqn:E; [|ok_auto].
  apply request_sfr_cases in E. destruct E as [-> | ->]; ok_auto.
Qed.
Hint Resolve safe_observe_change : emu.

Lemma safe_sample_port port : safe periph (sab_external_sample_port port) any.
Proof.
  intros s Hw. unfold sab_external_sample_port. ok_auto.
  apply safe_for_each; [typeclasses eauto|]. intros source _. ok_auto.
Qed.
Hint Resolve safe_sample_port : emu.

Lemma safe_port_drive port mask levels : safe periph (em8051_sab_port_drive port mask levels) any.
Proof. intros s Hw. unfold em8051_sab_port_drive. ok_auto.
Qed.
Lemma safe_port_release port mask : safe periph (em8051_sab_port_release port mask) any.
Proof. intros s Hw. unfold em8051_sab_port_release. ok_auto. Qed.
Hint Resolve safe_port_drive safe_port_release : emu.

Lemma safe_external_drive source level : safe periph (em8051_sab_external_drive source level) any.
Proof. intros s Hw. unfold em8051_sab_external_drive. ok_auto. Qed.
Lemma safe_external_release source : safe periph (em8051_sab_external_release source) any.
Proof. intros s Hw. unfold em8051_sab_external_release. ok_auto. Qed.
Hint Resolve safe_external_drive safe_external_release : emu.

Lemma safe_apply_event e : safe periph (sab_external_apply_event e) any.
Proof. intros s Hw. unfold sab_external_apply_event. ok_auto. Qed.
Hint Resolve safe_apply_event : emu.

(** ** UART *)

Lemma safe_uart_trace e cy d n i v : safe periph (sab_uart_trace_emit e cy d n i v) any.
Proof. intros s Hw. unfold sab_uart_trace_emit. ok_auto. Qed.
Hint Resolve safe_uart_trace : emu.

Lemma safe_tx_start cy : safe periph (sab_uart_tx_start cy) any.
Proof. intros s Hw. unfold sab_uart_tx_start. ok_auto. Qed.
Hint Resolve safe_tx_start : emu.

Lemma safe_tx_boundary cy : safe periph (sab_uart_tx_boundary cy) any.
Proof. intros s Hw. unfold sab_uart_tx_boundary. ok_auto. Qed.
Lemma safe_rx_boundary cy : safe periph (sab_uart_rx_boundary cy) any.
Proof. intros s Hw. unfold sab_uart_rx_boundary. ok_auto. Qed.
Hint Resolve safe_tx_boundary safe_rx_boundary : emu.

Lemma safe_uart_overflow : safe periph sab_uart_timer1_overflow any.
Proof. intros s Hw. unfold sab_uart_timer1_overflow. ok_auto. Qed.
Lemma safe_sbuf_write v : safe periph (sab_uart_sbuf_write v) any.
Proof. intros s Hw. unfold sab_uart_sbuf_write. ok_auto. Qed.
Hint Resolve safe_uart_overflow safe_sbuf_write : emu.

(** ** Timers *)

Lemma safe_timer_overflow t : 0 <= t < 3 -> safe periph (timer_overflow_emit t) any.
Proof.
  intros Ht s Hw. unfold timer_overflow_emit. ok_step.
  pose proof (wf_overflow_length _ (wf_cpu_exec _ Hw)) as Hl.
  eapply ok_in_range; [apply aget_geti; lia|]. eapply ok_in_range; [apply aset_Some; lia|].
  ok_auto.
Qed.
Hint Extern 1 (safe periph (timer_overflow_emit _) _) =>
  apply safe_timer_overflow; by vm_compute : emu.

Lemma safe_tcon_flag f : safe periph (set_tcon_flag f) any.
Proof. intros s Hw. unfold set_tcon_flag. ok_auto. Qed.
Lemma safe_count_up reg : peripheral_sfr reg = true -> safe periph (count_up (W := W) reg) any.
Proof.
  intros Hr s Hw. unfold count_up. ok_step.
  apply ok_modify; [typeclasses eauto|eauto with emu|done|by apply periph_set_sfr|]. intros. ok_auto.
Qed.
Lemma safe_count_up5 reg : peripheral_sfr reg = true -> safe periph (count_up5 (W := W) reg) any.
Proof.
  intros Hr s Hw. unfold count_up5. ok_step.
  apply ok_modify; [typeclasses eauto|eauto with emu|done|by apply periph_set_sfr|]. intros. ok_auto.
Qed.
Hint Resolve safe_tcon_flag : emu.
Hint Extern 1 (safe periph (count_up _) _) => apply safe_count_up; reflexivity : emu.
Hint Extern 1 (safe periph (count_up5 _) _) => apply safe_count_up5; reflexivity : emu.

Lemma safe_timer0_mode3 : safe periph timer0_mode3_tick any.
Proof. intros s Hw. unfold timer0_mode3_tick. ok_auto. Qed.
Lemma safe_timer0 : safe periph timer0_tick any.
Proof. intros s Hw. unfold timer0_tick. ok_auto. Qed.
Hint Resolve safe_timer0_mode3 safe_timer0 : emu.

Lemma safe_serial_tx : safe periph (serial_tx (W := W)) any.
Proof.
  intros s Hw. unfold serial_tx. pose proof (wf_serial_bits _ (wf_cpu_uart _ Hw)) as Hb.
  ok_step. ok_step; [ok_auto|].
  assert (u8 (serial_out_remaining_bits (cpu s) - 1) = serial_out_remaining_bits (cpu s) - 1) as Eb
    by (apply u8_id; unfold byte; lia).
  apply ok_modify; [tc_solve|apply wf_set_serial_out_remaining_bits; [done|lia]|done|frame_tac|].
  intros s1 E1 Hw1 H1. ok_step. ok_step.
  { rewrite E1 in E0. cbn [serial_out_remaining_bits set_serial_out_remaining_bits cpu_uart set_uart] in E0. lia. }
  ok_auto.
  eapply ok_in_range; [apply aset_Some|ok_auto].
  - erewrite wf_serial_length by (eapply wf_cpu_uart; eassumption).
    eapply wf_serial_idx, wf_cpu_uart; eassumption.
  - apply wf_set_serial_out_idx; [done|]. by apply u8_mod.
Qed.
Hint Resolve safe_serial_tx : emu.

Lemma safe_timer1 : safe periph timer1_tick any.
Proof. intros s Hw. unfold timer1_tick. ok_auto. Qed.
Hint Resolve safe_timer1 : emu.

Lemma safe_timer_tick : safe periph timer_tick any.
Proof. intros s Hw. unfold timer_tick. ok_auto. Qed.

Lemma safe_timer2_tick : safe periph sab_timer2_tick any.
Proof. intros s Hw. unfold sab_timer2_tick. ok_auto. Qed.

(** ** ADC *)

Lemma wf_adc_set_busy b c : wf c -> wf (sab_adc_set_busy b c).
Proof. intros. unfold sab_adc_set_busy. destruct b; eauto with emu. Qed.

Lemma periph_adc_set_busy b c : periph c (sab_adc_set_busy b c).
Proof.
  unfold sab_adc_set_busy. destruct b; (etransitivity; [|apply periph_set_sfr; reflexivity]); frame_tac.
Qed.

Lemma wf_adc_latch c : wf c -> wf (sab_adc_latch c).
Proof. intros. unfold sab_adc_latch. apply wf_adc_set_busy. eauto 12 with emu. Qed.

Lemma periph_adc_latch c : periph c (sab_adc_latch c).
Proof. unfold sab_adc_latch. etransitivity; [|apply periph_adc_set_busy]. frame_tac. Qed.

Lemma safe_adc_trace e cy : safe periph (sab_adc_trace_emit e cy) any.
Proof. intros s Hw. unfold sab_adc_trace_emit. ok_auto. Qed.
Hint Resolve safe_adc_trace wf_adc_set_busy wf_adc_latch periph_adc_set_busy periph_adc_latch : emu.

Lemma safe_adc_tick : safe periph sab_adc_tick any.
Proof. intros s Hw. unfold sab_adc_tick. ok_auto. Qed.
Hint Resolve safe_timer_tick safe_timer2_tick safe_adc_tick : emu.

End PeriphSafe.

#[export] Hint Resolve safe_raw_unit safe_trace_emit safe_maintain safe_irq_sync safe_sample_port
  safe_sbuf_write safe_timer_tick safe_timer2_tick safe_adc_tick safe_apply_event
  wf_adc_set_busy periph_adc_set_busy : emu.
