(* ===== verification/InstrSafe.v ===== *)
(** Instructions are safe: the SFR gateway, memory accesses, the stack and all
    opcode handlers run without undefined behaviour, keep the CPU well formed
    and stay within the instruction frame, provided the host's callbacks do. *)
From S2P Require Import Prelude State Machine Ports Uart Adc Irq Sfr Memory Opcodes Dispatch.
From S2P Require Import Wf Logic Timers PeriphSafe.

(** Entry [i] of an array of the CPU exists. *)
Definition present (f : em8051 -> list Z) (i : Z) : Prop :=
  forall c, wf c -> 0 <= i < Z.of_nat (length (f c)).
Ltac solve_present := intros ? Hpw; pose proof (wf_cpu_irq _ Hpw) as [];
  repeat match goal with H : length _ = _ |- _ => rewrite H end; lia.

Section InstrSafe.
Context {W : Type} {HostW : Host W} {HostOkW : HostOk W}.

Lemma safe_periph_instr {A} (m : M W A) P : safe periph m P -> safe instr m P.
Proof. intros Hm. eapply safe_weaken; [exact Hm|apply periph_instr|done]. Qed.

Lemma safe_callback f : good_callback f -> safe instr (callback (W := W) f) any.
Proof. intros Hf s Hw. destruct (Hf s Hw). by exists (), (f s). Qed.

Lemma safe_callback8 f : good_callback (fun s => snd (f s)) -> safe instr (callback8 (W := W) f) byte.
Proof.
  intros Hf s Hw. destruct (Hf s Hw). unfold ok, callback8. destruct (f s) as [v s'].
  exists (u8 v), s'. split_and!; [done..|apply u8_byte].
Qed.

Hint Resolve safe_callback safe_callback8 good_except good_sfrread good_sfrwrite good_xread
  good_xwrite : emu.

Lemma safe_raise_exception code : safe instr (em8051_raise_exception code) any.
Proof. intros s Hw. unfold em8051_raise_exception. ok_auto. Qed.
Hint Resolve safe_raise_exception : emu.

(** Writes to any SFR, core registers included. *)
Lemma instr_set_sfr i v c : instr c (set_sfr i v c).
Proof. frame_tac. Qed.

Lemma safe_irq_write_any index value cy : safe instr (emu_cpu_irq_write index value cy) any.
Proof.
  intros s Hw. unfold emu_cpu_irq_write. ok_auto.
  apply safe_for_each; [typeclasses eauto|]. intros source _.
  destruct (irq_request source). ok_auto.
Qed.
Hint Resolve safe_irq_write_any : emu.
Hint Extern 3 (safe instr _ _) => apply safe_periph_instr; solve [eauto with emu] : emu.

(** ** The SFR gateway *)

Lemma sfr_index a : byte a -> 128 <= a -> u8 (a - 0x80) = a - 128.
Proof. intros Ha ?. apply u8_id. unfold byte in *. lia. Qed.

Lemma aget_sfr c i : wf c -> 0 <= i < 128 -> aget (mSFR c) i = Some (sfr c i).
Proof. intros Hw Hi. apply aget_geti. rewrite (wf_sfr_length _ (wf_cpu_memory _ Hw)). lia. Qed.
Lemma aget_sfrread c i : wf c -> 0 <= i < 128 -> aget (sfrread c) i = Some (geti (sfrread c) i).
Proof. intros Hw Hi. apply aget_geti. pose proof (wf_sfrread_length _ (wf_cpu_hooks _ Hw)). unfold ptr in *. lia. Qed.
Lemma aget_sfrwrite c i : wf c -> 0 <= i < 128 -> aget (sfrwrite c) i = Some (geti (sfrwrite c) i).
Proof. intros Hw Hi. apply aget_geti. pose proof (wf_sfrwrite_length _ (wf_cpu_hooks _ Hw)). unfold ptr in *. lia. Qed.

Lemma pins_byte c port pins : em8051_sab_port_get_pins c port = Some pins -> byte pins.
Proof. unfold em8051_sab_port_get_pins. intros. case_match; simplify_eq. apply u8_byte. Qed.

Lemma latch_byte c port latch :
  wf c -> byte port -> 128 <= port -> em8051_sab_port_get_latch c port = Some latch -> byte latch.
Proof.
  unfold em8051_sab_port_get_latch. intros. case_match; simplify_eq.
  apply sfr_byte; [done|unfold byte in *; lia].
Qed.

Lemma safe_sfr_read a : byte a -> safe instr (em8051_sfr_read a) byte.
Proof.
  intros Ha s Hw. unfold em8051_sfr_read. ok_auto.
  rewrite sfr_index by (assumption || lia). unfold byte in Ha.
  eapply ok_in_range; [apply aget_sfrread; [done|lia]|]. ok_auto.
  - apply Hw.
  - by eapply pins_byte.
  - eapply ok_in_range_end; [apply aget_sfr; [done|lia]|done|done|]. apply sfr_byte; [done|lia].
Qed.
Hint Resolve safe_sfr_read : emu.

Lemma safe_sfr_rmw_read a : byte a -> safe instr (em8051_sfr_rmw_read a) byte.
Proof.
  intros Ha s Hw. unfold em8051_sfr_rmw_read. ok_auto. eapply latch_byte; eauto. lia.
Qed.

Lemma safe_sfr_write_callback index a :
  0 <= index < 128 -> safe instr (sfr_write_callback index a) any.
Proof.
  intros Hi s Hw. unfold sfr_write_callback. ok_auto.
  eapply ok_in_range; [apply aget_sfrwrite; [done|lia]|]. ok_auto.
Qed.
Hint Resolve safe_sfr_rmw_read safe_sfr_write_callback : emu.

Lemma wf_adc_finish c : wf c -> wf (sab_adc_finish_sfr_transaction c).
Proof. intros. unfold sab_adc_finish_sfr_transaction. repeat case_if; eauto 8 with emu. Qed.
Lemma wf_adc_request_start c : wf c -> wf (sab_adc_request_start c).
Proof. intros. unfold sab_adc_request_start. case_if; eauto 8 with emu. Qed.
Lemma wf_arm_inhibit c : wf c -> wf (sab_irq_arm_inhibit c).
Proof. intros. unfold sab_irq_arm_inhibit. eauto with emu. Qed.
Hint Resolve wf_adc_finish wf_adc_request_start wf_arm_inhibit : emu.

Lemma instr_adc_finish c : instr c (sab_adc_finish_sfr_transaction c).
Proof.
  unfold sab_adc_finish_sfr_transaction. case_if; [reflexivity|].
  set (c1 := if negb (mSABSfrWriteDepth c =? 0) then _ else c).
  assert (instr c c1) by (subst c1; case_if; frame_tac). clearbody c1.
  set (c2 := sab_adc_set_busy (mSABADCBusy c1) c1).
  assert (instr c1 c2) by apply periph_instr, periph_adc_set_busy. clearbody c2.
  transitivity c2; [by transitivity c1|]. case_if; frame_tac.
Qed.

Lemma instr_adc_request_start c : instr c (sab_adc_request_start c).
Proof. unfold sab_adc_request_start. case_if; frame_tac. Qed.
Hint Resolve instr_adc_finish instr_adc_request_start : emu.

Lemma safe_sab_sbuf_write index a v :
  0 <= index < 128 -> safe instr (sab_sbuf_write index a v) any.
Proof. intros Hi s Hw. unfold sab_sbuf_write. ok_auto.
Qed.
Hint Resolve safe_sab_sbuf_write : emu.

Lemma safe_sfr_write a v : byte a -> safe instr (em8051_sfr_write a v) any.
Proof.
  intros Ha s Hw. unfold em8051_sfr_write. destruct (Z.ltb_spec a 0x80); [ok_auto|].
  rewrite sfr_index by (assumption || lia).
  assert (0 <= a - 128 < 128) by (unfold byte in Ha; lia). ok_auto.
Qed.
Hint Resolve safe_sfr_write : emu.

(** ** Memory *)

Lemma ptr_ok_insert h b buf buf' p n :
  h !! b = Some buf -> length buf' = length buf -> ptr_ok h p n -> ptr_ok (<[b := buf']> h) p n.
Proof.
  intros Hb Hl. destruct p as [k|]; [|done]. intros (x & Hx & Hn). destruct (decide (k = b)) as [->|Hne].
  - exists buf'. rewrite list_lookup_insert_eq by (by eapply lookup_lt_Some).
    simplify_eq. split; [done|lia].
  - exists x. by rewrite list_lookup_insert_ne.
Qed.

(** Overwriting a buffer keeps every pointer valid. *)
Lemma wf_set_heap_insert c b buf buf' :
  wf c -> heap c !! b = Some buf -> length buf' = length buf -> Forall byte buf' ->
  wf (set_heap (<[b := buf']> (heap c)) c).
Proof.
  intros Hw Hb Hl Hf. apply wf_set_memory; [done|]. destruct (wf_cpu_memory _ Hw).
  constructor; cbn; try done; [by apply Forall_insert|by eapply ptr_ok_insert..].
Qed.

Lemma safe_load p i n (Q : Z -> machine W -> Prop) c0 s :
  wf (cpu s) -> instr c0 (cpu s) -> p <> None -> ptr_ok (heap (cpu s)) p n -> 0 <= i < n ->
  (forall v, byte v -> Q v s) -> ok instr c0 (load (W := W) p i) Q s.
Proof.
  intros Hw H0 Hp Hok Hi HQ. unfold load. ok_step. destruct p as [b|]; [|done].
  destruct Hok as (buf & Hb & Hn). eapply ok_in_range; [done|]. eapply ok_in_range; [done|].
  eapply ok_in_range_end; [apply aget_geti; lia|done|done|]. apply HQ.
  apply Forall_geti; [|lia]. eapply (Forall_lookup_1 (Forall byte)); [apply Hw|done].
Qed.

Lemma safe_store p i v n c0 s :
  wf (cpu s) -> instr c0 (cpu s) -> p <> None -> ptr_ok (heap (cpu s)) p n -> 0 <= i < n ->
  ok instr c0 (store (W := W) p i v) (fun _ _ => True) s.
Proof.
  intros Hw H0 Hp Hok Hi. unfold store. ok_step. destruct p as [b|]; [|done].
  destruct Hok as (buf & Hb & Hn). eapply ok_in_range; [done|]. eapply ok_in_range; [done|].
  eapply ok_in_range; [apply aset_Some; lia|].
  apply ok_modify_end; [typeclasses eauto| |done|frame_tac|done].
  eapply wf_set_heap_insert; [done..|by rewrite length_insert|].
  apply Forall_insert; [|apply u8_byte]. eapply (Forall_lookup_1 (Forall byte)); [apply Hw|done].
Qed.

Lemma safe_CODEMEM x : safe instr (CODEMEM (W := W) x) byte.
Proof.
  intros s Hw. unfold CODEMEM. ok_step. pose proof (wf_cpu_memory _ Hw) as Hm.
  eapply safe_load; [done..|apply Hm|apply Hm|apply land_le, Hm|done].
Qed.
Hint Resolve safe_CODEMEM : emu.

Lemma safe_operand n : safe instr (emu_cpu_operand n) byte.
Proof. intros s Hw. unfold emu_cpu_operand. ok_auto. Qed.
Lemma safe_OPCODE : safe instr (OPCODE (W := W)) byte.
Proof. intros s Hw. unfold OPCODE. ok_auto. Qed.
Lemma safe_OPERAND1 : safe instr OPERAND1 byte.
Proof. apply safe_operand. Qed.
Lemma safe_OPERAND2 : safe instr OPERAND2 byte.
Proof. apply safe_operand. Qed.
Hint Resolve safe_OPCODE safe_OPERAND1 safe_OPERAND2 : emu.

Lemma safe_lower_get i : 0 <= i < 128 -> safe instr (lower_get (W := W) i) byte.
Proof.
  intros Hi s Hw. unfold lower_get. ok_step. pose proof (wf_cpu_memory _ Hw) as [].
  eapply ok_in_range_end; [apply aget_geti; lia|done|done|]. apply Forall_geti; [done|lia].
Qed.
Lemma safe_lower_set i v : 0 <= i < 128 -> safe instr (lower_set (W := W) i v) any.
Proof.
  intros Hi s Hw. unfold lower_set. ok_step. pose proof (wf_cpu_memory _ Hw) as [].
  eapply ok_in_range; [apply aset_Some; lia|].
  apply ok_modify_end; [typeclasses eauto| |done|frame_tac|done].
  apply wf_set_mLowerData; [done|by rewrite length_insert|]. apply Forall_insert; [done|apply u8_byte].
Qed.
Hint Resolve safe_lower_get safe_lower_set : emu.

Lemma PSW_BANK_range c : wf c -> 0 <= PSW_BANK c < 4.
Proof.
  intros Hw. unfold PSW_BANK. pose proof (land_le (sfr c REG_PSW) 24 ltac:(lia)).
  change (Z.lor PSWMASK_RS0 PSWMASK_RS1) with 24. change PSW_RS0 with 3.
  rewrite Z.shiftr_div_pow2 by lia. split; [apply Z.div_pos; lia|apply Z.div_lt_upper_bound; lia].
Qed.

Lemma safe_RX : safe instr (RX_ADDRESS (W := W)) (fun r => 0 <= r < 128).
Proof.
  intros s Hw. unfold RX_ADDRESS. ok_auto. pose proof (PSW_BANK_range _ H0).
  pose proof (land_le a 7 ltac:(lia)). rewrite u8_id; unfold byte; lia.
Qed.
Lemma safe_INDIR_RX : safe instr (INDIR_RX_ADDRESS (W := W)) byte.
Proof.
  intros s Hw. unfold INDIR_RX_ADDRESS. ok_auto. pose proof (PSW_BANK_range _ H0).
  pose proof (land_le a 1 ltac:(lia)).
  apply safe_lower_get. lia.
Qed.
Hint Resolve safe_RX safe_INDIR_RX : emu.

Lemma safe_read_mem a : byte a -> safe instr (read_mem a) byte.
Proof.
  intros Ha. unfold read_mem. ok_auto. apply safe_lower_get. unfold byte in Ha. lia.
Qed.

Lemma safe_read_mem_rmw a : byte a -> safe instr (read_mem_rmw a) byte.
Proof.
  intros Ha. unfold read_mem_rmw. ok_auto. apply safe_lower_get. unfold byte in Ha. lia.
Qed.

Lemma safe_read_mem_indir a : byte a -> safe instr (read_mem_indir (W := W) a) byte.
Proof.
  intros Ha s Hw. unfold byte in Ha. unfold read_mem_indir.
  destruct (Z.ltb_spec 0x7f a); [|eapply ok_tail; [tc_solve|apply safe_lower_get; lia|done..]].
  ok_step. pose proof (wf_upper_ptr _ (wf_cpu_memory _ Hw)) as Hp.
  destruct (mUpperData (cpu s)) as [b|]; [|by ok_auto].
  eapply safe_load; [done..|lia|done].
Qed.

Lemma safe_write_mem a v : byte a -> safe instr (write_mem a v) any.
Proof.
  intros Ha. unfold write_mem. ok_auto. apply safe_lower_set. unfold byte in Ha. lia.
Qed.

Lemma safe_write_mem_indir a v : byte a -> safe instr (write_mem_indir (W := W) a v) any.
Proof.
  intros Ha s Hw. unfold byte in Ha. unfold write_mem_indir.
  destruct (Z.ltb_spec 0x7f a); [|eapply ok_tail; [tc_solve|apply safe_lower_set; lia|done..]].
  ok_step. pose proof (wf_upper_ptr _ (wf_cpu_memory _ Hw)) as Hp.
  destruct (mUpperData (cpu s)) as [b|]; [|by ok_auto].
  eapply safe_store; [done..|lia].
Qed.
Hint Resolve safe_read_mem safe_read_mem_rmw safe_read_mem_indir safe_write_mem
  safe_write_mem_indir : emu.

Hint Extern 2 (byte (sfr _ _)) => apply sfr_byte; [assumption|by vm_compute] : emu.

Lemma ok_raise_exception code c0 s :
  wf (cpu s) -> instr c0 (cpu s) ->
  ok instr c0 (em8051_raise_exception code) (fun _ s' => mExceptionRaised (cpu s') = true) s.
Proof.
  intros Hw H0. unfold em8051_raise_exception.
  apply ok_modify2, ok_modify; [tc_solve|eauto with emu|done|frame_tac|].
  intros s1 E1 Hw1 H1. ok_step.
  assert (mExceptionRaised (cpu s1) = true) as Hr by by rewrite E1.
  eapply ok_tail; [tc_solve| |done|done|].
  { apply safe_when; [tc_solve|]. intros _. apply safe_callback, good_except. }
  intros _ c _ _ [[] _]. auto.
Qed.

(** A push that reports failure has raised an exception. *)
Lemma ok_push v s :
  wf (cpu s) -> ok instr (cpu s) (push_to_stack v) (fun b s' => b = false -> mExceptionRaised (cpu s') = true) s.
Proof.
  intros Hw. unfold push_to_stack. ok_step. ok_step. ok_step.
  - eapply ok_bind; [by apply ok_raise_exception|]. intros. by ok_auto.
  - ok_step. eauto with emu. ok_step. ok_step; [|ok_auto].
    eapply ok_bind; [by apply ok_raise_exception|]. intros. by ok_auto.
Qed.

Lemma safe_push v : safe instr (push_to_stack v) any.
Proof. intros s Hw. by eapply ok_weaken; [apply ok_push|]. Qed.

Lemma safe_pop : safe instr pop_from_stack (fun o => match o with Some v => byte v | None => True end).
Proof. intros s Hw. unfold pop_from_stack. ok_auto. Qed.
Hint Resolve safe_push safe_pop : emu.

(** ** RETI *)

Lemma safe_instr_step {A} (m : M W A) P : safe instr m P -> safe step m P.
Proof. intros Hm. eapply safe_weaken; [exact Hm|apply in_step|done]. Qed.
Hint Extern 6 (safe step _ _) => apply safe_instr_step; solve [eauto with emu] : emu.

Lemma safe_irq_trace R `{!PreOrder R} e src prio b pend :
  safe R (sab_irq_trace_emit e src prio b pend) any.
Proof. intros s Hw. unfold sab_irq_trace_emit. ok_auto. Qed.
Hint Resolve safe_irq_trace : emu.

Lemma safe_iret_checks accs psws sps i osp :
  present accs i -> present psws i -> present sps i ->
  safe instr (iret_checks accs psws sps i osp) any.
Proof.
  intros Ha Hp Hs s Hw. unfold iret_checks. ok_step.
  eapply ok_in_range; [apply aget_geti, Ha, Hw|]. ok_auto.
  eapply ok_in_range; [apply aget_geti, Hs; assumption|]. ok_auto.
  eapply ok_in_range; [apply aget_geti, Hp; assumption|]. ok_auto.
Qed.

Lemma testbit_irq_bit source b :
  0 <= source < 12 -> 0 <= b -> Z.testbit (SAB_IRQ_BIT source) b = (b =? source).
Proof.
  intros Hs Hb. unfold SAB_IRQ_BIT. rewrite u16_id.
  - rewrite Z.shiftl_1_l, Z.pow2_bits_eqb by lia. lia.
  - rewrite Z.shiftl_1_l. unfold word. pose proof (Z.pow_pos_nonneg 2 source).
    pose proof (Z.pow_lt_mono_r 2 source 16). lia.
Qed.

(** Popping the in-service stack keeps it well formed. *)
Lemma wf_irq_pop c :
  wf c -> 0 < mSABIrqDepth c ->
  wf (set_mSABIrqInService
        (Z.land (mSABIrqInService c)
          (u16 (Z.lnot (SAB_IRQ_BIT (geti (mSABIrqSourceStack c) (mSABIrqDepth c - 1))))))
        (set_mSABIrqDepth (mSABIrqDepth c - 1) c)).
Proof.
  intros Hw Hd. pose proof (wf_cpu_irq _ Hw) as [].
  assert (u8 (mSABIrqDepth c - 1) = mSABIrqDepth c - 1) as Ed by (apply u8_id; unfold byte; lia).
  assert (0 <= geti (mSABIrqSourceStack c) (mSABIrqDepth c - 1) < 12) as Hs by (apply wf_sources; lia).
  refine (wf_set_irq _ c Hw _). constructor; cbn -[Z.lnot Z.land u8 u16]; rewrite ?Ed; try done; try lia.
  - intros k Hk. apply wf_sources. lia.
  - intros k Hk. apply wf_priorities. lia.
  - intros j k ? ?. apply wf_nesting; lia.
  - intros j k ? ?. apply wf_distinct; lia.
  - apply u16_word.
  - intros b Hb. rewrite u16_id by (by apply word_land_l).
    rewrite Z.land_spec, andb_true_iff, wf_in_service by done. split.
    + intros [(k & Hk & <-) Hne]. pose proof (wf_sources k Hk).
      rewrite u16_lnot_testbit, testbit_irq_bit in Hne by lia. exists k. split; [|done].
      destruct (Z.eq_dec k (mSABIrqDepth c - 1)) as [->|]; lia.
    + intros (k & Hk & <-). split; [exists k; split; [lia|done]|].
      pose proof (wf_sources k). pose proof (wf_distinct k (mSABIrqDepth c - 1)).
      rewrite u16_lnot_testbit, testbit_irq_bit by lia. lia.
Qed.

Lemma stack_aget (l : list Z) d : length l = 4%nat -> 0 < d <= 4 ->
  aget l (u8 (d - 1)) = Some (geti l (d - 1)).
Proof. intros Hl Hd. rewrite u8_id by (unfold byte; lia). apply aget_geti. lia. Qed.

Lemma safe_sab_checks d osp : 0 < d <= 4 ->
  safe instr (iret_checks mSABIrqSavedACC mSABIrqSavedPSW mSABIrqSavedSP (u8 (d - 1)) osp) any.
Proof. intros Hd. rewrite u8_id by (unfold byte; lia). apply safe_iret_checks; solve_present. Qed.

Lemma safe_classic_checks hi osp : 0 <= hi < 2 ->
  safe instr (iret_checks int_a int_psw int_sp hi osp) any.
Proof. intros Hh. apply safe_iret_checks; solve_present. Qed.

Lemma safe_sab_irq_reti osp : safe step (em8051_sab_irq_reti osp) any.
Proof.
  intros s Hw. unfold em8051_sab_irq_reti. ok_auto.
  pose proof (wf_cpu_irq _ Hw) as Hi.
  assert (0 < mSABIrqDepth (cpu s) <= 4) as Hd by (pose proof (wf_depth _ Hi); lia).
  do 2 (eapply ok_in_range; [apply stack_aget; [apply Hi|done]|]).
  eapply (ok_call_within step _ instr); [by apply safe_sab_checks|apply in_step|done|done|].
  intros aborted s1 _ Hw1 H1 [_ Hst]. unfold irq_stack in Hst. injection Hst as Ed Es _ _ _.
  ok_step; [ok_auto|]. apply ok_modify2. rewrite u8_id by (unfold byte; lia).
  apply ok_modify; [tc_solve| |done|frame_tac|].
  - rewrite <- Ed, <- Es. refine (wf_irq_pop (cpu s1) Hw1 _). lia.
  - intros. ok_auto.
Qed.
Hint Resolve safe_sab_irq_reti : emu.

Lemma safe_reti_release osp : safe step (reti_release osp) any.
Proof.
  intros s Hw. unfold reti_release. ok_auto. apply safe_instr_step, safe_classic_checks. case_if; lia.
Qed.
Hint Resolve safe_reti_release : emu.

(** ** Opcode handlers *)

Lemma safe_ACC : safe instr (ACC (W := W)) byte.
Proof. intros s Hw. unfold ACC. exists (sfr (cpu s) REG_ACC), s. split_and!; [done..|eauto with emu]. Qed.
Lemma safe_PSW : safe instr (PSW (W := W)) byte.
Proof. intros s Hw. unfold PSW. exists (sfr (cpu s) REG_PSW), s. split_and!; [done..|eauto with emu]. Qed.
Lemma safe_carry_flag : safe instr (carry_flag (W := W)) any.
Proof. intros s Hw. by exists (CARRY (cpu s)), s. Qed.
Lemma safe_set_ACC v : safe instr (set_ACC (W := W) v) any.
Proof. intros s Hw. unfold set_ACC. ok_auto. Qed.
Lemma safe_set_PSW v : safe instr (set_PSW (W := W) v) any.
Proof. intros s Hw. unfold set_PSW. ok_auto. Qed.
Lemma safe_set_PC v : safe instr (set_PC (W := W) v) any.
Proof. intros s Hw. unfold set_PC. ok_auto. Qed.
Lemma safe_next n d : safe instr (next (W := W) n d) any.
Proof. intros s Hw. unfold next, add_PC. ok_auto. Qed.
Hint Resolve safe_ACC safe_PSW safe_carry_flag safe_set_ACC safe_set_PSW safe_set_PC safe_next : emu.

Lemma safe_unless_aborted R `{!PreOrder R} m : safe R m any -> safe R (unless_aborted m) any.
Proof. intros Hm s Hw. unfold unless_aborted. ok_auto. Qed.
Hint Extern 2 (safe instr (unless_aborted _) _) =>
  apply safe_unless_aborted; [tc_solve|]; ok_auto : emu.

Lemma safe_jump_if b : safe instr (jump_if b) any.
Proof. unfold jump_if. ok_auto. Qed.
Lemma safe_cjne_compare v1 v2 : safe instr (cjne_compare v1 v2) any.
Proof. intros s Hw. unfold cjne_compare. ok_auto. Qed.
Lemma safe_add_solve_flags v1 v2 cy : safe instr (add_solve_flags (W := W) v1 v2 cy) any.
Proof. intros s Hw. unfold add_solve_flags. ok_auto. Qed.
Lemma safe_sub_solve_flags v1 v2 cy : safe instr (sub_solve_flags (W := W) v1 v2 cy) any.
Proof. intros s Hw. unfold sub_solve_flags. ok_auto. Qed.
Lemma safe_set_carry v : safe instr (set_carry (W := W) v) any.
Proof. intros s Hw. unfold set_carry. ok_auto. Qed.
Lemma safe_preflight_refused : safe instr preflight_refused any.
Proof. intros s Hw. unfold preflight_refused. ok_auto. Qed.
Lemma safe_raw_call t r : safe instr (raw_call t r) any.
Proof. intros s Hw. unfold raw_call. ok_auto. Qed.
Lemma safe_raw_return k : safe instr (raw_return k) any.
Proof. intros s Hw. unfold raw_return. ok_auto. Qed.
Hint Resolve safe_jump_if safe_cjne_compare safe_add_solve_flags safe_sub_solve_flags
  safe_set_carry safe_preflight_refused safe_raw_call safe_raw_return : emu.

(** The address arithmetic of bit instructions stays inside the arrays. *)
Lemma bit_sfr_range a : byte a -> (0x7f <? a) = true -> byte (bit_sfr a) /\ 0 <= bit_sfr a - 0x80 < 128.
Proof.
  intros Ha Hlt. unfold bit_sfr, byte in *.
  assert ((128 <=? Z.land a 248) && (Z.land a 248 <? 256) || negb (0x7f <? a) = true); [|lia].
  by apply (forall_range (fun a => (128 <=? Z.land a 248) && (Z.land a 248 <? 256) || negb (0x7f <? a)) 256).
Qed.

Lemma bit_lower_range a : byte a -> (0x7f <? a) = false -> 0 <= bit_lower a < 128.
Proof.
  intros Ha Hlt. unfold bit_lower, byte in *. rewrite Z.shiftr_div_pow2 by lia.
  pose proof (Z.div_lt_upper_bound a (2 ^ 3) 16). pose proof (Z.div_pos a (2 ^ 3)). lia.
Qed.

Lemma safe_read_bit a : byte a -> safe instr (read_bit a) any.
Proof.
  intros Ha. unfold read_bit. ok_auto.
  - by apply safe_sfr_read, bit_sfr_range.
  - by apply safe_lower_get, bit_lower_range.
Qed.

Lemma safe_update_bit a f : byte a -> safe instr (update_bit a f) any.
Proof.
  intros Ha. unfold update_bit. ok_auto.
  - pose proof (bit_sfr_range a Ha ltac:(done)) as [].
    eapply ok_in_range; [by apply aget_sfr|]. ok_auto.
  - by apply safe_lower_get, bit_lower_range.
  - by apply safe_lower_set, bit_lower_range.
Qed.
Hint Resolve safe_read_bit safe_update_bit : emu.

Lemma safe_jbc : safe instr jbc_bitaddr_offset any.
Proof.
  intros s Hw. unfold jbc_bitaddr_offset. ok_auto.
  - pose proof (bit_sfr_range a ltac:(done) ltac:(done)) as [].
    eapply ok_in_range; [by apply aget_sfr|]. ok_auto.
  - by apply safe_lower_get, bit_lower_range.
  - by apply safe_lower_set, bit_lower_range.
Qed.

Lemma safe_acc_op f v n : safe instr (acc_op (W := W) f v n) any.
Proof. intros s Hw. unfold acc_op. ok_auto. Qed.
Lemma safe_add_to_a v cy n : safe instr (add_to_a (W := W) v cy n) any.
Proof. intros s Hw. unfold add_to_a. ok_auto. Qed.
Lemma safe_sub_from_a v cy n : safe instr (sub_from_a (W := W) v cy n) any.
Proof. intros s Hw. unfold sub_from_a. ok_auto. Qed.
Lemma safe_carry_bit_op f d : safe instr (carry_bit_op f d) any.
Proof. intros s Hw. unfold carry_bit_op. ok_auto. Qed.
Lemma safe_bit_rmw f : safe instr (bit_rmw f) any.
Proof. intros s Hw. unfold bit_rmw. ok_auto. Qed.
Lemma safe_rmw_mem f : safe instr (rmw_mem f) any.
Proof. intros s Hw. unfold rmw_mem. ok_auto. Qed.
Lemma safe_rmw_mem_imm f : safe instr (rmw_mem_imm f) any.
Proof. intros s Hw. unfold rmw_mem_imm. ok_auto. Qed.
Lemma safe_latch_mem_a f : safe instr (latch_mem_a f) any.
Proof.
  intros s Hw. unfold latch_mem_a. ok_auto; unfold byte in *.
  - eapply ok_in_range; [apply aget_sfr; [done|lia]|]. ok_auto.
  - apply safe_lower_get; lia.
  - apply safe_lower_set; lia.
Qed.
Hint Resolve safe_jbc safe_acc_op safe_add_to_a safe_sub_from_a safe_carry_bit_op safe_bit_rmw
  safe_rmw_mem safe_rmw_mem_imm safe_latch_mem_a : emu.

Lemma safe_EXTDATA x s c0 (Q : Z -> machine W -> Prop) :
  wf (cpu s) -> instr c0 (cpu s) -> mExtData (cpu s) <> None -> (forall v, byte v -> Q v s) ->
  ok instr c0 (EXTDATA (W := W) x) Q s.
Proof.
  intros Hw H0 He HQ. unfold EXTDATA. ok_step. pose proof (wf_cpu_memory _ Hw) as Hm.
  eapply safe_load; [done..|apply Hm|apply land_le, Hm|done].
Qed.

Lemma safe_EXTDATA_set x v s c0 :
  wf (cpu s) -> instr c0 (cpu s) -> mExtData (cpu s) <> None ->
  ok instr c0 (EXTDATA_set (W := W) x v) (fun _ _ => True) s.
Proof.
  intros Hw H0 He. unfold EXTDATA_set. ok_step. pose proof (wf_cpu_memory _ Hw) as Hm.
  eapply safe_store; [done..|apply Hm|apply land_le, Hm].
Qed.

Lemma safe_movx_emit ctx v : safe instr (movx_context_emit ctx v) any.
Proof. intros s Hw. unfold movx_context_emit. ok_auto. Qed.
Hint Resolve safe_movx_emit : emu.

Lemma safe_movx_read a : safe instr (movx_read a) any.
Proof.
  intros s Hw. unfold movx_read. ok_step. cbv zeta. ok_step; [ok_auto|].
  destruct (mExtData (cpu s)) as [b|] eqn:Ee; [|ok_auto].
  eapply ok_bind with (P := fun _ _ => True); [apply safe_EXTDATA; [done..|by rewrite Ee|done]|].
  intros. ok_auto.
Qed.

Lemma safe_movx_write a : safe instr (movx_write a) any.
Proof.
  intros s Hw. unfold movx_write. ok_step. cbv zeta. ok_step; [ok_auto|].
  destruct (mExtData (cpu s)) as [b|] eqn:Ee; [|ok_auto].
  eapply ok_bind; [apply safe_EXTDATA_set; [done..|by rewrite Ee]|]. intros. ok_auto.
Qed.
Hint Resolve safe_movx_read safe_movx_write : emu.

Create HintDb handlers.
#[local] Hint Unfold acall_offset add_a_imm add_a_indir_rx add_a_mem add_a_rx addc_a_imm
  addc_a_indir_rx addc_a_mem addc_a_rx ajmp_offset anl_a_imm anl_a_indir_rx anl_a_mem anl_a_rx
  anl_c_bitaddr anl_c_compl_bitaddr anl_mem_a anl_mem_imm cjne_a_imm_offset cjne_a_mem_offset
  cjne_indir_rx_imm_offset cjne_rx_imm_offset clr_a clr_bitaddr clr_c cpl_a cpl_bitaddr cpl_c
  da_a dec_a dec_indir_rx dec_mem dec_rx div_ab djnz_mem_offset djnz_rx_offset inc_a inc_dptr
  inc_indir_rx inc_mem inc_rx jb_bitaddr_offset jc_offset jmp_indir_a_dptr jnb_bitaddr_offset
  jnc_offset jnz_offset jz_offset lcall_address ljmp_address mov_a_imm mov_a_indir_rx mov_a_mem
  mov_a_rx mov_bitaddr_c mov_c_bitaddr mov_dptr_imm mov_indir_rx_a mov_indir_rx_imm
  mov_indir_rx_mem mov_mem_a mov_mem_imm mov_mem_indir_rx mov_mem_mem mov_mem_rx mov_rx_a
  mov_rx_imm mov_rx_mem movc_a_indir_a_dptr movc_a_indir_a_pc movx_a_indir_dptr movx_a_indir_rx
  movx_indir_dptr_a movx_indir_rx_a mul_ab nop orl_a_imm orl_a_indir_rx orl_a_mem orl_a_rx
  orl_c_bitaddr orl_c_compl_bitaddr orl_mem_a orl_mem_imm pop_mem push_mem ret rl_a rlc_a rr_a
  rrc_a setb_bitaddr setb_c sjmp_offset subb_a_imm subb_a_indir_rx subb_a_mem subb_a_rx swap_a
  xch_a_indir_rx xch_a_mem xch_a_rx xchd_a_indir_rx xrl_a_imm xrl_a_indir_rx xrl_a_mem xrl_a_rx
  xrl_mem_a xrl_mem_imm : handlers.

(** Every instruction but RETI keeps the CPU well formed, the in-service stack
    and the counters. *)
Lemma safe_call_handler h : h <> H_reti -> safe instr (call_handler h) any.
Proof.
  intros Hh. destruct h; try done; clear Hh; cbn [call_handler];
    autounfold with handlers; ok_auto.
Qed.

Hint Resolve safe_call_handler : emu.

Lemma safe_reti : safe step reti any.
Proof. intros s Hw. unfold reti. ok_auto. Qed.

Lemma safe_any_handler h : safe step (call_handler h) any.
Proof.
  destruct h; first [apply safe_reti | by apply safe_instr_step, safe_call_handler].
Qed.

(** Every opcode byte has a handler. *)
Lemma op_table_total opcode :
  byte opcode -> exists h, aget op_table opcode = Some (Some h).
Proof.
  intros Ho. assert (match aget op_table opcode with Some (Some _) => true | _ => false end = true) as H.
  { by apply (forall_range (fun o => match aget op_table o with Some (Some _) => true | _ => false end) 256). }
  destruct (aget op_table opcode) as [[h|]|]; [by exists h|done..].
Qed.

Lemma safe_call_op opcode : byte opcode -> safe step (call_op opcode) any.
Proof.
  intros Ho s Hw. unfold call_op. ok_step. rewrite (wf_op _ (wf_cpu_exec _ Hw)).
  destruct (op_table_total opcode Ho) as [h Hh].
  eapply ok_in_range; [done|]. eapply ok_in_range; [done|].
  eapply ok_tail; [tc_solve|apply safe_any_handler|done..].
Qed.

End InstrSafe.

#[export] Hint Resolve safe_raise_exception safe_CODEMEM safe_OPCODE safe_push safe_pop
  safe_irq_trace safe_call_op wf_arm_inhibit wf_adc_finish wf_adc_request_start instr_adc_finish
  instr_adc_request_start safe_irq_write_any safe_sfr_write_callback safe_sfr_read safe_sfr_write : emu.
#[export] Hint Extern 3 (safe instr _ _) => apply safe_periph_instr; solve [eauto with emu] : emu.
#[export] Hint Extern 6 (safe step _ _) => apply safe_instr_step; solve [eauto with emu] : emu.
#[export] Hint Extern 2 (byte (sfr _ _)) => apply sfr_byte; [assumption|by vm_compute] : emu.
