(* ===== verification/Interrupts.v ===== *)
(** Interrupt arbitration and entry (src/core.c): handle_sab_interrupts and the
    classic handle_interrupts. *)
From S2P Require Import Prelude State Machine Ports Uart Adc Irq Sfr Memory.

(** Whether the arbitration loop passes over [source]. *)
Definition sab_irq_skipped (c : em8051) (source : Z) : bool :=
  let bit := SAB_IRQ_BIT source in
  let depth := mSABIrqDepth c in
  let current_priority := if depth =? 0 then 0 else geti (mSABIrqPriorityStack c) (depth - 1) in
  negb (has (mSABIrqPending c) bit) || negb (has (mSABIrqEnabled c) bit) ||
  has (mSABIrqInService c) bit ||
  ((source =? EM8051_SAB_IRQ_TIMER2) && negb (sab_irq_timer2_is_enabled c)) ||
  (negb (depth =? 0) && (sab_irq_priority c source <=? current_priority)).

(** The body of the arbitration loop, on (selected, selected_priority). *)
Definition select_step (c : em8051) (st : Z * Z) (source : Z) : Z * Z :=
  let '(selected, selected_priority) := st in
  if sab_irq_skipped c source then (selected, selected_priority)
  else
    let priority := sab_irq_priority c source in
    if (selected <? 0) || (selected_priority <? priority) then (source, priority)
    else (selected, selected_priority).

(** The arbitration loop; [selected = -1] when no source qualifies. *)
Definition sab_irq_select (c : em8051) : Z * Z :=
  foldl (select_step c) (-1, 0) (seqZ 0 EM8051_SAB_IRQ_SOURCE_COUNT).

(** What vector entry records once the return address is on the stack. *)
Definition sab_irq_enter (selected selected_priority depth : Z) (c : em8051) : em8051 :=
  let c := set_sfr REG_PCON (clr (sfr c REG_PCON) 0x01) c in
  let c := set_mPC (geti gSABIrqVectors selected) c in
  let c := set_mTickDelay 1 c in
  let c := set_mSABIrqSourceStack (seti (mSABIrqSourceStack c) depth (u8 selected)) c in
  let c := set_mSABIrqPriorityStack (seti (mSABIrqPriorityStack c) depth selected_priority) c in
  let c := set_mSABIrqSavedACC (seti (mSABIrqSavedACC c) depth (sfr c REG_ACC)) c in
  let c := set_mSABIrqSavedPSW (seti (mSABIrqSavedPSW c) depth (sfr c REG_PSW)) c in
  let c := set_mSABIrqSavedSP (seti (mSABIrqSavedSP c) depth (sfr c REG_SP)) c in
  let c := set_mSABIrqDepth (depth + 1) c in
  set_mSABIrqInService (Z.lor (mSABIrqInService c) (SAB_IRQ_BIT selected)) c.

(** The selection of the classic controller: (dest_ip, hi), [dest_ip = -1]
    when no enabled request is pending. *)
Definition classic_select (c : em8051) : Z * bool :=
  let ie := sfr c REG_IE in
  let ip := sfr c REG_IP in
  let tcon := sfr c REG_TCON in
  let consider (enable request : bool) (vector prio : Z) (st : Z * bool * bool) :=
    let '(dest, hi, lo) := st in
    if enable && request && negb hi then
      let '(dest, lo) := if lo then (dest, lo) else (vector, true) in
      if has ip prio then (vector, true, lo) else (dest, hi, lo)
    else (dest, hi, lo) in
  if has ie IEMASK_EA then
    let st := (-1, false, false) in
    let st := consider (has ie IEMASK_EX0) (has tcon TCONMASK_IE0) ISR_INT0 IPMASK_PX0 st in
    let st := consider (has ie IEMASK_ET0) (has tcon TCONMASK_TF0) ISR_TF0 IPMASK_PT0 st in
    let st := consider (has ie IEMASK_EX1) (has tcon TCONMASK_IE1) ISR_INT1 IPMASK_PX1 st in
    let st := consider (has ie IEMASK_ET1) (has tcon TCONMASK_TF1) ISR_TF1 IPMASK_PT1 st in
    let '(dest, hi, _) :=
      consider (has ie IEMASK_ES) (serial_interrupt_trigger c) ISR_SR IPMASK_PS st in
    (dest, hi)
  else (-1, false).

(** What a classic vector entry records. *)
Definition classic_enter (dest_ip : Z) (hi : bool) (c : em8051) : em8051 :=
  let c := set_sfr REG_PCON (clr (sfr c REG_PCON) 0x01) c in
  let c := set_mPC dest_ip c in
  let c := set_mTickDelay 1 c in
  let c :=
    if dest_ip =? ISR_TF0 then set_sfr REG_TCON (clr (sfr c REG_TCON) TCONMASK_TF0) c
    else if dest_ip =? ISR_TF1 then set_sfr REG_TCON (clr (sfr c REG_TCON) TCONMASK_TF1) c
    else if dest_ip =? ISR_SR then set_serial_interrupt_trigger false c
    else c in
  let c := if hi then set_mInterruptActive (Z.lor (mInterruptActive c) 2) c
           else set_mInterruptActive 1 c in
  let i := Z.b2z hi in
  let c := set_int_a (seti (int_a c) i (sfr c REG_ACC)) c in
  let c := set_int_psw (seti (int_psw c) i (sfr c REG_PSW)) c in
  set_int_sp (seti (int_sp c) i (sfr c REG_SP)) c.

Section Interrupts.
Context {W : Type} {HostW : Host W}.

(** The two pushes of the return address; [false] ends the entry. *)
Definition push_pc : M W bool :=
  c ← get_cpu;
  ok ← push_to_stack (Z.land (mPC c) 0xff);
  if negb ok then mret false else
  c ← get_cpu;
  push_to_stack (Z.shiftr (mPC c) 8).

Definition handle_sab_interrupts : M W bool :=
  sab_irq_sync ;;
  c ← get_cpu;
  if negb (mSABIrqInhibitInstructions c =? 0) then mret true else
  if negb (has (sfr c (SAB_SFR_INDEX EM8051_SAB_SFR_IEN0)) IEMASK_EA) then mret true else
  let depth := mSABIrqDepth c in
  (if depth =? 0 then mret 0 else in_range (aget (mSABIrqPriorityStack c) (depth - 1))) ;;
  let '(selected, selected_priority) := sab_irq_select c in
  if (selected <? 0) || (4 <=? depth) then mret true else
  preflight ← emu_cpu_raw EMU_RAW_CONTEXT_PREFLIGHT (mMachineCycleCount c) 0 0 0 0;
  if negb (mObservation c =? 0) && (preflight =? 0) then mret false else
  let pending_snapshot := mSABIrqPending c in
  let observed_return_pc := mPC c in
  let observed_sp := sfr c REG_SP in
  ok ← push_pc;
  if negb ok then mret false else
  modify (sab_irq_enter selected selected_priority depth) ;;
  c ← get_cpu;
  raw EMU_RAW_IRQ_ENTER (mMachineCycleCount c) selected observed_return_pc observed_sp
    (sfr c REG_SP) ;;
  modify (sab_irq_auto_clear selected) ;;
  sab_irq_sync ;;
  sab_irq_trace_emit EM8051_SAB_IRQ_TRACE_ACCEPT selected selected_priority true
    pending_snapshot ;;
  mret true.

Definition handle_interrupts : M W bool :=
  c ← get_cpu;
  if is_sab c then handle_sab_interrupts else
  if 1 <? mInterruptActive c then mret true else
  let '(dest_ip, hi) := classic_select c in
  if dest_ip =? -1 then mret true else
  if (mInterruptActive c =? 1) && negb hi then mret true else
  ok ← push_pc;
  if negb ok then mret false else
  modify (classic_enter dest_ip hi) ;;
  mret true.

End Interrupts.
