(* ===== verification/Arbitration.v ===== *)
(** Arbitration of the Siemens interrupt controller: which source wins, and
    that vector entry keeps the in-service stack well formed. *)
From S2P Require Import Prelude State Machine Ports Uart Adc Irq Sfr Memory Opcodes Dispatch.
From S2P Require Import Wf Logic Timers PeriphSafe InstrSafe Interrupts.

(** ** The arbitration loop computes a maximum *)

(** A source that may be entered now. *)
Definition eligible (c : em8051) (source : Z) : Prop :=
  0 <= source < EM8051_SAB_IRQ_SOURCE_COUNT /\ sab_irq_skipped c source = false.

(** [source] beats [other]: a higher priority, or the same priority and an
    earlier place in the polling sequence. *)
Definition beats (c : em8051) (source other : Z) : Prop :=
  sab_irq_priority c other < sab_irq_priority c source \/
  (sab_irq_priority c other = sab_irq_priority c source /\ source <= other).

(** The winner of arbitration, as the data book states it. *)
Definition wins (c : em8051) (source : Z) : Prop :=
  eligible c source /\ forall other, eligible c other -> beats c source other.

(** The loop's state after the sources below [n]. *)
Definition best_below (c : em8051) (n : Z) (st : Z * Z) : Prop :=
  let '(selected, priority) := st in
  (selected = -1 /\ forall o, 0 <= o < n -> sab_irq_skipped c o = true) \/
  (0 <= selected < n /\ sab_irq_skipped c selected = false /\
   priority = sab_irq_priority c selected /\
   forall o, 0 <= o < n -> sab_irq_skipped c o = false -> beats c selected o).

Lemma best_below_step c n st :
  0 <= n -> best_below c n st -> best_below c (n + 1) (select_step c st n).
Proof.
  destruct st as [sel prio]. unfold select_step, best_below.
  intros Hn Hb. destruct (sab_irq_skipped c n) eqn:Es.
  - destruct Hb as [[-> Hb]|(Hs & Hk & -> & Hb)]; [left|right].
    + split; [done|]. intros o Ho. destruct (Z.eq_dec o n) as [->|]; [done|apply Hb; lia].
    + split_and!; [lia..|done|done|]. intros o Ho Hsk.
      destruct (Z.eq_dec o n) as [->|]; [congruence|apply Hb; [lia|done]].
  - cbv zeta. destruct ((sel <? 0) || (prio <? sab_irq_priority c n)) eqn:Ec; right.
    + split_and!; [lia..|done|done|]. intros o Ho Hsk. unfold beats in *.
      destruct Hb as [[-> Hb]|(Hs & Hk & -> & Hb)];
        (destruct (Z.eq_dec o n) as [->|]; [lia|]).
      * rewrite Hb in Hsk by lia. done.
      * specialize (Hb o ltac:(lia) Hsk). lia.
    + destruct Hb as [[-> Hb]|(Hs & Hk & -> & Hb)]; [lia|].
      split_and!; [lia..|done|done|]. intros o Ho Hsk. unfold beats in *.
      destruct (Z.eq_dec o n) as [->|]; [lia|apply Hb; [lia|done]].
Qed.

Lemma select_fold c k st n :
  0 <= n -> best_below c n st ->
  best_below c (n + Z.of_nat k) (foldl (select_step c) st (seqZ n (Z.of_nat k))).
Proof.
  revert n st. induction k as [|k IH]; intros n st Hn Hb.
  - change (Z.of_nat 0) with 0. by rewrite Z.add_0_r.
  - rewrite seqZ_cons by lia. cbn [foldl].
    replace (Z.pred (Z.of_nat (S k))) with (Z.of_nat k) by lia.
    replace (n + Z.of_nat (S k)) with (Z.succ n + Z.of_nat k) by lia.
    apply IH; [lia|]. by apply best_below_step.
Qed.

Lemma sab_irq_select_spec c : best_below c 12 (sab_irq_select c).
Proof.
  unfold sab_irq_select. apply (select_fold c 12 (-1, 0) 0); [lia|]. left. split; [done|]. lia.
Qed.

Lemma select_winner c :
  let '(selected, priority) := sab_irq_select c in
  (selected = -1 /\ forall source, ~ eligible c source) \/
  (wins c selected /\ priority = sab_irq_priority c selected).
Proof.
  pose proof (sab_irq_select_spec c) as H. destruct (sab_irq_select c) as [sel prio].
  destruct H as [[-> Hn]|(Hs & Hk & -> & Hb)]; [left|right].
  - split; [done|]. intros source [Hr Hk]. rewrite Hn in Hk by done. done.
  - split; [|done]. split; [by split|]. intros o [Ho Hok]. by apply Hb.
Qed.

Lemma wins_unique c source source' : wins c source -> wins c source' -> source = source'.
Proof.
  intros [He Hb] [He' Hb']. specialize (Hb _ He'). specialize (Hb' _ He). unfold beats in *. lia.
Qed.

(** ** Vector entry *)

Lemma skipped_false c source :
  sab_irq_skipped c source = false ->
  has (mSABIrqPending c) (SAB_IRQ_BIT source) = true /\
  has (mSABIrqEnabled c) (SAB_IRQ_BIT source) = true /\
  has (mSABIrqInService c) (SAB_IRQ_BIT source) = false /\
  (mSABIrqDepth c = 0 \/
   geti (mSABIrqPriorityStack c) (mSABIrqDepth c - 1) < sab_irq_priority c source).
Proof.
  unfold sab_irq_skipped. intros H. rewrite !orb_false_iff, !negb_false_iff in H.
  destruct H as ((((Hp & He) & Hs) & _) & Hd). split_and!; [done..|].
  destruct (Z.eqb_spec (mSABIrqDepth c) 0); [by left|right].
  cbn in Hd. lia.
Qed.

Lemma priority_range c source : 0 <= sab_irq_priority c source < 4.
Proof. unfold sab_irq_priority. by repeat case_if. Qed.

Lemma has_testbit_irq v source :
  0 <= source < 12 -> has v (SAB_IRQ_BIT source) = Z.testbit v source.
Proof.
  intros Hs. unfold has. destruct (Z.eqb_spec (Z.land v (SAB_IRQ_BIT source)) 0) as [E|E].
  - apply (f_equal (fun x => Z.testbit x source)) in E.
    rewrite Z.land_spec, testbit_irq_bit, Z.bits_0 in E by lia.
    rewrite Z.eqb_refl, andb_true_r in E. by rewrite E.
  - destruct (Z.testbit v source) eqn:Ev; [done|]. destruct E. apply Z.bits_inj'. intros i Hi.
    rewrite Z.land_spec, testbit_irq_bit, Z.bits_0 by lia.
    destruct (Z.eqb_spec i source) as [->|]; [by rewrite Ev|by rewrite andb_false_r].
Qed.

(** The in-service stack after an entry. *)
Lemma wf_irq_push c source priority :
  wf c -> 0 <= source < 12 -> 0 <= priority < 4 -> mSABIrqDepth c < 4 ->
  Z.testbit (mSABIrqInService c) source = false ->
  (mSABIrqDepth c = 0 \/ geti (mSABIrqPriorityStack c) (mSABIrqDepth c - 1) < priority) ->
  forall acc psw sp, wf (set_irq (mk_irq (mInterruptActive c) (int_a c) (int_psw c) (int_sp c)
    (mSABIrqPending c) (mSABIrqEnabled c) (u16 (Z.lor (mSABIrqInService c) (SAB_IRQ_BIT source)))
    (u8 (mSABIrqDepth c + 1)) (seti (mSABIrqSourceStack c) (mSABIrqDepth c) (u8 source))
    (seti (mSABIrqPriorityStack c) (mSABIrqDepth c) priority)
    (seti (mSABIrqSavedACC c) (mSABIrqDepth c) acc) (seti (mSABIrqSavedPSW c) (mSABIrqDepth c) psw)
    (seti (mSABIrqSavedSP c) (mSABIrqDepth c) sp) (mSABIrqInhibitInstructions c)) c).
Proof.
  intros Hw Hs Hp Hd Hnot Htop acc psw sp. apply wf_set_irq; [done|].
  pose proof (wf_cpu_irq _ Hw) as [].
  assert (u8 (mSABIrqDepth c + 1) = mSABIrqDepth c + 1) as Ed by (apply u8_id; unfold byte; lia).
  assert (u8 source = source) as Es by (apply u8_id; unfold byte; lia).
  assert (forall (l : list Z) x k, length l = 4%nat -> 0 <= k < mSABIrqDepth c + 1 ->
    geti (seti l (mSABIrqDepth c) x) k = if k =? mSABIrqDepth c then x else geti l k) as Hg.
  { intros l x k Hl Hk. destruct (Z.eqb_spec k (mSABIrqDepth c)) as [->|].
    - apply geti_seti_eq. lia.
    - apply geti_seti_ne; lia. }
  assert (word (SAB_IRQ_BIT source)) as Hword by apply u16_word.
  constructor; cbn -[Z.lor u8 u16 SAB_IRQ_BIT]; rewrite ?Ed, ?Es, ?length_seti; try done; try lia.
  - intros k Hk. rewrite Hg by done. case_if; [lia|apply wf_sources; lia].
  - intros k Hk. rewrite Hg by done. case_if; [lia|apply wf_priorities; lia].
  - intros j k ? ?. rewrite !Hg by (done || lia).
    assert ((j =? mSABIrqDepth c) = false) as -> by lia. case_if; [|apply wf_nesting; lia].
    destruct Htop as [|Htop]; [lia|].
    destruct (Z.eq_dec j (mSABIrqDepth c - 1)) as [->|]; [done|].
    specialize (wf_nesting j (mSABIrqDepth c - 1)). lia.
  - intros j k ? ?. rewrite !Hg by (done || lia).
    assert ((j =? mSABIrqDepth c) = false) as -> by lia. case_if; [|apply wf_distinct; lia].
    intros Ej. assert (Z.testbit (mSABIrqInService c) source = true); [|congruence].
    apply wf_in_service; [lia|]. exists j. split; [lia|done].
  - apply u16_word.
  - intros b Hb. rewrite u16_id by (by apply word_lor).
    rewrite Z.lor_spec, testbit_irq_bit, orb_true_iff, wf_in_service by done. split.
    + intros [(k & Hk & <-)|He].
      * exists k. rewrite Hg by (done || lia). split; [lia|]. case_if; lia.
      * exists (mSABIrqDepth c). rewrite Hg, Z.eqb_refl by (done || lia). lia.
    + intros (k & Hk & E). rewrite Hg in E by (done || lia).
      destruct (Z.eqb_spec k (mSABIrqDepth c)); [right; lia|left; exists k; lia].
Qed.
