(* ===== verification/Cpu.v ===== *)
(** The execution loop (src/core.c): advance_machine_cycle, tick, and bounded
    run control. *)
From S2P Require Import Prelude State Machine Ports Uart Adc Irq Sfr Memory Opcodes Dispatch.
From S2P Require Import Timers Interrupts.

(** The parity bit of PSW, from the accumulator. *)
Definition parity (acc : Z) : Z :=
  let v := u8 (Z.lxor acc (Z.shiftr acc 4)) in
  let v := Z.land v 0xf in
  Z.land (Z.shiftr 0x6996 v) 1.

Definition update_parity (c : em8051) : em8051 :=
  set_sfr REG_PSW
    (Z.lor (clr (sfr c REG_PSW) PSWMASK_P) (parity (sfr c REG_ACC) * PSWMASK_P)) c.

Section Cpu.
Context {W : Type} {HostW : Host W}.

Definition advance_machine_cycle : M W () :=
  b ← em8051_execution_aborted;
  if b then mret () else
  c ← get_cpu;
  raw EMU_RAW_CYCLE_BEGIN (mMachineCycleCount c + 1) 0 0 0 0 ;;
  timer_tick ;;
  b ← em8051_execution_aborted;
  if b then mret () else
  sab_timer2_tick ;;
  b ← em8051_execution_aborted;
  if b then mret () else
  sab_adc_tick ;;
  b ← em8051_execution_aborted;
  if b then mret () else
  modify (fun c => set_mMachineCycleCount (mMachineCycleCount c + 1) c) ;;
  sab_external_apply_scheduled ;;
  sab_external_maintain_level_requests.

(** One opcode: fetch, trace, handler, counters. [false] when an abort ended
    the tick. *)
Definition execute_opcode : M W bool :=
  c ← get_cpu;
  opcode ← CODEMEM (mPC c);
  modify (set_mTracePC (mPC c)) ;;
  modify (set_mInInstruction true) ;;
  raw EMU_RAW_BEGIN (mMachineCycleCount c) (mPC c) opcode 0 0 ;;
  em8051_trace_emit EM8051_TRACE_INSTRUCTION (mPC c) opcode ;;
  b ← em8051_execution_aborted;
  if b then modify (set_mInInstruction false) ;; mret false else
  delay ← call_op opcode;
  modify (set_mTickDelay delay) ;;
  modify (set_mInInstruction false) ;;
  c ← get_cpu;
  raw EMU_RAW_OPCODE_END (mMachineCycleCount c) (mPC c) 0 0 0 ;;
  b ← em8051_execution_aborted;
  if b then mret false else
  modify (fun c => set_mInstructionCount (mInstructionCount c + 1) c) ;;
  c ← get_cpu;
  when (is_sab c && negb (mSABIrqInhibitInstructions c =? 0))
    (modify (set_mSABIrqInhibitInstructions (mSABIrqInhibitInstructions c - 1))) ;;
  mret true.

Definition tick : M W bool :=
  b ← em8051_execution_aborted;
  if b then mret false else
  c ← get_cpu;
  if negb (mTickDelay c =? 0) then
    modify (set_mTickDelay (mTickDelay c - 1)) ;; advance_machine_cycle ;; mret false
  else if has (sfr c REG_PCON) 0x02 then mret false
  else
    handled ← handle_interrupts;
    if negb handled then advance_machine_cycle ;; mret false else
    b ← em8051_execution_aborted;
    if b then mret false else
    c ← get_cpu;
    if mTickDelay c =? 0 then
      if has (sfr c REG_PCON) 0x01 then
        modify update_parity ;; advance_machine_cycle ;; mret false
      else
        executed ← execute_opcode;
        if executed then modify update_parity ;; advance_machine_cycle ;; mret true
        else mret false
    else advance_machine_cycle ;; mret false.

(** ** Run control *)

Definition fill_run_result (c : em8051) (aReason : stop_reason)
    (aStartInstructions aStartCycles : Z) : run_result :=
  {| rr_reason := aReason;
     rr_instructions := u64 (mInstructionCount c - aStartInstructions);
     rr_machine_cycles := u64 (mMachineCycleCount c - aStartCycles);
     rr_pc := mPC c;
     rr_exception_code := if mExceptionRaised c then mLastException c else -1 |}.

(** [while (mTickDelay != 0 && !aborted) tick();] A pending cycle only lowers
    the 8-bit delay, so 256 iterations are enough. *)
Fixpoint drain_delay (fuel : nat) : M W () :=
  match fuel with
  | O => fun _ => NoFuel
  | S fuel =>
    c ← get_cpu;
    b ← em8051_execution_aborted;
    if negb (mTickDelay c =? 0) && negb b then _ ← tick; drain_delay fuel else mret ()
  end.

(** The tests of the run loop, in the order of the code. *)
Definition run_stop (c : em8051) (aborted aHasTarget : bool)
    (aTargetPC aMaxInstructions start_instructions : Z) : option stop_reason :=
  if aborted then Some EM8051_STOP_ABORTED
  else if mExceptionRaised c then Some EM8051_STOP_EXCEPTION
  else if aHasTarget && (mPC c =? aTargetPC) then Some EM8051_STOP_TARGET_PC
  else if mBreakpointEnabled c && (mPC c =? mBreakpoint c) then Some EM8051_STOP_BREAKPOINT
  else if has (sfr c REG_PCON) 0x03 then Some EM8051_STOP_HALT
  else if aMaxInstructions <=? u64 (mInstructionCount c - start_instructions)
       then Some EM8051_STOP_INSTRUCTION_LIMIT
  else None.

Fixpoint run_loop (fuel : nat) (aHasTarget : bool)
    (aTargetPC aMaxInstructions start_instructions : Z) : M W stop_reason :=
  match fuel with
  | O => fun _ => NoFuel
  | S fuel =>
    drain_delay 256 ;;
    b ← em8051_execution_aborted;
    c ← get_cpu;
    match run_stop c b aHasTarget aTargetPC aMaxInstructions start_instructions with
    | Some reason => mret reason
    | None => _ ← tick; run_loop fuel aHasTarget aTargetPC aMaxInstructions start_instructions
    end
  end.

Definition run_control (fuel : nat) (aHasTarget : bool) (aTargetPC aMaxInstructions : Z) :
    M W run_result :=
  c ← get_cpu;
  let start_instructions := mInstructionCount c in
  let start_cycles := mMachineCycleCount c in
  modify (set_mExceptionRaised false) ;;
  modify (set_mLastException (-1)) ;;
  reason ← run_loop fuel aHasTarget aTargetPC aMaxInstructions start_instructions;
  c ← get_cpu;
  mret (fill_run_result c reason start_instructions start_cycles).

Definition em8051_run (fuel : nat) (aMaxInstructions : Z) : M W run_result :=
  run_control fuel false 0 aMaxInstructions.
Definition em8051_step_instruction (fuel : nat) : M W run_result := em8051_run fuel 1.
Definition em8051_run_until_pc (fuel : nat) (aTargetPC aMaxInstructions : Z) : M W run_result :=
  run_control fuel true aTargetPC aMaxInstructions.

Definition em8051_set_breakpoint (aPC : Z) (aEnabled : bool) : M W () :=
  modify (set_mBreakpoint aPC) ;; modify (set_mBreakpointEnabled aEnabled).

End Cpu.
