(* ===== verification/CpuSafe.v ===== *)
(** The execution loop is safe: interrupt entry, the machine cycle and the tick
    run without undefined behaviour, and what each of them changes. *)
From S2P Require Import Prelude State Machine Ports Uart Adc Irq Sfr Memory Opcodes Dispatch.
From S2P Require Import Wf Logic Timers PeriphSafe InstrSafe Interrupts Arbitration Cpu.

Section CpuSafe.
Context {W : Type} {HostW : Host W}.

Lemma safe_periph_sched {A} (m : M W A) P : safe periph m P -> safe sched m P.
Proof. intros Hm. eapply safe_weaken; [exact Hm|apply periph_sched|done]. Qed.
Lemma safe_periph_cycle {A} (m : M W A) P : safe periph m P -> safe cycle m P.
Proof. intros Hm. eapply safe_weaken; [exact Hm|apply pf_cycle|done]. Qed.
Lemma safe_sched_cycle {A} (m : M W A) P : safe sched m P -> safe cycle m P.
Proof. intros Hm. eapply safe_weaken; [exact Hm|apply sc_cycle|done]. Qed.
Lemma safe_cycle_idle {A} (m : M W A) P : safe cycle m P -> safe idle m P.
Proof. intros Hm. eapply safe_weaken; [exact Hm|apply cycle_idle|done]. Qed.

(** ** The scheduled stimulus loop terminates *)

Lemma safe_apply_loop fuel s :
  wf (cpu s) -> (Z.to_nat (mSABExternalScheduleCount (cpu s)) < fuel)%nat ->
  ok sched (cpu s) (apply_scheduled_loop fuel) (fun _ _ => True) s.
Proof.
  revert s. induction fuel as [|fuel IH]; intros s Hw Hf; [lia|]. cbn [apply_scheduled_loop].
  pose proof (wf_cpu_ports _ Hw) as []. ok_step. ok_step; [|ok_auto].
  destruct (aget_Some (mSABExternalSchedule (cpu s)) (mSABExternalScheduleHead (cpu s)))
    as (e & He & _); [lia|].
  eapply ok_in_range; [done|]. ok_step; [ok_auto|].
  assert (u8 (mSABExternalScheduleCount (cpu s) - 1) = mSABExternalScheduleCount (cpu s) - 1) as Eu
    by (apply u8_id; unfold byte; lia).
  apply ok_modify2, ok_modify; [tc_solve| |done|frame_tac|].
  { apply wf_set_mSABExternalScheduleCount; [|rewrite Eu; lia].
    apply wf_set_mSABExternalScheduleHead; [done|]. by apply u8_mod. }
  intros s1 E1 Hw1 H1.
  eapply (ok_call_within sched _ periph); [apply safe_apply_event|apply periph_sched|done|done|].
  intros _ s2 _ Hw2 H2 [_ _ Hp]. apply ok_trans; [tc_solve|done|]. apply IH; [done|].
  injection Hp as _ _ ->. rewrite E1. cbn -[u8]. lia.
Qed.

Lemma safe_apply_scheduled : safe sched sab_external_apply_scheduled any.
Proof.
  intros s Hw. unfold sab_external_apply_scheduled. pose proof (wf_cpu_ports _ Hw) as [].
  eapply ok_bind; [apply safe_apply_loop; [done|lia]|]. intros _ s1 _ Hw1 H1. ok_auto.
  apply wf_set_mSABExternalScheduleHead; [done|]. by vm_compute.
Qed.

(** ** The machine cycle *)

(** A host whose abort predicate never holds. *)
Definition never_aborts : Prop := forall p c u w, call_abort p c u w = false.

Lemma never_aborted s : never_aborts -> execution_aborted s = false.
Proof. intros H. unfold execution_aborted. by rewrite H, andb_false_r. Qed.

(** The clock advances by one, or an abort stopped the cycle half way. *)
Definition clock (c0 c' : em8051) : Prop :=
  (mMachineCycleCount c' = mMachineCycleCount c0 \/
   mMachineCycleCount c' = u64 (mMachineCycleCount c0 + 1)) /\
  (never_aborts -> mMachineCycleCount c' = u64 (mMachineCycleCount c0 + 1)).

(** One peripheral's share of the cycle, and the abort test after it. *)
Lemma ok_stage c0 (m : M W ()) (k : M W ()) s :
  safe periph m any -> wf (cpu s) -> periph c0 (cpu s) ->
  (forall s', wf (cpu s') -> periph c0 (cpu s') -> ok cycle c0 k (fun _ s' => clock c0 (cpu s')) s') ->
  ok cycle c0 (m ;; b ← em8051_execution_aborted; if b then mret () else k) (fun _ s' => clock c0 (cpu s')) s.
Proof.
  intros Hm Hw H0 Hk.
  eapply (ok_call_within cycle _ periph); [exact Hm|apply pf_cycle|done|apply H0|].
  intros _ s1 _ Hw1 H1 H01. assert (periph c0 (cpu s1)) as Hp by by etransitivity.
  apply ok_aborted_eq. intros b Hb. destruct b; [|by apply Hk].
  apply ok_ret; [done..|]. split; [left; apply Hp|].
  intros Hn. rewrite never_aborted in Hb; done.
Qed.

Lemma ok_advance s :
  wf (cpu s) -> ok cycle (cpu s) advance_machine_cycle (fun _ s' => clock (cpu s) (cpu s')) s.
Proof.
  intros Hw. unfold advance_machine_cycle. apply ok_aborted_eq. intros b Hb. destruct b.
  { apply ok_ret; [done..|]. split; [by left|]. intros Hn. rewrite never_aborted in Hb; done. }
  ok_step. eapply (ok_call_within cycle _ periph); [eauto with emu|apply pf_cycle|done|done|].
  intros _ s1 _ Hw1 _ H1. do 3 (apply ok_stage; [eauto with emu|done|done|]; clear s1 Hw1 H1; intros s1 Hw1 H1).
  apply ok_modify; [tc_solve|eauto with emu|apply H1|frame_tac|].
  intros s2 E2 Hw2 H2. eapply (ok_call_within cycle _ sched);
    [apply safe_apply_scheduled|apply sc_cycle|done|done|].
  intros _ s3 _ Hw3 H3 [_ Ec3].
  destruct (safe_maintain s3 Hw3) as (u & s4 & E4 & Hw4 & [H4 Ec4 _] & _).
  exists u, s4. split_and!; [done..|by etransitivity|].
  assert (mMachineCycleCount (cpu s4) = u64 (mMachineCycleCount (cpu s) + 1)) as Ec;
    [|by split; [right|]].
  rewrite Ec4, Ec3, E2. cbn -[u64]. by rewrite (pf_ccount _ _ H1).
Qed.

(** ** Interrupt entry *)

(** How many vector entries can still happen before the next instruction. *)
Definition entries (c : em8051) : Z :=
  if is_sab c then 4 - mSABIrqDepth c
  else if 1 <? mInterruptActive c then 0 else if mInterruptActive c =? 1 then 1 else 2.

Lemma entries_range c : wf c -> 0 <= entries c <= 4.
Proof. intros Hw. pose proof (wf_cpu_irq _ Hw) as []. unfold entries. repeat case_if; lia. Qed.

(** The installed abort predicate and its context. *)
Definition abort_hook (c : em8051) : ptr * ptr := (execution_abort c, execution_abort_user c).

(** An observer that refuses a context asks for an abort: once it has refused,
    the installed abort predicate holds. The observer of src/emu_cpu_facade.c
    does so (EMU_RAW_CONTEXT_PREFLIGHT calls [fail] before it returns 0), and an
    observer that never refuses does so trivially. *)
Definition refusals_abort (hook : ptr * ptr) : Prop := forall o cy a b c d w,
  u64 (fst (call_raw o EMU_RAW_CONTEXT_PREFLIGHT cy a b c d w)) = 0 ->
  fst hook <> 0 /\ forall k, call_abort (fst hook) k (snd hook)
    (snd (call_raw o EMU_RAW_CONTEXT_PREFLIGHT cy a b c d w)) = true.

(** The outcomes of [handle_interrupts]: nothing to enter; a vector was
    entered; or the entry was refused, because the return address could not be
    stacked or because the observer declined. *)
Definition handled (s : machine W) (b : bool) (s' : machine W) : Prop :=
  (b = true /\ periph (cpu s) (cpu s')) \/
  (b = true /\ mTickDelay (cpu s') = 1 /\ entries (cpu s') < entries (cpu s)) \/
  (b = false /\ (mExceptionRaised (cpu s') = true \/
    (refusals_abort (abort_hook (cpu s')) -> execution_aborted s' = true))).

Context {HostOkW : HostOk W}.

Lemma ok_push_pc c0 s :
  wf (cpu s) -> instr c0 (cpu s) ->
  ok instr c0 push_pc (fun b s' => b = false -> mExceptionRaised (cpu s') = true) s.
Proof.
  intros Hw H0. unfold push_pc. ok_step.
  eapply ok_bind; [apply ok_trans; [tc_solve|done|by apply ok_push]|].
  intros b s1 Hb Hw1 H1. ok_step; [ok_auto; by destruct b; auto|]. ok_step.
  apply ok_trans; [tc_solve|done|]. by apply ok_push.
Qed.

Lemma safe_in_service_priority (c : em8051) :
  wf c -> exists p, (if mSABIrqDepth c =? 0 then mret 0
    else in_range (W := W) (aget (mSABIrqPriorityStack c) (mSABIrqDepth c - 1))) = mret p.
Proof.
  intros Hw. pose proof (wf_cpu_irq _ Hw) as []. case_if; [by eexists|].
  rewrite aget_geti by lia. by eexists.
Qed.

Lemma wf_auto_clear source c : wf c -> wf (sab_irq_auto_clear source c).
Proof. intros Hw. unfold sab_irq_auto_clear. cbv zeta. repeat case_if; eauto with emu. Qed.
Lemma periph_auto_clear source c : periph c (sab_irq_auto_clear source c).
Proof. unfold sab_irq_auto_clear. cbv zeta. repeat case_if; frame_tac. Qed.
Hint Resolve wf_auto_clear periph_auto_clear : emu.

Lemma wf_irq_enter c source priority :
  wf c -> 0 <= source < 12 -> 0 <= priority < 4 -> mSABIrqDepth c < 4 ->
  Z.testbit (mSABIrqInService c) source = false ->
  (mSABIrqDepth c = 0 \/ geti (mSABIrqPriorityStack c) (mSABIrqDepth c - 1) < priority) ->
  wf (sab_irq_enter source priority (mSABIrqDepth c) c).
Proof.
  intros Hw Hs Hp Hd Hnot Htop.
  pose (c1 := set_mTickDelay 1 (set_mPC (geti gSABIrqVectors source)
                (set_sfr REG_PCON (clr (sfr c REG_PCON) 1) c))).
  assert (wf c1) as Hw1 by (unfold c1; eauto with emu).
  exact (wf_irq_push c1 source priority Hw1 Hs Hp Hd Hnot Htop _ _ _).
Qed.

Lemma step_irq_enter c source priority depth : step c (sab_irq_enter source priority depth c).
Proof. frame_tac. Qed.

Lemma entries_periph c c' : periph c c' -> entries c' = entries c.
Proof. intros [[] _ _]. unfold entries, is_sab. by rewrite cy_variant, cy_depth, cy_active. Qed.

Lemma entries_enter c source priority :
  wf c -> is_sab c = true -> entries (sab_irq_enter source priority (mSABIrqDepth c) c) = entries c - 1.
Proof.
  intros Hw Hs. pose proof (wf_depth _ (wf_cpu_irq _ Hw)). unfold entries.
  change (is_sab (sab_irq_enter _ _ _ c)) with (is_sab c). rewrite Hs.
  change (mSABIrqDepth (sab_irq_enter _ _ _ c)) with (u8 (mSABIrqDepth c + 1)).
  rewrite u8_id; [|unfold byte]; lia.
Qed.

(** The part of the entry after the stack: nothing in it fails. *)
Lemma ok_sab_entry c0 s source priority cy ret_pc osp snapshot :
  wf (cpu s) -> step c0 (cpu s) ->
  wf (sab_irq_enter source priority (mSABIrqDepth (cpu s)) (cpu s)) ->
  ok step c0 (modify (sab_irq_enter source priority (mSABIrqDepth (cpu s))) ;;
    c ← get_cpu;
    raw EMU_RAW_IRQ_ENTER (cy c) source ret_pc osp (sfr c REG_SP) ;;
    modify (sab_irq_auto_clear source) ;;
    sab_irq_sync ;;
    sab_irq_trace_emit EM8051_SAB_IRQ_TRACE_ACCEPT source priority true snapshot ;;
    mret true)
    (fun b s' => b = true /\
       periph (sab_irq_enter source priority (mSABIrqDepth (cpu s)) (cpu s)) (cpu s')) s.
Proof.
  intros Hw H0 Hwe. set (ce := sab_irq_enter source priority (mSABIrqDepth (cpu s)) (cpu s)) in *.
  apply ok_modify; [tc_solve|done|done|apply step_irq_enter|]. fold ce. intros s1 E1 Hw1 H1.
  assert (ok periph (cpu s1) (c ← get_cpu;
    raw EMU_RAW_IRQ_ENTER (cy c) source ret_pc osp (sfr c REG_SP) ;;
    modify (sab_irq_auto_clear source) ;; sab_irq_sync ;;
    sab_irq_trace_emit EM8051_SAB_IRQ_TRACE_ACCEPT source priority true snapshot ;;
    mret true) (fun b _ => b = true) s1) as (b & s2 & E2 & Hw2 & H2 & Hb) by ok_auto.
  exists b, s2. split_and!; [done..| |done|by rewrite <- E1].
  etransitivity; [exact H1|]. by apply in_step, periph_instr.
Qed.

Lemma raw_preflight s cy a b c d :
  exists r w, emu_cpu_raw EMU_RAW_CONTEXT_PREFLIGHT cy a b c d s = Done r (mk_machine (cpu s) w) /\
    (mObservation (cpu s) <> 0 -> r = 0 -> refusals_abort (abort_hook (cpu s)) ->
     execution_aborted (mk_machine (cpu s) w) = true).
Proof.
  unfold emu_cpu_raw. case_if; [exists 0, (world s); split; [done|lia]|].
  destruct (call_raw _ _ _ _ _ _ _ _) as [r w] eqn:Er. exists (u64 r), w. split; [done|].
  intros _ Hr Ha. specialize (Ha (mObservation (cpu s)) (u64 cy) (u64 a) (u32 b) (u32 c) (u32 d) (world s)).
  rewrite Er in Ha. destruct (Ha Hr) as [Hp Hc]. unfold execution_aborted. cbn [cpu world abort_hook fst snd] in *.
  rewrite Hc. lia.
Qed.

Lemma ok_handle_sab s :
  wf (cpu s) -> is_sab (cpu s) = true ->
  ok step (cpu s) handle_sab_interrupts (handled s) s.
Proof.
  intros Hw Hsab. unfold handle_sab_interrupts.
  eapply (ok_call_within step _ periph); [apply safe_irq_sync|by intros; apply in_step, periph_instr|done|done|].
  intros _ s1 _ Hw1 H1 Hp1. assert (handled s true s1) as Hnone by by left.
  ok_step. ok_step; [by apply ok_ret|]. ok_step; [by apply ok_ret|]. cbv zeta.
  destruct (safe_in_service_priority (cpu s1) Hw1) as [p ->]. ok_step.
  pose proof (sab_irq_select_spec (cpu s1)) as Hsel.
  destruct (sab_irq_select (cpu s1)) as [source priority]. ok_step; [by apply ok_ret|].
  destruct Hsel as [[-> _]|(Hs & Hsk & Hpr & _)]; [done|].
  apply skipped_false in Hsk as (_ & _ & Hsv & Htop). rewrite has_testbit_irq in Hsv by done.
  destruct (raw_preflight s1 (mMachineCycleCount (cpu s1)) 0 0 0 0) as (r & w & Er & Hr).
  eapply ok_exec; [exact Er|]. ok_step.
  { apply ok_ret; [done..|]. right; right. split; [done|]. right. apply Hr; lia. }
  destruct (ok_push_pc (cpu s1) (mk_machine (cpu s1) w)) as (pushed & s2 & Epush & Hw2 & [Hst2 Hk2] & Hok);
    [done..|].
  assert (step (cpu s) (cpu s2)) as H2 by (by etransitivity).
  eapply ok_exec; [exact Epush|]. destruct pushed; cbn [negb]; cycle 1.
  { apply ok_ret; [done..|]. right; right. split; [done|]. left. auto. }
  unfold irq_stack in Hk2. injection Hk2 as Ed Es Ep Ev _. rewrite <- Ed.
  assert (wf (sab_irq_enter source priority (mSABIrqDepth (cpu s2)) (cpu s2))) as Hwe.
  { subst priority. apply wf_irq_enter; rewrite ?Ed, ?Ep, ?Ev; [done..|apply priority_range|lia|done|done]. }
  eapply ok_weaken; [by apply ok_sab_entry|]. intros b c' Hw' _ [-> Hp']. right; left.
  split; [done|]. split; [apply Hp'|]. rewrite (entries_periph _ _ Hp'), <- (entries_periph _ _ Hp1).
  assert (mVariant (cpu s1) = mVariant (cpu s)) as Ev1 by apply H1.
  assert (mVariant (cpu s2) = mVariant (cpu s)) as Ev2 by apply H2.
  unfold is_sab in Hsab. rewrite entries_enter by (done || (unfold is_sab; congruence)).
  unfold entries, is_sab. rewrite Ev1, Ev2, Hsab. lia.
Qed.

Lemma wf_classic_enter dest hi c : wf c -> wf (classic_enter dest hi c).
Proof.
  intros Hw. unfold classic_enter. cbv zeta.
  set (c1 := set_mTickDelay 1 _). assert (wf c1) as Hw1 by (subst c1; eauto with emu). clearbody c1.
  set (c2 := if dest =? ISR_TF0 then _ else _).
  assert (wf c2) as Hw2 by (subst c2; repeat case_if; eauto with emu). clearbody c2.
  set (c3 := if hi then _ else _).
  assert (wf c3) as Hw3 by (subst c3; case_if; eauto with emu). clearbody c3.
  apply wf_set_int_sp; [apply wf_set_int_psw; [apply wf_set_int_a; [done|]|]|];
    rewrite length_seti; apply Hw3.
Qed.

Lemma step_classic_enter dest hi c : step c (classic_enter dest hi c).
Proof. unfold classic_enter. cbv zeta. destruct hi; repeat case_if; frame_tac. Qed.

Lemma classic_enter_delay dest hi c : mTickDelay (classic_enter dest hi c) = 1.
Proof. unfold classic_enter. cbv zeta. destruct hi; repeat case_if; reflexivity. Qed.

Lemma classic_enter_active dest hi c :
  mInterruptActive (classic_enter dest hi c) =
  if hi then u8 (Z.lor (mInterruptActive c) 2) else 1.
Proof. unfold classic_enter. cbv zeta. destruct hi; repeat case_if; reflexivity. Qed.

Lemma ok_handle s :
  wf (cpu s) -> ok step (cpu s) handle_interrupts (handled s) s.
Proof.
  intros Hw. unfold handle_interrupts. ok_step.
  assert (handled s true s) as Hnone by (left; split; [done|reflexivity]).
  destruct (is_sab (cpu s)) eqn:Hsab; [by apply ok_handle_sab|].
  ok_step; [by apply ok_ret|]. destruct (classic_select (cpu s)) as [dest hi].
  ok_step; [by apply ok_ret|]. ok_step; [by apply ok_ret|].
  destruct (ok_push_pc (cpu s) s) as (pushed & s2 & Epush & Hw2 & [Hst2 Hk2] & Hok); [done..|].
  eapply ok_exec; [exact Epush|]. destruct pushed; cbn [negb]; cycle 1.
  { apply ok_ret; [done..|]. right; right. auto. }
  apply ok_modify; [tc_solve|by apply wf_classic_enter|done|apply step_classic_enter|].
  intros s3 E3 Hw3 H3. apply ok_ret; [done..|]. right; left. rewrite E3, classic_enter_delay.
  split; [done|]. split; [done|]. unfold irq_stack in Hk2. injection Hk2 as _ _ _ _ Ha.
  assert (is_sab (classic_enter dest hi (cpu s2)) = false) as Hs2.
  { unfold is_sab in *. rewrite (st_variant _ _ (step_classic_enter dest hi (cpu s2))), (st_variant _ _ Hst2). done. }
  unfold entries. rewrite Hsab, Hs2, classic_enter_active, Ha.
  assert (mInterruptActive (cpu s) = 0 \/ mInterruptActive (cpu s) = 1) as [Ea|Ea]
    by (pose proof (wf_active _ (wf_cpu_irq _ Hw)) as Hb; unfold byte in Hb; lia);
    rewrite Ea in *; destruct hi; first [done | by vm_compute].
Qed.

(** ** One opcode *)

(** The abort predicate reads the host's state, not the CPU. *)
Definition abort_from_world : Prop := forall p c c' u w, call_abort p c u w = call_abort p c' u w.

(** What executing an opcode may change besides what [idle] allows. *)
Record clocked (c c' : em8051) : Prop := {
  ck_ccount : mMachineCycleCount c' = mMachineCycleCount c;
  ck_variant : mVariant c' = mVariant c;
  ck_except : mExceptionRaised c = true -> mExceptionRaised c' = true
}.
Instance clocked_preorder : PreOrder clocked.
Proof. split; [by constructor|]. intros a b c [] []. constructor; try congruence. auto. Qed.

Lemma step_clocked c c' : step c c' -> clocked c c'.
Proof. intros []. by constructor. Qed.
Lemma safe_step_clocked {A} (m : M W A) P : safe step m P -> safe clocked m P.
Proof. intros Hm. eapply safe_weaken; [exact Hm|apply step_clocked|done]. Qed.

(** [true] is one more instruction; [false] is an abort. *)
Definition executed (c0 : em8051) (b : bool) (s' : machine W) : Prop :=
  mInstructionCount (cpu s') =
    (if b then u64 (mInstructionCount c0 + 1) else mInstructionCount c0) /\
  (b = false -> never_aborts -> False) /\
  (b = false -> abort_from_world -> execution_aborted s' = true).

Lemma aborted_in_instruction (s : machine W) b : abort_from_world ->
  execution_aborted (mk_machine (set_mInInstruction b (cpu s)) (world s)) = execution_aborted s.
Proof. intros Ha. unfold execution_aborted. cbn [cpu world]. f_equal. apply Ha. Qed.

Lemma ok_execute s :
  wf (cpu s) -> ok clocked (cpu s) execute_opcode (executed (cpu s)) s.
Proof.
  intros Hw. unfold execute_opcode. ok_step.
  eapply (ok_call_within clocked _ step);
    [apply safe_instr_step, safe_CODEMEM|apply step_clocked|done|done|].
  intros opcode s1 Hop Hw1 H1 Hs1.
  apply ok_modify2, ok_modify; [tc_solve|eauto with emu|done|by constructor|].
  intros s2 E2 Hw2 H2. assert (mInstructionCount (cpu s2) = mInstructionCount (cpu s)) as I2.
  { rewrite E2. apply Hs1. }
  eapply (ok_call_within clocked _ step); [eauto with emu|apply step_clocked|done|done|].
  intros _ s3 _ Hw3 H3 Hs3. eapply (ok_call_within clocked _ step);
    [eauto with emu|apply step_clocked|done|done|].
  intros _ s4 _ Hw4 H4 Hs4. apply ok_aborted_eq. intros b Hb. destruct b.
  { eapply ok_exec; [reflexivity|]. apply ok_ret; [eauto with emu|by destruct H4|]. split_and!.
    - change (mInstructionCount (cpu s4) = mInstructionCount (cpu s)).
      by rewrite (st_icount _ _ Hs4), (st_icount _ _ Hs3).
    - intros _ Hn. by rewrite never_aborted in Hb.
    - intros _ Ha. by rewrite aborted_in_instruction. }
  eapply (ok_call_within clocked _ step); [by apply safe_call_op|apply step_clocked|done|done|].
  intros delay s5 _ Hw5 H5 Hs5.
  apply ok_modify2, ok_modify; [tc_solve|eauto with emu|done|by constructor|].
  intros s6 E6 Hw6 H6. assert (mInstructionCount (cpu s6) = mInstructionCount (cpu s)) as I6.
  { rewrite E6. change (mInstructionCount (cpu s5) = mInstructionCount (cpu s)).
    by rewrite (st_icount _ _ Hs5), (st_icount _ _ Hs4), (st_icount _ _ Hs3). }
  ok_step. eapply (ok_call_within clocked _ step); [eauto with emu|apply step_clocked|done|done|].
  intros _ s7 _ Hw7 H7 Hs7. assert (mInstructionCount (cpu s7) = mInstructionCount (cpu s)) as I7.
  { by rewrite (st_icount _ _ Hs7). }
  apply ok_aborted_eq. intros b Hb'. destruct b.
  { apply ok_ret; [done..|]. split_and!; [done| |done]. intros _ Hn. by rewrite never_aborted in Hb'. }
  apply ok_modify; [tc_solve|eauto with emu|done|by constructor|]. intros s8 E8 Hw8 H8. ok_step.
  assert (mInstructionCount (cpu s8) = u64 (mInstructionCount (cpu s) + 1)) as I8.
  { rewrite E8, <- I7. done. }
  unfold when. case_if.
  - apply ok_modify; [tc_solve|eauto with emu|done|by constructor|]. intros s9 E9 Hw9 H9.
    apply ok_ret; [done..|]. split; [by rewrite E9|done].
  - apply ok_bind_ret, ok_ret; [done..|]. by split.
Qed.

(** ** The tick *)

(** What a tick guarantees. A tick that executes nothing while the CPU could
    run has entered a vector, raised an exception or been aborted. *)
Record ticked (s : machine W) (b : bool) (s' : machine W) : Prop := {
  tk_icount : mInstructionCount (cpu s') =
    (if b then u64 (mInstructionCount (cpu s) + 1) else mInstructionCount (cpu s));
  tk_variant : mVariant (cpu s') = mVariant (cpu s);
  tk_except : mExceptionRaised (cpu s) = true -> mExceptionRaised (cpu s') = true;
  tk_clock : mMachineCycleCount (cpu s') = mMachineCycleCount (cpu s) \/
    mMachineCycleCount (cpu s') = u64 (mMachineCycleCount (cpu s) + 1);
  tk_never : never_aborts -> mTickDelay (cpu s) <> 0 \/ has (sfr (cpu s) REG_PCON) 2 = false ->
    mMachineCycleCount (cpu s') = u64 (mMachineCycleCount (cpu s) + 1);
  tk_drain : mTickDelay (cpu s) <> 0 -> execution_aborted s = false ->
    b = false /\ mTickDelay (cpu s') = mTickDelay (cpu s) - 1 /\ entries (cpu s') = entries (cpu s);
  tk_progress : b = false -> mTickDelay (cpu s) = 0 -> execution_aborted s = false ->
    has (sfr (cpu s) REG_PCON) 3 = false ->
    entries (cpu s') < entries (cpu s) \/ mExceptionRaised (cpu s') = true \/
    (abort_from_world -> refusals_abort (abort_hook (cpu s')) -> execution_aborted s' = true)
}.

Lemma entries_cycle c c' : cycle c c' -> entries c' = entries c.
Proof. intros []. unfold entries, is_sab. by rewrite cy_variant, cy_depth, cy_active. Qed.

Lemma advance_aborted s : execution_aborted s = true -> advance_machine_cycle s = Done () s.
Proof. intros Ha. unfold advance_machine_cycle, bind, em8051_execution_aborted. by rewrite Ha. Qed.

Lemma cycle_abort_hook c c' : cycle c c' -> abort_hook c' = abort_hook c.
Proof. intros []. unfold abort_hook, execution_abort, execution_abort_user. by rewrite cy_hooks. Qed.

(** A machine cycle at the end of a tick that made [b] of it. *)
Lemma ok_advance_end s1 (b : bool) (Q : bool -> machine W -> Prop) :
  wf (cpu s1) ->
  (forall s', cycle (cpu s1) (cpu s') -> clock (cpu s1) (cpu s') ->
    (execution_aborted s1 = true -> s' = s1) -> Q b s') ->
  ok whole (cpu s1) (advance_machine_cycle ;; mret b) Q s1.
Proof.
  intros Hw HQ. destruct (ok_advance s1 Hw) as ([] & s' & E & Hw' & Hc & Hk).
  eapply ok_exec; [exact E|]. apply ok_ret; [done..|]. apply HQ; [done..|].
  intros Ha. rewrite (advance_aborted _ Ha) in E. by injection E.
Qed.

Lemma wf_update_parity c : wf c -> wf (update_parity c).
Proof. intros. unfold update_parity. eauto with emu. Qed.

(** The tick of a pending cycle. *)
Lemma ok_tick_delay s :
  wf (cpu s) -> mTickDelay (cpu s) <> 0 ->
  ok whole (cpu s) (modify (set_mTickDelay (mTickDelay (cpu s) - 1)) ;;
    advance_machine_cycle ;; mret false) (ticked s) s.
Proof.
  intros Hw Hd. eapply ok_exec; [reflexivity|]. apply ok_trans; [tc_solve|done|].
  pose proof (wf_delay _ (wf_cpu_exec _ Hw)) as Hb. unfold byte in Hb.
  apply ok_advance_end; [cbn [cpu]; eauto with emu|]. cbn [cpu]. intros s' Hc [Hk Hn] _.
  assert (entries (cpu s') = entries (cpu s)) as He by (rewrite (entries_cycle _ _ Hc); reflexivity).
  constructor; try lia; try (apply Hc); auto.
  - by rewrite (cy_except _ _ Hc).
  - intros _ _. split_and!; [done| |done]. rewrite (cy_delay _ _ Hc). apply u8_id. unfold byte. lia.
Qed.

Lemma ticked_intro (s : machine W) c1 (b : bool) (s' : machine W) :
  mTickDelay (cpu s) = 0 -> clocked (cpu s) c1 ->
  mInstructionCount c1 =
    (if b then u64 (mInstructionCount (cpu s) + 1) else mInstructionCount (cpu s)) ->
  cycle c1 (cpu s') -> clock c1 (cpu s') ->
  (b = false -> has (sfr (cpu s) REG_PCON) 3 = false ->
   entries (cpu s') < entries (cpu s) \/ mExceptionRaised (cpu s') = true \/
   (abort_from_world -> refusals_abort (abort_hook (cpu s')) -> execution_aborted s' = true)) ->
  ticked s b s'.
Proof.
  intros Hd [] Hi [] [Hk Hn] Hprog.
  constructor; try congruence; rewrite <- ?ck_ccount0; try done; auto. rewrite cy_except. auto.
Qed.

Lemma clocked_parity c0 c : clocked c0 c -> clocked c0 (update_parity c).
Proof. intros []. by constructor. Qed.

(** The opcode of a tick, its parity and its machine cycle. *)
Lemma ok_tick_opcode s s1 :
  wf (cpu s1) -> mTickDelay (cpu s) = 0 -> clocked (cpu s) (cpu s1) ->
  mInstructionCount (cpu s1) = mInstructionCount (cpu s) ->
  ok whole (cpu s1)
    (executed ← execute_opcode;
     if executed then modify update_parity ;; advance_machine_cycle ;; mret true
     else mret false) (ticked s) s1.
Proof.
  intros Hw1 Hd H1 Hi1. destruct (ok_execute s1 Hw1) as (b & s2 & E2 & Hw2 & H2 & Hi & Hna & Hab).
  rewrite Hi1 in Hi. assert (clocked (cpu s) (cpu s2)) as H02 by by etransitivity.
  eapply ok_exec; [exact E2|]. destruct b.
  - eapply ok_exec; [reflexivity|]. apply ok_trans; [tc_solve|done|].
    apply ok_advance_end; [by apply wf_update_parity|]. intros s' Hc Hk _.
    eapply ticked_intro; [done|by apply clocked_parity|exact Hi|done|done|done].
  - apply ok_ret; [done..|]. destruct H02. constructor; try congruence; auto.
    intros Hn. by destruct Hna.
Qed.

(** From here on the delay is zero and the CPU is not powered down. *)
Lemma ok_tick_running s :
  wf (cpu s) -> mTickDelay (cpu s) = 0 -> has (sfr (cpu s) REG_PCON) 2 = false ->
  ok whole (cpu s)
    (handled ← handle_interrupts;
     if negb handled then advance_machine_cycle ;; mret false else
     b ← em8051_execution_aborted;
     if b then mret false else
     c ← get_cpu;
     if mTickDelay c =? 0 then
       if has (sfr c REG_PCON) 0x01 then
         modify update_parity ;; advance_machine_cycle ;; mret false
       else
         executed ← execute_opcode;
         if executed then modify update_parity ;; advance_machine_cycle ;; mret true
         else mret false
     else advance_machine_cycle ;; mret false) (ticked s) s.
Proof.
  intros Hw Hd Hpd. destruct (ok_handle s Hw) as (h & s1 & E1 & Hw1 & H1 & Hh).
  pose proof (step_clocked _ _ H1) as Hck. pose proof (st_icount _ _ H1) as Hi1.
  eapply ok_exec; [exact E1|]. destruct h; cbn [negb].
  2: { apply ok_trans; [tc_solve|done|]. apply ok_advance_end; [done|]. intros s' Hc Hk Hab.
    eapply ticked_intro; [done..|]. intros _ _. right.
    destruct Hh as [[? _]|[[? _]|[_ [Hx|Hx]]]]; [done..|left; by rewrite (cy_except _ _ Hc)|right].
    intros _ Href. rewrite (cycle_abort_hook _ _ Hc) in Href. by rewrite (Hab (Hx Href)), Hx. }
  apply ok_aborted_eq. intros b Hb. destruct b.
  { apply ok_ret; [done..|]. destruct H1. constructor; try congruence; auto.
    intros Hn. by rewrite never_aborted in Hb. }
  ok_step. apply ok_trans; [tc_solve|done|].
  destruct Hh as [[_ Hp]|[(_ & Hd1 & He)|[? _]]]; [| |done].
  2: { rewrite Hd1. cbn [Z.eqb]. apply ok_advance_end; [done|].
    intros s' Hc Hk _. eapply ticked_intro; [done..|]. left. by rewrite (entries_cycle _ _ Hc). }
  rewrite (cy_delay _ _ (pf_cycle _ _ Hp)), Hd. cbn [Z.eqb].
  assert (sfr (cpu s1) REG_PCON = sfr (cpu s) REG_PCON) as ->
    by (apply (cy_core _ _ (pf_cycle _ _ Hp)); set_solver).
  destruct (has (sfr (cpu s) REG_PCON) 1) eqn:Eidle; [|by apply ok_tick_opcode].
  eapply ok_exec; [reflexivity|]. apply ok_trans; [tc_solve|done|].
  apply ok_advance_end; [by apply wf_update_parity|]. intros s' Hc Hk _.
  eapply ticked_intro; [done|by apply clocked_parity|exact Hi1|done|done|].
  intros _ H3. by rewrite (has_submask _ 3 1) in Eidle.
Qed.

Lemma ok_tick s : wf (cpu s) -> ok whole (cpu s) tick (ticked s) s.
Proof.
  intros Hw. unfold tick. apply ok_aborted_eq. intros b Hb. destruct b.
  { apply ok_ret; [done..|]. constructor; try done; auto; try congruence.
    intros Hn. by rewrite never_aborted in Hb. }
  ok_step. destruct (Z.eqb_spec (mTickDelay (cpu s)) 0) as [Hd|Hd]; cbn [negb].
  2: { by apply ok_tick_delay. }
  destruct (has (sfr (cpu s) REG_PCON) 2) eqn:Hpd; [|by apply ok_tick_running].
  apply ok_ret; [done..|]. constructor; try done; auto.
  - intros _ [?|?]; congruence.
  - intros _ _ _ H3. by rewrite (has_submask _ 3 2) in Hpd.
Qed.

End CpuSafe.
