(* ===== verification/Hooks.v ===== *)
(** The execution loop never replaces the installed abort predicate: only the
    setters of Reset do, and an embedder's callbacks if they choose to. *)
From S2P Require Import Prelude State Machine Ports Uart Adc Irq Sfr Memory Opcodes Dispatch.
From S2P Require Import Wf Logic Timers Interrupts Cpu CpuSafe.

Create HintDb keeps discriminated.
#[global] Hint Constants Opaque : keeps.

Section Hooks.
Context {W : Type} {HostW : Host W}.

(** The callbacks that receive the CPU leave the predicate installed. *)
Record callbacks_keep_abort : Prop := {
  ka_except : forall p code s, abort_hook (cpu (call_except (W := W) p code s)) = abort_hook (cpu s);
  ka_sfrread : forall p a s, abort_hook (cpu (snd (call_sfrread (W := W) p a s))) = abort_hook (cpu s);
  ka_sfrwrite : forall p a s, abort_hook (cpu (call_sfrwrite (W := W) p a s)) = abort_hook (cpu s);
  ka_xread : forall p a s, abort_hook (cpu (snd (call_xread (W := W) p a s))) = abort_hook (cpu s);
  ka_xwrite : forall p a v s, abort_hook (cpu (call_xwrite (W := W) p a v s)) = abort_hook (cpu s)
}.

(** Whatever [m] returns, it leaves the installed predicate alone. *)
Definition keeps {A} (m : M W A) : Prop :=
  forall s a s', m s = Done a s' -> abort_hook (cpu s') = abort_hook (cpu s).

Lemma keeps_bind {A B} (m : M W A) (k : A -> M W B) :
  keeps m -> (forall a, keeps (k a)) -> keeps (bind m k).
Proof.
  intros Hm Hk s b s' E. unfold bind in E. destruct (m s) as [a s1| |] eqn:E1; try done.
  rewrite (Hk a s1 b s' E). by eapply Hm.
Qed.
Lemma keeps_ret {A} (a : A) : keeps (mret a).
Proof. by intros s a' s' [= _ <-]. Qed.
Lemma keeps_get : keeps get_cpu.
Proof. by intros s a' s' [= _ <-]. Qed.
Lemma keeps_gets {A} (f : em8051 -> A) : keeps (gets f).
Proof. by intros s a' s' [= _ <-]. Qed.
Lemma keeps_aborted : keeps em8051_execution_aborted.
Proof. by intros s a' s' [= _ <-]. Qed.
Lemma keeps_undef {A} : keeps (undef (A := A)).
Proof. by intros s a' s' E. Qed.
Lemma keeps_nofuel {A} : keeps (A := A) (fun _ => NoFuel).
Proof. by intros s a' s' E. Qed.
Lemma keeps_in_range {A} (o : option A) : keeps (in_range o).
Proof. destruct o; [apply keeps_ret|apply keeps_undef]. Qed.
Lemma keeps_observe f : keeps (observe f).
Proof. by intros s a' s' [= _ <-]. Qed.
Lemma keeps_modify f : (forall c, abort_hook (f c) = abort_hook c) -> keeps (modify f).
Proof. intros Hf s a' s' [= _ <-]. apply Hf. Qed.
Lemma keeps_callback f : (forall s, abort_hook (cpu (f s)) = abort_hook (cpu s)) -> keeps (callback f).
Proof. intros Hf s a' s' [= _ <-]. apply Hf. Qed.
Lemma keeps_callback8 f :
  (forall s, abort_hook (cpu (snd (f s))) = abort_hook (cpu s)) -> keeps (callback8 f).
Proof. intros Hf s a' s' E. unfold callback8 in E. specialize (Hf s). destruct (f s). by injection E as _ <-. Qed.
Lemma keeps_for_each {A} (l : list A) f : (forall x, keeps (f x)) -> keeps (for_each l f).
Proof. intros Hf. induction l; [apply keeps_ret|]. apply keeps_bind; [apply Hf|done]. Qed.
Lemma keeps_raw kind cy a b c d : keeps (emu_cpu_raw kind cy a b c d).
Proof.
  intros s r s' E. unfold emu_cpu_raw in E. destruct (_ =? 0); [by injection E as _ <-|].
  destruct (call_raw _ _ _ _ _ _ _ _). by injection E as _ <-.
Qed.
Hint Resolve keeps_ret keeps_get keeps_gets keeps_aborted keeps_undef keeps_nofuel keeps_in_range
  keeps_observe keeps_raw : keeps.

(** The pure updates that branch. *)
Lemma hook_sfr i v c : abort_hook (set_sfr i v c) = abort_hook c.
Proof. done. Qed.
Lemma hook_adc_request c : abort_hook (sab_adc_request_start c) = abort_hook c.
Proof. unfold sab_adc_request_start. by repeat case_if. Qed.
Lemma hook_adc_busy b c : abort_hook (sab_adc_set_busy b c) = abort_hook c.
Proof. by destruct b. Qed.
Lemma hook_adc_finish c : abort_hook (sab_adc_finish_sfr_transaction c) = abort_hook c.
Proof.
  unfold sab_adc_finish_sfr_transaction. destruct (negb (is_sab c)); [done|]. cbv zeta.
  set (c1 := if negb _ then _ else c). assert (abort_hook c1 = abort_hook c) as <-
    by (subst c1; by case_if).
  rewrite <- (hook_adc_busy (mSABADCBusy c1) c1). by case_if.
Qed.
Lemma hook_adc_latch c : abort_hook (sab_adc_latch c) = abort_hook c.
Proof. done. Qed.
Lemma hook_auto_clear i c : abort_hook (sab_irq_auto_clear i c) = abort_hook c.
Proof. unfold sab_irq_auto_clear. cbv zeta. by repeat case_if. Qed.
Lemma hook_classic_enter dest hi c : abort_hook (classic_enter dest hi c) = abort_hook c.
Proof. unfold classic_enter. cbv zeta. destruct hi; by repeat case_if. Qed.
Hint Resolve hook_sfr hook_adc_request hook_adc_finish hook_adc_busy hook_adc_latch hook_auto_clear
  hook_classic_enter : keeps.

End Hooks.

#[export] Hint Resolve keeps_ret keeps_get keeps_gets keeps_aborted keeps_undef keeps_nofuel
  keeps_in_range keeps_observe keeps_raw hook_adc_request hook_adc_finish hook_adc_busy
  hook_adc_latch hook_auto_clear hook_classic_enter : keeps.

(** The head symbol of an application. *)
Ltac head_of t := lazymatch t with ?f _ => head_of f | _ => t end.

(** Proves [keeps m] by following the text of [m]. *)
Ltac keeps_step :=
  lazymatch goal with
  | |- forall _, _ => intros
  | |- abort_hook _ = abort_hook _ =>
      first [reflexivity | solve [auto with keeps] | progress cbv beta zeta; case_if]
  | |- keeps (let _ := _ in _) => cbv zeta
  | |- keeps (bind _ _) => apply keeps_bind
  | |- keeps (when ?b _) => unfold when
  | |- keeps (modify _) => apply keeps_modify
  | |- keeps (for_each _ _) => apply keeps_for_each
  | |- keeps (if ?b then _ else _) => destruct b
  | |- keeps (match ?x with _ => _ end) => destruct x
  | |- keeps ?m => first [solve [auto with keeps] | let h := head_of m in unfold h]
  end.
Ltac keeps_auto := repeat keeps_step.

Section Keeps.
Context {W : Type} {HostW : Host W} (Hcb : callbacks_keep_abort (W := W)).

(** A callback that gets the CPU. *)
Lemma keeps_except p code : keeps (callback (call_except (W := W) p code)).
Proof. apply keeps_callback, Hcb. Qed.
Lemma keeps_sfrread p a : keeps (callback8 (call_sfrread (W := W) p a)).
Proof. apply keeps_callback8, Hcb. Qed.
Lemma keeps_sfrwrite p a : keeps (callback (call_sfrwrite (W := W) p a)).
Proof. apply keeps_callback, Hcb. Qed.
Lemma keeps_xread p a : keeps (callback8 (call_xread (W := W) p a)).
Proof. apply keeps_callback8, Hcb. Qed.
Lemma keeps_xwrite p a v : keeps (callback (call_xwrite (W := W) p a v)).
Proof. apply keeps_callback, (ka_xwrite Hcb). Qed.
Hint Resolve keeps_except keeps_sfrread keeps_sfrwrite keeps_xread keeps_xwrite : keeps.

(** ** Peripherals *)

Lemma keeps_irq_write i v cy : keeps (W := W) (emu_cpu_irq_write i v cy).
Proof. keeps_auto. Qed.
Lemma keeps_raise code : keeps (W := W) (em8051_raise_exception code).
Proof. keeps_auto. Qed.
Lemma keeps_irq_sync : keeps (W := W) sab_irq_sync.
Proof. keeps_auto. Qed.
Lemma keeps_irq_trace e source p b w : keeps (W := W) (sab_irq_trace_emit e source p b w).
Proof. keeps_auto. Qed.
Lemma keeps_maintain : keeps (W := W) sab_external_maintain_level_requests.
Proof. keeps_auto. Qed.
Hint Resolve keeps_irq_write keeps_raise keeps_irq_sync keeps_irq_trace keeps_maintain : keeps.

Lemma keeps_sample_port p : keeps (W := W) (sab_external_sample_port p).
Proof. keeps_auto. Qed.
Hint Resolve keeps_sample_port : keeps.

Lemma keeps_apply_event e : keeps (W := W) (sab_external_apply_event e).
Proof. keeps_auto. Qed.
Hint Resolve keeps_apply_event : keeps.

Lemma keeps_apply_loop fuel : keeps (W := W) (apply_scheduled_loop fuel).
Proof. induction fuel; cbn [apply_scheduled_loop]; keeps_auto. Qed.
Hint Resolve keeps_apply_loop : keeps.

Lemma keeps_uart_overflow : keeps (W := W) sab_uart_timer1_overflow.
Proof. keeps_auto. Qed.
Hint Resolve keeps_uart_overflow : keeps.

Lemma keeps_advance : keeps (W := W) advance_machine_cycle.
Proof. keeps_auto. Qed.
Hint Resolve keeps_advance : keeps.

(** ** Instructions *)

Lemma keeps_load p i : keeps (W := W) (load p i).
Proof. keeps_auto. Qed.
Lemma keeps_store p i v : keeps (W := W) (store p i v).
Proof. keeps_auto. Qed.
Lemma keeps_sfr_read a : keeps (W := W) (em8051_sfr_read a).
Proof. keeps_auto. Qed.
Lemma keeps_sfr_write a v : keeps (W := W) (em8051_sfr_write a v).
Proof. keeps_auto. Qed.
Hint Resolve keeps_load keeps_store keeps_sfr_read keeps_sfr_write : keeps.

Lemma keeps_OPCODE : keeps (W := W) OPCODE.
Proof. keeps_auto. Qed.
Lemma keeps_operand n : keeps (W := W) (emu_cpu_operand n).
Proof. keeps_auto. Qed.
Lemma keeps_push v : keeps (W := W) (push_to_stack v).
Proof. keeps_auto. Qed.
Lemma keeps_pop : keeps (W := W) pop_from_stack.
Proof. keeps_auto. Qed.
Hint Resolve keeps_OPCODE keeps_operand keeps_push keeps_pop : keeps.

Lemma keeps_call_handler h : keeps (W := W) (call_handler h).
Proof. destruct h; cbn [call_handler]; keeps_auto. Qed.
Hint Resolve keeps_call_handler : keeps.

(** ** The tick and its loops *)

Lemma keeps_handle : keeps (W := W) handle_interrupts.
Proof. keeps_auto. Qed.
Lemma keeps_execute : keeps (W := W) execute_opcode.
Proof. keeps_auto. Qed.
Hint Resolve keeps_handle keeps_execute : keeps.

Lemma keeps_tick : keeps (W := W) tick.
Proof. keeps_auto. Qed.
Hint Resolve keeps_tick : keeps.

Lemma keeps_drain fuel : keeps (W := W) (drain_delay fuel).
Proof. induction fuel; cbn [drain_delay]; keeps_auto. Qed.

End Keeps.
