(* ===== verification/Run.v ===== *)
(** Bounded run control terminates: draining the pending cycles, the run loop,
    and the result it reports. *)
From S2P Require Import Prelude State Machine Ports Irq Dispatch Wf Logic Timers Interrupts Cpu CpuSafe Hooks.

Lemma u64_count i start :
  word64 i -> u64 (i - start) + 1 < 18446744073709551616 ->
  u64 (u64 (i + 1) - start) = u64 (i - start) + 1.
Proof.
  intros Hi Hlt. unfold u64 in *. rewrite Zminus_mod_idemp_l.
  replace (i + 1 - start) with ((i - start) + 1) by lia.
  rewrite <- Zplus_mod_idemp_l. apply Z.mod_small. pose proof (Z.mod_pos_bound (i - start) 18446744073709551616).
  lia.
Qed.

(** One of the two power-saving bits. *)
Lemma has_idle_or_down v : has v 3 = Z.testbit v 0 || Z.testbit v 1.
Proof.
  unfold has. change 3 with (Z.ones 2). rewrite Z.land_ones by lia.
  rewrite Z.bit0_odd, (Z.testbit_odd v 1), Z.shiftr_div_pow2 by lia.
  change (2 ^ 2) with 4. change (2 ^ 1) with 2.
  pose proof (Zmod_odd v). pose proof (Zmod_odd (v / 2)).
  destruct (Z.odd v), (Z.odd (v / 2)); cbn [orb]; Z.to_euclidean_division_equations; lia.
Qed.

(** The order in which reasons are reported when several hold. *)
Definition stop_rank (reason : stop_reason) : Z :=
  match reason with
  | EM8051_STOP_ABORTED => 0
  | EM8051_STOP_EXCEPTION => 1
  | EM8051_STOP_TARGET_PC => 2
  | EM8051_STOP_BREAKPOINT => 3
  | EM8051_STOP_HALT => 4
  | EM8051_STOP_INSTRUCTION_LIMIT => 5
  end.

Section Run.
Context {W : Type} {HostW : Host W} {HostOkW : HostOk W}.

(** What draining keeps: no instruction runs and no vector is entered. *)
Record drained (s s' : machine W) : Prop := {
  dr_done : mTickDelay (cpu s') = 0 \/ execution_aborted s' = true;
  dr_icount : mInstructionCount (cpu s') = mInstructionCount (cpu s);
  dr_entries : entries (cpu s') = entries (cpu s);
  dr_except : mExceptionRaised (cpu s) = true -> mExceptionRaised (cpu s') = true;
  dr_aborted : execution_aborted s = true -> s' = s
}.

Lemma ok_drain fuel s :
  wf (cpu s) -> mTickDelay (cpu s) < Z.of_nat fuel ->
  ok whole (cpu s) (drain_delay fuel) (fun _ => drained s) s.
Proof.
  revert s. induction fuel as [|fuel IH]; intros s Hw Hf.
  { pose proof (wf_delay _ (wf_cpu_exec _ Hw)) as Hb. unfold byte in Hb. lia. }
  cbn [drain_delay]. apply ok_get, ok_aborted_eq. intros b Hb.
  destruct (negb (mTickDelay (cpu s) =? 0) && negb b) eqn:Ec.
  - assert (mTickDelay (cpu s) <> 0) as Hd by lia. assert (b = false) as -> by (destruct b; lia).
    destruct (ok_tick s Hw) as (t & s1 & E1 & Hw1 & _ & []).
    destruct (tk_drain Hd Hb) as (-> & Hd1 & He1).
    eapply ok_exec; [exact E1|]. apply ok_trans; [tc_solve|done|].
    eapply ok_weaken; [apply IH; [done|lia]|]. intros _ s2 _ _ []. constructor; try congruence; auto.
  - apply ok_ret; [done..|]. constructor; try done. destruct b; [by right|left]. lia.
Qed.

Context (aHasTarget : bool) (aTargetPC aMaxInstructions start : Z).
Context (Hmax : 0 <= aMaxInstructions < 18446744073709551616).
Context (hook : ptr * ptr) (Hkeep : callbacks_keep_abort (W := W)).
Context (Href : refusals_abort (W := W) hook) (Habort : abort_from_world (W := W)).

(** What each reason says of the state the run stops in. *)
Definition stop_condition (reason : stop_reason) (s' : machine W) : Prop :=
  match reason with
  | EM8051_STOP_ABORTED => execution_aborted s' = true
  | EM8051_STOP_EXCEPTION => mExceptionRaised (cpu s') = true
  | EM8051_STOP_TARGET_PC => aHasTarget = true /\ mPC (cpu s') = aTargetPC
  | EM8051_STOP_BREAKPOINT => mBreakpointEnabled (cpu s') = true /\ mPC (cpu s') = mBreakpoint (cpu s')
  | EM8051_STOP_HALT =>
      Z.testbit (sfr (cpu s') REG_PCON) 0 = true \/ Z.testbit (sfr (cpu s') REG_PCON) 1 = true
  | EM8051_STOP_INSTRUCTION_LIMIT => aMaxInstructions <= u64 (mInstructionCount (cpu s') - start)
  end.

(** A justified reason: its condition holds, and no condition before it does. *)
Definition justified (reason : stop_reason) (s' : machine W) : Prop :=
  stop_condition reason s' /\
  forall other, stop_rank other < stop_rank reason -> ~ stop_condition other s'.

Lemma run_stop_justified reason s' :
  run_stop (cpu s') (execution_aborted s') aHasTarget aTargetPC aMaxInstructions start = Some reason ->
  justified reason s'.
Proof.
  unfold run_stop, justified. rewrite has_idle_or_down. intros H.
  repeat case_match; simplify_eq; (split; [cbn [stop_condition]; lia|]);
    intros [] Hr; cbn [stop_rank stop_condition] in *; lia.
Qed.

(** The loop's result: the reason is justified in the final state, the budget was
    not exceeded, and no machine cycle is pending. *)
Definition stopped (reason : stop_reason) (s' : machine W) : Prop :=
  justified reason s' /\
  u64 (mInstructionCount (cpu s') - start) <= aMaxInstructions /\
  (mTickDelay (cpu s') = 0 \/ reason = EM8051_STOP_ABORTED).

(** Fuel enough to finish from [s]. An iteration of the loop drains the pending
    cycles and then starts one instruction or enters one vector; every instruction
    can be preceded by at most four vector entries. *)
Definition enough (fuel : nat) (s : machine W) : Prop :=
  0 < Z.of_nat fuel /\
  (mExceptionRaised (cpu s) = true \/ execution_aborted s = true \/
   5 * (aMaxInstructions - u64 (mInstructionCount (cpu s) - start)) + entries (cpu s) + 2
     <= Z.of_nat fuel).

Lemma run_stop_None c b :
  run_stop c b aHasTarget aTargetPC aMaxInstructions start = None ->
  b = false /\ mExceptionRaised c = false /\ has (sfr c REG_PCON) 3 = false /\
  u64 (mInstructionCount c - start) < aMaxInstructions.
Proof.
  unfold run_stop. intros H. destruct b; [done|]. destruct (mExceptionRaised c); [done|].
  destruct (aHasTarget && _); [done|]. destruct (_ && _); [done|].
  destruct (has _ 3); [done|]. destruct (Z.leb_spec aMaxInstructions (u64 (mInstructionCount c - start)));
  [done|]. done.
Qed.

Lemma run_stop_aborted c r :
  run_stop c true aHasTarget aTargetPC aMaxInstructions start = Some r -> r = EM8051_STOP_ABORTED.
Proof. intros [= <-]. done. Qed.

Lemma ok_run_loop fuel s :
  wf (cpu s) -> u64 (mInstructionCount (cpu s) - start) <= aMaxInstructions -> abort_hook (cpu s) = hook ->
  enough fuel s ->
  ok whole (cpu s) (run_loop fuel aHasTarget aTargetPC aMaxInstructions start) stopped s.
Proof.
  revert s. induction fuel as [|fuel IH]; intros s Hw Hle Hh [Hpos Hf]; [lia|]. cbn [run_loop].
  destruct (ok_drain 256 s Hw) as ([] & s1 & E1 & Hw1 & _ & [Ddone Dicount Dentries Dexcept Daborted]).
  { pose proof (wf_delay _ (wf_cpu_exec _ Hw)) as Hb. unfold byte in Hb. lia. }
  pose proof (keeps_drain Hkeep 256 _ _ _ E1) as Hh1.
  eapply ok_exec; [exact E1|]. apply ok_aborted_eq. intros b Hb. ok_step.
  destruct (run_stop _ _ _ _ _ _) as [r|] eqn:Er.
  - apply ok_ret; [done..|]. split_and!; [apply run_stop_justified; by rewrite Hb|by rewrite Dicount|].
    destruct Ddone as [|Ha]; [by left|right]. rewrite Ha in Hb. subst b. by eapply run_stop_aborted.
  - apply run_stop_None in Er as (-> & Hne & Hpc & Hlt).
    assert (mTickDelay (cpu s1) = 0) as Hd by (destruct Ddone; congruence).
    destruct (ok_tick s1 Hw1) as (t & s2 & E2 & Hw2 & _ & []).
    pose proof (keeps_tick Hkeep _ _ _ E2) as Hh2. assert (abort_hook (cpu s2) = hook) as Hh' by congruence.
    pose proof (entries_range _ Hw2). pose proof (wf_icount _ (wf_cpu_exec _ Hw1)) as Hic.
    assert (5 * (aMaxInstructions - u64 (mInstructionCount (cpu s1) - start)) + entries (cpu s1) + 2
      <= Z.of_nat (S fuel)) as Hf1.
    { rewrite Dicount, Dentries. destruct Hf as [Hx|[Hx|Hx]]; [| |done].
      - rewrite Dexcept in Hne; done.
      - rewrite (Daborted Hx) in Hb. congruence. }
    pose proof (entries_range _ Hw1).
    eapply ok_exec; [exact E2|]. apply ok_trans; [tc_solve|done|]. destruct t.
    + assert (u64 (mInstructionCount (cpu s2) - start) = u64 (mInstructionCount (cpu s1) - start) + 1) as Hn
        by (rewrite tk_icount; apply u64_count; [done|lia]).
      apply IH; [done|lia|done|]. split; [lia|]. right; right. lia.
    + apply IH; [done|rewrite tk_icount; lia|done|]. split; [lia|].
      destruct (tk_progress eq_refl Hd Hb Hpc) as [He|[Hx|Hx]]; auto.
      * right; right. rewrite tk_icount. lia.
      * right; left. apply Hx; [done|by rewrite Hh'].
Qed.

End Run.
