(* ===== verification/Reset.v ===== *)
(** Variants, observer installation, and reset (src/core.c). *)
From S2P Require Import Prelude State Machine Ports Uart Adc Irq Sfr Memory Opcodes Dispatch.

(** [struct em8051_variant_descriptor], without the display name. *)
Record variant_descriptor := {
  vd_variant : Z; vd_default_oscillator_hz : Z; vd_has_upper_iram : bool;
  vd_interrupt_enable0_sfr : Z; vd_interrupt_priority0_sfr : Z;
  vd_interrupt_enable1_sfr : Z; vd_interrupt_priority1_sfr : Z }.

Definition EM8051_CLASSIC_SFR_IE : Z := 0xA8.
Definition EM8051_CLASSIC_SFR_IP : Z := 0xB8.

Definition gVariants : list variant_descriptor :=
  [ {| vd_variant := EM8051_VARIANT_8051; vd_default_oscillator_hz := 12000000;
       vd_has_upper_iram := false; vd_interrupt_enable0_sfr := EM8051_CLASSIC_SFR_IE;
       vd_interrupt_priority0_sfr := EM8051_CLASSIC_SFR_IP;
       vd_interrupt_enable1_sfr := EM8051_SFR_UNAVAILABLE;
       vd_interrupt_priority1_sfr := EM8051_SFR_UNAVAILABLE |};
    {| vd_variant := EM8051_VARIANT_8052; vd_default_oscillator_hz := 12000000;
       vd_has_upper_iram := true; vd_interrupt_enable0_sfr := EM8051_CLASSIC_SFR_IE;
       vd_interrupt_priority0_sfr := EM8051_CLASSIC_SFR_IP;
       vd_interrupt_enable1_sfr := EM8051_SFR_UNAVAILABLE;
       vd_interrupt_priority1_sfr := EM8051_SFR_UNAVAILABLE |};
    {| vd_variant := EM8051_VARIANT_SAB80535; vd_default_oscillator_hz := 11059200;
       vd_has_upper_iram := true; vd_interrupt_enable0_sfr := EM8051_SAB_SFR_IEN0;
       vd_interrupt_priority0_sfr := EM8051_SAB_SFR_IP0;
       vd_interrupt_enable1_sfr := EM8051_SAB_SFR_IEN1;
       vd_interrupt_priority1_sfr := EM8051_SAB_SFR_IP1 |} ].

Definition em8051_get_variant_descriptor (aVariant : Z) : option variant_descriptor :=
  if (aVariant <? EM8051_VARIANT_8051) || (EM8051_VARIANT_SAB80535 <? aVariant) then None
  else aget gVariants aVariant.

(** The xorshift generator: the new state is also the result. *)
Definition reset_random (aState : Z) : Z :=
  let state := if aState =? 0 then 0x6D2B79F5 else aState in
  let state := Z.lxor state (u32 (Z.shiftl state 13)) in
  let state := Z.lxor state (Z.shiftr state 17) in
  Z.lxor state (u32 (Z.shiftl state 5)).

(** [n] pseudo-random bytes, and the generator state after them. *)
Fixpoint random_bytes (n : nat) (state : Z) : list Z * Z :=
  match n with
  | O => ([], state)
  | S n =>
    let state := reset_random state in
    let '(l, state') := random_bytes n state in
    (u8 state :: l, state')
  end.

(** The embedded array mOwnedUpperData. *)
Definition OWNED_UPPER : nat := 0.

Definition zeros (n : Z) : list Z := replicate (Z.to_nat n) 0.
Definition zero_event : schedule_event :=
  {| se_machine_cycle := 0; se_source := 0; se_action := 0; se_level := false |}.

(** SFRs after [memset] and the assignments of boot values. *)
Definition reset_sfr (aWipe : bool) (c : em8051) : em8051 :=
  let c := set_mSFR (zeros 128) c in
  let c := set_sfr REG_SP 7 c in
  let c := set_sfr REG_P0 0xff c in
  let c := set_sfr REG_P1 0xff c in
  let c := set_sfr REG_P2 0xff c in
  let c := set_sfr REG_P3 0xff c in
  let c := if is_sab c then
             set_sfr (EM8051_SAB_SFR_P6 - 0x80) 0xff
               (set_sfr (EM8051_SAB_SFR_P5 - 0x80) 0xff
                 (set_sfr (EM8051_SAB_SFR_P4 - 0x80) 0xff c))
           else c in
  if aWipe then set_sfr REG_PCON (Z.lor (sfr c REG_PCON) (Z.shiftl 1 4)) c else c.

Definition reset_ports (c : em8051) : em8051 :=
  set_ports (mk_ports (zeros 4) (zeros 4)
    (u8 (Z.shiftl 1 EM8051_SAB_EXTERNAL_SOURCE_COUNT - 1)) 0
    (replicate (Z.to_nat EM8051_SAB_EXTERNAL_SCHEDULE_CAPACITY) zero_event) 0 0) c.

Definition reset_adc (c : em8051) : em8051 :=
  set_adc (mk_adc (zeros 8) 0 0 0 0 0 false false false false false false false) c.

(** The saved classic registers int_a, int_psw and int_sp are not cleared. *)
Definition reset_irq (c : em8051) : em8051 :=
  set_irq (mk_irq 0 (int_a c) (int_psw c) (int_sp c) 0 0 0 0 (zeros 4) (zeros 4) (zeros 4)
    (zeros 4) (zeros 4) 0) c.

(** serial_out and its write index are not cleared. *)
Definition reset_uart (c : em8051) : em8051 :=
  set_uart (mk_uart 0 0 (sfr c REG_SBUF) 0 0 0 0 0 false false false false false false
    (serial_out c) (serial_out_idx c) 0 false) c.

Definition reset_run (c : em8051) : em8051 :=
  let c := set_mTimerOverflowCount (zeros EM8051_TIMER_COUNT) c in
  let c := set_mInstructionCount 0 c in
  let c := set_mMachineCycleCount 0 c in
  let c := set_mExceptionRaised false c in
  let c := set_mLastException (-1) c in
  let c := set_mInInstruction false c in
  set_mBreakpointEnabled false c.

(** Variant fallback, oscillator and upper memory. *)
Definition reset_variant (c : em8051) : em8051 :=
  let c := match em8051_get_variant_descriptor (mVariant c) with
           | Some _ => c
           | None => set_mVariant EM8051_VARIANT_8051 c
           end in
  match em8051_get_variant_descriptor (mVariant c) with
  | None => c
  | Some descriptor =>
    let c := if mOscillatorHz c =? 0
             then set_mOscillatorHz (vd_default_oscillator_hz descriptor) c else c in
    if vd_has_upper_iram descriptor then set_mUpperData (Some OWNED_UPPER) c else c
  end.

Section Reset.
Context {W : Type} {HostW : Host W}.

(** Overwrites the first bytes of the buffer behind a pointer. *)
Definition fill (p : option nat) (bytes : list Z) : M W () :=
  c ← get_cpu;
  match p with
  | None => mret ()
  | Some b =>
    buffer ← in_range (heap c !! b);
    if (length bytes <=? length buffer)%nat
    then modify (set_heap (<[b := bytes ++ drop (length bytes) buffer]> (heap c)))
    else undef
  end.

(** The memory part of a cold reset; the result is the generator state. *)
Definition reset_wipe : M W Z :=
  c ← get_cpu;
  fill (mCodeMem c) (zeros (mCodeMemMaxIdx c + 1)) ;;
  fill (mExtData c) (zeros (mExtDataMaxIdx c + 1)) ;;
  if mResetSeedConfigured c then
    let '(lower, state) := random_bytes 128 (mResetSeed c) in
    modify (set_mLowerData lower) ;;
    match mUpperData c with
    | None => mret state
    | Some _ =>
      let '(upper, state) := random_bytes 128 state in
      fill (mUpperData c) upper ;; mret state
    end
  else
    modify (set_mLowerData (zeros 128)) ;;
    fill (mUpperData c) (zeros 128) ;;
    mret (mResetSeed c).

(** [rand_value] is what rand() returns, used by callers that never configured
    a seed. *)
Definition reset (rand_value : Z) (aWipe : bool) : M W () :=
  modify reset_variant ;;
  c ← get_cpu;
  state ← (if aWipe then reset_wipe else mret (mResetSeed c));
  modify (fun c => set_mTickDelay 0 (set_mPC 0 (reset_adc (reset_ports c)))) ;;
  modify (reset_sfr aWipe) ;;
  when aWipe
    (modify (fun c => set_sfr REG_SBUF
       (if mResetSeedConfigured c then reset_random state else rand_value) c)) ;;
  modify (fun c => reset_run (reset_uart (reset_irq (op_setptrs (disasm_setptrs c))))).

Definition em8051_set_reset_seed (aSeed : Z) : M W () :=
  modify (set_mResetSeed aSeed) ;; modify (set_mResetSeedConfigured true).

(** The result is the C return value. *)
Definition em8051_init_variant (rand_value aVariant : Z) : M W Z :=
  match em8051_get_variant_descriptor aVariant with
  | None => mret (-1)
  | Some descriptor =>
    modify (set_mVariant aVariant) ;;
    modify (set_mOscillatorHz (vd_default_oscillator_hz descriptor)) ;;
    modify (set_mUpperData (if vd_has_upper_iram descriptor then Some OWNED_UPPER else None)) ;;
    em8051_set_reset_seed 0x80535 ;;
    reset rand_value true ;;
    mret 0
  end.

(** ** Installing observers *)

Definition em8051_set_execution_abort (f user : ptr) : M W () :=
  modify (set_execution_abort f) ;; modify (set_execution_abort_user user).
Definition em8051_set_trace (f user : ptr) : M W () :=
  modify (set_trace f) ;; modify (set_trace_user user).
Definition em8051_set_sab_irq_trace (f user : ptr) : M W () :=
  modify (set_sab_irq_trace f) ;; modify (set_sab_irq_trace_user user).
Definition em8051_set_timer_overflow_callback (f user : ptr) : M W () :=
  modify (set_timer_overflow f) ;; modify (set_timer_overflow_user user).
Definition em8051_set_sab_uart_trace (f user : ptr) : M W () :=
  modify (set_sab_uart_trace f) ;; modify (set_sab_uart_trace_user user).
Definition em8051_set_movx_observer (f user : ptr) : M W () :=
  modify (set_movx_observer f) ;; modify (set_movx_observer_user user).
Definition em8051_set_sab_external_trace (f user : ptr) : M W () :=
  modify (set_sab_external_trace f) ;; modify (set_sab_external_trace_user user).
Definition em8051_set_sab_adc_trace (f user : ptr) : M W () :=
  modify (set_sab_adc_trace f) ;; modify (set_sab_adc_trace_user user).

End Reset.
