(* ===== verification/ResetSafe.v ===== *)
(** Reset establishes well-formedness: from any allocated [struct em8051],
    reset runs to completion and leaves a well-formed CPU at address 0. *)
From S2P Require Import Prelude State Machine Ports Uart Adc Irq Sfr Memory Opcodes Dispatch.
From S2P Require Import Wf Logic InstrSafe Reset.

(** ** The handler table does not depend on what it held before *)

(** The handler the last assignment to slot [i] gives it. *)
Fixpoint last_assigned (l : list (Z * handler)) (i : nat) : option handler :=
  match l with
  | [] => None
  | e :: l' =>
    match last_assigned l' i with
    | Some h => Some h
    | None => if decide (Z.to_nat (fst e) = i) then Some (snd e) else None
    end
  end.

Lemma lookup_assigned l t i :
  (i < length t)%nat ->
  foldl assign t l !! i =
  match last_assigned l i with Some h => Some (Some h) | None => t !! i end.
Proof.
  revert t. induction l as [|e l IH]; intros t Hi; [done|]. cbn [foldl last_assigned].
  rewrite IH by (unfold assign; by rewrite length_insert).
  destruct (last_assigned l i); [done|]. unfold assign. case_decide as E.
  - by subst i; rewrite list_lookup_insert_eq.
  - by rewrite list_lookup_insert_ne.
Qed.

Lemma foldl_foldl_assign {A} (f : A -> list (Z * handler)) (l : list A) t :
  foldl (fun t a => foldl assign t (f a)) t l = foldl assign t (concat (map f l)).
Proof.
  revert t. induction l as [|a l IH]; intros t; [done|]. cbn. by rewrite IH, foldl_app.
Qed.

(** The loop of op_setptrs as a flat list of assignments. *)
Definition rx_flat (rows : list (Z * handler)) : list (Z * handler) :=
  concat (map (fun i => map (fun e => (fst e + i, snd e)) rows) (seqZ 0 8)).

Lemma rx_rows_flat rows t : rx_rows rows t = foldl assign t (rx_flat rows).
Proof.
  unfold rx_rows, rx_flat. rewrite <- foldl_foldl_assign. revert t.
  induction (seqZ 0 8) as [|i l IH]; intros t; [done|]. cbn [foldl]. rewrite IH. f_equal.
  clear. revert t. induction rows as [|e rows IH]; intros t; [done|]. cbn [foldl map]. by rewrite IH.
Qed.

Lemma length_foldl_assign l t : length (foldl assign t l) = length t.
Proof.
  revert t. induction l as [|e l IH]; intros t; [done|]. cbn [foldl]. rewrite IH. apply length_insert.
Qed.

(** op_setptrs fills every slot, so any 256-entry table becomes [op_table]. *)
Lemma op_setptrs_table (c : em8051) : length (op c) = 256%nat -> op (op_setptrs c) = op_table.
Proof.
  intros Hl. unfold op_setptrs, op_table. cbn [op set_op cpu_exec set_exec].
  set (t0 := op c) in *. clearbody t0. rewrite !rx_rows_flat, <- !foldl_app.
  set (l := rx_flat op_rx_assignments ++ op_assignments).
  apply list_eq. intros i. destruct (decide (i < 256)%nat) as [Hi|Hi].
  - rewrite !lookup_assigned by (rewrite ?length_replicate; lia).
    assert (is_Some (last_assigned l i)) as [h ->]; [|done].
    assert (forallb (fun i => bool_decide (is_Some (last_assigned l i))) (seq 0 256) = true) as Ha
      by by vm_compute.
    rewrite forallb_forall in Ha. eapply bool_decide_eq_true, Ha, in_seq. lia.
  - rewrite !lookup_ge_None_2; [done|..]; rewrite length_foldl_assign, ?length_replicate; lia.
Qed.

(** ** An allocated CPU *)

(** The struct an embedder hands to reset: its arrays have the declared sizes,
    its pointers are NULL or valid, code memory is present. Nothing is assumed
    of registers, counters or the state of peripherals. *)
Record allocated (c : em8051) : Prop := {
  al_heap : Forall (Forall byte) (heap c);
  al_owned : ptr_ok (heap c) (Some OWNED_UPPER) 128;
  al_code : mCodeMem c <> None;
  al_code_idx : word (mCodeMemMaxIdx c);
  al_code_ptr : ptr_ok (heap c) (mCodeMem c) (mCodeMemMaxIdx c + 1);
  al_ext_idx : word (mExtDataMaxIdx c);
  al_ext_ptr : ptr_ok (heap c) (mExtData c) (mExtDataMaxIdx c + 1);
  al_upper_ptr : ptr_ok (heap c) (mUpperData c) 128;
  al_lower : length (mLowerData c) = 128%nat /\ Forall byte (mLowerData c);
  al_op : length (op c) = 256%nat;
  al_sfrread : length (sfrread c) = 128%nat;
  al_sfrwrite : length (sfrwrite c) = 128%nat;
  al_int : length (int_a c) = 2%nat /\ length (int_psw c) = 2%nat /\ length (int_sp c) = 2%nat;
  al_serial : length (serial_out c) = 18%nat /\ 0 <= serial_out_idx c < 18
}.

Lemma zeros_bytes n : Forall byte (zeros n).
Proof. apply Forall_replicate. by vm_compute. Qed.

Lemma length_zeros n : 0 <= n -> Z.of_nat (length (zeros n)) = n.
Proof. intros. unfold zeros. rewrite length_replicate. lia. Qed.

Lemma random_bytes_ok n state :
  length (fst (random_bytes n state)) = n /\ Forall byte (fst (random_bytes n state)).
Proof.
  revert state. induction n as [|n IH]; intros state; [done|]. cbn [random_bytes].
  specialize (IH (reset_random state)). destruct (random_bytes n (reset_random state)) as [l st].
  destruct IH. cbn in *. split; [lia|]. constructor; [apply u8_byte|done].
Qed.

Lemma random_bytes_app n m state :
  random_bytes (n + m) state =
  let '(l, st) := random_bytes n state in
  let '(l', st') := random_bytes m st in (l ++ l', st').
Proof.
  revert state. induction n as [|n IH]; intros state; cbn [Nat.add random_bytes].
  { by destruct (random_bytes m state). }
  rewrite IH. destruct (random_bytes n (reset_random state)) as [l st].
  by destruct (random_bytes m st) as [l' st'].
Qed.

(** ** Internal memory *)

(** The upper 128 bytes, when the CPU has them, and all of internal RAM. *)
Definition upper_ram (c : em8051) : list Z :=
  match mUpperData c with Some b => take 128 (heap c !!! b) | None => [] end.
Definition internal_ram (c : em8051) : list Z := mLowerData c ++ upper_ram c.
Definition ram_size (c : em8051) : nat := match mUpperData c with Some _ => 256 | None => 128 end.

(** [l], when the CPU has upper memory to hold it. *)
Definition upper_half (c : em8051) (l : list Z) : list Z :=
  match mUpperData c with Some _ => l | None => [] end.

(** The first [n] bytes behind a pointer are zero. *)
Definition cleared (h : list (list Z)) (p : option nat) (n : Z) : Prop :=
  forall b i, p = Some b -> (i < Z.to_nat n)%nat -> (h !!! b) !! i = Some 0.

(** ** The SFR file after reset, as a constant *)

Definition reset_file (wipe sab : bool) : list Z :=
  let set l iv := seti l (fst iv) (u8 (snd iv)) in
  let l := foldl set (zeros 128)
    [(REG_SP, 7); (REG_P0, 0xff); (REG_P1, 0xff); (REG_P2, 0xff); (REG_P3, 0xff)] in
  let l := if sab then foldl set l [(EM8051_SAB_SFR_P4 - 0x80, 0xff);
             (EM8051_SAB_SFR_P5 - 0x80, 0xff); (EM8051_SAB_SFR_P6 - 0x80, 0xff)] else l in
  if wipe then set l (REG_PCON, 0x10) else l.

Lemma reset_sfr_file wipe c : reset_sfr wipe c = set_mSFR (reset_file wipe (is_sab c)) c.
Proof.
  unfold reset_sfr. cbv zeta.
  change (is_sab (set_sfr REG_P3 255 _)) with (is_sab c). by destruct (is_sab c), wipe.
Qed.

(** The registers every reset leaves behind; the power-off flag in PCON, which
    depends on the kind of reset, is treated apart. *)
Definition reset_values (c : em8051) : Prop :=
  mPC c = 0 /\ mTickDelay c = 0 /\ sfr c REG_SP = 7 /\ sfr c REG_ACC = 0 /\ sfr c REG_PSW = 0 /\
  sfr c REG_P0 = 0xff /\ sfr c REG_P1 = 0xff /\ sfr c REG_P2 = 0xff /\ sfr c REG_P3 = 0xff /\
  sfr c REG_IE = 0 /\
  mInstructionCount c = 0 /\ mMachineCycleCount c = 0 /\ mSABIrqDepth c = 0 /\
  mExceptionRaised c = false.

(** The part of reset after the memories, with the value [sbuf] for SBUF. *)
Definition reset_tail (wipe : bool) (sbuf : option Z) (c : em8051) : em8051 :=
  let c := reset_sfr wipe (set_mTickDelay 0 (set_mPC 0 (reset_adc (reset_ports c)))) in
  let c := match sbuf with Some v => set_sfr REG_SBUF v c | None => c end in
  reset_run (reset_uart (reset_irq (op_setptrs (disasm_setptrs c)))).

(** The SFR file after that part. *)
Definition tail_file (wipe sab : bool) (sbuf : option Z) : list Z :=
  match sbuf with
  | Some v => seti (reset_file wipe sab) REG_SBUF (u8 v)
  | None => reset_file wipe sab
  end.

Lemma tail_file_ok wipe sab sbuf :
  length (tail_file wipe sab sbuf) = 128%nat /\ Forall byte (tail_file wipe sab sbuf).
Proof.
  assert (length (reset_file wipe sab) = 128%nat /\ Forall byte (reset_file wipe sab)) as [Hl Hb].
  { destruct wipe, sab; (split; [done|]);
      repeat (first [apply Forall_seti; [|by vm_compute] | apply zeros_bytes]). }
  destruct sbuf; [|done]. cbn [tail_file]. rewrite length_seti. split; [done|].
  apply Forall_seti; [done|apply u8_byte].
Qed.

Lemma reset_tail_eq wipe sbuf c :
  reset_tail wipe sbuf c =
  reset_run (reset_uart (reset_irq (op_setptrs (disasm_setptrs
    (set_mSFR (tail_file wipe (is_sab c) sbuf)
      (set_mTickDelay 0 (set_mPC 0 (reset_adc (reset_ports c))))))))).
Proof. unfold reset_tail. rewrite reset_sfr_file. by destruct sbuf. Qed.

Lemma reset_tail_wf wipe sbuf c : allocated c -> wf (reset_tail wipe sbuf c).
Proof.
  intros Ha. pose proof Ha as []. rewrite reset_tail_eq.
  destruct (tail_file_ok wipe (is_sab c) sbuf) as [Hl Hb].
  assert (byte (geti (tail_file wipe (is_sab c) sbuf) REG_SBUF)) as Hsb
    by (apply Forall_geti; [done|by rewrite Hl]).
  generalize dependent (tail_file wipe (is_sab c) sbuf). intros l Hl Hb Hsb.
  constructor.
  - destruct (al_lower _ Ha). by constructor.
  - constructor; try by vm_compute. apply (op_setptrs_table (disasm_setptrs (set_mSFR l
      (set_mTickDelay 0 (set_mPC 0 (reset_adc (reset_ports c))))))). apply Ha.
  - by constructor.
  - constructor; try done; try apply zeros_bytes; by vm_compute.
  - constructor; by vm_compute.
  - destruct (al_int _ Ha) as (? & ? & ?). constructor; try done; try (by vm_compute); try (cbn; lia).
    intros b Hb0. cbn. rewrite Z.bits_0. split; [done|]. intros (k & ? & _). lia.
  - destruct (al_serial _ Ha). by constructor.
Qed.

Lemma reset_tail_sfr wipe sbuf c i :
  0 <= i -> i <> REG_SBUF ->
  sfr (reset_tail wipe sbuf c) i = geti (reset_file wipe (is_sab c)) i.
Proof.
  intros Hi Hne. rewrite reset_tail_eq.
  change (geti (tail_file wipe (is_sab c) sbuf) i = geti (reset_file wipe (is_sab c)) i).
  destruct sbuf; [|done]. apply geti_seti_ne; [by vm_compute|done|congruence].
Qed.

Lemma reset_tail_values wipe sbuf c : reset_values (reset_tail wipe sbuf c).
Proof.
  unfold reset_values. rewrite !reset_tail_sfr by done.
  rewrite reset_tail_eq. destruct wipe, (is_sab c); done.
Qed.

Lemma reset_tail_pcon wipe sbuf c :
  sfr (reset_tail wipe sbuf c) REG_PCON = if wipe then 0x10 else 0.
Proof. rewrite reset_tail_sfr by done. by destruct wipe, (is_sab c). Qed.

Lemma reset_tail_sbuf wipe v c : sfr (reset_tail wipe (Some v) c) REG_SBUF = u8 v.
Proof. rewrite reset_tail_eq. by destruct wipe, (is_sab c). Qed.

Section ResetSafe.
Context {W : Type}.

(** What a fill does to the heap: every buffer keeps its size, the one behind
    [p] starts with [bytes], the others keep their contents, and a fill with
    zeros clears nothing that was not zero before outside its range. *)
Record filled (p : option nat) (bytes : list Z) (h h' : list (list Z)) : Prop := {
  fl_sizes : forall q n, ptr_ok h q n -> ptr_ok h' q n;
  fl_bytes : forall b, p = Some b -> take (length bytes) (h' !!! b) = bytes;
  fl_other : forall q, p <> Some q -> h' !!! q = h !!! q;
  fl_zeros : Forall (eq 0) bytes -> forall q i, (h !!! q) !! i = Some 0 -> (h' !!! q) !! i = Some 0
}.

Lemma filled_insert b bytes h buf :
  h !! b = Some buf -> (length bytes <= length buf)%nat ->
  filled (Some b) bytes h (<[b := bytes ++ drop (length bytes) buf]> h).
Proof.
  intros Hb Hl. assert (b < length h)%nat as Hlt by by eapply lookup_lt_Some.
  assert (<[b := bytes ++ drop (length bytes) buf]> h !!! b = bytes ++ drop (length bytes) buf) as Eb
    by by apply list_lookup_total_insert_eq.
  constructor.
  - intros q n Hq. eapply ptr_ok_insert; [exact Hb| |done]. rewrite length_app, length_drop. lia.
  - intros ? [= <-]. by rewrite Eb, take_app_length.
  - intros q Hq. apply list_lookup_total_insert_ne. congruence.
  - intros Hz q i Hi. destruct (decide (q = b)) as [->|Hne].
    2: { by rewrite list_lookup_total_insert_ne. }
    rewrite Eb. rewrite (list_lookup_total_correct _ _ _ Hb) in Hi.
    destruct (decide (i < length bytes)%nat) as [Hib|].
    + rewrite lookup_app_l by done. destruct (lookup_lt_is_Some_2 _ _ Hib) as [x Hx].
      rewrite Hx. f_equal. symmetry. by eapply (Forall_lookup_1 (eq 0)).
    + rewrite lookup_app_r, lookup_drop by lia. rewrite <- Hi. f_equal. lia.
Qed.

Lemma filled_cleared p n h h' : filled p (zeros n) h h' -> cleared h' p n.
Proof.
  intros Hf b i -> Hi. pose proof (fl_bytes _ _ _ _ Hf b eq_refl) as E. unfold zeros in E.
  rewrite length_replicate in E. rewrite <- (lookup_take_lt _ (Z.to_nat n)), E by done.
  by apply lookup_replicate_2.
Qed.

Lemma cleared_zeros p q m n h h' : filled p (zeros m) h h' -> cleared h q n -> cleared h' q n.
Proof.
  intros Hf Hc b i Hq Hi. apply (fl_zeros _ _ _ _ Hf); [by apply Forall_replicate|]. by apply Hc.
Qed.

Lemma cleared_other p bytes q n h h' :
  filled p bytes h h' -> p <> q -> cleared h q n -> cleared h' q n.
Proof. intros Hf Hne Hc b i -> Hi. rewrite (fl_other _ _ _ _ Hf) by done. by apply Hc. Qed.

Lemma fill_allocated p bytes (s : machine W) :
  allocated (cpu s) -> Forall byte bytes -> ptr_ok (heap (cpu s)) p (Z.of_nat (length bytes)) ->
  exists h, fill p bytes s = Done () (mk_machine (set_heap h (cpu s)) (world s)) /\
    allocated (set_heap h (cpu s)) /\ filled p bytes (heap (cpu s)) h.
Proof.
  intros Ha Hb Hp. unfold fill. destruct p as [b|].
  2: { exists (heap (cpu s)). split_and!; [done|by destruct Ha|by constructor]. }
  destruct Hp as (buf & Hbuf & Hlen).
  assert (Forall byte buf) as Hbytes by (eapply (Forall_lookup_1 (Forall byte)); [apply Ha|done]).
  unfold bind, get_cpu, in_range. rewrite Hbuf. unfold mret, M_ret.
  destruct (Nat.leb_spec (length bytes) (length buf)) as [Hle|]; [|lia].
  eexists. split; [reflexivity|]. pose proof (filled_insert b bytes _ buf Hbuf Hle) as Hf.
  split; [|done]. pose proof (fl_sizes _ _ _ _ Hf) as Hpo.
  destruct Ha. constructor; cbn -[ptr_ok]; try done; [|by apply Hpo..].
  apply Forall_insert; [done|]. apply Forall_app; split; [done|by apply Forall_drop].
Qed.

(** ** Reset *)

Lemma allocated_variant c : allocated c -> allocated (reset_variant c).
Proof.
  intros Ha. unfold reset_variant.
  set (c1 := match em8051_get_variant_descriptor (mVariant c) with Some _ => c | None => _ end).
  assert (allocated c1) as Ha1 by (subst c1; case_match; [done|by destruct Ha]). clearbody c1.
  case_match; [|done].
  set (c2 := if mOscillatorHz c1 =? 0 then _ else c1).
  assert (allocated c2) as Ha2 by (subst c2; case_if; [by destruct Ha1|done]). clearbody c2.
  case_if; [by destruct Ha2|done].
Qed.

Lemma allocated_lower l c :
  allocated c -> length l = 128%nat -> Forall byte l -> allocated (set_mLowerData l c).
Proof. intros [] ? ?. by constructor. Qed.

(** The memories a cold reset leaves: internal RAM, lower then upper half, holds
    the next bytes of the generator seeded with [seed], or zeros without a seed;
    code and external memory are zero, unless they share upper RAM's buffer. *)
Record wiped (seed : option Z) (state : Z) (c c' : em8051) : Prop := {
  wp_allocated : allocated c';
  wp_variant : mVariant c' = mVariant c;
  wp_pointers : mCodeMem c' = mCodeMem c /\ mExtData c' = mExtData c /\ mUpperData c' = mUpperData c;
  wp_configured : mResetSeedConfigured c' = mResetSeedConfigured c;
  wp_ram : match seed with
           | Some v => random_bytes (ram_size c) v = (internal_ram c', state)
           | None => internal_ram c' = zeros (Z.of_nat (ram_size c))
           end;
  wp_code : mCodeMem c <> mUpperData c -> cleared (heap c') (mCodeMem c) (mCodeMemMaxIdx c + 1);
  wp_ext : mExtData c <> mUpperData c -> cleared (heap c') (mExtData c) (mExtDataMaxIdx c + 1)
}.

(** The last step of the wipe: lower RAM, then upper RAM. *)
Lemma fill_ram lower upper (s : machine W) :
  allocated (cpu s) -> length lower = 128%nat -> Forall byte lower ->
  length upper = 128%nat -> Forall byte upper ->
  exists h, (modify (set_mLowerData lower) ;; fill (mUpperData (cpu s)) upper) s =
      Done () (mk_machine (set_heap h (set_mLowerData lower (cpu s))) (world s)) /\
    allocated (set_heap h (set_mLowerData lower (cpu s))) /\
    filled (mUpperData (cpu s)) upper (heap (cpu s)) h /\
    internal_ram (set_heap h (set_mLowerData lower (cpu s))) =
      lower ++ upper_half (cpu s) upper.
Proof.
  intros Ha Hl Hb Hlu Hbu. rewrite exec_modify.
  destruct (fill_allocated (mUpperData (cpu s)) upper (mk_machine (set_mLowerData lower (cpu s)) (world s)))
    as (h & E & Ha' & Hf); [by apply allocated_lower|done|rewrite Hlu; apply Ha|].
  exists h. split_and!; [exact E|done|done|]. unfold internal_ram, upper_ram, upper_half. cbn -[take].
  destruct (mUpperData (cpu s)) as [u|] eqn:Eu; [|done].
  f_equal. rewrite <- Hlu. by apply (fl_bytes _ _ _ _ Hf).
Qed.

Lemma wipe_ok (s : machine W) :
  allocated (cpu s) -> exists state s', reset_wipe s = Done state s' /\
    wiped (if mResetSeedConfigured (cpu s) then Some (mResetSeed (cpu s)) else None) state (cpu s) (cpu s').
Proof.
  intros Ha. pose proof Ha as []. unfold reset_wipe. rewrite exec_get.
  destruct (fill_allocated (mCodeMem (cpu s)) (zeros (mCodeMemMaxIdx (cpu s) + 1)) s)
    as (h1 & E1 & Ha1 & Hf1); [done|apply zeros_bytes|unfold word in *; by rewrite length_zeros by lia|].
  rewrite (exec_bind _ _ _ _ _ E1). set (s1 := mk_machine _ _) in *.
  destruct (fill_allocated (mExtData (cpu s)) (zeros (mExtDataMaxIdx (cpu s) + 1)) s1)
    as (h2 & E2 & Ha2 & Hf2);
    [done|apply zeros_bytes|unfold word in *; rewrite length_zeros by lia; by apply (fl_sizes _ _ _ _ Hf1)|].
  rewrite (exec_bind _ _ _ _ _ E2). set (s2 := mk_machine (set_heap h2 _) _) in *.
  change (mUpperData (cpu s)) with (mUpperData (cpu s2)).
  assert (cleared h2 (mCodeMem (cpu s)) (mCodeMemMaxIdx (cpu s) + 1)) as Hc
    by (eapply cleared_zeros; [exact Hf2|]; by eapply filled_cleared).
  assert (cleared h2 (mExtData (cpu s)) (mExtDataMaxIdx (cpu s) + 1)) as Hx by by eapply filled_cleared.
  assert (forall lower upper, length lower = 128%nat -> Forall byte lower ->
    length upper = 128%nat -> Forall byte upper ->
    exists s', (modify (set_mLowerData lower) ;; fill (mUpperData (cpu s2)) upper) s2 = Done () s' /\
      forall seed state,
      match seed with
      | Some v => random_bytes (ram_size (cpu s)) v = (lower ++ upper_half (cpu s) upper, state)
      | None => lower ++ upper_half (cpu s) upper = zeros (Z.of_nat (ram_size (cpu s)))
      end -> wiped seed state (cpu s) (cpu s')) as Hram.
  { intros lower upper Hl Hb Hlu Hbu.
    destruct (fill_ram lower upper s2 Ha2 Hl Hb Hlu Hbu) as (h & E & Ha3 & Hf & Er).
    eexists. split; [exact E|]. intros seed state Hs. constructor; [done..| |intros Hne|intros Hne].
    - cbn [cpu]. rewrite Er. exact Hs.
    - by eapply cleared_other.
    - by eapply cleared_other. }
  unfold ram_size, upper_half in Hram. destruct (mResetSeedConfigured (cpu s)).
  - pose proof (random_bytes_ok 128 (mResetSeed (cpu s))) as [Hl Hb].
    destruct (random_bytes 128 (mResetSeed (cpu s))) as [lower state] eqn:El. cbn [fst] in Hl, Hb.
    pose proof (random_bytes_ok 128 state) as [Hlu Hbu].
    destruct (random_bytes 128 state) as [upper state'] eqn:Eu. cbn [fst] in Hlu, Hbu.
    destruct (Hram lower upper Hl Hb Hlu Hbu) as (s' & E & Hw).
    change (mUpperData (cpu s2)) with (mUpperData (cpu s)) in *.
    destruct (mUpperData (cpu s)) as [u|] eqn:Ep.
    + exists state', s'. rewrite <- exec_assoc, (exec_bind _ _ _ _ _ E). split; [done|]. apply Hw.
      change 256%nat with (128 + 128)%nat. by rewrite random_bytes_app, El, Eu.
    + exists state, s'. split; [by injection E as <-|].
      apply Hw. by rewrite El, app_nil_r.
  - destruct (Hram (zeros 128) (zeros 128) eq_refl (zeros_bytes _) eq_refl (zeros_bytes _)) as (s' & E & Hw).
    exists (mResetSeed (cpu s)), s'. rewrite <- exec_assoc, (exec_bind _ _ _ _ _ E). split; [done|].
    apply Hw. by destruct (mUpperData (cpu s)).
Qed.

Lemma reset_tail_frame wipe sbuf c :
  heap (reset_tail wipe sbuf c) = heap c /\ mLowerData (reset_tail wipe sbuf c) = mLowerData c /\
  mVariant (reset_tail wipe sbuf c) = mVariant c /\
  internal_ram (reset_tail wipe sbuf c) = internal_ram c /\
  mCodeMem (reset_tail wipe sbuf c) = mCodeMem c /\ mExtData (reset_tail wipe sbuf c) = mExtData c /\
  mUpperData (reset_tail wipe sbuf c) = mUpperData c.
Proof. by rewrite reset_tail_eq. Qed.

(** Reset as a whole: what it leaves in the CPU. [rand_value] is what rand()
    returned. With a seed, internal RAM and then SBUF take consecutive bytes of
    the seeded generator. *)
Record was_reset (rand_value : Z) (wipe : bool) (c c' : em8051) : Prop := {
  rs_wf : wf c';
  rs_values : reset_values c';
  rs_variant : 0 <= mVariant c' <= 2;
  rs_pointers : mCodeMem c' = mCodeMem c /\ mExtData c' = mExtData c;
  rs_warm : wipe = false -> heap c' = heap c /\ mLowerData c' = mLowerData c;
  rs_power_on : wipe = true -> sfr c' REG_PCON = 0x10;
  rs_seeded : wipe = true -> mResetSeedConfigured c = true ->
    internal_ram c' ++ [sfr c' REG_SBUF] = fst (random_bytes (ram_size c' + 1) (mResetSeed c));
  rs_unseeded : wipe = true -> mResetSeedConfigured c = false ->
    internal_ram c' = zeros (Z.of_nat (ram_size c')) /\ sfr c' REG_SBUF = u8 rand_value;
  rs_code : wipe = true -> mCodeMem c <> mUpperData c' ->
    cleared (heap c') (mCodeMem c) (mCodeMemMaxIdx c + 1);
  rs_ext : wipe = true -> mExtData c <> mUpperData c' ->
    cleared (heap c') (mExtData c) (mExtDataMaxIdx c + 1)
}.

Lemma descriptor_range v d : em8051_get_variant_descriptor v = Some d -> 0 <= v <= 2.
Proof.
  unfold em8051_get_variant_descriptor. intros H.
  destruct (v <? EM8051_VARIANT_8051) eqn:E1, (EM8051_VARIANT_SAB80535 <? v) eqn:E2; try done.
  change EM8051_VARIANT_8051 with 0 in E1. change EM8051_VARIANT_SAB80535 with 2 in E2. lia.
Qed.

(** The variant step only chooses the variant, the oscillator and upper memory. *)
Lemma reset_variant_frame c :
  heap (reset_variant c) = heap c /\ mLowerData (reset_variant c) = mLowerData c /\
  mResetSeed (reset_variant c) = mResetSeed c /\
  mResetSeedConfigured (reset_variant c) = mResetSeedConfigured c /\
  mCodeMem (reset_variant c) = mCodeMem c /\ mCodeMemMaxIdx (reset_variant c) = mCodeMemMaxIdx c /\
  mExtData (reset_variant c) = mExtData c /\ mExtDataMaxIdx (reset_variant c) = mExtDataMaxIdx c /\
  0 <= mVariant (reset_variant c) <= 2.
Proof.
  unfold reset_variant. destruct (em8051_get_variant_descriptor (mVariant c)) as [d|] eqn:E.
  - rewrite E. apply descriptor_range in E. repeat case_if; split_and!; try done; cbn; lia.
  - cbn. repeat case_if; by split_and!.
Qed.

Lemma exec_tail wipe (s : machine W) state rand_value :
  (modify (fun c => set_mTickDelay 0 (set_mPC 0 (reset_adc (reset_ports c)))) ;;
   modify (reset_sfr wipe) ;;
   when wipe
    (modify (fun c => set_sfr REG_SBUF
       (if mResetSeedConfigured c then reset_random state else rand_value) c)) ;;
   modify (fun c => reset_run (reset_uart (reset_irq (op_setptrs (disasm_setptrs c)))))) s =
  Done () (mk_machine (reset_tail wipe
    (if wipe then Some (if mResetSeedConfigured (cpu s) then reset_random state else rand_value)
     else None) (cpu s)) (world s)).
Proof.
  rewrite !exec_modify. destruct wipe; [|done]. cbn [when]. rewrite exec_modify. cbn [cpu world].
  unfold reset_tail. by rewrite !reset_sfr_file.
Qed.

Lemma ram_size_upper (c c' : em8051) : mUpperData c' = mUpperData c -> ram_size c' = ram_size c.
Proof. unfold ram_size. by intros ->. Qed.

(** The two kinds of reset, once the variant is chosen. *)
Lemma cold_reset_ok rand_value state (c c1 c2 : em8051) :
  mResetSeed c1 = mResetSeed c -> mResetSeedConfigured c1 = mResetSeedConfigured c ->
  mCodeMem c1 = mCodeMem c -> mExtData c1 = mExtData c ->
  mCodeMemMaxIdx c1 = mCodeMemMaxIdx c -> mExtDataMaxIdx c1 = mExtDataMaxIdx c ->
  0 <= mVariant c1 <= 2 ->
  wiped (if mResetSeedConfigured c1 then Some (mResetSeed c1) else None) state c1 c2 ->
  was_reset rand_value true c
    (reset_tail true (Some (if mResetSeedConfigured c2 then reset_random state else rand_value)) c2).
Proof.
  intros Es Ec Epc Epx Eic Eix Ev [Ha2 Ev2 (Ep1 & Ep2 & Ep3) Ec2 Hram Hcode Hext].
  destruct (reset_tail_frame true
    (Some (if mResetSeedConfigured c2 then reset_random state else rand_value)) c2)
    as (Eh & _ & Ev3 & Er & Eq1 & Eq2 & Eq3).
  pose proof (ram_size_upper c1 _ (eq_trans Eq3 Ep3)) as Esz.
  assert (mCodeMem c2 = mCodeMem c /\ mExtData c2 = mExtData c) as [Hp1 Hp2] by (split; congruence).
  constructor; [by apply reset_tail_wf|apply reset_tail_values|by rewrite Ev3, Ev2| |done|..].
  - split; [exact (eq_trans Eq1 Hp1)|exact (eq_trans Eq2 Hp2)].
  - intros _. apply reset_tail_pcon.
  - intros _ Hc. rewrite Er, Esz, reset_tail_sbuf, Ec2. rewrite Ec, Hc in Hram |- *.
    rewrite random_bytes_app, <- Es, Hram. done.
  - intros _ Hc. rewrite Er, Esz, reset_tail_sbuf, Ec2. by rewrite Ec, Hc in Hram |- *.
  - intros _ Hne. rewrite Eh, <- Epc, <- Eic. apply Hcode. congruence.
  - intros _ Hne. rewrite Eh, <- Epx, <- Eix. apply Hext. congruence.
Qed.

Lemma reset_ok rand_value wipe (s : machine W) :
  allocated (cpu s) ->
  exists s', reset rand_value wipe s = Done () s' /\ was_reset rand_value wipe (cpu s) (cpu s').
Proof.
  intros Ha. destruct (reset_variant_frame (cpu s)) as (Eh & El & Es & Ecf & Ec & Eci & Ex & Exi & Ev).
  unfold reset. rewrite exec_modify, exec_get. set (s1 := mk_machine _ _).
  assert (allocated (cpu s1)) as Ha1 by by apply allocated_variant.
  destruct wipe.
  - destruct (wipe_ok s1 Ha1) as (state & s2 & E2 & Hw).
    rewrite (exec_bind _ _ _ _ _ E2), exec_tail. eexists. split; [done|].
    by apply (cold_reset_ok rand_value state _ (cpu s1)).
  - rewrite exec_ret, exec_tail. eexists. split; [done|].
    destruct (reset_tail_frame false None (cpu s1)) as (Eh3 & El3 & Ev3 & _ & Ep1 & Ep2 & _).
    change (cpu s1) with (reset_variant (cpu s)) in *.
    constructor; cbn [cpu]; try done.
    + by apply reset_tail_wf.
    + apply reset_tail_values.
    + by rewrite Ev3.
    + split; congruence.
    + intros _. split; congruence.
Qed.

(** The power-off flag after a warm reset, which the comment above the
    code says is not affected: the SFR file has been cleared before. *)
Lemma warm_reset_clears_power_off rand_value (s : machine W) :
  exists s', reset rand_value false s = Done () s' /\ sfr (cpu s') REG_PCON = 0.
Proof.
  unfold reset. rewrite exec_modify, exec_get, exec_ret, exec_tail. eexists. split; [done|].
  apply reset_tail_pcon.
Qed.

End ResetSafe.
