(* ===== verification/Concrete.v ===== *)
(** Concrete machines on which the definitions are evaluated: a host that
    records what its observers see, a host that aborts on failure, and CPUs set
    up as an embedder does. *)
From S2P Require Import Prelude State Machine Ports Uart Adc Irq Sfr Memory Opcodes Dispatch.
From S2P Require Import Wf Logic Timers Interrupts Cpu CpuSafe Hooks Reset ResetSafe.

(** What a recording host keeps: the most recent event first. *)
Inductive event :=
  | Ev_trace (r : trace_record) | Ev_irq (r : irq_trace_record)
  | Ev_timer (r : timer_overflow_record) | Ev_uart (r : uart_trace_record)
  | Ev_movx (r : movx_context) | Ev_external (r : external_trace_record)
  | Ev_adc (r : adc_trace_record) | Ev_raw (f : raw_fact) (cycle a : Z).

(** The recording host never aborts, changes no CPU state, reads open-bus FF
    and accepts every preflight. *)
#[export] Instance log_host : Host (list event) := {
  call_except := fun _ _ s => s;
  call_sfrread := fun _ _ s => (0xff, s);
  call_sfrwrite := fun _ _ s => s;
  call_xread := fun _ _ s => (0xff, s);
  call_xwrite := fun _ _ _ s => s;
  call_abort := fun _ _ _ _ => false;
  call_trace := fun _ r _ w => Ev_trace r :: w;
  call_irq_trace := fun _ r _ w => Ev_irq r :: w;
  call_timer_overflow := fun _ r _ w => Ev_timer r :: w;
  call_uart_trace := fun _ r _ w => Ev_uart r :: w;
  call_movx := fun _ r _ w => Ev_movx r :: w;
  call_external_trace := fun _ r _ w => Ev_external r :: w;
  call_adc_trace := fun _ r _ w => Ev_adc r :: w;
  call_raw := fun _ f cycle a _ _ _ w => (1, Ev_raw f cycle a :: w)
}.

(** The zeroed [struct em8051] of an embedder that gives the CPU 1 KiB of code
    memory and no external data memory. *)
Definition zero_cpu : em8051 :=
  mk_em8051
    (mk_memory [zeros 128; zeros 1024] (Some 1%nat) 0x3ff None 0 (zeros 128) None (zeros 128))
    (mk_exec 0 0 (replicate 256 None) (replicate 256 None) 0 0 0 false 0 0 (zeros 3) false 0
      false 0 0 false)
    (mk_hooks 0 (zeros 128) (zeros 128) 0 0 0 0 0 0 0 0 0 0 0 0 0 0 0 0 0 0 0)
    (mk_ports (zeros 4) (zeros 4) 0 0 (replicate 64 zero_event) 0 0)
    (mk_adc (zeros 8) 0 0 0 0 0 false false false false false false false)
    (mk_irq 0 (zeros 2) (zeros 2) (zeros 2) 0 0 0 0 (zeros 4) (zeros 4) (zeros 4) (zeros 4)
      (zeros 4) 0)
    (mk_uart 0 0 0 0 0 0 0 0 false false false false false false (zeros 18) 0 0 false).

(** The CPU after a computation from the zeroed struct, with an empty log. *)
Definition run_from {A} (c : em8051) (m : M (list event) A) : em8051 :=
  match m (mk_machine c []) with Done _ s => cpu s | _ => c end.

(** A freshly initialised CPU of a variant, with a program at address 0. *)
Definition boot (variant : Z) (program : list Z) : em8051 :=
  let c := run_from zero_cpu (em8051_init_variant 0 variant) in
  run_from c (fill (Some 1%nat) program).

Definition start (c : em8051) : machine (list event) := mk_machine c [].

(** ** The recording host keeps its contract *)

#[export] Instance log_host_ok : HostOk (list event).
Proof. split; intros; intros s Hw; split; done. Qed.

Lemma log_never_aborts : never_aborts (W := list event).
Proof. done. Qed.
Lemma log_abort_from_world : abort_from_world (W := list event).
Proof. done. Qed.
Lemma log_refusals_abort hook : refusals_abort (W := list event) hook.
Proof. by intros ????????. Qed.
Lemma log_keeps_abort : callbacks_keep_abort (W := list event).
Proof. done. Qed.

(** ** A host that fails *)

(** The discipline of the facade in src/emu_cpu_facade.c: a failure latches a
    fault, which the abort predicate reads; an exception is a failure; the
    observer refuses a context, and fails, when it has no identifiers left. *)
Record guarded := mk_guarded { fault : bool; contexts : nat }.

#[export] Instance guarded_host : Host guarded := {
  call_except := fun _ _ s => mk_machine (cpu s) (mk_guarded true (contexts (world s)));
  call_sfrread := fun _ _ s => (0xff, s);
  call_sfrwrite := fun _ _ s => s;
  call_xread := fun _ _ s => (0xff, s);
  call_xwrite := fun _ _ _ s => s;
  call_abort := fun _ _ _ w => fault w;
  call_trace := fun _ _ _ w => w;
  call_irq_trace := fun _ _ _ w => w;
  call_timer_overflow := fun _ _ _ w => w;
  call_uart_trace := fun _ _ _ w => w;
  call_movx := fun _ _ _ w => w;
  call_external_trace := fun _ _ _ w => w;
  call_adc_trace := fun _ _ _ w => w;
  call_raw := fun _ f _ _ _ _ _ w =>
    match f, contexts w with
    | EMU_RAW_CONTEXT_PREFLIGHT, O => (0, mk_guarded true 0)
    | EMU_RAW_CONTEXT_PREFLIGHT, S n => (1, mk_guarded (fault w) n)
    | _, _ => (1, w)
    end
}.

#[export] Instance guarded_host_ok : HostOk guarded.
Proof. split; intros; intros s Hw; split; done. Qed.
Lemma guarded_keeps_abort : callbacks_keep_abort (W := guarded).
Proof. done. Qed.
Lemma guarded_abort_from_world : abort_from_world (W := guarded).
Proof. done. Qed.
Lemma guarded_refusals_abort p user : p <> 0 -> refusals_abort (W := guarded) (p, user).
Proof. intros Hp o cy a b c d w Hr. split; [done|]. intros k. cbn in *. by destruct (contexts w). Qed.

(** A CPU as the facade sets it up: observed, with exceptions and aborts. *)
Definition guard (c : em8051) : em8051 :=
  set_mObservation 1 (set_except 1 (set_execution_abort_user 1 (set_execution_abort 1 c))).

(** ** Checking that a concrete CPU is well formed *)

Definition byteb (x : Z) : bool := (0 <=? x) && (x <? 256).
Definition wordb (x : Z) : bool := (0 <=? x) && (x <? 65536).
Definition word64b (x : Z) : bool := (0 <=? x) && (x <? 18446744073709551616).
Definition bytesb (n : nat) (l : list Z) : bool := (length l =? n)%nat && forallb byteb l.
Definition ptrb (h : list (list Z)) (p : option nat) (n : Z) : bool :=
  match p with
  | None => true
  | Some b => match h !! b with Some buffer => n <=? Z.of_nat (length buffer) | None => false end
  end.

Definition wfb_memory (m : memory) : bool :=
  bytesb 128 (mSFR m) && bytesb 128 (mLowerData m) && forallb (forallb byteb) (heap m) &&
  bool_decide (mCodeMem m <> None) && wordb (mCodeMemMaxIdx m) &&
  ptrb (heap m) (mCodeMem m) (mCodeMemMaxIdx m + 1) && wordb (mExtDataMaxIdx m) &&
  ptrb (heap m) (mExtData m) (mExtDataMaxIdx m + 1) && ptrb (heap m) (mUpperData m) 128.

Definition wfb_rest (c : em8051) : bool :=
  wordb (mPC c) && byteb (mTickDelay c) && word64b (mInstructionCount c) &&
  word64b (mMachineCycleCount c) && (length (mTimerOverflowCount c) =? 3)%nat &&
  (length (sfrread c) =? 128)%nat && (length (sfrwrite c) =? 128)%nat &&
  bytesb 4 (mSABPortExternalMask c) && bytesb 4 (mSABPortExternalLevels c) &&
  byteb (mSABExternalSampledLevels c) && byteb (mSABExternalLevelAsserted c) &&
  (length (mSABExternalSchedule c) =? 64)%nat && (0 <=? mSABExternalScheduleHead c) &&
  (mSABExternalScheduleHead c <? 64) && (0 <=? mSABExternalScheduleCount c) &&
  (mSABExternalScheduleCount c <=? 64) && (length (mSABADCInputs c) =? 8)%nat &&
  byteb (mSABADCCycles c).

(** The in-service stack is checked only when it is empty. *)
Definition wfb_irq (c : em8051) : bool :=
  (length (int_a c) =? 2)%nat && (length (int_psw c) =? 2)%nat && (length (int_sp c) =? 2)%nat &&
  byteb (mInterruptActive c) && (length (mSABIrqSourceStack c) =? 4)%nat &&
  (length (mSABIrqPriorityStack c) =? 4)%nat && (length (mSABIrqSavedACC c) =? 4)%nat &&
  (length (mSABIrqSavedPSW c) =? 4)%nat && (length (mSABIrqSavedSP c) =? 4)%nat &&
  byteb (mSABIrqInhibitInstructions c) && (mSABIrqDepth c =? 0) && (mSABIrqInService c =? 0) &&
  (length (serial_out c) =? 18)%nat && (0 <=? serial_out_idx c) && (serial_out_idx c <? 18) &&
  (0 <=? serial_out_remaining_bits c) && (serial_out_remaining_bits c <=? 32) && byteb (mSABUartRxData c).

Definition wfb (c : em8051) : bool := wfb_memory c && wfb_rest c && wfb_irq c.

Lemma byteb_ok x : byteb x = true -> byte x.
Proof. unfold byteb, byte. lia. Qed.
Lemma wordb_ok x : wordb x = true -> word x.
Proof. unfold wordb, word. lia. Qed.
Lemma word64b_ok x : word64b x = true -> word64 x.
Proof. unfold word64b, word64. lia. Qed.
Lemma all_bytes l : forallb byteb l = true -> Forall byte l.
Proof. rewrite forallb_forall, Forall_forall. intros H x Hx. apply byteb_ok, H. by apply list_elem_of_In. Qed.
Lemma all_buffers h : forallb (forallb byteb) h = true -> Forall (Forall byte) h.
Proof. rewrite forallb_forall, Forall_forall. intros H x Hx. apply all_bytes, H. by apply list_elem_of_In. Qed.
Lemma bytesb_ok n l : bytesb n l = true -> length l = n /\ Forall byte l.
Proof. unfold bytesb. intros [Hl Hb]%andb_prop. split; [lia|by apply all_bytes]. Qed.
Lemma ptrb_ok h p n : ptrb h p n = true -> ptr_ok h p n.
Proof.
  unfold ptrb, ptr_ok. destruct p as [b|]; [|done]. destruct (h !! b) as [buf|]; [|done].
  exists buf. split; [done|lia].
Qed.

Ltac split_checks :=
  repeat match goal with
  | H : (_ && _) = true |- _ => apply andb_prop in H as [? ?]
  | H : bytesb _ _ = true |- _ => apply bytesb_ok in H as [? ?]
  | H : byteb _ = true |- _ => apply byteb_ok in H
  | H : wordb _ = true |- _ => apply wordb_ok in H
  | H : word64b _ = true |- _ => apply word64b_ok in H
  | H : ptrb _ _ _ = true |- _ => apply ptrb_ok in H
  | H : (_ =? _)%nat = true |- _ => apply Nat.eqb_eq in H
  end.

Lemma wfb_sound (c : em8051) : op c = op_table -> wfb c = true -> wf c.
Proof.
  unfold wfb. intros Hop [[Hm Hr]%andb_prop Hi]%andb_prop.
  unfold wfb_memory, wfb_rest, wfb_irq in *. split_checks.
  assert (mSABIrqDepth c = 0) as Hd by lia. assert (mSABIrqInService c = 0) as Hs by lia.
  constructor; constructor; try done; try lia.
  - by apply all_buffers.
  - by eapply bool_decide_eq_true.
  - rewrite Hs. by vm_compute.
  - intros b Hb. rewrite Hs, Z.bits_0, Hd. split; [done|]. intros (k & ? & _). lia.
Qed.

Ltac solve_wf := apply wfb_sound; [by vm_compute | by vm_compute].
