(* ===== verification/Effect.v ===== *)
(** Functional reasoning: the value a computation returns and the CPU it leaves,
    whatever the observers record, for a host that never aborts. *)
From S2P Require Import Prelude State Machine Ports Uart Adc Irq Sfr Memory Opcodes Dispatch.
From S2P Require Import Wf Logic Timers Interrupts Cpu CpuSafe.

Section Effect.
Context {W : Type} {HostW : Host W}.

(** From CPU [c], [m] returns [a] and leaves [c']; the host's own state may
    change. *)
Definition eff {A} (m : M W A) (c : em8051) (a : A) (c' : em8051) : Prop :=
  forall w, exists w', m (mk_machine c w) = Done a (mk_machine c' w').

Lemma eff_run {A} (m : M W A) s a c' :
  eff m (cpu s) a c' -> exists s', m s = Done a s' /\ cpu s' = c'.
Proof. intros H. destruct (H (world s)) as [w Hw]. by exists (mk_machine c' w). Qed.

Lemma eff_ret {A} (a : A) c : eff (mret a) c a c.
Proof. intros w. by exists w. Qed.

Lemma eff_bind {A B} (m : M W A) (k : A -> M W B) c a c1 b c2 :
  eff m c a c1 -> eff (k a) c1 b c2 -> eff (bind m k) c b c2.
Proof.
  intros Hm Hk w. destruct (Hm w) as [w1 E]. destruct (Hk w1) as [w2 E']. exists w2.
  by rewrite (exec_bind _ _ _ _ _ E).
Qed.

Lemma eff_get {B} (k : em8051 -> M W B) c b c2 : eff (k c) c b c2 -> eff (bind get_cpu k) c b c2.
Proof. done. Qed.
Lemma eff_gets {A B} (f : em8051 -> A) (k : A -> M W B) c b c2 :
  eff (k (f c)) c b c2 -> eff (bind (gets f) k) c b c2.
Proof. done. Qed.
Lemma eff_bind_ret {A B} (a : A) (k : A -> M W B) c b c2 :
  eff (k a) c b c2 -> eff (bind (mret a) k) c b c2.
Proof. done. Qed.
Lemma eff_modify f c : eff (modify f) c () (f c).
Proof. intros w. by exists w. Qed.
Lemma eff_bind_modify {B} f (k : () -> M W B) c b c2 :
  eff (k ()) (f c) b c2 -> eff (bind (modify f) k) c b c2.
Proof. done. Qed.
Lemma eff_assoc {A B C} (m : M W A) (k : A -> M W B) (h : B -> M W C) c b c2 :
  eff (bind m (fun a => bind (k a) h)) c b c2 -> eff (bind (bind m k) h) c b c2.
Proof. intros H w. destruct (H w) as [w' E]. exists w'. by rewrite exec_assoc. Qed.
Lemma eff_in_range {A B} (o : option A) x (k : A -> M W B) c b c2 :
  o = Some x -> eff (k x) c b c2 -> eff (bind (in_range o) k) c b c2.
Proof. by intros ->. Qed.
Lemma eff_in_range_end {A} (o : option A) x c : o = Some x -> eff (in_range o) c x c.
Proof. intros ->. apply eff_ret. Qed.
Lemma eff_observe f c : eff (observe f) c () c.
Proof. intros w. by eexists. Qed.

Lemma eff_when_true b m c c' : b = true -> eff m c () c' -> eff (when b m) c () c'.
Proof. by intros ->. Qed.
Lemma eff_when_false b m c : b = false -> eff (when b m) c () c.
Proof. intros ->. apply eff_ret. Qed.
(** An observer that only runs under some condition. *)
Lemma eff_when_quiet b m c : eff m c () c -> eff (when b m) c () c.
Proof. intros Hm. destruct b; [done|apply eff_ret]. Qed.

Lemma eff_for_each_quiet {A} (l : list A) f c :
  (forall x, eff (f x) c () c) -> eff (for_each l f) c () c.
Proof.
  intros Hf. induction l as [|x l IH]; [apply eff_ret|]. by eapply eff_bind.
Qed.

Lemma eff_raw kind cy a b d e c : eff (raw kind cy a b d e) c () c.
Proof.
  intros w. unfold raw, bind, emu_cpu_raw. cbn [cpu world]. case_if; [by eexists|].
  destruct (call_raw _ _ _ _ _ _ _ _). by eexists.
Qed.

(** Assigning a request register changes that register only. *)
Lemma eff_irq_write i v cy c : eff (emu_cpu_irq_write i v cy) c () (set_sfr i v c).
Proof.
  unfold emu_cpu_irq_write. apply eff_gets, eff_bind_modify, eff_get.
  case_if; [apply eff_ret|]. apply eff_for_each_quiet. intros source.
  destruct (irq_request source). apply eff_when_quiet. apply eff_raw.
Qed.

(** The abort test, when both answers lead to the same CPU. *)
Lemma eff_aborted_any {B} (k : bool -> M W B) c b c2 :
  (forall x, eff (k x) c b c2) -> eff (bind em8051_execution_aborted k) c b c2.
Proof. intros Hk w. exact (Hk _ w). Qed.

(** The CPU an [eff] computation leaves is the one its [safe] law describes. *)
Lemma eff_safe {A} (R : em8051 -> em8051 -> Prop) (m : M W A) P s a c' :
  eff m (cpu s) a c' -> safe R m P -> wf (cpu s) ->
  exists s', m s = Done a s' /\ cpu s' = c' /\ wf c' /\ R (cpu s) c'.
Proof.
  intros He Hs Hw. destruct (eff_run m s a c' He) as (s' & E & <-).
  destruct (Hs s Hw) as (a' & s'' & E' & Hw' & HR & _). rewrite E in E'. injection E' as <- <-.
  by exists s'.
Qed.

Context (Hna : never_aborts (W := W)).

Lemma eff_aborted {B} (k : bool -> M W B) c b c2 :
  eff (k false) c b c2 -> eff (bind em8051_execution_aborted k) c b c2.
Proof.
  intros Hk w. destruct (Hk w) as [w' E]. exists w'.
  unfold bind, em8051_execution_aborted. by rewrite (never_aborted _ Hna).
Qed.

Lemma eff_trace_emit t a v c : eff (em8051_trace_emit t a v) c () c.
Proof.
  unfold em8051_trace_emit. apply eff_aborted, eff_get. case_if; [apply eff_ret|apply eff_observe].
Qed.

Lemma eff_unless_aborted (m : M W Z) c a c' : eff m c a c' -> eff (unless_aborted m) c a c'.
Proof. intros. by apply eff_aborted. Qed.

End Effect.

(** One structural step of an [eff] goal. *)
Ltac eff_step :=
  cbv beta zeta iota;
  lazymatch goal with
  | |- eff (bind get_cpu _) _ _ _ => apply eff_get
  | |- eff (bind (gets _) _) _ _ _ => apply eff_gets
  | |- eff (bind (mret _) _) _ _ _ => apply eff_bind_ret
  | |- eff (bind (modify _) _) _ _ _ => apply eff_bind_modify
  | |- eff (bind (bind _ _) _) _ _ _ => apply eff_assoc
  | |- eff (bind em8051_execution_aborted _) _ _ _ => apply eff_aborted; [assumption|]
  | |- eff (bind (em8051_trace_emit _ _ _) _) _ _ _ =>
      eapply eff_bind; [apply eff_trace_emit; assumption|]
  | |- eff (bind (raw _ _ _ _ _ _) _) _ _ _ => eapply eff_bind; [apply eff_raw|]
  | |- eff (bind (emu_cpu_irq_write _ _ _) _) _ _ _ => eapply eff_bind; [apply eff_irq_write|]
  | |- eff (emu_cpu_irq_write _ _ _) _ _ _ => apply eff_irq_write
  | |- eff (raw _ _ _ _ _ _) _ _ _ => apply eff_raw
  | |- eff (mret _) _ _ _ => apply eff_ret
  | |- eff (modify _) _ _ _ => apply eff_modify
  | |- eff (observe _) _ _ _ => apply eff_observe
  end.
Ltac eff_auto := repeat eff_step.

Section Sync.
Context {W : Type} {HostW : Host W}.

(** ** Synchronisation of the interrupt maps *)

(** It writes TCON (the level-triggered requests) and no other SFR. *)
Definition same_but_tcon (c c' : em8051) : Prop := forall i, 0 <= i -> i <> REG_TCON -> sfr c' i = sfr c i.

(** The variant and the state of the external pins. *)
Definition wiring (c : em8051) : Z * list Z * list Z * Z :=
  (mVariant c, mSABPortExternalMask c, mSABPortExternalLevels c, mSABExternalSampledLevels c).

Definition synced (c c' : em8051) : Prop := same_but_tcon c c' /\ wiring c' = wiring c.

Lemma synced_refl c : synced c c.
Proof. done. Qed.
Lemma synced_trans c1 c2 c3 : synced c1 c2 -> synced c2 c3 -> synced c1 c3.
Proof. intros [H1 W1] [H2 W2]. split; [|congruence]. intros i Hi Hne. by rewrite H2, H1. Qed.

Lemma eff_for_each {A} (Q : em8051 -> em8051 -> Prop) (l : list A) (f : A -> M W ()) c :
  (forall c, Q c c) -> (forall c1 c2 c3, Q c1 c2 -> Q c2 c3 -> Q c1 c3) ->
  (forall x c, exists c', eff (f x) c () c' /\ Q c c') ->
  exists c', eff (for_each l f) c () c' /\ Q c c'.
Proof.
  intros Hr Ht Hf. revert c. induction l as [|x l IH]; intros c; [exists c; split; [apply eff_ret|done]|].
  destruct (Hf x c) as (c1 & E1 & H1). destruct (IH c1) as (c2 & E2 & H2).
  exists c2. split; [by eapply eff_bind|by eapply Ht].
Qed.

Lemma eff_maintain_level pins source c :
  exists c', eff (maintain_level pins source) c () c' /\ synced c c'.
Proof.
  unfold maintain_level. cbv zeta. set (int0 := source =? EM8051_SAB_EXTERNAL_INT0).
  destruct (has (sfr c REG_TCON) (if int0 then TCONMASK_IT0 else TCONMASK_IT1)) eqn:E1.
  { eexists. split; [eff_step; rewrite E1; apply eff_modify|done]. }
  destruct (has pins (if int0 then 4 else 8)) eqn:E2.
  - destruct (has (mSABExternalLevelAsserted c) (sab_external_sample_bit source)) eqn:E3.
    + eexists. split; [eff_step; rewrite E1; cbn [negb]; rewrite E3; cbn [negb]; eff_auto|].
      split; [|done]. intros i Hi Hne. by apply sfr_set_sfr_ne.
    + exists c. split; [eff_step; rewrite E1; cbn [negb]; rewrite E3; apply eff_ret|done].
  - eexists. split; [eff_step; rewrite E1; cbn [negb]; eff_auto|].
    split; [|done]. intros i Hi Hne. by apply sfr_set_sfr_ne.
Qed.

Lemma eff_maintain c :
  exists c', eff sab_external_maintain_level_requests c () c' /\ synced c c'.
Proof.
  unfold sab_external_maintain_level_requests.
  destruct (is_sab c) eqn:Es; [|exists c; split; [apply eff_get; rewrite Es; apply eff_ret|done]].
  destruct (em8051_sab_port_get_pins c EM8051_SAB_PORT_P3) as [pins|] eqn:Ep;
    [|exists c; split; [apply eff_get; rewrite Es, Ep; apply eff_ret|done]].
  destruct (eff_for_each synced [EM8051_SAB_EXTERNAL_INT0; EM8051_SAB_EXTERNAL_INT1]
    (maintain_level pins) c synced_refl synced_trans (eff_maintain_level pins)) as (c' & E & H).
  exists c'. split; [|exact H]. apply eff_get. rewrite Es, Ep. exact E.
Qed.

Lemma eff_irq_sync c : exists c', eff sab_irq_sync c () c' /\ synced c c'.
Proof.
  destruct (eff_maintain c) as (c1 & E1 & H1). eexists. split.
  - unfold sab_irq_sync. apply eff_get. cbv zeta. eapply eff_bind; [exact E1|].
    apply eff_gets, eff_bind_modify, eff_modify.
  - destruct H1 as [H1 W1]. split; [|exact W1]. intros i Hi Hne. by apply (H1 i).
Qed.

End Sync.
