(* ===== verification/Stack.v ===== *)
(** The internal data memory as the stack sees it: slots, and what a push and a
    pop do to them. *)
From S2P Require Import Prelude State Machine Ports Uart Adc Irq Sfr Memory Opcodes Dispatch.
From S2P Require Import Wf Logic InstrSafe Timers Interrupts Cpu CpuSafe Reset Effect.

(** The indirectly addressed memory: 128 lower bytes, and 128 upper bytes on
    parts that have them. *)
Definition upper_buffer (c : em8051) : list Z :=
  match mUpperData c with Some b => default [] (heap c !! b) | None => [] end.

Definition peek (c : em8051) (a : Z) : Z :=
  if 0x7f <? a then geti (upper_buffer c) (a - 0x80) else geti (mLowerData c) a.

Definition poke (c : em8051) (a v : Z) : em8051 :=
  if 0x7f <? a then
    match mUpperData c with
    | Some b => set_heap (<[b := seti (upper_buffer c) (a - 0x80) (u8 v)]> (heap c)) c
    | None => c
    end
  else set_mLowerData (seti (mLowerData c) a (u8 v)) c.

(** An address that exists on this part. *)
Definition slot (c : em8051) (a : Z) : Prop :=
  0 <= a < 256 /\ (a < 128 \/ mUpperData c <> None).

Lemma upper_buffer_length c b :
  wf c -> mUpperData c = Some b ->
  heap c !! b = Some (upper_buffer c) /\ 128 <= Z.of_nat (length (upper_buffer c)).
Proof.
  intros Hw Hb. pose proof (wf_upper_ptr _ (wf_cpu_memory _ Hw)) as Hp. rewrite Hb in Hp.
  destruct Hp as (buf & Hbuf & Hl). unfold upper_buffer. rewrite Hb, Hbuf. done.
Qed.

Lemma poke_pointer c a v : mUpperData (poke c a v) = mUpperData c.
Proof. unfold poke. case_if; [|done]. by case_match. Qed.

Lemma upper_buffer_poke c a v :
  wf c -> 127 < a < 256 -> mUpperData c <> None ->
  upper_buffer (poke c a v) = seti (upper_buffer c) (a - 0x80) (u8 v).
Proof.
  intros Hw Ha Hu. unfold poke. destruct (Z.ltb_spec 0x7f a); [|lia].
  destruct (mUpperData c) as [b|] eqn:E; [|done].
  destruct (upper_buffer_length c b Hw E) as [Hb Hl].
  unfold upper_buffer at 1. cbn -[seti]. rewrite E, list_lookup_insert_eq; [done|].
  by eapply lookup_lt_Some.
Qed.

Lemma peek_poke_eq c a v : wf c -> slot c a -> peek (poke c a v) a = u8 v.
Proof.
  intros Hw [Ha Hs]. unfold peek. destruct (Z.ltb_spec 0x7f a).
  - destruct Hs as [?|Hu]; [lia|]. rewrite upper_buffer_poke by (done || lia).
    destruct (mUpperData c) as [b|] eqn:E; [|done].
    destruct (upper_buffer_length c b Hw E). apply geti_seti_eq. lia.
  - unfold poke. destruct (Z.ltb_spec 0x7f a); [lia|]. apply geti_seti_eq.
    rewrite (wf_lower_length _ (wf_cpu_memory _ Hw)). lia.
Qed.

Lemma peek_poke_ne c a b v :
  wf c -> slot c a -> 0 <= b < 256 -> a <> b -> peek (poke c a v) b = peek c b.
Proof.
  intros Hw [Ha Hs] Hb Hne. unfold peek. destruct (Z.ltb_spec 0x7f b).
  - destruct (Z.ltb_spec 0x7f a).
    + destruct Hs as [?|Hu]; [lia|]. rewrite upper_buffer_poke by (done || lia).
      apply geti_seti_ne; lia.
    + f_equal. unfold poke. by destruct (Z.ltb_spec 0x7f a); [lia|].
  - unfold poke. destruct (Z.ltb_spec 0x7f a).
    + by case_match.
    + apply geti_seti_ne; lia.
Qed.

Lemma wf_poke c a v : wf c -> slot c a -> wf (poke c a v).
Proof.
  intros Hw [Ha Hs]. unfold poke. destruct (Z.ltb_spec 0x7f a).
  - destruct (mUpperData c) as [b|] eqn:E; [|done].
    destruct (upper_buffer_length c b Hw E) as [Hb Hl].
    eapply wf_set_heap_insert; [done..|apply length_seti|].
    apply Forall_seti; [|apply u8_byte]. eapply (Forall_lookup_1 (Forall byte)); [apply Hw|done].
  - pose proof (wf_cpu_memory _ Hw) as []. apply wf_set_mLowerData; [done|by rewrite length_seti|].
    apply Forall_seti; [done|apply u8_byte].
Qed.

(** A poke touches nothing but the memory. *)
Lemma poke_frame c a v :
  mSFR (poke c a v) = mSFR c /\ cpu_exec (poke c a v) = cpu_exec c /\
  cpu_irq (poke c a v) = cpu_irq c /\ cpu_hooks (poke c a v) = cpu_hooks c.
Proof. unfold poke. case_if; [case_match|]; done. Qed.

Lemma sfr_poke c a v i : sfr (poke c a v) i = sfr c i.
Proof. unfold sfr. by destruct (poke_frame c a v) as (-> & _). Qed.

Lemma slot_set_sfr c i v a : slot c a -> slot (set_sfr i v c) a.
Proof. done. Qed.

Section Stack.
Context {W : Type} {HostW : Host W}.

Lemma eff_lower_get i c : wf c -> 0 <= i < 128 -> eff (W := W) (lower_get i) c (geti (mLowerData c) i) c.
Proof.
  intros Hw Hi. unfold lower_get. apply eff_get, eff_in_range_end, aget_geti.
  rewrite (wf_lower_length _ (wf_cpu_memory _ Hw)). lia.
Qed.

Lemma eff_lower_set i v c :
  wf c -> 0 <= i < 128 -> eff (W := W) (lower_set i v) c () (set_mLowerData (seti (mLowerData c) i (u8 v)) c).
Proof.
  intros Hw Hi. unfold lower_set. apply eff_get. eapply eff_in_range.
  { apply aset_Some. rewrite (wf_lower_length _ (wf_cpu_memory _ Hw)). lia. }
  apply eff_modify.
Qed.

Lemma eff_read_indir a c : wf c -> slot c a -> eff (W := W) (read_mem_indir a) c (peek c a) c.
Proof.
  intros Hw [Ha Hs]. unfold read_mem_indir, peek. destruct (Z.ltb_spec 0x7f a).
  - apply eff_get. destruct (mUpperData c) as [b|] eqn:E; [|destruct Hs; [lia|done]].
    destruct (upper_buffer_length c b Hw E) as [Hb Hl]. unfold load. apply eff_get.
    eapply eff_in_range; [done|]. eapply eff_in_range; [done|]. apply eff_in_range_end, aget_geti. lia.
  - apply eff_lower_get; [done|lia].
Qed.

Lemma eff_write_indir a v c : wf c -> slot c a -> eff (W := W) (write_mem_indir a v) c () (poke c a v).
Proof.
  intros Hw [Ha Hs]. unfold write_mem_indir, poke. destruct (Z.ltb_spec 0x7f a).
  - apply eff_get. destruct (mUpperData c) as [b|] eqn:E; [|destruct Hs; [lia|done]].
    destruct (upper_buffer_length c b Hw E) as [Hb Hl]. unfold store. apply eff_get.
    eapply eff_in_range; [done|]. eapply eff_in_range; [done|].
    eapply eff_in_range; [apply aset_Some; lia|]. apply eff_modify.
  - apply eff_lower_set; [done|lia].
Qed.

(** Reading code memory changes nothing. *)
Lemma eff_CODEMEM x c : wf c -> exists v, byte v /\ eff (W := W) (CODEMEM x) c v c.
Proof.
  intros Hw. pose proof (wf_cpu_memory _ Hw) as [].
  destruct (mCodeMem c) as [b|] eqn:Eb; [|done]. destruct wf_code_ptr as (buf & Hb & Hl).
  pose proof (land_le x (mCodeMemMaxIdx c) ltac:(apply wf_code_idx)).
  exists (geti buf (Z.land x (mCodeMemMaxIdx c))). split.
  - apply Forall_geti; [|lia]. by eapply (Forall_lookup_1 (Forall byte)).
  - unfold CODEMEM. apply eff_get. rewrite Eb. unfold load. apply eff_get.
    eapply eff_in_range; [done|]. eapply eff_in_range; [done|]. apply eff_in_range_end, aget_geti. lia.
Qed.

Lemma eff_operand n c : wf c -> exists v, byte v /\ eff (emu_cpu_operand n) c v c.
Proof.
  intros Hw. destruct (eff_CODEMEM (mPC c + n) c Hw) as (v & Hv & E). exists v. split; [done|].
  unfold emu_cpu_operand. eff_step. eapply eff_bind; [done|].
  eapply eff_bind; [apply eff_when_quiet, eff_raw|]. apply eff_ret.
Qed.

(** The address in the selected R0 or R1. *)
Lemma eff_INDIR_RX c : wf c -> exists a, byte a /\ eff (W := W) INDIR_RX_ADDRESS c a c.
Proof.
  intros Hw. destruct (eff_CODEMEM (mPC c + 0) c Hw) as (o & Ho & E).
  pose proof (PSW_BANK_range c Hw). pose proof (land_le o 1 ltac:(lia)).
  exists (geti (mLowerData c) (Z.land o 1 + 8 * PSW_BANK c)). split.
  - pose proof (wf_cpu_memory _ Hw) as []. apply Forall_geti; [done|lia].
  - unfold INDIR_RX_ADDRESS, OPCODE. apply eff_assoc, eff_get. eapply eff_bind; [exact E|].
    apply eff_get, eff_lower_get; [done|lia].
Qed.

(** The stack has room for [n] more bytes. *)
Definition room (c : em8051) (n : Z) : Prop :=
  sfr c REG_SP + n < 256 /\ slot c (sfr c REG_SP + n).

(** The CPU after a push and after a pop. *)
Definition pushed (v : Z) (c : em8051) : em8051 :=
  poke (set_sfr REG_SP (sfr c REG_SP + 1) c) (sfr c REG_SP + 1) v.
Definition popped (c : em8051) : em8051 := set_sfr REG_SP (sfr c REG_SP - 1) c.

Lemma sp_byte c : wf c -> 0 <= sfr c REG_SP < 256.
Proof. intros Hw. by apply sfr_byte. Qed.

Lemma sp_pushed v c : wf c -> room c 1 -> sfr (pushed v c) REG_SP = sfr c REG_SP + 1.
Proof.
  intros Hw [Hr _]. pose proof (sp_byte c Hw). unfold pushed. rewrite sfr_poke.
  rewrite sfr_set_sfr_eq by done. apply u8_id. unfold byte. lia.
Qed.

Lemma sfr_pushed v c i : 0 <= i -> i <> REG_SP -> sfr (pushed v c) i = sfr c i.
Proof. intros. unfold pushed. rewrite sfr_poke. by apply sfr_set_sfr_ne. Qed.

Lemma upper_pushed v c : mUpperData (pushed v c) = mUpperData c.
Proof. unfold pushed. by rewrite poke_pointer. Qed.

Lemma wf_pushed v c : wf c -> room c 1 -> wf (pushed v c).
Proof. intros Hw [_ Hs]. apply wf_poke; [by apply wf_set_sfr|done]. Qed.

Lemma pc_pushed v c : mPC (pushed v c) = mPC c.
Proof. unfold pushed. by destruct (poke_frame (set_sfr REG_SP (sfr c REG_SP + 1) c) (sfr c REG_SP + 1) v) as (_ & -> & _). Qed.
Lemma hooks_pushed v c : cpu_hooks (pushed v c) = cpu_hooks c.
Proof. unfold pushed. by destruct (poke_frame (set_sfr REG_SP (sfr c REG_SP + 1) c) (sfr c REG_SP + 1) v) as (_ & _ & _ & ->). Qed.

Lemma irq_pushed v c : cpu_irq (pushed v c) = cpu_irq c.
Proof. unfold pushed. by destruct (poke_frame (set_sfr REG_SP (sfr c REG_SP + 1) c) (sfr c REG_SP + 1) v) as (_ & _ & -> & _). Qed.

Lemma eff_push v c : wf c -> room c 1 -> eff (push_to_stack v) c true (pushed v c).
Proof.
  intros Hw [Hr [Ha Hs]]. pose proof (sp_byte c Hw). unfold push_to_stack. do 2 eff_step.
  set (c1 := set_sfr REG_SP _ c). assert (wf c1) as Hw1 by by apply wf_set_sfr.
  assert (sfr c1 REG_SP = sfr c REG_SP + 1) as E1.
  { unfold c1. rewrite sfr_set_sfr_eq by done. apply u8_id. unfold byte. lia. }
  rewrite !E1.
  assert ((0x7f <? sfr c REG_SP + 1) && match mUpperData c1 with Some _ => false | None => true end = false) as ->.
  { change (mUpperData c1) with (mUpperData c). destruct (mUpperData c); [apply andb_false_r|].
    destruct Hs; [lia|done]. }
  eapply eff_bind; [by apply eff_write_indir|]. eff_step. rewrite sfr_poke, E1.
  destruct (Z.eqb_spec (sfr c REG_SP + 1) 0); [lia|]. apply eff_ret.
Qed.

Lemma eff_pop c :
  wf c -> 0 < sfr c REG_SP -> slot c (sfr c REG_SP) ->
  eff pop_from_stack c (Some (peek c (sfr c REG_SP))) (popped c).
Proof.
  intros Hw Hp [Ha Hs]. unfold pop_from_stack. eff_step.
  assert ((0x7f <? sfr c REG_SP) && match mUpperData c with Some _ => false | None => true end = false) as ->.
  { destruct (mUpperData c); [apply andb_false_r|]. destruct Hs; [lia|done]. }
  eapply eff_bind; [by apply eff_read_indir|]. do 2 eff_step.
  rewrite sfr_set_sfr_eq by done. rewrite u8_id by (unfold byte; lia).
  destruct (Z.eqb_spec (sfr c REG_SP - 1) 0xff); [lia|]. apply eff_ret.
Qed.

Lemma peek_pushed v c : wf c -> room c 1 -> peek (pushed v c) (sfr c REG_SP + 1) = u8 v.
Proof. intros Hw [_ Hs]. apply peek_poke_eq; [by apply wf_set_sfr|done]. Qed.

Lemma peek_pushed_below v c a :
  wf c -> room c 1 -> 0 <= a <= sfr c REG_SP -> peek (pushed v c) a = peek c a.
Proof.
  intros Hw [Hr Hs] Ha. unfold pushed. rewrite peek_poke_ne; [done|by apply wf_set_sfr|done|lia|lia].
Qed.

Lemma room_pushed v c : wf c -> room c 2 -> room (pushed v c) 1.
Proof.
  intros Hw [Hr [Ha Hs]]. pose proof (sp_byte c Hw).
  assert (room c 1) as Hr1 by (split; [lia|split; [lia|destruct Hs; [left; lia|by right]]]).
  unfold room, slot. rewrite sp_pushed by done.
  unfold pushed. rewrite poke_pointer. cbn. destruct Hs; split_and!; lia || by right || (left; lia).
Qed.

Lemma room_less c : wf c -> room c 2 -> room c 1.
Proof.
  intros Hw [Hr [Ha Hs]]. pose proof (sp_byte c Hw).
  split; [lia|]. split; [lia|]. destruct Hs; [left; lia|by right].
Qed.

Lemma wf_pushed2 hi lo c : wf c -> room c 2 -> wf (pushed hi (pushed lo c)).
Proof.
  intros Hw Hr. pose proof (room_less c Hw Hr). apply wf_pushed; [by apply wf_pushed|by apply room_pushed].
Qed.

(** Two bytes on top of the stack whose pointer was [sp]. *)
Record stacked (c : em8051) (sp hi lo : Z) : Prop := {
  sk_sp : sfr c REG_SP = sp + 2;
  sk_top : slot c (sp + 2);
  sk_below : slot c (sp + 1);
  sk_hi : peek c (sp + 2) = hi;
  sk_lo : peek c (sp + 1) = lo
}.

Lemma stacked_pushed c hi lo :
  wf c -> room c 2 -> stacked (pushed hi (pushed lo c)) (sfr c REG_SP) (u8 hi) (u8 lo).
Proof.
  intros Hw Hr. pose proof (room_less c Hw Hr) as Hr1. pose proof (sp_byte c Hw).
  assert (wf (pushed lo c)) as Hw1 by by apply wf_pushed.
  assert (room (pushed lo c) 1) as Hr2 by by apply room_pushed.
  pose proof (sp_pushed lo c Hw Hr1) as E1. pose proof (sp_pushed hi _ Hw1 Hr2) as E2.
  replace (sfr c REG_SP + 2) with (sfr (pushed lo c) REG_SP + 1) in * by lia.
  destruct Hr as [Hfit [Ha Hs]]. constructor.
  - lia.
  - split; [lia|]. rewrite !upper_pushed. destruct Hs; [left; lia|by right].
  - split; [lia|]. rewrite !upper_pushed. destruct Hs; [left; lia|by right].
  - replace (sfr c REG_SP + 2) with (sfr (pushed lo c) REG_SP + 1) by lia. by apply peek_pushed.
  - rewrite peek_pushed_below by (done || lia). by apply peek_pushed.
Qed.

Lemma stacked_same c c' sp hi lo :
  stacked c sp hi lo -> sfr c' REG_SP = sfr c REG_SP -> mLowerData c' = mLowerData c ->
  heap c' = heap c -> mUpperData c' = mUpperData c -> stacked c' sp hi lo.
Proof.
  intros [] E1 E2 E3 E4.
  assert (forall a, peek c' a = peek c a) as Hp by (intros; unfold peek, upper_buffer; by rewrite E2, E3, E4).
  constructor; unfold slot in *; rewrite ?Hp, ?E1, ?E4; done.
Qed.

Lemma eff_pop2 c sp hi lo :
  wf c -> 0 <= sp -> stacked c sp hi lo ->
  eff pop_from_stack c (Some hi) (popped c) /\
  eff pop_from_stack (popped c) (Some lo) (popped (popped c)) /\
  sfr (popped (popped c)) REG_SP = sp.
Proof.
  intros Hw Hsp [E1 H1 H2 <- <-]. pose proof (sp_byte c Hw).
  assert (wf (popped c)) as Hw1 by by apply wf_set_sfr.
  assert (sfr (popped c) REG_SP = sp + 1) as E2.
  { unfold popped. rewrite sfr_set_sfr_eq, E1 by done. rewrite u8_id; [lia|unfold byte; lia]. }
  split_and!.
  - rewrite <- E1. apply eff_pop; [done|lia|by rewrite E1].
  - change (peek c (sp + 1)) with (peek (popped c) (sp + 1)). rewrite <- E2.
    apply eff_pop; [done|lia|by rewrite E2].
  - unfold popped at 1. rewrite sfr_set_sfr_eq, E2 by done. rewrite u8_id; [lia|unfold byte; lia].
Qed.

End Stack.
