(* ===== verification/ExecProps.v ===== *)
(** Properties of execution: safety of the tick, the machine cycle, dispatch,
    run control and reset. *)
From S2P Require Import Prelude State Machine Ports Uart Adc Irq Sfr Memory Opcodes Dispatch.
From S2P Require Import Wf Logic Timers PeriphSafe InstrSafe Interrupts Cpu CpuSafe Hooks Run Reset ResetSafe.
From S2P Require Import Concrete.

(** The CPU of the examples: MOV A,#5; ADD A,#3; LCALL 0009; SJMP $; RET at 9. *)
Definition demo : em8051 :=
  boot EM8051_VARIANT_SAB80535 [0x74; 0x05; 0x24; 0x03; 0x12; 0x00; 0x09; 0x80; 0xfe; 0x22].

Lemma demo_wf : wf demo.
Proof. solve_wf. Qed.

(** The table op_setptrs builds lists the cases of the switch. *)
Lemma table_is_switch opcode : byte opcode -> aget op_table opcode = Some (do_op_switch opcode).
Proof.
  intros Ho. assert (op_table = do_op_switch <$> seqZ 0 256) as -> by by vm_compute.
  unfold aget, byte in *. destruct (Z.leb_spec 0 opcode); [|lia].
  rewrite list_lookup_fmap, (proj2 (lookup_seqZ _ _ _ opcode)) by lia. done.
Qed.

Section ExecProps.
Context {W : Type} {HostW : Host W} {HostOkW : HostOk W}.

(** C1: a tick is safe. From every well-formed CPU, with callbacks that keep
    their contract, [tick] runs to completion: it never dereferences NULL,
    never indexes outside an array and never loops for ever; and the CPU it
    leaves is well formed again. *)
Theorem tick_safe (s : machine W) :
  wf (cpu s) -> exists b s', tick s = Done b s' /\ wf (cpu s').
Proof.
  intros Hw. destruct (ok_tick s Hw) as (b & s' & E & Hw' & _). by exists b, s'.
Qed.

(** In power-down nothing happens. *)
Lemma tick_power_down s :
  mTickDelay (cpu s) = 0 -> has (sfr (cpu s) REG_PCON) 2 = true -> tick (W := W) s = Done false s.
Proof.
  intros Hd Hp. unfold tick, bind at 1, em8051_execution_aborted. destruct (execution_aborted s); [done|].
  by rewrite exec_get, Hd, Hp.
Qed.

(** C2: bounded run control terminates and reports correctly. It assumes of
    the embedder that its abort predicate reads its own state
    ([abort_from_world]), that its callbacks leave the installed predicate alone
    ([callbacks_keep_abort]), and that an observer which refuses a context makes
    the predicate true ([refusals_abort]), as the observer of the facade does.
    Fuel for [5 * limit + 6] iterations of the run loop is enough: each drains
    the pending cycles, however many ticks that takes, and then starts an
    instruction or enters one of at most four vectors. [run_control] then
    returns; the reported reason is the first in the code's order of precedence
    whose condition holds in the final state ([justified], which does not
    mention the loop's tests); the instruction budget is not exceeded; counts,
    PC and exception code are those of the final state; and unless the run was
    aborted no machine cycle of an instruction is pending. *)
Theorem run_control_correct fuel aHasTarget aTargetPC aMaxInstructions (s : machine W) :
  callbacks_keep_abort (W := W) -> refusals_abort (W := W) (abort_hook (cpu s)) ->
  abort_from_world (W := W) -> wf (cpu s) ->
  0 <= aMaxInstructions < 18446744073709551616 ->
  5 * aMaxInstructions + 6 <= Z.of_nat fuel ->
  exists r s', run_control fuel aHasTarget aTargetPC aMaxInstructions s = Done r s' /\ wf (cpu s') /\
    justified aHasTarget aTargetPC aMaxInstructions (mInstructionCount (cpu s)) (rr_reason r) s' /\
    rr_instructions r = u64 (mInstructionCount (cpu s') - mInstructionCount (cpu s)) /\
    rr_instructions r <= aMaxInstructions /\
    rr_machine_cycles r = u64 (mMachineCycleCount (cpu s') - mMachineCycleCount (cpu s)) /\
    rr_pc r = mPC (cpu s') /\
    rr_exception_code r = (if mExceptionRaised (cpu s') then mLastException (cpu s') else -1) /\
    (mTickDelay (cpu s') = 0 \/ rr_reason r = EM8051_STOP_ABORTED).
Proof.
  intros Hkeep Href Hab Hw Hmax Hf. unfold run_control. rewrite exec_get. cbv zeta. rewrite !exec_modify.
  set (s1 := mk_machine _ _). assert (wf (cpu s1)) as Hw1 by (cbn [cpu s1]; eauto with emu).
  assert (u64 (mInstructionCount (cpu s1) - mInstructionCount (cpu s)) = 0) as H0
    by (change (mInstructionCount (cpu s1)) with (mInstructionCount (cpu s)); by rewrite Z.sub_diag).
  pose proof (entries_range _ Hw1).
  destruct (ok_run_loop aHasTarget aTargetPC aMaxInstructions (mInstructionCount (cpu s)) Hmax
    (abort_hook (cpu s)) Hkeep Href Hab fuel s1 Hw1) as (r & s2 & E & Hw2 & _ & Hstop & Hle & Hd).
  { lia. }
  { done. }
  { split; [lia|]. right; right. lia. }
  rewrite (exec_bind _ _ _ _ _ E). eexists _, s2. rewrite exec_get. split; [reflexivity|].
  by split_and!.
Qed.

(** C8: the counters of a tick. From every well-formed CPU and for every host
    that keeps the callback contract, [tick] reports [true] exactly when it counted one more instruction (a tick
    that reports [false] leaves the count alone), and it is at most one machine
    cycle. For a host that never aborts it is exactly one machine cycle, except
    in power-down with no cycle pending, where it does nothing at all. *)
Theorem tick_counts (s : machine W) :
  wf (cpu s) ->
  exists b s', tick s = Done b s' /\
    mInstructionCount (cpu s') =
      (if b then u64 (mInstructionCount (cpu s) + 1) else mInstructionCount (cpu s)) /\
    (mMachineCycleCount (cpu s') = mMachineCycleCount (cpu s) \/
     mMachineCycleCount (cpu s') = u64 (mMachineCycleCount (cpu s) + 1)) /\
    (never_aborts (W := W) ->
     mTickDelay (cpu s) <> 0 \/ has (sfr (cpu s) REG_PCON) 2 = false ->
     mMachineCycleCount (cpu s') = u64 (mMachineCycleCount (cpu s) + 1)) /\
    (mTickDelay (cpu s) = 0 -> has (sfr (cpu s) REG_PCON) 2 = true -> b = false /\ s' = s).
Proof.
  intros Hw. destruct (ok_tick s Hw) as (b & s' & E & _ & _ & []). exists b, s'.
  split_and!; [done..|]. intros Hd Hp. by rewrite (tick_power_down s Hd Hp) in E; injection E as <- <-.
Qed.

(** C28: the end of a machine cycle is invisible to the program except through
    peripheral registers: it leaves memories, program counter, pending delay,
    instruction count, interrupt nesting and the core registers (ACC, B, PSW,
    SP, DPTR, PCON, TMOD and the interrupt enables and priorities) alone. *)
Theorem machine_cycle_frame (s : machine W) :
  wf (cpu s) -> exists s', advance_machine_cycle s = Done () s' /\ wf (cpu s') /\
    cycle (cpu s) (cpu s').
Proof.
  intros Hw. destruct (ok_advance s Hw) as ([] & s' & E & Hw' & Hc & _). by exists s'.
Qed.

(** C14: every instruction other than RETI leaves interrupt nesting alone (the
    in-service stack, its mask and the classic active level), the counters and
    the variant, and never clears a raised exception; in particular RET is not
    a return from interrupt. *)
Theorem only_reti_changes_nesting h (s : machine W) :
  h <> H_reti -> wf (cpu s) ->
  exists d s', call_handler h s = Done d s' /\ wf (cpu s') /\
    irq_stack (cpu s') = irq_stack (cpu s) /\ step (cpu s) (cpu s').
Proof.
  intros Hh Hw. destruct (safe_call_handler h Hh s Hw) as (d & s' & E & Hw' & [Hst Hk] & _).
  by exists d, s'.
Qed.

(** C20: the two dispatchers agree. On every well-formed CPU, [do_op], the
    switch over the opcode, does what calling the entry of the table that
    op_setptrs built does. *)
Theorem do_op_matches_table (s : machine W) :
  wf (cpu s) -> do_op s = (opcode ← OPCODE; call_op opcode) s.
Proof.
  intros Hw. unfold do_op.
  destruct (safe_OPCODE s Hw) as (opcode & s1 & E & Hw1 & _ & Ho).
  rewrite !(exec_bind _ _ _ _ _ E). unfold call_op. rewrite exec_get, (wf_op _ (wf_cpu_exec _ Hw1)).
  rewrite table_is_switch by done. rewrite exec_some.
  destruct (op_table_total opcode Ho) as [h Hh]. rewrite table_is_switch in Hh by done.
  by injection Hh as ->.
Qed.

(** C21: reset establishes the invariant. From any allocated struct (arrays of
    the declared sizes, valid pointers, code memory present; registers,
    counters and peripherals arbitrary) reset completes and leaves a well-formed
    CPU with the code's boot values. A warm reset keeps the internal and external
    memories. A cold reset sets the power-off flag, clears code and external
    memory (unless their buffer is the one of upper RAM), and, with a configured
    seed, fills lower RAM, upper RAM (when the CPU has it) and SBUF with
    consecutive bytes of the generator started at that seed; without a seed RAM
    is zero and SBUF is what rand() returned. PCON after a warm reset is not part
    of the claim: see [warm_reset_clears_power_off]. *)
Theorem reset_correct rand_value wipe (s : machine W) :
  allocated (cpu s) ->
  exists s', reset rand_value wipe s = Done () s' /\ was_reset rand_value wipe (cpu s) (cpu s').
Proof. apply reset_ok. Qed.

End ExecProps.

(** *** Instances *)

Lemma tick_safe_witness : exists b s', tick (start demo) = Done b s' /\ wf (cpu s').
Proof. exact (tick_safe (start demo) demo_wf). Defined.

(** The demo under the failing host, with a timer interrupt to enter and no
    context left: the observer refuses the entry. *)
Definition refused : machine guarded :=
  mk_machine (guard (set_sfr REG_TCON TCONMASK_TF0 (set_sfr REG_IE 0x82 demo))) (mk_guarded false 0).

Lemma run_control_correct_witness :
  (exists r s', run_control 31 true 9 5 (start demo) = Done r s' /\ rr_instructions r <= 5) /\
  (exists r s', run_control 31 true 9 5 refused = Done r s' /\ rr_reason r = EM8051_STOP_ABORTED).
Proof.
  split.
  - destruct (run_control_correct 31 true 9 5 (start demo)) as (r & s' & E & _ & _ & _ & Hle & _).
    + exact log_keeps_abort.
    + apply log_refusals_abort.
    + exact log_abort_from_world.
    + exact demo_wf.
    + lia.
    + lia.
    + exists r, s'. split; [exact E|exact Hle].
  - destruct (run_control_correct 31 true 9 5 refused) as (r & s' & E & _ & Hj & _).
    + exact guarded_keeps_abort.
    + apply guarded_refusals_abort. done.
    + exact guarded_abort_from_world.
    + solve_wf.
    + lia.
    + lia.
    + exists r, s'. split; [exact E|].
      assert (match run_control 31 true 9 5 refused with
              | Done r _ => rr_reason r = EM8051_STOP_ABORTED | _ => False end) as Hr
        by (vm_compute; reflexivity).
      rewrite E in Hr. exact Hr.
Defined.

Lemma tick_counts_witness :
  exists b s', tick (start demo) = Done b s' /\ mMachineCycleCount (cpu s') = 1.
Proof.
  destruct (tick_counts (start demo) demo_wf) as (b & s' & E & _ & _ & Hc & _).
  exists b, s'. split; [exact E|]. rewrite Hc.
  - reflexivity.
  - exact log_never_aborts.
  - right. reflexivity.
Defined.

Lemma machine_cycle_frame_witness :
  exists s', advance_machine_cycle (start demo) = Done () s' /\ mPC (cpu s') = mPC demo.
Proof.
  destruct (machine_cycle_frame (start demo) demo_wf) as (s' & E & _ & Hc).
  exists s'. split; [exact E|]. exact (cy_pc _ _ Hc).
Defined.

Lemma only_reti_changes_nesting_witness :
  exists d s', call_handler H_ret (start demo) = Done d s' /\ irq_stack (cpu s') = irq_stack demo.
Proof.
  destruct (only_reti_changes_nesting H_ret (start demo)) as (d & s' & E & _ & Hk & _).
  - discriminate.
  - exact demo_wf.
  - exists d, s'. split; [exact E|exact Hk].
Defined.

Lemma do_op_matches_table_witness :
  do_op (start demo) = (opcode ← OPCODE; call_op opcode) (start demo).
Proof. exact (do_op_matches_table (start demo) demo_wf). Defined.

Lemma zero_cpu_allocated : allocated zero_cpu.
Proof.
  constructor; try done; try (by vm_compute); try (split; [done|apply zeros_bytes]).
  - repeat (constructor; [apply zeros_bytes|]). constructor.
  - exists (zeros 128). by split.
  - exists (zeros 1024). by split.
Qed.

Lemma reset_correct_witness :
  exists s', reset 0 true (start zero_cpu) = Done () s' /\
    was_reset 0 true (cpu (start zero_cpu)) (cpu s').
Proof. exact (reset_correct 0 true (start zero_cpu) zero_cpu_allocated). Defined.
