(* ===== verification/StackProps.v ===== *)
(** Properties of the stack: push and pop, call and return. *)
From S2P Require Import Prelude State Machine Ports Uart Adc Irq Sfr Memory Opcodes Dispatch.
From S2P Require Import Wf Logic InstrSafe Timers Interrupts Cpu CpuSafe Reset Concrete Effect Stack.

Section StackProps.
Context {W : Type} {HostW : Host W}.

(** C23: a pop undoes a push. With room for one byte, in lower or upper internal
    memory, pushing [v] and popping returns the byte [v], restores the stack
    pointer and leaves everything at and below it as it was. *)
Theorem push_pop_roundtrip v (s : machine W) :
  wf (cpu s) -> room (cpu s) 1 ->
  exists s', (ok ← push_to_stack v; r ← pop_from_stack; mret (ok, r)) s = Done (true, Some (u8 v)) s' /\
    sfr (cpu s') REG_SP = sfr (cpu s) REG_SP /\
    forall a, 0 <= a <= sfr (cpu s) REG_SP -> peek (cpu s') a = peek (cpu s) a.
Proof.
  intros Hw Hr. set (c := cpu s) in *. pose proof (sp_byte c Hw).
  assert (eff (ok ← push_to_stack v; r ← pop_from_stack; mret (ok, r)) c (true, Some (u8 v))
    (popped (pushed v c))) as He.
  { eapply eff_bind; [by apply eff_push|]. pose proof (sp_pushed v c Hw Hr) as Esp.
    eapply eff_bind; [apply eff_pop; [by apply wf_pushed|lia|]|].
    - rewrite Esp. destruct Hr as [_ [Ha Hs]]. split; [done|]. by rewrite upper_pushed.
    - rewrite Esp, (peek_pushed v c Hw Hr). apply eff_ret. }
  destruct (eff_run _ s _ _ He) as (s' & E & Ec). exists s'. rewrite Ec. split_and!; [done| |].
  - unfold popped. rewrite sfr_set_sfr_eq by (by apply wf_pushed || done).
    rewrite sp_pushed by done. rewrite u8_id; [lia|unfold byte; lia].
  - intros a Ha. exact (peek_pushed_below v c a Hw Hr Ha).
Qed.

(** The CPU after LCALL: the return address stacked, low byte first. *)
Definition called (target : Z) (c : em8051) : em8051 :=
  set_mPC target (pushed (u8 (Z.shiftr (mPC c + 3) 8)) (pushed (Z.land (mPC c + 3) 0xff) c)).

Lemma eff_lcall c :
  wf c -> room c 2 -> mObservation c = 0 -> exists target, eff lcall_address c 1 (called target c).
Proof.
  intros Hw Hr Ho. pose proof (room_less c Hw Hr) as Hr1.
  set (lo := Z.land (mPC c + 3) 0xff). set (hi := u8 (Z.shiftr (mPC c + 3) 8)).
  assert (wf (pushed lo c)) as Hw1 by by apply wf_pushed.
  assert (room (pushed lo c) 1) as Hr2 by by apply room_pushed.
  assert (wf (pushed hi (pushed lo c))) as Hw2 by by apply wf_pushed.
  destruct (eff_operand 1 _ Hw2) as (h & Hh & E1). destruct (eff_operand 2 _ Hw2) as (l & Hl & E2).
  exists (u16 (Z.lor (Z.shiftl h 8) l)).
  unfold lcall_address, preflight_refused. do 2 eff_step. rewrite Ho. cbn [Z.eqb]. do 2 eff_step.
  eapply eff_bind; [by apply eff_push|]. cbn [negb]. eff_step. rewrite pc_pushed.
  eapply eff_bind; [by apply eff_push|]. cbn [negb].
  eapply eff_bind; [exact E1|]. eapply eff_bind; [exact E2|]. cbv zeta. eff_step.
  eapply eff_bind; [unfold raw_call; eff_step; apply eff_raw|]. unfold set_PC. eff_step. apply eff_ret.
Qed.

(** C22: RET returns behind its LCALL. With room for two bytes, an LCALL
    followed by the RET of its subroutine costs one extra cycle each, ends at
    the address after the three-byte call, and restores the stack pointer. *)
Theorem lcall_ret_roundtrip (s : machine W) :
  wf (cpu s) -> room (cpu s) 2 -> mObservation (cpu s) = 0 ->
  exists s', (d ← lcall_address; d' ← ret; mret (d, d')) s = Done (1, 1) s' /\
    mPC (cpu s') = u16 (mPC (cpu s) + 3) /\ sfr (cpu s') REG_SP = sfr (cpu s) REG_SP.
Proof.
  intros Hw Hr Ho. set (c := cpu s) in *. destruct (eff_lcall c Hw Hr Ho) as [target Hcall].
  set (lo := Z.land (mPC c + 3) 0xff) in *. set (hi := u8 (Z.shiftr (mPC c + 3) 8)) in *.
  assert (wf (called target c)) as Hwc by (apply wf_set_mPC; by apply wf_pushed2).
  assert (stacked (called target c) (sfr c REG_SP) (u8 hi) (u8 lo)) as Hst
    by (eapply stacked_same; [by apply stacked_pushed|done..]).
  destruct (eff_pop2 (W := W) _ _ _ _ Hwc (proj1 (sp_byte c Hw)) Hst) as (Hp1 & Hp2 & Esp).
  assert (eff (d ← lcall_address; d' ← ret; mret (d, d')) c (1, 1)
    (set_mPC (Z.lor (u16 (Z.shiftl (u8 hi) 8)) (u8 lo)) (popped (popped (called target c))))) as He.
  { eapply eff_bind; [exact Hcall|]. unfold ret, raw_return, set_PC. eff_auto.
    eapply eff_bind; [exact Hp1|]. eff_auto. eapply eff_bind; [exact Hp2|]. eff_auto. }
  destruct (eff_run _ s _ _ He) as (s' & E & Ec). exists s'. rewrite Ec. split_and!; [done| |done].
  change (u16 (Z.lor (u16 (Z.shiftl (u8 hi) 8)) (u8 lo)) = u16 (mPC c + 3)).
  unfold hi. rewrite u8_u8. unfold lo. pose proof (wf_pc _ (wf_cpu_exec _ Hw)) as Hpc. unfold word in Hpc.
  rewrite u16_bytes by lia. apply u16_id, u16_word.
Qed.

End StackProps.

(** *** Instances *)

Definition stack_demo : em8051 := boot EM8051_VARIANT_8052 [0x12; 0x01; 0x23].

Lemma stack_demo_wf : wf stack_demo.
Proof. solve_wf. Qed.
Lemma stack_demo_room n : 1 <= n <= 2 -> room stack_demo n.
Proof.
  intros Hn. unfold room, slot. assert (sfr stack_demo REG_SP = 7) as -> by by vm_compute. lia.
Qed.

Lemma push_pop_roundtrip_witness :
  exists s', (ok ← push_to_stack 0x5a; r ← pop_from_stack; mret (ok, r)) (start stack_demo)
    = Done (true, Some 0x5a) s'.
Proof.
  destruct (push_pop_roundtrip 0x5a (start stack_demo)) as (s' & E & _).
  - exact stack_demo_wf.
  - exact (stack_demo_room 1 ltac:(lia)).
  - exists s'. exact E.
Defined.

Lemma lcall_ret_roundtrip_witness :
  exists s', (d ← lcall_address; d' ← ret; mret (d, d')) (start stack_demo) = Done (1, 1) s' /\
    mPC (cpu s') = 3.
Proof.
  destruct (lcall_ret_roundtrip (start stack_demo)) as (s' & E & Hpc & _).
  - exact stack_demo_wf.
  - exact (stack_demo_room 2 ltac:(lia)).
  - reflexivity.
  - exists s'. split; [exact E|]. rewrite Hpc. reflexivity.
Defined.
