(* ===== verification/IrqProps.v ===== *)
(** Properties of the Siemens interrupt controller: arbitration, vector entry,
    nesting, release by RETI, and the one-instruction inhibit. *)
From S2P Require Import Prelude State Machine Ports Uart Adc Irq Sfr Memory Opcodes Dispatch.
From S2P Require Import Wf Logic Timers PeriphSafe InstrSafe Interrupts Arbitration Cpu CpuSafe.
From S2P Require Import Reset Concrete Effect Stack.

(** ** Arbitration *)

(** C3: arbitration picks the winner the data book names. The loop of
    [handle_sab_interrupts] selects no source exactly when none is eligible;
    otherwise it selects the eligible source of highest priority, the earliest
    in the polling sequence among equals, and reports that priority. *)
Theorem arbitration_selects_winner c :
  let '(selected, priority) := sab_irq_select c in
  (selected = -1 /\ forall source, ~ eligible c source) \/
  (wins c selected /\ priority = sab_irq_priority c selected).
Proof. apply select_winner. Qed.

(** ** Nesting *)

Section IrqProps.
Context {W : Type} {HostW : Host W} {HostOkW : HostOk W}.

(** C13: interrupt handling keeps the in-service stack well formed. After
    [handle_interrupts] there are at most four entries, of distinct sources and
    strictly increasing priority, and the in-service mask is exactly the set of
    stacked sources. *)
Theorem entry_keeps_nesting (s : machine W) :
  wf (cpu s) -> exists b s', handle_interrupts s = Done b s' /\ wf_irq (cpu s').
Proof.
  intros Hw. destruct (ok_handle s Hw) as (b & s' & E & Hw' & _). exists b, s'. split; [done|apply Hw'].
Qed.

(** C16: while the inhibit counter is nonzero no vector is entered: program
    counter, stack pointer, memories, nesting and delay all stay. *)
Theorem inhibit_blocks_entry (s : machine W) :
  wf (cpu s) -> is_sab (cpu s) = true -> mSABIrqInhibitInstructions (cpu s) <> 0 ->
  exists s', handle_interrupts s = Done true s' /\ periph (cpu s) (cpu s').
Proof.
  intros Hw Hs Hi. unfold handle_interrupts. rewrite exec_get, Hs. unfold handle_sab_interrupts.
  destruct (safe_irq_sync s Hw) as ([] & s1 & E1 & Hw1 & Hp & _).
  rewrite (exec_bind _ _ _ _ _ E1), exec_get, (cy_inhibit _ _ (pf_cycle _ _ Hp)).
  destruct (Z.eqb_spec (mSABIrqInhibitInstructions (cpu s)) 0); [done|]. by exists s1.
Qed.

(** ** Vector entry *)

Lemma eff_push_pc c :
  wf c -> room c 2 ->
  eff push_pc c true (pushed (Z.shiftr (mPC c) 8) (pushed (Z.land (mPC c) 0xff) c)).
Proof.
  intros Hw Hr. pose proof (room_less c Hw Hr). unfold push_pc. eff_step.
  eapply eff_bind; [by apply eff_push|]. cbn [negb]. eff_step. rewrite pc_pushed.
  apply eff_push; [by apply wf_pushed|by apply room_pushed].
Qed.

(** The facts of an accepted interrupt, from the CPU [c] it interrupts. *)
Record accepted (source : Z) (c c' : em8051) : Prop := {
  ac_wf : wf c';
  ac_pc : mPC c' = geti gSABIrqVectors source;
  ac_delay : mTickDelay c' = 1;
  ac_depth : mSABIrqDepth c' = mSABIrqDepth c + 1;
  ac_source : geti (mSABIrqSourceStack c') (mSABIrqDepth c) = source;
  ac_in_service : mSABIrqInService c' = Z.lor (mSABIrqInService c) (SAB_IRQ_BIT source);
  ac_saved : geti (mSABIrqSavedACC c') (mSABIrqDepth c) = sfr c' REG_ACC /\
             geti (mSABIrqSavedPSW c') (mSABIrqDepth c) = sfr c' REG_PSW /\
             geti (mSABIrqSavedSP c') (mSABIrqDepth c) = sfr c' REG_SP;
  ac_stack : stacked c' (sfr c REG_SP) (u8 (Z.shiftr (mPC c) 8)) (u8 (Z.land (mPC c) 0xff))
}.

Lemma vector_word source : 0 <= source < 12 -> u16 (geti gSABIrqVectors source) = geti gSABIrqVectors source.
Proof.
  intros Hs. apply u16_id. unfold word.
  assert ((0 <=? geti gSABIrqVectors source) && (geti gSABIrqVectors source <? 65536) = true); [|lia].
  by apply (forall_range (fun s => (0 <=? geti gSABIrqVectors s) && (geti gSABIrqVectors s <? 65536)) 12).
Qed.

(** The facts hold right after [sab_irq_enter], and peripherals keep them. *)
Lemma accepted_enter source priority c c' :
  wf c -> room c 2 -> 0 <= source < 12 -> mSABIrqDepth c < 4 ->
  let c2 := pushed (Z.shiftr (mPC c) 8) (pushed (Z.land (mPC c) 0xff) c) in
  wf c' -> periph (sab_irq_enter source priority (mSABIrqDepth c) c2) c' -> accepted source c c'.
Proof.
  intros Hw Hr Hs Hd c2 Hw' [Hc _ _]. set (ce := sab_irq_enter source priority (mSABIrqDepth c) c2) in *.
  assert (cpu_irq c2 = cpu_irq c) as Ei by (unfold c2; by rewrite !irq_pushed).
  assert (wf c2) as Hw2 by by apply wf_pushed2.
  pose proof (wf_cpu_irq _ Hw) as Hi. pose proof (wf_depth _ Hi).
  pose proof (cy_core _ _ Hc REG_ACC ltac:(by repeat constructor)) as Ea.
  pose proof (cy_core _ _ Hc REG_PSW ltac:(by repeat constructor)) as Ep.
  pose proof (cy_core _ _ Hc REG_SP ltac:(by repeat constructor)) as Es.
  pose proof (cy_saved _ _ Hc) as Esv. injection Esv as E1 E2 E3.
  assert (forall i, 0 <= i -> i <> REG_PCON -> sfr ce i = sfr c2 i) as Hce
    by (intros; by apply (sfr_set_sfr_ne c2 REG_PCON)).
  assert (forall l x, length l = 4%nat -> geti (seti l (mSABIrqDepth c) x) (mSABIrqDepth c) = x) as Hg
    by (intros; apply geti_seti_eq; lia).
  constructor; [done|..].
  - rewrite (cy_pc _ _ Hc). by apply vector_word.
  - by rewrite (cy_delay _ _ Hc).
  - rewrite (cy_depth _ _ Hc). apply u8_id. unfold byte. lia.
  - rewrite (cy_sources _ _ Hc). change (geti (seti (mSABIrqSourceStack c2) (mSABIrqDepth c) (u8 source)) (mSABIrqDepth c) = source).
    rewrite Ei, Hg by apply Hi. apply u8_id. unfold byte. lia.
  - rewrite (cy_in_service _ _ Hc). change (u16 (Z.lor (mSABIrqInService c2) (SAB_IRQ_BIT source)) = Z.lor (mSABIrqInService c) (SAB_IRQ_BIT source)).
    rewrite Ei. apply u16_id, word_lor; [apply Hi|apply u16_word].
  - rewrite E1, E2, E3, Ea, Ep, Es, !Hce by done. split_and!.
    + change (geti (seti (mSABIrqSavedACC c2) (mSABIrqDepth c) (sfr (set_sfr REG_PCON (clr (sfr c2 REG_PCON) 1) c2) REG_ACC)) (mSABIrqDepth c) = sfr c2 REG_ACC).
      rewrite Ei, Hg by apply Hi. by apply sfr_set_sfr_ne.
    + change (geti (seti (mSABIrqSavedPSW c2) (mSABIrqDepth c) (sfr (set_sfr REG_PCON (clr (sfr c2 REG_PCON) 1) c2) REG_PSW)) (mSABIrqDepth c) = sfr c2 REG_PSW).
      rewrite Ei, Hg by apply Hi. by apply sfr_set_sfr_ne.
    + change (geti (seti (mSABIrqSavedSP c2) (mSABIrqDepth c) (sfr (set_sfr REG_PCON (clr (sfr c2 REG_PCON) 1) c2) REG_SP)) (mSABIrqDepth c) = sfr c2 REG_SP).
      rewrite Ei, Hg by apply Hi. by apply sfr_set_sfr_ne.
  - pose proof (cy_pointers _ _ Hc) as Eptr. injection Eptr as _ _ Eu.
    eapply stacked_same; [by apply stacked_pushed|rewrite Es; by apply Hce|apply (cy_lower _ _ Hc)|
      apply (cy_heap _ _ Hc)|done].
Qed.

Lemma enter_vector (s s1 : machine W) source :
  wf (cpu s) -> is_sab (cpu s) = true -> mObservation (cpu s) = 0 ->
  sab_irq_sync s = Done () s1 ->
  mSABIrqInhibitInstructions (cpu s) = 0 ->
  has (sfr (cpu s) (SAB_SFR_INDEX EM8051_SAB_SFR_IEN0)) IEMASK_EA = true ->
  mSABIrqDepth (cpu s) < 4 -> room (cpu s) 2 -> wins (cpu s1) source ->
  exists s', handle_interrupts s = Done true s' /\ accepted source (cpu s1) (cpu s').
Proof.
  intros Hw Hsab Ho Hsync Hinh Hea Hd Hr Hwin. unfold handle_interrupts.
  rewrite exec_get, Hsab. unfold handle_sab_interrupts.
  destruct (safe_irq_sync s Hw) as ([] & s1' & E1 & Hw1 & Hp & _).
  rewrite Hsync in E1. injection E1 as <-. pose proof (pf_cycle _ _ Hp) as Hc.
  rewrite (exec_bind _ _ _ _ _ Hsync), exec_get, (cy_inhibit _ _ Hc), Hinh. cbn [negb Z.eqb].
  rewrite (cy_core _ _ Hc) by (by repeat constructor). rewrite Hea. cbn [negb]. cbv zeta.
  destruct (safe_in_service_priority (W := W) (cpu s1) Hw1) as [p ->]. rewrite exec_ret.
  pose proof (select_winner (cpu s1)) as Hsel.
  destruct (sab_irq_select (cpu s1)) as [sel prio].
  destruct Hsel as [[_ Hnone]|[Hsw ->]]; [by destruct (Hnone source); apply Hwin|].
  rewrite (wins_unique _ _ _ Hsw Hwin) in *. clear Hsw sel. destruct Hwin as [[Hs Hsk] _].
  change EM8051_SAB_IRQ_SOURCE_COUNT with 12 in Hs.
  assert (mSABIrqDepth (cpu s1) = mSABIrqDepth (cpu s)) as Ed by apply Hc.
  destruct (Z.ltb_spec source 0); [lia|]. destruct (Z.leb_spec 4 (mSABIrqDepth (cpu s1))); [lia|].
  cbn [orb]. assert (mObservation (cpu s1) = 0) as Ho1 by (by rewrite (cy_hooks _ _ Hc)).
  rewrite (exec_bind _ _ _ 0 s1) by (unfold emu_cpu_raw; by rewrite Ho1).
  rewrite Ho1. cbn [negb Z.eqb andb].
  assert (room (cpu s1) 2) as Hr1.
  { destruct Hr as [Hfit [Ha Hsl]]. unfold room, slot.
    rewrite (cy_core _ _ Hc REG_SP) by (by repeat constructor).
    pose proof (cy_pointers _ _ Hc) as Eptr. injection Eptr as _ _ ->. done. }
  destruct (eff_run _ s1 _ _ (eff_push_pc (cpu s1) Hw1 Hr1)) as (s2 & E2 & Ec2).
  rewrite (exec_bind _ _ _ _ _ E2). cbn [negb].
  apply skipped_false in Hsk as (_ & _ & Hsv & Htop). rewrite has_testbit_irq in Hsv by done.
  assert (cpu_irq (cpu s2) = cpu_irq (cpu s1)) as Ei by (rewrite Ec2; by rewrite !irq_pushed).
  assert (wf (cpu s2)) as Hw2 by (rewrite Ec2; by apply wf_pushed2).
  assert (mSABIrqDepth (cpu s1) = mSABIrqDepth (cpu s2)) as Ed2 by (by rewrite Ei).
  rewrite Ed2.
  destruct (ok_sab_entry (cpu s2) s2 source (sab_irq_priority (cpu s1) source) mMachineCycleCount
    (mPC (cpu s1)) (sfr (cpu s1) REG_SP) (mSABIrqPending (cpu s1))) as (b & s' & E' & Hw' & _ & -> & Hp').
  - done.
  - reflexivity.
  - apply wf_irq_enter; rewrite ?Ei; [done|done|apply priority_range|lia|done|done].
  - exists s'. split; [exact E'|]. rewrite <- Ed2, Ec2 in Hp'. by eapply accepted_enter; [..|lia| |exact Hp'].
Qed.

(** C5: an accepted interrupt is entered correctly. When arbitration on the
    synchronised CPU has a winner, nothing inhibits entry, fewer than four
    levels are in service and the stack has room, [handle_interrupts] stacks
    the return address, jumps to the winner's vector with one delay cycle,
    pushes the winner on the in-service stack, sets exactly its in-service bit
    and saves ACC, PSW and SP for the check at RETI. *)
Theorem vector_entry (s s1 : machine W) source :
  wf (cpu s) -> is_sab (cpu s) = true -> mObservation (cpu s) = 0 ->
  sab_irq_sync s = Done () s1 ->
  mSABIrqInhibitInstructions (cpu s) = 0 ->
  has (sfr (cpu s) (SAB_SFR_INDEX EM8051_SAB_SFR_IEN0)) IEMASK_EA = true ->
  mSABIrqDepth (cpu s) < 4 -> room (cpu s) 2 -> wins (cpu s1) source ->
  exists s', handle_interrupts s = Done true s' /\ accepted source (cpu s1) (cpu s').
Proof. apply enter_vector. Qed.

(** ** RETI *)

Lemma in_service_cleared v top source :
  word v -> 0 <= top < 12 -> 0 <= source ->
  Z.testbit (u16 (Z.land v (u16 (Z.lnot (SAB_IRQ_BIT top))))) source =
  Z.testbit v source && negb (source =? top).
Proof.
  intros Hv Ht Hs. rewrite u16_id by (by apply word_land_l). rewrite Z.land_spec.
  destruct (Z.lt_ge_cases source 16).
  - by rewrite u16_lnot_testbit, testbit_irq_bit by lia.
  - by rewrite (testbit_high 16 v) by (unfold word in Hv; lia).
Qed.

(** The checks report whether an abort is requested when they end. *)
Lemma ok_iret_checks accs psws sps i osp (s : machine W) :
  present accs i -> present psws i -> present sps i -> wf (cpu s) ->
  ok instr (cpu s) (iret_checks accs psws sps i osp) (fun aborted s' => execution_aborted s' = aborted) s.
Proof.
  intros Ha Hp Hs Hw. unfold iret_checks. ok_step. eapply ok_in_range; [by apply aget_geti, Ha|].
  ok_step. { ok_auto. } apply ok_aborted_eq. intros b Hb. destruct b; [by apply ok_ret|].
  ok_step. eapply ok_in_range; [by apply aget_geti, Hs|].
  ok_step. { ok_auto. } apply ok_aborted_eq. clear Hb. intros b Hb. destruct b; [by apply ok_ret|].
  ok_step. eapply ok_in_range; [by apply aget_geti, Hp|]. ok_step; [|by ok_auto]. ok_step; [eauto with emu|].
  unfold em8051_execution_aborted. eexists _, _. split; [reflexivity|]. by split_and!.
Qed.

(** The top of the in-service stack, and the CPU without it. *)
Definition irq_top (l : list Z) (c : em8051) : Z := geti l (mSABIrqDepth c - 1).
Definition released (top : Z) (c : em8051) : em8051 :=
  set_mSABIrqInService (Z.land (mSABIrqInService c) (u16 (Z.lnot (SAB_IRQ_BIT top))))
    (set_mSABIrqDepth (mSABIrqDepth c - 1) c).

(** RETI once its checks have passed or only raised exceptions. *)
Lemma reti_after_checks osp (s s1 : machine W) :
  wf (cpu s) -> is_sab (cpu s) = true -> 0 < mSABIrqDepth (cpu s) ->
  iret_checks mSABIrqSavedACC mSABIrqSavedPSW mSABIrqSavedSP (u8 (mSABIrqDepth (cpu s) - 1)) osp s =
    Done false s1 ->
  wf (cpu s1) -> irq_stack (cpu s1) = irq_stack (cpu s) ->
  exists s4, em8051_sab_irq_reti osp s =
      Done () (mk_machine (sab_irq_arm_inhibit (cpu s4)) (world s4)) /\
    wf (cpu s4) /\ cycle (released (irq_top (mSABIrqSourceStack (cpu s)) (cpu s)) (cpu s1)) (cpu s4).
Proof.
  unfold irq_top. intros Hw Hsab Hd E1 Hw1 Hk. pose proof (wf_cpu_irq _ Hw) as Hi.
  pose proof (wf_depth _ Hi) as Hd4. unfold em8051_sab_irq_reti. rewrite exec_get, Hsab. cbn [negb]. cbv zeta.
  destruct (Z.eqb_spec (mSABIrqDepth (cpu s)) 0) as [|_]; [lia|].
  do 2 (erewrite exec_bind; [|unfold in_range; rewrite stack_aget by (apply Hi || lia); reflexivity]).
  set (top := geti (mSABIrqSourceStack (cpu s)) (mSABIrqDepth (cpu s) - 1)).
  rewrite (exec_bind _ _ _ _ _ E1). unfold irq_stack in Hk. injection Hk as Ed Es _ _ _.
  rewrite !exec_modify. rewrite u8_id by (unfold byte; lia). rewrite <- Ed.
  change (set_mSABIrqInService _ _) with (released top (cpu s1)). set (s2 := mk_machine _ _).
  assert (wf (cpu s2)) as Hw2.
  { change (wf (released top (cpu s1))). unfold top. rewrite <- Ed, <- Es.
    refine (wf_irq_pop (cpu s1) Hw1 _). lia. }
  destruct (safe_irq_sync s2 Hw2) as ([] & s3 & E3 & Hw3 & Hp3 & _).
  rewrite (exec_bind _ _ _ _ _ E3), exec_get. rewrite Ed.
  destruct (safe_irq_trace periph EM8051_SAB_IRQ_TRACE_RELEASE top
    (geti (mSABIrqPriorityStack (cpu s)) (mSABIrqDepth (cpu s) - 1)) false (mSABIrqPending (cpu s3))
    s3 Hw3) as ([] & s4 & E4 & Hw4 & Hp4 & _).
  rewrite (exec_bind _ _ _ _ _ E4). exists s4. split_and!; [reflexivity|done|].
  etransitivity; [apply (pf_cycle _ _ Hp3)|apply (pf_cycle _ _ Hp4)].
Qed.

(** RETI when the embedder asked for an abort during the checks. *)
Lemma reti_stops osp (s s1 : machine W) :
  wf (cpu s) -> is_sab (cpu s) = true -> 0 < mSABIrqDepth (cpu s) ->
  iret_checks mSABIrqSavedACC mSABIrqSavedPSW mSABIrqSavedSP (mSABIrqDepth (cpu s) - 1) osp s =
    Done true s1 ->
  em8051_sab_irq_reti osp s = Done () s1.
Proof.
  intros Hw Hsab Hd E1. pose proof (wf_cpu_irq _ Hw) as Hi. pose proof (wf_depth _ Hi) as Hd4.
  unfold em8051_sab_irq_reti. rewrite exec_get, Hsab. cbn [negb]. cbv zeta.
  destruct (Z.eqb_spec (mSABIrqDepth (cpu s)) 0) as [|_]; [lia|].
  do 2 (erewrite exec_bind; [|unfold in_range; rewrite stack_aget by (apply Hi || lia); reflexivity]).
  rewrite u8_id by (unfold byte; lia). by rewrite (exec_bind _ _ _ _ _ E1).
Qed.

(** What a release does to nesting: one level fewer; the in-service bit of its
    source cleared, and no other; the rest of the stack kept; interrupt entry
    inhibited for the next instruction (2 while the RETI itself, which lowers
    the counter when it ends, is executing). *)
Record level_released (c c' : em8051) : Prop := {
  lr_depth : mSABIrqDepth c' = mSABIrqDepth c - 1;
  lr_in_service : forall source, 0 <= source ->
    Z.testbit (mSABIrqInService c') source =
    Z.testbit (mSABIrqInService c) source && negb (source =? irq_top (mSABIrqSourceStack c) c);
  lr_sources : mSABIrqSourceStack c' = mSABIrqSourceStack c;
  lr_priorities : mSABIrqPriorityStack c' = mSABIrqPriorityStack c;
  lr_inhibit : mSABIrqInhibitInstructions c' = (if mInInstruction c' then 2 else 1)
}.

Lemma level_released_after (s s1 s4 : machine W) :
  wf (cpu s) -> wf (cpu s1) -> 0 < mSABIrqDepth (cpu s) -> irq_stack (cpu s1) = irq_stack (cpu s) ->
  cycle (released (irq_top (mSABIrqSourceStack (cpu s)) (cpu s)) (cpu s1)) (cpu s4) ->
  level_released (cpu s) (sab_irq_arm_inhibit (cpu s4)).
Proof.
  intros Hw Hw1 Hd Hk Hc. pose proof (wf_cpu_irq _ Hw) as Hi. pose proof (wf_depth _ Hi).
  unfold irq_stack in Hk. injection Hk as Ed Es Ep Ev _.
  set (top := irq_top (mSABIrqSourceStack (cpu s)) (cpu s)) in *. constructor.
  - change (mSABIrqDepth (cpu s4) = mSABIrqDepth (cpu s) - 1). rewrite (cy_depth _ _ Hc), <- Ed.
    apply u8_id. unfold byte. lia.
  - intros source Hs. change (Z.testbit (mSABIrqInService (cpu s4)) source =
      Z.testbit (mSABIrqInService (cpu s)) source && negb (source =? top)).
    rewrite (cy_in_service _ _ Hc), <- Ev. apply in_service_cleared; [apply Hw1| |done].
    apply (wf_sources _ Hi). lia.
  - change (mSABIrqSourceStack (cpu s4) = mSABIrqSourceStack (cpu s)). by rewrite (cy_sources _ _ Hc).
  - change (mSABIrqPriorityStack (cpu s4) = mSABIrqPriorityStack (cpu s)). by rewrite (cy_priorities _ _ Hc).
  - unfold sab_irq_arm_inhibit. change (mInInstruction (set_mSABIrqInhibitInstructions _ ?c)) with (mInInstruction c).
    by destruct (mInInstruction (cpu s4)).
Qed.

(** C15: RETI releases exactly the innermost level, unless the embedder aborts
    the instruction during the saved-register checks. On a SAB80535 with a
    nonempty in-service stack the checks end without touching nesting. If the
    embedder then asks for an abort, as the facade does after any mismatch
    exception, RETI ends there: nothing is popped, cleared or inhibited by it.
    Otherwise, whether or not mismatches were reported, it pops one entry,
    clears the in-service bit of that entry's source and no other, keeps the
    rest of the stack, and inhibits interrupt entry for one instruction. For a
    host that never aborts the release always happens. *)
Theorem reti_releases_top osp (s : machine W) :
  wf (cpu s) -> is_sab (cpu s) = true -> 0 < mSABIrqDepth (cpu s) ->
  exists s1 s',
    iret_checks mSABIrqSavedACC mSABIrqSavedPSW mSABIrqSavedSP (mSABIrqDepth (cpu s) - 1) osp s =
      Done (execution_aborted s1) s1 /\
    irq_stack (cpu s1) = irq_stack (cpu s) /\
    em8051_sab_irq_reti osp s = Done () s' /\ wf (cpu s') /\
    (if execution_aborted s1 then s' = s1 else level_released (cpu s) (cpu s')) /\
    (never_aborts (W := W) -> level_released (cpu s) (cpu s')).
Proof.
  intros Hw Hsab Hd. pose proof (wf_cpu_irq _ Hw) as Hi. pose proof (wf_depth _ Hi) as Hd4.
  assert (u8 (mSABIrqDepth (cpu s) - 1) = mSABIrqDepth (cpu s) - 1) as Eu by (apply u8_id; unfold byte; lia).
  destruct (ok_iret_checks mSABIrqSavedACC mSABIrqSavedPSW mSABIrqSavedSP (mSABIrqDepth (cpu s) - 1) osp s)
    as (ab & s1 & E1 & Hw1 & [_ Hk] & Hab); [solve_present..|done|]. exists s1. rewrite Hab.
  destruct ab.
  - exists s1. split_and!; [done|done|by apply (reti_stops osp s s1)|done|done|].
    intros Hna. by rewrite never_aborted in Hab.
  - rewrite <- Eu in E1. destruct (reti_after_checks osp s s1) as (s4 & E4 & Hw4 & Hc); [done..|].
    rewrite Eu in E1. eexists. split_and!; [exact E1|done|exact E4|by apply wf_arm_inhibit|..].
    all: by try intros _; apply (level_released_after s s1 s4).
Qed.

(** Checks of a service routine that kept ACC, PSW and SP find no mismatch. *)
Lemma iret_checks_match accs psws sps i osp (s : machine W) :
  never_aborts (W := W) -> aget (accs (cpu s)) i = Some (sfr (cpu s) REG_ACC) ->
  aget (psws (cpu s)) i = Some (sfr (cpu s) REG_PSW) -> aget (sps (cpu s)) i = Some osp ->
  iret_checks accs psws sps i osp s = Done false s.
Proof.
  intros Hna Ea Ep Es. assert (em8051_execution_aborted s = Done false s) as Ena
    by (unfold em8051_execution_aborted; by rewrite never_aborted).
  unfold iret_checks. rewrite exec_get, Ea, exec_some, Z.eqb_refl. cbn [negb when].
  rewrite exec_ret, (exec_bind _ _ _ _ _ Ena), exec_get, Es, exec_some, Z.eqb_refl. cbn [negb when].
  rewrite exec_ret, (exec_bind _ _ _ _ _ Ena), exec_get, Ep, exec_some.
  by rewrite Z.eqb_refl.
Qed.

(** C4: a service routine that is just RETI resumes the interrupted program.
    From the state an accepted interrupt leaves, RETI returns to the
    interrupted address, restores the stack pointer, the nesting depth and the
    in-service mask, and raises no mismatch exception. *)
Theorem interrupt_reti_roundtrip source c (s : machine W) :
  never_aborts (W := W) -> wf c -> mSABIrqDepth c < 4 -> 0 <= source < 12 ->
  Z.testbit (mSABIrqInService c) source = false ->
  accepted source c (cpu s) -> is_sab (cpu s) = true ->
  exists s', reti s = Done 1 s' /\ mPC (cpu s') = mPC c /\ sfr (cpu s') REG_SP = sfr c REG_SP /\
    mSABIrqDepth (cpu s') = mSABIrqDepth c /\ mSABIrqInService (cpu s') = mSABIrqInService c /\
    mExceptionRaised (cpu s') = mExceptionRaised (cpu s).
Proof.
  intros Hna Hw Hd4 Hs Hnot [Hw' _ _ Hdep Hsrc Hins (Ha & Hp & Hsp) Hst] Hsab.
  pose proof (wf_depth _ (wf_cpu_irq _ Hw)) as Hd.
  destruct (eff_pop2 (W := W) _ _ _ _ Hw' (proj1 (sp_byte c Hw)) Hst) as (Hp1 & Hp2 & Esp).
  unfold reti. rewrite exec_gets.
  destruct (eff_run _ s _ _ Hp1) as (s1 & E1 & Ec1). rewrite (exec_bind _ _ _ _ _ E1).
  rewrite <- Ec1 in Hp2, Esp. destruct (eff_run _ s1 _ _ Hp2) as (s2 & E2 & Ec2).
  rewrite (exec_bind _ _ _ _ _ E2).
  assert (cpu s2 = popped (popped (cpu s))) as Ec by by rewrite Ec2, Ec1.
  assert (wf (cpu s2)) as Hw2 by (rewrite Ec; by do 2 apply wf_set_sfr).
  assert (forall i, 0 <= i -> i <> REG_SP -> sfr (cpu s2) i = sfr (cpu s) i) as Hsfr.
  { intros i Hi Hne. rewrite Ec. unfold popped. by rewrite !sfr_set_sfr_ne by done. }
  assert (cpu_irq (cpu s2) = cpu_irq (cpu s)) as Ei by by rewrite Ec.
  assert (irq_top (mSABIrqSourceStack (cpu s2)) (cpu s2) = source) as Etop
    by (unfold irq_top; rewrite Ei, Hdep; by replace (mSABIrqDepth c + 1 - 1) with (mSABIrqDepth c) by lia).
  destruct (reti_after_checks (sfr (cpu s) REG_SP) s2 s2) as (s3 & E3 & Hw3 & Hc3).
  - done.
  - by rewrite Ec.
  - rewrite Ei. lia.
  - apply iret_checks_match; [done|..];
      (rewrite stack_aget; [|by apply (wf_cpu_irq _ Hw2)|rewrite Ei; lia]); f_equal; rewrite Ei, Hdep;
      replace (mSABIrqDepth c + 1 - 1) with (mSABIrqDepth c) by lia; rewrite ?Hsfr by done; done.
  - done.
  - done.
  - rewrite Etop in Hc3. set (s4 := mk_machine _ _) in E3.
    assert (reti_release (sfr (cpu s) REG_SP) s2 = Done false s4) as E4.
    { unfold reti_release. rewrite exec_get. assert (is_sab (cpu s2) = true) as -> by by rewrite Ec.
      rewrite (exec_bind _ _ _ _ _ E3). unfold em8051_execution_aborted. by rewrite never_aborted. }
    rewrite (exec_bind _ _ _ _ _ E4).
    set (pc := Z.lor (u16 (Z.shiftl (u8 (Z.shiftr (mPC c) 8)) 8)) (u8 (Z.land (mPC c) 255))).
    assert (eff (set_PC pc ;; raw_return EMU_RAW_RETI ;; mret 1) (cpu s4) 1 (set_mPC pc (cpu s4))) as He.
    { unfold set_PC, raw_return. eff_auto. }
    destruct (eff_run _ s4 _ _ He) as (s5 & E5 & Ec5). exists s5. rewrite Ec5.
    split_and!; [exact E5|..].
    + change (u16 pc = mPC c). unfold pc. pose proof (wf_pc _ (wf_cpu_exec _ Hw)) as Hpc.
      rewrite u16_bytes by (unfold word in Hpc; lia). rewrite !u16_id; [done|done|apply u16_word].
    + change (sfr (cpu s3) REG_SP = sfr c REG_SP). rewrite (cy_core _ _ Hc3) by (by repeat constructor).
      change (sfr (cpu s2) REG_SP = sfr c REG_SP). by rewrite Ec2.
    + change (mSABIrqDepth (cpu s3) = mSABIrqDepth c). rewrite (cy_depth _ _ Hc3).
      change (u8 (mSABIrqDepth (cpu s2) - 1) = mSABIrqDepth c). rewrite Ei, u8_id by (unfold byte; lia). lia.
    + change (mSABIrqInService (cpu s3) = mSABIrqInService c). rewrite (cy_in_service _ _ Hc3).
      apply Z.bits_inj'. intros b Hb.
      assert (word (mSABIrqInService (cpu s2))) as Hword by apply Hw2.
      refine (eq_trans (in_service_cleared (mSABIrqInService (cpu s2)) source b Hword Hs Hb) _).
      rewrite Ei, Hins, Z.lor_spec, testbit_irq_bit by done.
      destruct (Z.eqb_spec b source) as [->|]; [by rewrite Hnot|]. by rewrite orb_false_r, andb_true_r.
    + change (mExceptionRaised (cpu s3) = mExceptionRaised (cpu s)). rewrite (cy_except _ _ Hc3).
      change (mExceptionRaised (cpu s2) = mExceptionRaised (cpu s)). by rewrite Ec.
Qed.

(** ** Inhibit *)

Lemma adc_finish_irq c :
  cpu_irq (sab_adc_finish_sfr_transaction c) = cpu_irq c /\
  cpu_exec (sab_adc_finish_sfr_transaction c) = cpu_exec c.
Proof.
  unfold sab_adc_finish_sfr_transaction, sab_adc_set_busy. cbv zeta.
  repeat case_if; try done; repeat case_match; done.
Qed.

(** C17: writing an interrupt enable or priority register inhibits interrupt
    entry for the next instruction: through the SFR gateway, IEN0, IEN1, IP0
    and IP1 arm the inhibit counter with 2 inside an instruction (whose own end
    counts it down once) and with 1 outside. *)
Theorem irq_control_write_inhibits aAddress aValue (s : machine W) :
  never_aborts (W := W) -> wf (cpu s) -> is_sab (cpu s) = true ->
  is_irq_control_sfr aAddress = true ->
  exists s', em8051_sfr_write aAddress aValue s = Done () s' /\ wf (cpu s') /\
    mSABIrqInhibitInstructions (cpu s') = (if mInInstruction (cpu s') then 2 else 1).
Proof.
  intros Hna Hw Hsab Ha.
  assert (ok instr (cpu s) (em8051_sfr_write aAddress aValue) (fun _ s' =>
    mSABIrqInhibitInstructions (cpu s') = (if mInInstruction (cpu s') then 2 else 1)) s)
    as ([] & s' & E & Hw' & _ & H); [|by exists s'].
  assert (128 <= aAddress < 256 /\ aAddress <> u8 (REG_SBUF + 0x80)) as [Hr Hne].
  { unfold is_irq_control_sfr in Ha. rewrite !orb_true_iff, !Z.eqb_eq in Ha.
    destruct Ha as [[[-> | ->] | ->] | ->]; by vm_compute. }
  unfold em8051_sfr_write. destruct (Z.ltb_spec aAddress 0x80); [lia|].
  rewrite sfr_index by (unfold byte; lia). ok_step. cbv zeta. rewrite Hsab.
  destruct (Z.eqb_spec aAddress (u8 (REG_SBUF + 0x80))); [done|]. cbn [andb].
  assert (0 <= aAddress - 128 < 128) as Hi by lia.
  ok_step. { ok_auto. }
  ok_step. { apply safe_irq_write_any. }
  ok_step. { ok_auto. }
  ok_step. { by apply safe_sfr_write_callback. }
  apply ok_aborted_eq. intros b Hb. rewrite never_aborted in Hb by done. subst b.
  ok_step. ok_step. { ok_auto. }
  eapply ok_call; [tc_solve|apply safe_trace_emit; tc_solve|eassumption|assumption|].
  intros _ s4 _ Hw4 Hi4 _. ok_step.
  assert (is_sab (cpu s4) = true) as -> by (unfold is_sab in *; by rewrite (st_variant _ _ (in_step _ _ Hi4))).
  rewrite Ha. cbn [andb when].
  apply ok_modify; [tc_solve|eauto with emu|done|frame_tac|]. intros s5 E5 Hw5 Hi5.
  apply ok_modify_end; [tc_solve|eauto with emu|done|apply instr_adc_finish|]. cbn [cpu].
  destruct (adc_finish_irq (cpu s5)) as [-> ->]. rewrite E5. unfold sab_irq_arm_inhibit.
  cbn. by destruct (mInInstruction (cpu s4)).
Qed.

End IrqProps.

(** *** Instances *)

(** A SAB80535 with Timer 0 overflowed and its interrupt enabled. *)
Definition irq_demo : em8051 :=
  set_sfr REG_TCON TCONMASK_TF0
    (set_sfr (SAB_SFR_INDEX EM8051_SAB_SFR_IEN0) (Z.lor IEMASK_EA IEMASK_ET0)
      (boot EM8051_VARIANT_SAB80535 [0x00; 0x00])).
Definition irq_synced : machine (list event) :=
  match sab_irq_sync (start irq_demo) with Done _ s => s | _ => start irq_demo end.

Lemma irq_demo_wf : wf irq_demo.
Proof. solve_wf. Qed.
Lemma irq_demo_room : room irq_demo 2.
Proof. unfold room, slot. assert (sfr irq_demo REG_SP = 7) as -> by by vm_compute. lia. Qed.
Lemma irq_synced_eq : sab_irq_sync (start irq_demo) = Done () irq_synced.
Proof. by vm_compute. Qed.
Lemma irq_demo_wins : wins (cpu irq_synced) EM8051_SAB_IRQ_TIMER0.
Proof.
  pose proof (select_winner (cpu irq_synced)) as H.
  assert (sab_irq_select (cpu irq_synced) = (EM8051_SAB_IRQ_TIMER0, 0)) as E by by vm_compute.
  rewrite E in H. destruct H as [[H _]|[H _]]; [discriminate H|exact H].
Qed.
Lemma irq_demo_accepted : exists s', handle_interrupts (start irq_demo) = Done true s' /\
  accepted EM8051_SAB_IRQ_TIMER0 (cpu irq_synced) (cpu s').
Proof.
  eapply enter_vector; [exact irq_demo_wf|by vm_compute|by vm_compute|exact irq_synced_eq|by vm_compute|
    by vm_compute|by vm_compute|exact irq_demo_room|exact irq_demo_wins].
Qed.
(** Timer 0 in service, at its vector. *)
Definition irq_entered : machine (list event) :=
  match handle_interrupts (start irq_demo) with Done _ s => s | _ => start irq_demo end.
Lemma irq_entered_accepted : accepted EM8051_SAB_IRQ_TIMER0 (cpu irq_synced) (cpu irq_entered).
Proof. unfold irq_entered. destruct irq_demo_accepted as (s' & -> & H). exact H. Qed.
Lemma irq_synced_wf : wf (cpu irq_synced).
Proof. solve_wf. Qed.

Lemma entry_keeps_nesting_witness :
  exists b s', handle_interrupts (start irq_demo) = Done b s' /\ wf_irq (cpu s').
Proof. exact (entry_keeps_nesting (start irq_demo) irq_demo_wf). Defined.

Lemma inhibit_blocks_entry_witness :
  exists s', handle_interrupts (start (set_mSABIrqInhibitInstructions 1 irq_demo)) = Done true s' /\
    periph (set_mSABIrqInhibitInstructions 1 irq_demo) (cpu s').
Proof.
  apply (inhibit_blocks_entry (start (set_mSABIrqInhibitInstructions 1 irq_demo))).
  - exact (wf_set_mSABIrqInhibitInstructions 1 irq_demo irq_demo_wf).
  - reflexivity.
  - discriminate.
Defined.

Lemma vector_entry_witness : exists s', handle_interrupts (start irq_demo) = Done true s' /\
  accepted EM8051_SAB_IRQ_TIMER0 (cpu irq_synced) (cpu s').
Proof.
  apply (vector_entry (start irq_demo) irq_synced EM8051_SAB_IRQ_TIMER0).
  - exact irq_demo_wf.
  - reflexivity.
  - reflexivity.
  - exact irq_synced_eq.
  - reflexivity.
  - reflexivity.
  - reflexivity.
  - exact irq_demo_room.
  - exact irq_demo_wins.
Defined.

(** The same state under the failing host, with an ACC the service routine did
    not restore. *)
Definition irq_mismatch : machine guarded :=
  mk_machine (guard (set_sfr REG_ACC 0x5a (cpu irq_entered))) (mk_guarded false 1).

Lemma irq_stack_depth c c' : irq_stack c' = irq_stack c -> mSABIrqDepth c' = mSABIrqDepth c.
Proof. by intros [=]. Qed.
Lemma irq_mismatch_wf : wf (cpu irq_mismatch).
Proof.
  pose proof (ac_wf _ _ _ irq_entered_accepted). unfold irq_mismatch, guard. cbn [cpu].
  apply wf_set_mObservation, wf_set_except, wf_set_execution_abort_user, wf_set_execution_abort.
  by apply wf_set_sfr.
Qed.

Lemma reti_releases_top_witness :
  (exists s', em8051_sab_irq_reti 9 irq_entered = Done () s' /\ mSABIrqDepth (cpu s') = 0) /\
  (exists s', em8051_sab_irq_reti 9 irq_mismatch = Done () s' /\ mSABIrqDepth (cpu s') = 1).
Proof.
  split.
  - destruct (reti_releases_top 9 irq_entered) as (s1 & s' & _ & _ & E & _ & _ & Hr).
    + exact (ac_wf _ _ _ irq_entered_accepted).
    + vm_compute. reflexivity.
    + vm_compute. reflexivity.
    + exists s'. split; [exact E|]. rewrite (lr_depth _ _ (Hr log_never_aborts)). vm_compute. reflexivity.
  - destruct (reti_releases_top 9 irq_mismatch) as (s1 & s' & Ec & Hk & E & _ & Hr & _).
    + exact irq_mismatch_wf.
    + vm_compute. reflexivity.
    + vm_compute. reflexivity.
    + exists s'. split; [exact E|].
      assert (match iret_checks mSABIrqSavedACC mSABIrqSavedPSW mSABIrqSavedSP
                (mSABIrqDepth (cpu irq_mismatch) - 1) 9 irq_mismatch with
              | Done b _ => b = true | _ => False end) as Hb by (vm_compute; reflexivity).
      rewrite Ec in Hb. rewrite Hb in Hr. rewrite Hr, (irq_stack_depth _ _ Hk). vm_compute. reflexivity.
Defined.

Lemma interrupt_reti_roundtrip_witness :
  exists s', reti irq_entered = Done 1 s' /\ mPC (cpu s') = 0.
Proof.
  destruct (interrupt_reti_roundtrip EM8051_SAB_IRQ_TIMER0 (cpu irq_synced) irq_entered)
    as (s' & E & Hpc & _).
  - exact log_never_aborts.
  - exact irq_synced_wf.
  - vm_compute. reflexivity.
  - vm_compute. split; [discriminate|reflexivity].
  - vm_compute. reflexivity.
  - exact irq_entered_accepted.
  - vm_compute. reflexivity.
  - exists s'. split; [exact E|]. rewrite Hpc. vm_compute. reflexivity.
Defined.

Lemma irq_control_write_inhibits_witness :
  exists s', em8051_sfr_write EM8051_SAB_SFR_IEN1 1 (start irq_demo) = Done () s' /\
    mSABIrqInhibitInstructions (cpu s') = (if mInInstruction (cpu s') then 2 else 1).
Proof.
  destruct (irq_control_write_inhibits EM8051_SAB_SFR_IEN1 1 (start irq_demo)) as (s' & E & _ & H).
  - exact log_never_aborts.
  - exact irq_demo_wf.
  - reflexivity.
  - reflexivity.
  - exists s'. split; [exact E|exact H].
Defined.
