(* ===== verification/TimerProps.v ===== *)
(** Properties of the timers: 16-bit counting, automatic reload, exact overflow
    times, and Timer 2. *)
From S2P Require Import Prelude State Machine Ports Uart Adc Irq Sfr Memory Opcodes Dispatch.
From S2P Require Import Wf Logic Timers PeriphSafe Interrupts Cpu CpuSafe Reset Concrete Effect.

(** The 16-bit value of Timer 0 and of Timer 2. *)
Definition T0 (c : em8051) : Z := sfr c REG_TH0 * 256 + sfr c REG_TL0.
Definition T2 (c : em8051) : Z :=
  sfr c (SAB_SFR_INDEX EM8051_SAB_SFR_TH2) * 256 + sfr c (SAB_SFR_INDEX EM8051_SAB_SFR_TL2).

(** [n] repetitions of a computation. *)
Fixpoint times {W} (n : nat) (m : M W ()) : M W () :=
  match n with O => mret () | S n => times n m ;; m end.

Lemma count_wrap v : byte v ->
  Z.land (u16 (v + 1)) 255 = (v + 1) mod 256 /\ (255 <? u16 (v + 1)) = (v =? 255).
Proof.
  unfold byte. intros Hv. rewrite u16_id by (unfold word; lia).
  change 255 with (Z.ones 8) at 1. rewrite Z.land_ones by lia. change (2 ^ 8) with 256. lia.
Qed.

(** Counting modulo a period [256 - r]. *)
Lemma reload_count r k : 0 <= r < 256 ->
  (if r + Z.of_nat k mod (256 - r) =? 255 then r else r + Z.of_nat k mod (256 - r) + 1) =
  r + Z.of_nat (S k) mod (256 - r).
Proof.
  intros Hr. pose proof (Z.mod_pos_bound (Z.of_nat k) (256 - r) ltac:(lia)).
  rewrite Nat2Z.inj_succ, <- Z.add_1_r, <- Zplus_mod_idemp_l.
  destruct (Z.eqb_spec (r + Z.of_nat k mod (256 - r)) 255) as [E|E].
  - replace (Z.of_nat k mod (256 - r) + 1) with (256 - r) by lia. rewrite Z.mod_same by lia. lia.
  - rewrite (Z.mod_small (_ + 1)) by lia. lia.
Qed.

Lemma reload_flag r k : 0 <= r < 256 ->
  (256 - r <=? Z.of_nat k) || (r + Z.of_nat k mod (256 - r) =? 255) = (256 - r <=? Z.of_nat (S k)).
Proof.
  intros Hr. destruct (Z.leb_spec (256 - r) (Z.of_nat k)); [cbn; lia|]. rewrite Z.mod_small by lia. cbn. lia.
Qed.

Section TimerProps.
Context {W : Type} {HostW : Host W}.

Lemma eff_count_up reg c :
  wf c -> 0 <= reg < 128 ->
  eff (W := W) (count_up reg) c (sfr c reg =? 255) (set_sfr reg (sfr c reg + 1) c).
Proof.
  intros Hw Hr. destruct (count_wrap (sfr c reg) (sfr_byte c reg Hw Hr)) as [E1 E2].
  unfold count_up. eff_auto. rewrite E1, E2.
  replace (set_sfr reg (sfr c reg + 1) c) with (set_sfr reg ((sfr c reg + 1) mod 256) c); [apply eff_ret|].
  unfold set_sfr. f_equal. f_equal. unfold u8. by rewrite Zmod_mod.
Qed.

Lemma eff_set_tcon f c : eff (set_tcon_flag f) c () (set_sfr REG_TCON (Z.lor (sfr c REG_TCON) f) c).
Proof. unfold set_tcon_flag. eff_auto. Qed.

(** Timer 0 counts in 16-bit mode: TMOD selects mode 1, timer function, and
    TCON runs it. *)
Definition t0_mode1 (c : em8051) : Prop :=
  timer0_increment c = true /\
  Z.land (sfr c REG_TMOD) (Z.lor TMODMASK_M0_0 TMODMASK_M1_0) = TMODMASK_M0_0.

(** One tick of Timer 0 in mode 1. *)
Record t0_ticked (c c' : em8051) : Prop := {
  t0_wf : wf c';
  t0_frame : periph c c';
  t0_value : T0 c' = (T0 c + 1) mod 65536;
  t0_flag : has (sfr c' REG_TCON) TCONMASK_TF0 = has (sfr c REG_TCON) TCONMASK_TF0 || (T0 c =? 65535);
  t0_run : has (sfr c' REG_TCON) TCONMASK_TR0 = has (sfr c REG_TCON) TCONMASK_TR0
}.

(** The overflow counter is not an SFR. *)
Lemma eff_overflow timer c :
  wf c -> 0 <= timer < 3 -> timer <> EM8051_TIMER1 ->
  exists counts, eff (timer_overflow_emit timer) c () (set_mTimerOverflowCount counts c).
Proof.
  intros Hw Ht Hne. pose proof (wf_overflow_length _ (wf_cpu_exec _ Hw)) as Hl.
  eexists. unfold timer_overflow_emit. eff_step.
  eapply eff_in_range; [apply aget_geti; lia|]. eapply eff_in_range; [apply aset_Some; lia|].
  eff_step. eapply eff_bind; [apply eff_when_false; by destruct (Z.eqb_spec timer EM8051_TIMER1)|].
  apply eff_aborted_any. intros b. eff_step. case_if; [apply eff_ret|].
  case_if; [|case_if]; apply eff_observe.
Qed.

Lemma eff_timer0_mode1 c :
  wf c -> t0_mode1 c -> exists c', eff timer0_tick c () c' /\
    T0 c' = (T0 c + 1) mod 65536 /\
    sfr c' REG_TCON = (if T0 c =? 65535 then u8 (Z.lor (sfr c REG_TCON) TCONMASK_TF0) else sfr c REG_TCON).
Proof.
  intros Hw [Hinc Hmode]. pose proof (sfr_byte c REG_TL0 Hw ltac:(done)) as Hl.
  pose proof (sfr_byte c REG_TH0 Hw ltac:(done)) as Hh. unfold byte in *.
  set (c1 := set_sfr REG_TL0 (sfr c REG_TL0 + 1) c).
  assert (wf c1) as Hw1 by by apply wf_set_sfr.
  set (c2 := set_sfr REG_TH0 (sfr c1 REG_TH0 + 1) c1).
  assert (wf c2) as Hw2 by by apply wf_set_sfr.
  set (c3 := set_sfr REG_TCON (Z.lor (sfr c2 REG_TCON) TCONMASK_TF0) c2).
  assert (wf c3) as Hw3 by by apply wf_set_sfr.
  destruct (eff_overflow EM8051_TIMER0 c3 Hw3 ltac:(done) ltac:(done)) as [counts Ho].
  exists (if sfr c REG_TL0 =? 255 then if sfr c REG_TH0 =? 255 then set_mTimerOverflowCount counts c3
          else c2 else c1).
  assert (sfr c1 REG_TH0 = sfr c REG_TH0) as E1 by by apply sfr_set_sfr_ne.
  split.
  - unfold timer0_tick. eff_step. apply eff_when_true; [done|]. cbv zeta. rewrite Hmode.
    change (TMODMASK_M0_0 =? 0) with false. rewrite Z.eqb_refl. cbv iota.
    eapply eff_bind; [by apply eff_count_up|]. fold c1.
    destruct (sfr c REG_TL0 =? 255); [|by apply eff_when_false]. cbn [when].
    eapply eff_bind; [by apply eff_count_up|]. fold c2. rewrite E1.
    destruct (sfr c REG_TH0 =? 255); [|by apply eff_when_false]. cbn [when].
    eapply eff_bind; [apply eff_set_tcon|]. exact Ho.
  - unfold T0.
    destruct (Z.eqb_spec (sfr c REG_TL0) 255) as [El|El];
      [destruct (Z.eqb_spec (sfr c REG_TH0) 255) as [Eh|Eh]|].
    + change (sfr (set_mTimerOverflowCount counts c3)) with (sfr c3). unfold c3, c2, c1. sfr_simpl.
      rewrite El, Eh. done.
    + unfold c2, c1. sfr_simpl. unfold u8. rewrite El.
      destruct (Z.eqb_spec (sfr c REG_TH0 * 256 + 255) 65535); [lia|]. split; [|done].
      Z.div_mod_to_equations. lia.
    + unfold c1. sfr_simpl. unfold u8.
      destruct (Z.eqb_spec (sfr c REG_TH0 * 256 + sfr c REG_TL0) 65535); [lia|]. split; [|done].
      Z.div_mod_to_equations. lia.
Qed.

Lemma T0_range c : wf c -> 0 <= T0 c < 65536.
Proof.
  intros Hw. pose proof (sfr_byte c REG_TL0 Hw ltac:(done)). pose proof (sfr_byte c REG_TH0 Hw ltac:(done)).
  unfold T0, byte in *. lia.
Qed.

Lemma timer0_step (s : machine W) :
  wf (cpu s) -> t0_mode1 (cpu s) ->
  exists s', timer0_tick s = Done () s' /\ t0_ticked (cpu s) (cpu s').
Proof.
  intros Hw Hm. destruct (eff_timer0_mode1 (cpu s) Hw Hm) as (c' & He & Hv & Ht).
  destruct (eff_safe periph timer0_tick any s () c' He safe_timer0 Hw) as (s' & E & Ec & Hw' & Hp).
  exists s'. split; [done|]. rewrite Ec. pose proof (sfr_byte (cpu s) REG_TCON Hw ltac:(done)) as Hb.
  constructor; [done..| |]; rewrite Ht; (case_if; [rewrite u8_id by (by apply byte_lor)|]).
  - rewrite has_lor_same by done. by rewrite orb_true_r.
  - by rewrite orb_false_r.
  - by rewrite has_lor_disjoint.
  - done.
Qed.

Lemma t0_mode1_kept c c' : t0_mode1 c -> t0_ticked c c' -> t0_mode1 c'.
Proof.
  intros [Hi Hm] [_ [Hc _ _] _ _ Hr]. unfold t0_mode1, timer0_increment in *.
  rewrite (cy_core _ _ Hc REG_TMOD) by (by repeat constructor). by rewrite Hr.
Qed.

(** C27: Timer 0 in mode 1 is a 16-bit counter: each tick advances TH0:TL0 by
    one modulo 65536, sets TF0 exactly when the count wraps (and never clears
    it), keeps the run bit and touches no core register or memory. *)
Theorem timer0_mode1_counts (s : machine W) :
  wf (cpu s) -> t0_mode1 (cpu s) ->
  exists s', timer0_tick s = Done () s' /\ t0_ticked (cpu s) (cpu s').
Proof. apply timer0_step. Qed.

(** C24: Timer 0 overflows on time. Started at value [T0] with TF0 clear, after
    any number of ticks [k] up to a full period the count is [T0 + k] modulo
    65536 and TF0 is set exactly when [T0 + k] reached 65536: not one tick
    early, not one tick late. *)
Theorem timer0_overflow_time (k : nat) (s : machine W) :
  wf (cpu s) -> t0_mode1 (cpu s) -> has (sfr (cpu s) REG_TCON) TCONMASK_TF0 = false ->
  Z.of_nat k <= 65536 ->
  exists s', times k timer0_tick s = Done () s' /\
    T0 (cpu s') = (T0 (cpu s) + Z.of_nat k) mod 65536 /\
    has (sfr (cpu s') REG_TCON) TCONMASK_TF0 = (65536 <=? T0 (cpu s) + Z.of_nat k).
Proof.
  intros Hw Hm Hf Hk. pose proof (T0_range _ Hw) as Hr.
  assert (exists s', times k timer0_tick s = Done () s' /\ wf (cpu s') /\ t0_mode1 (cpu s') /\
    T0 (cpu s') = (T0 (cpu s) + Z.of_nat k) mod 65536 /\
    has (sfr (cpu s') REG_TCON) TCONMASK_TF0 = (65536 <=? T0 (cpu s) + Z.of_nat k))
    as (s' & ? & _ & _ & ? & ?); [|by exists s'].
  induction k as [|k IH].
  - exists s. rewrite Z.add_0_r, Z.mod_small by lia. split_and!; [done..|]. rewrite Hf. lia.
  - destruct IH as (s1 & E1 & Hw1 & Hm1 & Hv1 & Hf1); [lia|].
    destruct (timer0_step s1 Hw1 Hm1) as (s2 & E2 & Ht). pose proof (t0_mode1_kept _ _ Hm1 Ht).
    destruct Ht as [Hw2 _ Hv2 Hf2 _]. exists s2. cbn [times]. rewrite (exec_bind _ _ _ _ _ E1).
    split_and!; [done..| |].
    + rewrite Hv2, Hv1, Zplus_mod_idemp_l. f_equal. lia.
    + rewrite Hf2, Hf1, Hv1. Z.div_mod_to_equations. lia.
Qed.

(** ** Automatic reload *)

(** Timer 0 counts in 8-bit mode with automatic reload. *)
Definition t0_mode2 (c : em8051) : Prop :=
  timer0_increment c = true /\
  Z.land (sfr c REG_TMOD) (Z.lor TMODMASK_M0_0 TMODMASK_M1_0) = TMODMASK_M1_0.

Lemma timer0_reload_step (s : machine W) :
  wf (cpu s) -> t0_mode2 (cpu s) ->
  exists s', timer0_tick s = Done () s' /\ wf (cpu s') /\ t0_mode2 (cpu s') /\
    sfr (cpu s') REG_TH0 = sfr (cpu s) REG_TH0 /\
    sfr (cpu s') REG_TL0 =
      (if sfr (cpu s) REG_TL0 =? 255 then sfr (cpu s) REG_TH0 else sfr (cpu s) REG_TL0 + 1) /\
    has (sfr (cpu s') REG_TCON) TCONMASK_TF0 =
      has (sfr (cpu s) REG_TCON) TCONMASK_TF0 || (sfr (cpu s) REG_TL0 =? 255).
Proof.
  intros Hw [Hinc Hmode]. set (c := cpu s) in *. pose proof (sfr_byte c REG_TL0 Hw ltac:(done)) as Hl.
  pose proof (sfr_byte c REG_TH0 Hw ltac:(done)) as Hh. pose proof (sfr_byte c REG_TCON Hw ltac:(done)) as Ht.
  set (c1 := set_sfr REG_TL0 (sfr c REG_TL0 + 1) c). assert (wf c1) as Hw1 by by apply wf_set_sfr.
  set (c2 := set_sfr REG_TL0 (sfr c1 REG_TH0) c1). assert (wf c2) as Hw2 by by apply wf_set_sfr.
  set (c3 := set_sfr REG_TCON (Z.lor (sfr c2 REG_TCON) TCONMASK_TF0) c2).
  assert (eff timer0_tick c () (if sfr c REG_TL0 =? 255 then c3 else c1)) as He.
  { unfold timer0_tick. eff_step. apply eff_when_true; [done|]. cbv zeta. rewrite Hmode.
    change (TMODMASK_M1_0 =? 0) with false. change (TMODMASK_M1_0 =? TMODMASK_M0_0) with false.
    rewrite Z.eqb_refl. cbv iota. eapply eff_bind; [by apply eff_count_up|]. fold c1.
    destruct (sfr c REG_TL0 =? 255); [|by apply eff_when_false]. cbn [when]. eff_step. apply eff_set_tcon. }
  destruct (eff_safe periph timer0_tick any s () _ He safe_timer0 Hw) as (s' & E & Ec & Hw' & [Hc _ _]).
  exists s'. rewrite Ec. assert (u8 (Z.lor (sfr c REG_TCON) TCONMASK_TF0) = Z.lor (sfr c REG_TCON) TCONMASK_TF0)
    as Eu by (apply u8_id; by apply byte_lor).
  split; [done|]. split; [done|].
  unfold t0_mode2, timer0_increment in *. rewrite (cy_core _ _ Hc REG_TMOD) by (by repeat constructor).
  destruct (Z.eqb_spec (sfr c REG_TL0) 255); unfold c3, c2, c1; sfr_simpl.
  - rewrite Eu, has_lor_same, has_lor_disjoint, orb_true_r, u8_id by done. by split_and!.
  - rewrite orb_false_r, u8_id by (unfold byte in *; lia). by split_and!.
Qed.

(** C25: Timer 0 in mode 2 reloads with period [256 - TH0]: started with
    [TL0 = TH0], after [k] ticks TL0 is [TH0 + k mod (256 - TH0)], TH0 is
    unchanged, and TF0 is set as soon as one full period has passed. *)
Theorem timer0_reload_period (k : nat) (s : machine W) :
  wf (cpu s) -> t0_mode2 (cpu s) -> sfr (cpu s) REG_TL0 = sfr (cpu s) REG_TH0 ->
  has (sfr (cpu s) REG_TCON) TCONMASK_TF0 = false ->
  exists s', times k timer0_tick s = Done () s' /\
    sfr (cpu s') REG_TH0 = sfr (cpu s) REG_TH0 /\
    sfr (cpu s') REG_TL0 = sfr (cpu s) REG_TH0 + Z.of_nat k mod (256 - sfr (cpu s) REG_TH0) /\
    has (sfr (cpu s') REG_TCON) TCONMASK_TF0 = (256 - sfr (cpu s) REG_TH0 <=? Z.of_nat k).
Proof.
  intros Hw Hm El Hf. pose proof (sfr_byte (cpu s) REG_TH0 Hw ltac:(done)) as Hh. unfold byte in Hh.
  set (r := sfr (cpu s) REG_TH0) in *.
  assert (exists s', times k timer0_tick s = Done () s' /\ wf (cpu s') /\ t0_mode2 (cpu s') /\
    sfr (cpu s') REG_TH0 = r /\ sfr (cpu s') REG_TL0 = r + Z.of_nat k mod (256 - r) /\
    has (sfr (cpu s') REG_TCON) TCONMASK_TF0 = (256 - r <=? Z.of_nat k))
    as (s' & ? & _ & _ & ? & ? & ?); [|by exists s'].
  induction k as [|k IH].
  - exists s. rewrite Z.mod_0_l by lia. split_and!; [done..|lia|rewrite Hf; lia].
  - destruct IH as (s1 & E1 & Hw1 & Hm1 & Eh1 & El1 & Ef1).
    destruct (timer0_reload_step s1 Hw1 Hm1) as (s2 & E2 & Hw2 & Hm2 & Eh2 & El2 & Ef2).
    exists s2. cbn [times]. rewrite (exec_bind _ _ _ _ _ E1). split_and!; [done..|congruence| |].
    + rewrite El2, El1, Eh1. apply reload_count. lia.
    + rewrite Ef2, Ef1, El1. apply reload_flag. lia.
Qed.

(** ** Timer 2 *)

(** Timer 2 counts in the cycle being completed: gated by T2I1:T2I0 = 01,
    reload disabled, and, behind the prescaler, in even cycles only. *)
Definition t2_counting (c : em8051) : Prop :=
  is_sab c = true /\
  Z.land (sfr c (SAB_SFR_INDEX EM8051_SAB_SFR_T2CON)) (Z.lor SAB_T2CONMASK_T2I1 SAB_T2CONMASK_T2I0) =
    SAB_T2CONMASK_T2I0 /\
  has (sfr c (SAB_SFR_INDEX EM8051_SAB_SFR_T2CON)) SAB_T2CONMASK_T2R1 = false /\
  (has (sfr c (SAB_SFR_INDEX EM8051_SAB_SFR_T2CON)) SAB_T2CONMASK_T2PS = true ->
   Z.land (u64 (mMachineCycleCount c + 1)) 1 = 0).

Lemma T2_range c : wf c -> 0 <= T2 c < 65536.
Proof.
  intros Hw. pose proof (sfr_byte c (SAB_SFR_INDEX EM8051_SAB_SFR_TL2) Hw ltac:(done)).
  pose proof (sfr_byte c (SAB_SFR_INDEX EM8051_SAB_SFR_TH2) Hw ltac:(done)). unfold T2, byte in *. lia.
Qed.

(** C26: Timer 2 is a 16-bit counter. In a cycle in which it counts, TH2:TL2
    advances by one modulo 65536 and TF2 is set exactly when the count wraps. *)
Theorem timer2_counts (s : machine W) :
  never_aborts (W := W) -> wf (cpu s) -> t2_counting (cpu s) ->
  exists s', sab_timer2_tick s = Done () s' /\ wf (cpu s') /\ periph (cpu s) (cpu s') /\
    T2 (cpu s') = (T2 (cpu s) + 1) mod 65536 /\
    has (sfr (cpu s') (SAB_SFR_INDEX EM8051_SAB_SFR_IRCON)) SAB_IRCONMASK_TF2 =
      has (sfr (cpu s) (SAB_SFR_INDEX EM8051_SAB_SFR_IRCON)) SAB_IRCONMASK_TF2 || (T2 (cpu s) =? 65535).
Proof.
  intros Hna Hw (Hsab & Hgate & Hreload & Hps). set (c := cpu s) in *.
  set (tl := SAB_SFR_INDEX EM8051_SAB_SFR_TL2) in *. set (th := SAB_SFR_INDEX EM8051_SAB_SFR_TH2) in *.
  set (ir := SAB_SFR_INDEX EM8051_SAB_SFR_IRCON) in *.
  pose proof (sfr_byte c tl Hw ltac:(done)) as Hl. pose proof (sfr_byte c th Hw ltac:(done)) as Hh.
  pose proof (sfr_byte c ir Hw ltac:(done)) as Hb. pose proof (T2_range c Hw) as Hr.
  set (v := u16 (T2 c + 1)). pose proof (u16_word (T2 c + 1)) as Hv. fold v in Hv.
  set (c2 := set_sfr th (Z.shiftr v 8) (set_sfr tl (Z.land v 0xff) c)).
  assert (wf c2) as Hw2 by by do 2 apply wf_set_sfr.
  set (c3 := set_sfr ir (Z.lor (sfr c2 ir) SAB_IRCONMASK_TF2) c2).
  assert (wf c3) as Hw3 by by apply wf_set_sfr.
  destruct (eff_overflow EM8051_TIMER2 c3 Hw3 ltac:(done) ltac:(done)) as [counts Ho].
  destruct (eff_irq_sync (W := W) (set_mTimerOverflowCount counts c3)) as (c4 & Hs & [Hsame _]).
  assert (eff sab_timer2_tick c () (if v =? 0 then c4 else c2)) as He.
  { unfold sab_timer2_tick. eff_step. cbv zeta. fold tl th ir. rewrite Hsab, Hgate, Z.eqb_refl, Hreload.
    cbn [negb orb].
    assert (has (sfr c (SAB_SFR_INDEX EM8051_SAB_SFR_T2CON)) SAB_T2CONMASK_T2PS &&
      negb (Z.land (u64 (mMachineCycleCount c + 1)) 1 =? 0) = false) as ->.
    { destruct (has _ SAB_T2CONMASK_T2PS); [|done]. by rewrite Hps. }
    rewrite lor_bytes by done. change (sfr c th * 256 + sfr c tl) with (T2 c). rewrite (u16_id (T2 c)) by done. fold v.
    eff_auto. fold c2. destruct (v =? 0); [|by apply eff_when_false]. cbn [when].
    eff_auto. fold c3. eapply eff_bind; [exact Ho|]. eff_auto. exact Hs. }
  destruct (eff_safe periph sab_timer2_tick any s () _ He safe_timer2_tick Hw) as (s' & E & Ec & Hw' & Hp).
  exists s'. rewrite Ec. split_and!; [done..| |].
  - assert (T2 (if v =? 0 then c4 else c2) = T2 c2) as ->.
    { destruct (v =? 0); [|done]. unfold T2. fold tl th. rewrite !Hsame by done.
      change (sfr (set_mTimerOverflowCount counts c3)) with (sfr c3). unfold c3.
      by rewrite !(sfr_set_sfr_ne c2 ir) by done. }
    unfold T2 at 1. fold tl th. unfold c2.
    rewrite sfr_set_sfr_eq, (sfr_set_sfr_ne _ th tl), sfr_set_sfr_eq by (done || by apply wf_set_sfr).
    by rewrite split_word.
  - assert (sfr c2 ir = sfr c ir) as E2 by (unfold c2; by rewrite !sfr_set_sfr_ne by done).
    assert ((T2 c =? 65535) = (v =? 0)) as ->.
    { unfold v, u16. Z.div_mod_to_equations. lia. }
    destruct (v =? 0); [|by rewrite E2, orb_false_r]. rewrite Hsame by done.
    change (sfr (set_mTimerOverflowCount counts c3)) with (sfr c3). unfold c3.
    rewrite sfr_set_sfr_eq by done. rewrite E2, u8_id by (by apply byte_lor). by rewrite has_lor_same, orb_true_r.
Qed.

End TimerProps.

(** *** Instances *)

(** Timer 0 running in a mode, with TH0 and TL0 loaded. *)
Definition t0_demo (mode th tl : Z) : em8051 :=
  set_sfr REG_TL0 tl (set_sfr REG_TH0 th (set_sfr REG_TMOD mode
    (set_sfr REG_TCON TCONMASK_TR0 (boot EM8051_VARIANT_SAB80535 [0x00])))).
Definition t2_demo : em8051 :=
  set_sfr (SAB_SFR_INDEX EM8051_SAB_SFR_T2CON) SAB_T2CONMASK_T2I0
    (boot EM8051_VARIANT_SAB80535 [0x00]).

(** The classic 100 Hz reload value: 0xDCEF overflows after 8977 cycles. *)
Lemma t0_demo_wf : wf (t0_demo 1 0xdc 0xef).
Proof. solve_wf. Qed.
Lemma t0_demo2_wf : wf (t0_demo 2 0xfd 0xfd).
Proof. solve_wf. Qed.
Lemma t2_demo_wf : wf t2_demo.
Proof. solve_wf. Qed.

Lemma timer0_mode1_counts_witness :
  exists s', timer0_tick (start (t0_demo 1 0xdc 0xef)) = Done () s' /\ T0 (cpu s') = 0xdcf0.
Proof.
  destruct (timer0_mode1_counts (start (t0_demo 1 0xdc 0xef))) as (s' & E & Ht).
  - exact t0_demo_wf.
  - split; vm_compute; reflexivity.
  - exists s'. split; [exact E|]. rewrite (t0_value _ _ Ht). vm_compute. reflexivity.
Defined.

Lemma timer0_overflow_time_witness :
  exists s', times (Z.to_nat 8977) timer0_tick (start (t0_demo 1 0xdc 0xef)) = Done () s' /\
    T0 (cpu s') = 0 /\ has (sfr (cpu s') REG_TCON) TCONMASK_TF0 = true.
Proof.
  destruct (timer0_overflow_time (Z.to_nat 8977) (start (t0_demo 1 0xdc 0xef))) as (s' & E & Hv & Hf).
  - exact t0_demo_wf.
  - split; vm_compute; reflexivity.
  - vm_compute. reflexivity.
  - vm_compute. discriminate.
  - exists s'. split; [exact E|]. rewrite Hv, Hf. vm_compute. split; reflexivity.
Defined.

Lemma timer0_reload_period_witness :
  exists s', times 3 timer0_tick (start (t0_demo 2 0xfd 0xfd)) = Done () s' /\
    sfr (cpu s') REG_TL0 = 0xfd /\ has (sfr (cpu s') REG_TCON) TCONMASK_TF0 = true.
Proof.
  destruct (timer0_reload_period 3 (start (t0_demo 2 0xfd 0xfd))) as (s' & E & _ & Hl & Hf).
  - exact t0_demo2_wf.
  - split; vm_compute; reflexivity.
  - vm_compute. reflexivity.
  - vm_compute. reflexivity.
  - exists s'. split; [exact E|]. rewrite Hl, Hf. vm_compute. split; reflexivity.
Defined.

Lemma timer2_counts_witness :
  exists s', sab_timer2_tick (start t2_demo) = Done () s' /\ T2 (cpu s') = 1.
Proof.
  destruct (timer2_counts (start t2_demo)) as (s' & E & _ & _ & Hv & _).
  - exact log_never_aborts.
  - exact t2_demo_wf.
  - split; [vm_compute; reflexivity|]. split; [vm_compute; reflexivity|].
    split; [vm_compute; reflexivity|]. intros H. vm_compute in H. discriminate H.
  - exists s'. split; [exact E|]. rewrite Hv. vm_compute. reflexivity.
Defined.
