(* ===== verification/AluProps.v ===== *)
(** Properties of the flags of ADD, ADDC and SUBB (src/opcodes.c). *)
From S2P Require Import Prelude State Machine Ports Uart Adc Irq Sfr Memory Opcodes Dispatch.
From S2P Require Import Wf Logic InstrSafe Timers Interrupts Cpu CpuSafe Reset Concrete Effect Stack.

(** ** Exhaustive checks over bytes *)

Lemma forall_byte (p : Z -> bool) : forallb p (seqZ 0 256) = true -> forall x, byte x -> p x = true.
Proof. intros Hp x Hx. by apply (forall_range p 256). Qed.

Lemma forall_bytes2 (p : Z -> Z -> bool) :
  forallb (fun x => forallb (p x) (seqZ 0 256)) (seqZ 0 256) = true ->
  forall x y, byte x -> byte y -> p x y = true.
Proof. intros Hp x y Hx Hy. pose proof (forall_byte _ Hp x Hx) as H. by apply (forall_byte (p x)). Qed.

(** ** Flags *)

(** The three flag bits the addition and subtraction rules write. *)
Definition arith_flags : Z := Z.lor PSWMASK_C (Z.lor PSWMASK_AC PSWMASK_OV).

(** The signed value of a byte. *)
Definition signed (x : Z) : Z := if x <? 128 then x else x - 256.

(** The flags an addition gives, as the instruction set defines C and OV. *)
Definition add_carry (a b c : Z) : bool := 256 <=? a + b + c.
Definition add_overflow (a b c : Z) : bool :=
  (signed a + signed b + c <? -128) || (127 <? signed a + signed b + c).
Definition sub_borrow (a b c : Z) : bool := a <? b + c.
Definition sub_overflow (a b c : Z) : bool :=
  (signed a - signed b - c <? -128) || (127 <? signed a - signed b - c).

Lemma clr_0 m : clr 0 m = 0.
Proof. done. Qed.

(** The flag bits do not depend on the previous PSW, and other bits stay. *)
Lemma add_flags_split psw a b c :
  add_flags psw a b c = Z.lor (clr psw arith_flags) (add_flags 0 a b c).
Proof. unfold add_flags, arith_flags. cbv zeta. rewrite clr_0, Z.lor_0_l. by rewrite !Z.lor_assoc. Qed.
Lemma sub_flags_split psw a b c :
  sub_flags psw a b c = Z.lor (clr psw arith_flags) (sub_flags 0 a b c).
Proof. unfold sub_flags, arith_flags. cbv zeta. rewrite clr_0, Z.lor_0_l. by rewrite !Z.lor_assoc. Qed.

Definition add_flags_ok (c a b : Z) : bool :=
  let f := add_flags 0 a b c in
  eqb (has f PSWMASK_C) (add_carry a b c) && eqb (has f PSWMASK_OV) (add_overflow a b c) &&
  (Z.land f (not8 arith_flags) =? 0) && (0 <=? f) && (f <? 256).
Definition sub_flags_ok (c a b : Z) : bool :=
  let f := sub_flags 0 a b c in
  eqb (has f PSWMASK_C) (sub_borrow a b c) && eqb (has f PSWMASK_OV) (sub_overflow a b c) &&
  (Z.land f (not8 arith_flags) =? 0) && (0 <=? f) && (f <? 256).

Lemma add_flags_checked c a b : c = 0 \/ c = 1 -> byte a -> byte b -> add_flags_ok c a b = true.
Proof. intros [-> | ->]; apply forall_bytes2; vm_compute; reflexivity. Qed.
Lemma sub_flags_checked c a b : c = 0 \/ c = 1 -> byte a -> byte b -> sub_flags_ok c a b = true.
Proof. intros [-> | ->]; apply forall_bytes2; vm_compute; reflexivity. Qed.

Lemma land_clr psw m : Z.land (clr psw m) (not8 m) = Z.land psw (not8 m).
Proof. unfold clr. by rewrite <- Z.land_assoc, Z.land_diag. Qed.

Lemma has_lor v w m : has (Z.lor v w) m = has v m || has w m.
Proof.
  unfold has. rewrite Z.land_lor_distr_l.
  destruct (Z.eqb_spec (Z.land v m) 0) as [->|Hv]; [by rewrite Z.lor_0_l|].
  destruct (Z.eqb_spec (Z.lor (Z.land v m) (Z.land w m)) 0) as [E|]; [|done].
  apply Z.lor_eq_0_iff in E as [? _]. done.
Qed.

Lemma has_clr_sub psw m k : Z.land m k = k -> byte m -> has (clr psw m) k = false.
Proof. intros Hk Hm. apply (has_submask _ m); [done|]. by apply has_clr_same. Qed.

(** From a checked flag byte [f] to the flags of the new PSW. *)
Lemma flags_from_split psw f :
  Z.land f (not8 arith_flags) = 0 ->
  has (Z.lor (clr psw arith_flags) f) PSWMASK_C = has f PSWMASK_C /\
  has (Z.lor (clr psw arith_flags) f) PSWMASK_OV = has f PSWMASK_OV /\
  has (Z.lor (clr psw arith_flags) f) PSWMASK_AC = has f PSWMASK_AC /\
  Z.land (Z.lor (clr psw arith_flags) f) (not8 arith_flags) = Z.land psw (not8 arith_flags).
Proof.
  intros Hf. rewrite !has_lor, !(has_clr_sub psw arith_flags) by done.
  rewrite Z.land_lor_distr_l, land_clr, Hf, Z.lor_0_r. by split_and!.
Qed.

(** C29: the flags of ADD and ADDC. For all byte operands and carry-in, C is the
    unsigned carry out of bit 7, OV is signed overflow, and every PSW bit other
    than C, AC and OV is kept. *)
Theorem add_flags_correct psw a b c :
  c = 0 \/ c = 1 -> byte a -> byte b ->
  has (add_flags psw a b c) PSWMASK_C = add_carry a b c /\
  has (add_flags psw a b c) PSWMASK_OV = add_overflow a b c /\
  Z.land (add_flags psw a b c) (not8 arith_flags) = Z.land psw (not8 arith_flags).
Proof.
  intros Hc Ha Hb. pose proof (add_flags_checked c a b Hc Ha Hb) as H. unfold add_flags_ok in H.
  rewrite add_flags_split. destruct (flags_from_split psw (add_flags 0 a b c)) as (-> & -> & _ & ->); [lia|].
  rewrite !andb_true_iff, !eqb_true_iff in H. by split_and!; [apply H|apply H|].
Qed.

(** C30: the flags of SUBB. For all byte operands and borrow-in, C is the
    unsigned borrow, OV is signed overflow, and every PSW bit other than C, AC
    and OV is kept. *)
Theorem sub_flags_correct psw a b c :
  c = 0 \/ c = 1 -> byte a -> byte b ->
  has (sub_flags psw a b c) PSWMASK_C = sub_borrow a b c /\
  has (sub_flags psw a b c) PSWMASK_OV = sub_overflow a b c /\
  Z.land (sub_flags psw a b c) (not8 arith_flags) = Z.land psw (not8 arith_flags).
Proof.
  intros Hc Ha Hb. pose proof (sub_flags_checked c a b Hc Ha Hb) as H. unfold sub_flags_ok in H.
  rewrite sub_flags_split. destruct (flags_from_split psw (sub_flags 0 a b c)) as (-> & -> & _ & ->); [lia|].
  rewrite !andb_true_iff, !eqb_true_iff in H. by split_and!; [apply H|apply H|].
Qed.

(** The auxiliary carry the code computes: out of bit 2, not bit 3. *)
Definition ac_checked (c a b : Z) : bool :=
  eqb (has (add_flags 0 a b c) PSWMASK_AC) (8 <=? a mod 8 + b mod 8 + c).

(** C39: what the code computes as auxiliary carry is the carry out of bit 2.
    The instruction set defines AC as the carry out of bit 3, so decimal adjust
    corrects wrongly: 08 + 08 followed by DA A gives 10 instead of 16. *)
Theorem aux_carry_from_bit2 psw a b c :
  c = 0 \/ c = 1 -> byte a -> byte b ->
  has (add_flags psw a b c) PSWMASK_AC = (8 <=? a mod 8 + b mod 8 + c) /\
  da_result (8 + 8) (add_flags 0 8 8 0) = 0x10.
Proof.
  intros Hc Ha Hb. split; [|by vm_compute].
  assert (ac_checked c a b = true) as H.
  { destruct Hc as [-> | ->]; revert a b Ha Hb; apply forall_bytes2; vm_compute; reflexivity. }
  unfold ac_checked in H. rewrite eqb_true_iff in H. rewrite add_flags_split.
  pose proof (add_flags_checked c a b Hc Ha Hb) as H'. unfold add_flags_ok in H'.
  destruct (flags_from_split psw (add_flags 0 a b c)) as (_ & _ & -> & _); [lia|done].
Qed.

(** *** Instances *)

Lemma add_flags_correct_witness :
  has (add_flags 0x01 0x7f 0x01 0) PSWMASK_OV = true /\ has (add_flags 0x01 0x7f 0x01 0) PSWMASK_C = false.
Proof.
  destruct (add_flags_correct 0x01 0x7f 0x01 0) as (Hc & Ho & _).
  - left. reflexivity.
  - split; [discriminate|reflexivity].
  - split; [discriminate|reflexivity].
  - rewrite Hc, Ho. vm_compute. split; reflexivity.
Defined.

Lemma sub_flags_correct_witness : has (sub_flags 0 0x10 0x20 1) PSWMASK_C = true.
Proof.
  destruct (sub_flags_correct 0 0x10 0x20 1) as (Hc & _ & _).
  - right. reflexivity.
  - split; [discriminate|reflexivity].
  - split; [discriminate|reflexivity].
  - rewrite Hc. vm_compute. reflexivity.
Defined.

Lemma aux_carry_from_bit2_witness : has (add_flags 0 8 8 0) PSWMASK_AC = false.
Proof.
  destruct (aux_carry_from_bit2 0 8 8 0) as [H _].
  - left. reflexivity.
  - split; [discriminate|reflexivity].
  - split; [discriminate|reflexivity].
  - rewrite H. vm_compute. reflexivity.
Defined.
