(* ===== verification/AluInstr.v ===== *)
(** Properties of the arithmetic instructions of src/opcodes.c: addition,
    multiplication and division, rotations, XCHD, parity, and the reset
    generator of src/core.c. *)
From S2P Require Import Prelude State Machine Ports Uart Adc Irq Sfr Memory Opcodes Dispatch.
From S2P Require Import Wf Logic InstrSafe Timers Interrupts Cpu CpuSafe Reset Concrete Effect Stack.
From S2P Require Import AluProps.

(** ** Instructions *)

(** Rotating left and right again, on ACC and PSW. *)
Definition rotate_ok (a p : Z) : bool :=
  let cy := Z.shiftr (Z.land p PSWMASK_C) PSW_C in
  let a1 := Z.lor (Z.shiftl a 1) cy in
  let p1 := Z.lor (clr p PSWMASK_C) (Z.shiftl (Z.b2z (negb (Z.shiftr a 7 =? 0))) PSW_C) in
  let a2 := Z.lor (Z.shiftr (u8 a1) 1) (Z.shiftl (Z.shiftr (Z.land (u8 p1) PSWMASK_C) PSW_C) 7) in
  let p2 := Z.lor (clr (u8 p1) PSWMASK_C) (Z.shiftl (Z.land (u8 a1) 1) PSW_C) in
  (u8 a2 =? a) && (Z.shiftr (Z.land (u8 p2) PSWMASK_C) PSW_C =? cy).

Lemma rotate_checked a p : byte a -> byte p -> rotate_ok a p = true.
Proof. apply (forall_bytes2 rotate_ok). vm_compute. reflexivity. Qed.

Section AluProps.
Context {W : Type} {HostW : Host W}.

Lemma eff_next n d c : eff (W := W) (next n d) c d (set_mPC (mPC c + n) c).
Proof. unfold next, add_PC. eff_auto. Qed.


(** C32: MUL AB computes the 16-bit product: B:A is ACC times B, OV tells that
    the product exceeds 255, C is cleared, and the instruction takes four
    cycles. *)
Theorem mul_ab_correct (s : machine W) :
  wf (cpu s) ->
  exists s', mul_ab s = Done 3 s' /\
    sfr (cpu s') REG_B * 256 + sfr (cpu s') REG_ACC = sfr (cpu s) REG_ACC * sfr (cpu s) REG_B /\
    has (sfr (cpu s') REG_PSW) PSWMASK_OV = (255 <? sfr (cpu s) REG_ACC * sfr (cpu s) REG_B) /\
    has (sfr (cpu s') REG_PSW) PSWMASK_C = false /\
    mPC (cpu s') = u16 (mPC (cpu s) + 1).
Proof.
  intros Hw. set (c := cpu s) in *. pose proof (sfr_byte c REG_ACC Hw ltac:(done)) as Ha.
  pose proof (sfr_byte c REG_B Hw ltac:(done)) as Hb. pose proof (sfr_byte c REG_PSW Hw ltac:(done)) as Hp.
  set (p := sfr c REG_ACC * sfr c REG_B). assert (0 <= p < 65536) as Hr by (unfold p, byte in *; nia).
  assert (u16 p = p) as Ep by by apply u16_id.
  set (c1 := set_sfr REG_ACC (Z.land (u16 p) 0xff) c). assert (wf c1) as Hw1 by by apply wf_set_sfr.
  set (c2 := set_sfr REG_B (Z.shiftr (u16 p) 8) c1). assert (wf c2) as Hw2 by by apply wf_set_sfr.
  set (c3 := set_sfr REG_PSW (clr (sfr c2 REG_PSW) (Z.lor PSWMASK_C PSWMASK_OV)) c2).
  assert (wf c3) as Hw3 by by apply wf_set_sfr.
  assert (sfr c3 REG_B = Z.shiftr p 8) as EB.
  { unfold c3, c2. rewrite sfr_set_sfr_ne, sfr_set_sfr_eq, Ep by done. apply u8_id.
    unfold byte. rewrite Z.shiftr_div_pow2 by lia. change (2 ^ 8) with 256. Z.div_mod_to_equations. lia. }
  assert (sfr c3 REG_ACC = u8 (Z.land p 255)) as EA.
  { unfold c3, c2, c1. by rewrite !sfr_set_sfr_ne, sfr_set_sfr_eq, Ep by done. }
  assert (sfr c3 REG_PSW = clr (sfr c REG_PSW) (Z.lor PSWMASK_C PSWMASK_OV)) as EP.
  { unfold c3. rewrite sfr_set_sfr_eq, u8_id by (done || apply byte_clr, sfr_byte; done).
    unfold c2, c1. by rewrite !sfr_set_sfr_ne by done. }
  set (c4 := if negb (sfr c3 REG_B =? 0) then set_sfr REG_PSW (Z.lor (sfr c3 REG_PSW) PSWMASK_OV) c3 else c3).
  assert (eff (W := W) mul_ab c 3 (set_mPC (mPC c4 + 1) c4)) as He.
  { unfold mul_ab, ACC, PSW, set_PSW, set_ACC. eff_auto. fold p. fold c1. fold c2. fold c3.
    eapply eff_bind; [|apply eff_next]. unfold c4. destruct (negb (sfr c3 REG_B =? 0)); [apply eff_modify|apply eff_ret]. }
  destruct (eff_run _ s _ _ He) as (s' & E & Ec). exists s'. rewrite Ec. split; [done|].
  change (sfr (set_mPC (mPC c4 + 1) c4)) with (sfr c4).
  assert (sfr c4 REG_B = sfr c3 REG_B /\ sfr c4 REG_ACC = sfr c3 REG_ACC) as [-> ->].
  { unfold c4. case_if; [|done]. by rewrite !sfr_set_sfr_ne by done. }
  assert ((sfr c3 REG_B =? 0) = negb (255 <? p)) as Ez.
  { rewrite EB, Z.shiftr_div_pow2 by lia. change (2 ^ 8) with 256. Z.div_mod_to_equations. lia. }
  assert (byte (Z.lor (clr (sfr c REG_PSW) (Z.lor PSWMASK_C PSWMASK_OV)) PSWMASK_OV)) as Hby
    by (apply byte_lor; [by apply byte_clr|done]).
  split_and!.
  - rewrite EB, EA. rewrite <- (split_word p) at 3 by done.
    f_equal. f_equal. symmetry. apply u8_id. rewrite <- EB. by apply sfr_byte.
  - unfold c4. rewrite Ez, negb_involutive. destruct (255 <? p).
    + rewrite sfr_set_sfr_eq, EP, u8_id by done.
      by rewrite has_lor_same.
    + rewrite EP. by apply has_clr_sub.
  - unfold c4. rewrite Ez, negb_involutive. destruct (255 <? p).
    + rewrite sfr_set_sfr_eq, EP, u8_id by done.
      rewrite has_lor_disjoint by done. by apply has_clr_sub.
    + rewrite EP. by apply has_clr_sub.
  - unfold c4. by case_if.
Qed.

(** C33: DIV AB divides. With a nonzero divisor, ACC and B become quotient and
    remainder of ACC by B and OV is cleared; a zero divisor leaves both and sets
    OV. C is cleared either way and the instruction takes four cycles. *)
Theorem div_ab_correct (s : machine W) :
  wf (cpu s) ->
  exists s', div_ab s = Done 3 s' /\
    (sfr (cpu s) REG_B <> 0 ->
     sfr (cpu s) REG_ACC = sfr (cpu s') REG_ACC * sfr (cpu s) REG_B + sfr (cpu s') REG_B /\
     0 <= sfr (cpu s') REG_B < sfr (cpu s) REG_B) /\
    (sfr (cpu s) REG_B = 0 ->
     sfr (cpu s') REG_ACC = sfr (cpu s) REG_ACC /\ sfr (cpu s') REG_B = 0) /\
    has (sfr (cpu s') REG_PSW) PSWMASK_OV = (sfr (cpu s) REG_B =? 0) /\
    has (sfr (cpu s') REG_PSW) PSWMASK_C = false.
Proof.
  intros Hw. set (c := cpu s) in *. pose proof (sfr_byte c REG_ACC Hw ltac:(done)) as Ha.
  pose proof (sfr_byte c REG_B Hw ltac:(done)) as Hb. pose proof (sfr_byte c REG_PSW Hw ltac:(done)) as Hp.
  set (a := sfr c REG_ACC) in *. set (b := sfr c REG_B) in *.
  set (m := Z.lor PSWMASK_C PSWMASK_OV).
  set (c1 := set_sfr REG_PSW (clr (sfr c REG_PSW) m) c). assert (wf c1) as Hw1 by by apply wf_set_sfr.
  assert (sfr c1 REG_PSW = clr (sfr c REG_PSW) m) as E1.
  { unfold c1. rewrite sfr_set_sfr_eq by done. by apply u8_id, byte_clr. }
  set (cq := set_sfr REG_B (a mod b) (set_sfr REG_ACC (a / b) c1)).
  set (cz := set_sfr REG_B b (set_sfr REG_ACC a (set_sfr REG_PSW (Z.lor (sfr c1 REG_PSW) PSWMASK_OV) c1))).
  set (c2 := if negb (b =? 0) then cq else cz).
  assert (eff (W := W) div_ab c 3 (set_mPC (mPC c2 + 1) c2)) as He.
  { unfold div_ab, ACC, PSW, set_PSW, set_ACC. eff_auto. fold a b m c1. eapply eff_bind; [|apply eff_next].
    unfold c2. destruct (negb (b =? 0)); eff_auto. }
  destruct (eff_run _ s _ _ He) as (s' & E & Ec). exists s'. rewrite Ec. split; [done|].
  change (sfr (set_mPC (mPC c2 + 1) c2)) with (sfr c2). unfold c2, byte in *.
  assert (byte (Z.lor (clr (sfr c REG_PSW) m) PSWMASK_OV)) as Hby
    by (apply byte_lor; [by apply byte_clr|done]).
  destruct (Z.eqb_spec b 0) as [Eb|Eb]; cbn [negb].
  - split; [done|]. unfold cz. rewrite Eb. split_and!.
    + intros _. rewrite (sfr_set_sfr_ne _ REG_B REG_ACC), !sfr_set_sfr_eq by (done || by repeat apply wf_set_sfr).
      split; [by apply u8_id|done].
    + rewrite !(sfr_set_sfr_ne _ _ REG_PSW), sfr_set_sfr_eq, E1, u8_id by done.
      by rewrite has_lor_same.
    + rewrite !(sfr_set_sfr_ne _ _ REG_PSW), sfr_set_sfr_eq, E1, u8_id by done.
      rewrite has_lor_disjoint by done. by apply has_clr_sub.
  - pose proof (Z.mod_pos_bound a b ltac:(lia)). pose proof (Z.div_mod a b ltac:(lia)).
    assert (0 <= a / b <= a) by (split; [apply Z.div_pos; lia|apply Z.div_le_upper_bound; nia]).
    unfold cq. split_and!.
    + intros _. rewrite (sfr_set_sfr_ne _ REG_B REG_ACC), !sfr_set_sfr_eq by (done || by repeat apply wf_set_sfr).
      rewrite !u8_id by (unfold byte; lia). nia.
    + done.
    + rewrite !(sfr_set_sfr_ne _ _ REG_PSW), E1 by done. by apply has_clr_sub.
    + rewrite !(sfr_set_sfr_ne _ _ REG_PSW), E1 by done. by apply has_clr_sub.
Qed.

(** ** XCHD *)

(** Indirect accesses to memory the part does not have. *)
Lemma eff_read_absent a (c : em8051) :
  127 < a -> mUpperData c = None -> eff (W := W) (read_mem_indir a) c BAD_VALUE c.
Proof.
  intros Ha Hu. unfold read_mem_indir. destruct (Z.ltb_spec 0x7f a); [|lia].
  apply eff_get. rewrite Hu. apply eff_ret.
Qed.
Lemma eff_write_absent a v (c : em8051) :
  127 < a -> mUpperData c = None -> eff (W := W) (write_mem_indir a v) c () c.
Proof.
  intros Ha Hu. unfold write_mem_indir. destruct (Z.ltb_spec 0x7f a); [|lia].
  apply eff_get. rewrite Hu. apply eff_ret.
Qed.

(** The exchanged nibble is read back from the accumulator that has just been
    overwritten. *)
Lemma xchd_value a v : byte v -> byte a ->
  u8 (Z.lor (Z.land v 0xf0) (Z.land (u8 (Z.lor (Z.land a 0xf0) (Z.land v 0x0f))) 0x0f)) = v.
Proof.
  intros Hv Ha. apply Z.eqb_eq.
  exact (forall_bytes2 (fun a v => u8 (Z.lor (Z.land v 0xf0) (Z.land (u8 (Z.lor (Z.land a 0xf0)
    (Z.land v 0x0f))) 0x0f)) =? v) ltac:(vm_compute; reflexivity) a v Ha Hv).
Qed.

Lemma peek_byte c a : wf c -> slot c a -> byte (peek c a).
Proof.
  intros Hw [Ha Hs]. unfold peek. pose proof (wf_cpu_memory _ Hw) as []. destruct (Z.ltb_spec 0x7f a).
  - destruct (mUpperData c) as [b|] eqn:E; [|destruct Hs; [lia|done]].
    destruct (upper_buffer_length c b Hw E) as [Hb Hl]. apply Forall_geti; [|lia].
    by eapply (Forall_lookup_1 (Forall byte)).
  - apply Forall_geti; [done|lia].
Qed.

(** C40: XCHD A,@Ri as coded never writes a new nibble to memory: ACC is
    overwritten before its old low nibble is used, so every byte of internal
    memory keeps its value, where the instruction set exchanges the nibbles. *)
Theorem xchd_keeps_memory (s : machine W) :
  wf (cpu s) ->
  exists s', xchd_a_indir_rx s = Done 0 s' /\
    forall b, 0 <= b < 256 -> peek (cpu s') b = peek (cpu s) b.
Proof.
  intros Hw. set (c := cpu s) in *. destruct (eff_INDIR_RX (W := W) c Hw) as (a & Ha & Er).
  pose proof (sfr_byte c REG_ACC Hw ltac:(done)) as Hacc. unfold byte in Ha.
  destruct (decide (127 < a /\ mUpperData c = None)) as [[Hhi Hu]|Hslot].
  - eassert (eff (W := W) xchd_a_indir_rx c 0 _) as He.
    { unfold xchd_a_indir_rx, ACC, set_ACC. eapply eff_bind; [exact Er|].
      eapply eff_bind; [by apply eff_read_absent|]. eff_auto.
      eapply eff_bind; [by apply eff_write_absent|]. apply eff_next. }
    destruct (eff_run _ s _ _ He) as (s' & E & Ec). exists s'. rewrite Ec. by split.
  - assert (slot c a) as Hs.
    { split; [lia|]. destruct (mUpperData c); [by right|left].
      destruct (Z.lt_ge_cases a 128); [done|]. destruct Hslot. split; [lia|done]. }
    set (v := peek c a). set (c1 := set_sfr REG_ACC (Z.lor (Z.land (sfr c REG_ACC) 0xf0) (Z.land v 0x0f)) c).
    assert (wf c1) as Hw1 by by apply wf_set_sfr.
    assert (eff (W := W) xchd_a_indir_rx c 0 (set_mPC (mPC (poke c1 a v) + 1) (poke c1 a v))) as He.
    { unfold xchd_a_indir_rx, ACC, set_ACC. eapply eff_bind; [exact Er|].
      eapply eff_bind; [by apply eff_read_indir|]. fold v. eff_auto. fold c1.
      assert (sfr c1 REG_ACC = u8 (Z.lor (Z.land (sfr c REG_ACC) 0xf0) (Z.land v 0x0f))) as ->
        by by apply sfr_set_sfr_eq.
      rewrite xchd_value by (done || by apply peek_byte).
      eapply eff_bind; [by apply eff_write_indir|apply eff_next]. }
    destruct (eff_run _ s _ _ He) as (s' & E & Ec). exists s'. rewrite Ec. split; [done|].
    intros b Hb. change (peek (poke c1 a v) b = peek c1 b). destruct (Z.eq_dec a b) as [->|Hne].
    + rewrite peek_poke_eq by done. apply u8_id. by apply peek_byte.
    + by apply peek_poke_ne.
Qed.

(** ** Rotations *)

(** C34: RRC undoes RLC. Rotating left and then right through carry restores
    both ACC and C, and costs no extra cycles. *)
Theorem rlc_rrc_roundtrip (s : machine W) :
  wf (cpu s) ->
  exists s', (d ← rlc_a; d' ← rrc_a; mret (d, d')) s = Done (0, 0) s' /\
    sfr (cpu s') REG_ACC = sfr (cpu s) REG_ACC /\
    CARRY (cpu s') = CARRY (cpu s) /\ mPC (cpu s') = u16 (mPC (cpu s) + 2).
Proof.
  intros Hw. set (c := cpu s) in *. set (a := sfr c REG_ACC). set (p := sfr c REG_PSW).
  pose proof (sfr_byte c REG_ACC Hw ltac:(done)) as Ha. pose proof (sfr_byte c REG_PSW Hw ltac:(done)) as Hp.
  set (a1 := Z.lor (Z.shiftl a 1) (CARRY c)).
  set (p1 := Z.lor (clr p PSWMASK_C) (Z.shiftl (Z.b2z (negb (Z.shiftr a 7 =? 0))) PSW_C)).
  set (x1 := set_sfr REG_PSW p1 (set_sfr REG_ACC a1 c)). set (c1 := set_mPC (mPC x1 + 1) x1).
  assert (wf c1) as Hw1 by (apply wf_set_mPC; by do 2 apply wf_set_sfr).
  assert (sfr c1 REG_ACC = u8 a1 /\ sfr c1 REG_PSW = u8 p1) as [Ea1 Ep1].
  { change (sfr c1) with (sfr (set_sfr REG_PSW p1 (set_sfr REG_ACC a1 c))).
    rewrite sfr_set_sfr_ne, !sfr_set_sfr_eq by (done || by apply wf_set_sfr). done. }
  set (a2 := Z.lor (Z.shiftr (u8 a1) 1) (Z.shiftl (Z.shiftr (Z.land (u8 p1) PSWMASK_C) PSW_C) 7)).
  set (p2 := Z.lor (clr (u8 p1) PSWMASK_C) (Z.shiftl (Z.land (u8 a1) 1) PSW_C)).
  set (x2 := set_sfr REG_PSW p2 (set_sfr REG_ACC a2 c1)). set (c2 := set_mPC (mPC x2 + 1) x2).
  assert (eff (W := W) (d ← rlc_a; d' ← rrc_a; mret (d, d')) c (0, 0) c2) as He.
  { unfold rlc_a, rrc_a, ACC, PSW, set_ACC, set_PSW, carry_flag. eff_auto.
    eapply eff_bind; [apply eff_next|]. fold a p p1 a1 x1. fold c1. eff_auto. rewrite Ea1, Ep1.
    fold a2 p2 x2. eapply eff_bind; [apply eff_next|]. apply eff_ret. }
  destruct (eff_run _ s _ _ He) as (s' & E & Ec). exists s'. rewrite Ec. split; [done|].
  assert (sfr c2 REG_ACC = u8 a2 /\ sfr c2 REG_PSW = u8 p2) as [Ea2 Ep2].
  { change (sfr c2) with (sfr (set_sfr REG_PSW p2 (set_sfr REG_ACC a2 c1))).
    rewrite sfr_set_sfr_ne, !sfr_set_sfr_eq by (done || by apply wf_set_sfr). done. }
  pose proof (rotate_checked a p Ha Hp) as H. apply andb_prop in H as [H1 H2].
  split; [rewrite Ea2; exact (proj1 (Z.eqb_eq _ _) H1)|].
  split; [unfold CARRY; rewrite Ep2; exact (proj1 (Z.eqb_eq _ _) H2)|].
  change (mPC c2) with (u16 (u16 (mPC c + 1) + 1)). unfold u16. rewrite Zplus_mod_idemp_l. f_equal. lia.
Qed.

End AluProps.

(** ** Parity *)

(** The number of ones of a byte. *)
Definition ones (x : Z) : Z :=
  foldl (fun n i => n + Z.b2z (Z.testbit x i)) 0 (seqZ 0 8).

(** C35: the parity flag is even parity: after [update_parity], P is the number
    of ones in ACC modulo two and every other bit of PSW, and ACC itself, is
    unchanged. *)
Theorem update_parity_correct c :
  wf c ->
  has (sfr (update_parity c) REG_PSW) PSWMASK_P = (ones (sfr c REG_ACC) mod 2 =? 1) /\
  Z.land (sfr (update_parity c) REG_PSW) (not8 PSWMASK_P) = Z.land (sfr c REG_PSW) (not8 PSWMASK_P) /\
  sfr (update_parity c) REG_ACC = sfr c REG_ACC.
Proof.
  intros Hw. pose proof (sfr_byte c REG_ACC Hw ltac:(done)) as Ha.
  pose proof (sfr_byte c REG_PSW Hw ltac:(done)) as Hp.
  assert (parity (sfr c REG_ACC) = ones (sfr c REG_ACC) mod 2 /\ 0 <= parity (sfr c REG_ACC) <= 1) as [Ep Hr].
  { pose (p a := (parity a =? ones a mod 2) && (0 <=? parity a) && (parity a <=? 1)).
    assert (p (sfr c REG_ACC) = true) as H by (by apply (forall_byte p)). unfold p in H. lia. }
  unfold update_parity. rewrite sfr_set_sfr_eq by done. rewrite sfr_set_sfr_ne by done.
  change PSWMASK_P with 1 in *. rewrite Z.mul_1_r.
  rewrite u8_id by (apply byte_lor; [by apply byte_clr|unfold byte; lia]).
  assert (parity (sfr c REG_ACC) = 0 \/ parity (sfr c REG_ACC) = 1) as [E|E] by lia;
    rewrite <- Ep, E, has_lor, has_clr_same, Z.land_lor_distr_l, land_clr by done; split_and!; try done;
    by rewrite Z.lor_0_r.
Qed.

(** ** The reset generator *)

Lemma xorshift_left_nonzero x k :
  0 < k -> 0 < x < 4294967296 -> 0 < Z.lxor x (u32 (Z.shiftl x k)) < 4294967296.
Proof.
  intros Hk Hx. pose proof (Z.mod_pos_bound (Z.shiftl x k) 4294967296 ltac:(lia)) as Hm.
  pose proof (lxor_bound 32 x (u32 (Z.shiftl x k)) ltac:(lia) ltac:(lia) Hm).
  assert (Z.lxor x (u32 (Z.shiftl x k)) <> 0); [|lia].
  rewrite Z.lxor_eq_0_iff. unfold u32. intros E.
  assert (forall n : nat, Z.testbit x (Z.of_nat n) = false) as Hz.
  { intros n. induction n as [n IH] using lt_wf_ind. rewrite E. change 4294967296 with (2 ^ 32).
    destruct (Z.lt_ge_cases (Z.of_nat n) 32); [|rewrite Z.mod_pow2_bits_high by lia; done].
    rewrite Z.mod_pow2_bits_low by lia. destruct (Z.lt_ge_cases (Z.of_nat n) k).
    - by apply Z.shiftl_spec_low.
    - rewrite Z.shiftl_spec by lia. specialize (IH (Z.to_nat (Z.of_nat n - k)) ltac:(lia)).
      by replace (Z.of_nat (Z.to_nat (Z.of_nat n - k))) with (Z.of_nat n - k) in IH by lia. }
  assert (x = 0); [|lia]. apply Z.bits_inj'. intros i Hi. rewrite Z.bits_0.
  specialize (Hz (Z.to_nat i)). by rewrite Z2Nat.id in Hz.
Qed.

Lemma xorshift_right_nonzero x k :
  0 < k -> 0 < x < 4294967296 -> 0 < Z.lxor x (Z.shiftr x k) < 4294967296.
Proof.
  intros Hk Hx. assert (0 <= Z.shiftr x k < x) as Hs.
  { rewrite Z.shiftr_div_pow2 by lia. split; [apply Z.div_pos; lia|].
    apply Z.div_lt; [lia|]. apply Z.pow_gt_1; lia. }
  pose proof (lxor_bound 32 x (Z.shiftr x k) ltac:(lia) ltac:(lia) ltac:(lia)).
  assert (Z.lxor x (Z.shiftr x k) <> 0); [|lia]. rewrite Z.lxor_eq_0_iff. lia.
Qed.

(** C38: the reset generator never gets stuck. From every 32-bit state, zero
    included, the next state is a nonzero 32-bit value, so seeded resets never
    degenerate into the all-zero sequence. *)
Theorem reset_random_nonzero state :
  0 <= state < 4294967296 -> 0 < reset_random state < 4294967296.
Proof.
  intros Hs. unfold reset_random. cbv zeta.
  apply xorshift_left_nonzero; [lia|]. apply xorshift_right_nonzero; [lia|].
  apply xorshift_left_nonzero; [lia|]. destruct (Z.eqb_spec state 0); lia.
Qed.

(** *** Instances *)

(** ACC and B loaded, R0 pointing at address 40. *)
Definition alu_demo (a b : Z) : em8051 :=
  set_mLowerData (seti (seti (zeros 128) 0 0x40) 0x40 0x5a)
    (set_sfr REG_B b (set_sfr REG_ACC a (boot EM8051_VARIANT_8051 [0xd6]))).

Lemma alu_demo_wf : wf (alu_demo 200 7).
Proof. solve_wf. Qed.


Lemma mul_ab_correct_witness :
  exists s', mul_ab (start (alu_demo 200 7)) = Done 3 s' /\
    sfr (cpu s') REG_B * 256 + sfr (cpu s') REG_ACC = 1400.
Proof.
  destruct (mul_ab_correct (start (alu_demo 200 7)) alu_demo_wf) as (s' & E & Hp & _).
  exists s'. split; [exact E|]. rewrite Hp. vm_compute. reflexivity.
Defined.

Lemma div_ab_correct_witness :
  exists s', div_ab (start (alu_demo 200 7)) = Done 3 s' /\
    has (sfr (cpu s') REG_PSW) PSWMASK_OV = false.
Proof.
  destruct (div_ab_correct (start (alu_demo 200 7)) alu_demo_wf) as (s' & E & _ & _ & Ho & _).
  exists s'. split; [exact E|]. rewrite Ho. vm_compute. reflexivity.
Defined.

Lemma xchd_keeps_memory_witness :
  exists s', xchd_a_indir_rx (start (alu_demo 200 7)) = Done 0 s' /\ peek (cpu s') 0x40 = 0x5a.
Proof.
  destruct (xchd_keeps_memory (start (alu_demo 200 7)) alu_demo_wf) as (s' & E & Hm).
  exists s'. split; [exact E|]. rewrite Hm by lia. vm_compute. reflexivity.
Defined.

Lemma rlc_rrc_roundtrip_witness :
  exists s', (d ← rlc_a; d' ← rrc_a; mret (d, d')) (start (alu_demo 200 7)) = Done (0, 0) s' /\
    sfr (cpu s') REG_ACC = 200.
Proof.
  destruct (rlc_rrc_roundtrip (start (alu_demo 200 7)) alu_demo_wf) as (s' & E & Ha & _).
  exists s'. split; [exact E|]. rewrite Ha. vm_compute. reflexivity.
Defined.

Lemma update_parity_correct_witness :
  has (sfr (update_parity (alu_demo 200 7)) REG_PSW) PSWMASK_P = true.
Proof.
  destruct (update_parity_correct (alu_demo 200 7) alu_demo_wf) as [H _].
  rewrite H. vm_compute. reflexivity.
Defined.

Lemma reset_random_nonzero_witness : 0 < reset_random 0x80535 < 4294967296.
Proof. apply reset_random_nonzero. split; [discriminate|reflexivity]. Defined.
