(* ===== verification/AdcProps.v ===== *)
(** Properties of the SAB80535 A/D converter: exact scaling, monotonicity, the
    reference check, and the fifteen-cycle conversion. *)
From S2P Require Import Prelude State Machine Ports Uart Adc Irq Sfr Memory Opcodes Dispatch.
From S2P Require Import Wf Logic Timers PeriphSafe Interrupts Cpu CpuSafe Reset Concrete Effect TimerProps.

(** ** Scaling *)

(** The reference nibbles of DAPR: the upper one reads 0 as 16. *)
Definition dapr_lower (dapr : Z) : Z := dapr mod 16.
Definition dapr_upper (dapr : Z) : Z := if dapr / 16 =? 0 then 16 else dapr / 16.

(** The ideal converter: the position of the input between the references in
    256ths, over the integers, clamped to a byte. *)
Definition ideal_convert (input dapr : Z) : Z :=
  let lo := 65535 * dapr_lower dapr in
  let hi := 65535 * dapr_upper dapr in
  let x := 16 * input in
  if x <=? lo then 0 else if hi <=? x then 255 else Z.min 255 ((x - lo) * 256 / (hi - lo)).

Lemma dapr_nibbles dapr : byte dapr ->
  Z.land dapr 0x0f = dapr_lower dapr /\ Z.shiftr dapr 4 = dapr / 16 /\
  0 <= dapr_lower dapr < 16 /\ 1 <= dapr_upper dapr <= 16.
Proof.
  unfold byte, dapr_lower, dapr_upper. intros Hd. change 0x0f with (Z.ones 4).
  rewrite Z.land_ones, Z.shiftr_div_pow2 by lia. change (2 ^ 4) with 16.
  split_and!; try done; try case_match; Z.div_mod_to_equations; lia.
Qed.

(** C37: the reference check is the one the data book states: the lower nibble
    is at most 12, a nonzero upper nibble is at least 4, and the references are
    at least four steps apart, a zero upper nibble meaning the full 16. *)
Theorem references_valid_spec dapr :
  byte dapr ->
  sab_adc_references_valid dapr = true <->
  dapr_lower dapr <= 12 /\ (dapr / 16 = 0 \/ 4 <= dapr / 16) /\ dapr_lower dapr + 4 <= dapr_upper dapr.
Proof.
  intros Hd.
  pose (spec d := (dapr_lower d <=? 12) && ((d / 16 =? 0) || (4 <=? d / 16)) && (dapr_lower d + 4 <=? dapr_upper d)).
  assert (eqb (sab_adc_references_valid dapr) (spec dapr) = true) as H.
  { by apply (forall_range (fun d => eqb (sab_adc_references_valid d) (spec d)) 256). }
  rewrite eqb_true_iff in H. rewrite H. unfold spec. lia.
Qed.

(** The code's converter and the ideal one agree whenever the references are in
    order; in particular no 32-bit product overflows. *)
Lemma convert_ideal input dapr :
  word input -> byte dapr -> dapr_lower dapr < dapr_upper dapr ->
  sab_adc_convert input dapr = ideal_convert input dapr.
Proof.
  intros Hi Hd Hlt. destruct (dapr_nibbles dapr Hd) as (El & Eu & Hl & Hu). unfold word in Hi.
  unfold sab_adc_convert, ideal_convert. cbv zeta. rewrite El, Eu.
  assert (forall x, 0 <= x < 4294967296 -> u32 x = x) as U by (intros; by apply Z.mod_small).
  assert (0 <= dapr / 16 < 16) by (unfold byte in Hd; split; [apply Z.div_pos; lia|apply Z.div_lt_upper_bound; lia]).
  rewrite (U (dapr_lower dapr)), (U (dapr / 16)), (U input) by lia. fold (dapr_upper dapr).
  rewrite (U (16 * input)), (U (65535 * dapr_lower dapr)), (U (65535 * dapr_upper dapr)) by lia.
  destruct (Z.leb_spec (16 * input) (65535 * dapr_lower dapr)); [done|].
  destruct (Z.leb_spec (65535 * dapr_upper dapr) (16 * input)); [done|].
  rewrite (U (dapr_upper dapr - dapr_lower dapr)) by lia.
  rewrite (U (16 * input - 65535 * dapr_lower dapr)), (U (_ * 256)), (U (65535 * (_ - _))) by lia.
  replace (65535 * dapr_upper dapr - 65535 * dapr_lower dapr)
    with (65535 * (dapr_upper dapr - dapr_lower dapr)) by lia.
  set (q := _ / _). assert (0 <= q) by (apply Z.div_pos; lia).
  destruct (Z.ltb_spec 0xff q); [rewrite Z.min_l by lia; done|].
  rewrite Z.min_r by lia. apply u8_id. unfold byte. lia.
Qed.

(** C12: the converter is exact. For every 16-bit input and every DAPR the
    reference check accepts, [sab_adc_convert] is the ideal ratio over the
    integers, clamped to a byte: no intermediate 32-bit product overflows. *)
Theorem adc_convert_exact input dapr :
  word input -> byte dapr -> sab_adc_references_valid dapr = true ->
  sab_adc_convert input dapr = ideal_convert input dapr.
Proof.
  intros Hi Hd Hv. apply convert_ideal; [done..|].
  pose (ok d := negb (sab_adc_references_valid d) || (dapr_lower d <? dapr_upper d)).
  assert (ok dapr = true) as H by by apply (forall_range ok 256). unfold ok in H. rewrite Hv in H. cbn in H. lia.
Qed.

(** C36: the converter is monotone and byte-valued: a larger input never gives a
    smaller result, for any DAPR whose references are in order. *)
Theorem adc_convert_monotone input input' dapr :
  word input -> word input' -> byte dapr -> dapr_lower dapr < dapr_upper dapr -> input <= input' ->
  0 <= sab_adc_convert input dapr <= sab_adc_convert input' dapr /\ sab_adc_convert input' dapr <= 255.
Proof.
  intros Hi Hi' Hd Hlt Hle. rewrite !convert_ideal by done. destruct (dapr_nibbles dapr Hd) as (_ & _ & Hl & Hu).
  unfold ideal_convert, word in *. cbv zeta.
  set (lo := 65535 * dapr_lower dapr). set (hi := 65535 * dapr_upper dapr).
  assert (lo < hi) by (unfold lo, hi; lia).
  set (f x := Z.min 255 ((x - lo) * 256 / (hi - lo))).
  assert (forall x, lo < x -> 0 <= f x <= 255) as Hf.
  { intros x Hx. unfold f. assert (0 <= (x - lo) * 256 / (hi - lo)) by (apply Z.div_pos; lia). lia. }
  assert (lo < 16 * input -> f (16 * input) <= f (16 * input')) as Hm.
  { intros Hx. unfold f. assert ((16 * input - lo) * 256 / (hi - lo) <= (16 * input' - lo) * 256 / (hi - lo))
      by (apply Z.div_le_mono; lia). lia. }
  fold (f (16 * input)). fold (f (16 * input')). pose proof (Hf (16 * input)). pose proof (Hf (16 * input')).
  destruct (Z.leb_spec (16 * input) lo), (Z.leb_spec (16 * input') lo),
    (Z.leb_spec hi (16 * input)), (Z.leb_spec hi (16 * input')); lia.
Qed.

(** ** The conversion *)

Definition ADCON : Z := SAB_SFR_INDEX EM8051_SAB_SFR_ADCON.
Definition ADDAT : Z := SAB_SFR_INDEX EM8051_SAB_SFR_ADDAT.
Definition DAPR : Z := SAB_SFR_INDEX EM8051_SAB_SFR_DAPR.
Definition IRCON : Z := SAB_SFR_INDEX EM8051_SAB_SFR_IRCON.

(** The channel and the input a conversion started now samples. *)
Definition adc_channel (c : em8051) : Z := Z.land (sfr c ADCON) SAB_ADCONMASK_MX.
Definition adc_sample (c : em8051) : Z := u16 (geti (mSABADCInputs c) (adc_channel c)).

(** A conversion that has run for [k] cycles, started on the CPU [c0]. *)
Record converting (c0 : em8051) (k : Z) (c : em8051) : Prop := {
  cv_wf : wf c;
  cv_sab : is_sab c = true;
  cv_pending : mSABADCStartPending c = false;
  cv_armed : mSABADCArmed c = false;
  cv_active : mSABADCActive c = true;
  cv_cycles : mSABADCCycles c = k;
  cv_input : mSABADCLatchedInput c = adc_sample c0;
  cv_dapr : mSABADCLatchedDAPR c = sfr c0 DAPR;
  cv_valid : mSABADCReferenceValid c = sab_adc_references_valid (sfr c0 DAPR);
  cv_busy : has (sfr c ADCON) SAB_ADCONMASK_BSY = true;
  cv_addat : sfr c ADDAT = sfr c0 ADDAT
}.

(** A conversion is armed and will start in the next cycle. *)
Record adc_ready (c : em8051) : Prop := {
  rd_wf : wf c;
  rd_sab : is_sab c = true;
  rd_pending : mSABADCStartPending c = false;
  rd_armed : mSABADCArmed c = true
}.

Section AdcProps.
Context {W : Type} {HostW : Host W}.

Lemma eff_adc_trace e cy c : eff (sab_adc_trace_emit e cy) c () c.
Proof. unfold sab_adc_trace_emit. eff_step. apply eff_when_quiet, eff_observe. Qed.

(** The first cycle latches channel, input and references. *)
Lemma adc_start_step (s : machine W) :
  adc_ready (cpu s) -> exists s', sab_adc_tick s = Done () s' /\ converting (cpu s) 1 (cpu s').
Proof.
  intros [Hw Hsab Hp Ha]. set (c := cpu s) in *.
  assert (eff sab_adc_tick c () (set_mSABADCArmRestart false (sab_adc_latch c))) as He.
  { unfold sab_adc_tick. eff_step. rewrite Hsab, Hp, Ha. cbn [negb orb]. cbv zeta. eff_step.
    eapply eff_bind; [apply eff_adc_trace|]. apply eff_modify. }
  destruct (eff_safe periph sab_adc_tick any s () _ He safe_adc_tick Hw) as (s' & E & Ec & Hw' & Hpf).
  exists s'. split; [done|]. rewrite Ec. pose proof (sfr_byte c ADCON Hw ltac:(done)) as Hb.
  pose proof (sfr_byte c DAPR Hw ltac:(done)) as Hd.
  assert (u8 (sfr c DAPR) = sfr c DAPR) as Ed by by apply u8_id.
  assert (u8 (Z.land (sfr c ADCON) SAB_ADCONMASK_MX) = adc_channel c) as Em by (apply u8_id; by apply byte_land_l).
  constructor; try done.
  - change (u16 (geti (mSABADCInputs c) (u8 (Z.land (sfr c ADCON) SAB_ADCONMASK_MX))) = adc_sample c).
    by rewrite Em.
  - change (sab_adc_references_valid (u8 (sfr c DAPR)) = sab_adc_references_valid (sfr c DAPR)). by rewrite Ed.
  - change (has (geti (seti (mSFR c) ADCON (u8 (Z.lor (sfr c ADCON) SAB_ADCONMASK_BSY))) ADCON) SAB_ADCONMASK_BSY = true).
    rewrite geti_seti_eq by (by rewrite (wf_sfr_length _ (wf_cpu_memory _ Hw))).
    rewrite u8_id by (by apply byte_lor). by apply has_lor_same.
  - by apply (sfr_set_sfr_ne c ADCON ADDAT).
Qed.

(** The cycles in between only count. *)
Lemma adc_wait_step c0 k (s : machine W) :
  converting c0 k (cpu s) -> 1 <= k < 14 ->
  exists s', sab_adc_tick s = Done () s' /\ converting c0 (k + 1) (cpu s').
Proof.
  intros [] Hk. set (c := cpu s) in *.
  assert (eff sab_adc_tick c () (set_mSABADCCycles (k + 1) c)) as He.
  { unfold sab_adc_tick. eff_step. rewrite cv_sab0, cv_pending0, cv_armed0, cv_active0, cv_cycles0.
    cbn [negb orb]. cbv zeta. do 2 eff_step.
    change (mSABADCCycles (set_mSABADCCycles (k + 1) c)) with (u8 (k + 1)).
    rewrite u8_id by (unfold byte; lia). destruct (Z.ltb_spec (k + 1) 15); [apply eff_ret|lia]. }
  destruct (eff_safe periph sab_adc_tick any s () _ He safe_adc_tick cv_wf0) as (s' & E & Ec & Hw' & _).
  exists s'. split; [done|]. rewrite Ec. constructor; try done.
  change (u8 (k + 1) = k + 1). apply u8_id. unfold byte. lia.
Qed.

(** The fifteenth cycle delivers the result. *)
Lemma adc_finish_step c0 (s : machine W) :
  converting c0 14 (cpu s) ->
  exists s', sab_adc_tick s = Done () s' /\ wf (cpu s') /\
    sfr (cpu s') ADDAT =
      (if sab_adc_references_valid (sfr c0 DAPR) then u8 (sab_adc_convert (adc_sample c0) (sfr c0 DAPR))
       else sfr c0 ADDAT) /\
    has (sfr (cpu s') ADCON) SAB_ADCONMASK_BSY = false /\
    has (sfr (cpu s') IRCON) SAB_IRCONMASK_IADC = true.
Proof.
  intros []. set (c := cpu s) in *. set (c1 := set_mSABADCCycles 15 c).
  set (v := sab_adc_convert (adc_sample c0) (sfr c0 DAPR)).
  set (c2 := if sab_adc_references_valid (sfr c0 DAPR) then set_sfr ADDAT v c1 else c1).
  set (c3 := sab_adc_set_busy false (set_mSABADCActive false c2)).
  set (c4 := set_sfr IRCON (Z.lor (sfr c3 IRCON) SAB_IRCONMASK_IADC) c3).
  destruct (eff_irq_sync (W := W) c4) as (c5 & Hs & [Hsame _]).
  assert (wf c1) as Hw1 by eauto with emu.
  assert (wf c2) as Hw2 by (unfold c2; case_if; eauto with emu).
  assert (wf (set_mSABADCActive false c2)) as Hw2' by eauto with emu.
  assert (wf c3) as Hw3 by (unfold c3; eauto with emu).
  assert (eff sab_adc_tick c () c5) as He.
  { unfold sab_adc_tick. eff_step. rewrite cv_sab0, cv_pending0, cv_armed0, cv_active0, cv_cycles0.
    cbn [negb orb]. cbv zeta. do 2 eff_step. change (set_mSABADCCycles (14 + 1) c) with c1.
    change (mSABADCCycles c1 <? 15) with false. cbv iota.
    change (mSABADCReferenceValid c1) with (mSABADCReferenceValid c).
    change (mSABADCLatchedInput c1) with (mSABADCLatchedInput c).
    change (mSABADCLatchedDAPR c1) with (mSABADCLatchedDAPR c).
    rewrite cv_valid0, cv_input0, cv_dapr0. fold v. eapply eff_bind with (c1 := c2).
    { unfold c2. destruct (sab_adc_references_valid (sfr c0 DAPR)); [apply eff_modify|apply eff_ret]. }
    do 3 eff_step. fold c3. eff_step. fold c4. eapply eff_bind; [exact Hs|]. apply eff_adc_trace. }
  destruct (eff_safe periph sab_adc_tick any s () _ He safe_adc_tick cv_wf0) as (s' & E & Ec & Hw' & _).
  exists s'. rewrite Ec. split; [done|]. split; [done|]. rewrite !Hsame by done. unfold c4.
  rewrite (sfr_set_sfr_ne c3 IRCON ADDAT), (sfr_set_sfr_ne c3 IRCON ADCON), sfr_set_sfr_eq by done.
  unfold c3, sab_adc_set_busy. cbv zeta. fold ADCON. split_and!.
  - rewrite sfr_set_sfr_ne by done. change (sfr c2 ADDAT = if sab_adc_references_valid (sfr c0 DAPR) then u8 v else sfr c0 ADDAT).
    unfold c2. case_if; [by apply sfr_set_sfr_eq|done].
  - rewrite sfr_set_sfr_eq by (done || eauto with emu).
    rewrite u8_id by (apply byte_clr, sfr_byte; [eauto with emu|done]). by apply has_clr_same.
  - rewrite u8_id; [by apply has_lor_same|]. apply byte_lor; [|done].
    apply sfr_byte; [eauto with emu|done].
Qed.

(** C11: a conversion takes fifteen machine cycles. From an armed start, after
    [k] cycles with [1 <= k <= 14] the converter is busy with the sample and
    the references latched in the first cycle and ADDAT still holds the old
    result; the fifteenth cycle stores the converted value (when the references
    are valid), clears BSY and raises the ADC request. *)
Theorem adc_conversion_time (s : machine W) :
  adc_ready (cpu s) ->
  (forall k : nat, (1 <= k <= 14)%nat ->
    exists s', times k sab_adc_tick s = Done () s' /\ converting (cpu s) (Z.of_nat k) (cpu s')) /\
  exists s', times 15 sab_adc_tick s = Done () s' /\
    sfr (cpu s') ADDAT =
      (if sab_adc_references_valid (sfr (cpu s) DAPR)
       then u8 (sab_adc_convert (adc_sample (cpu s)) (sfr (cpu s) DAPR)) else sfr (cpu s) ADDAT) /\
    has (sfr (cpu s') ADCON) SAB_ADCONMASK_BSY = false /\
    has (sfr (cpu s') IRCON) SAB_IRCONMASK_IADC = true.
Proof.
  intros Hr.
  assert (forall k : nat, (1 <= k <= 14)%nat ->
    exists s', times k sab_adc_tick s = Done () s' /\ converting (cpu s) (Z.of_nat k) (cpu s')) as Hk.
  { intros k. induction k as [|k IH]; intros Hk; [lia|]. cbn [times].
    destruct (decide (k = 0)%nat) as [->|Hne].
    - destruct (adc_start_step s Hr) as (s' & E & H). exists s'. split; [exact E|exact H].
    - destruct IH as (s1 & E1 & H1); [lia|].
      destruct (adc_wait_step (cpu s) (Z.of_nat k) s1 H1) as (s2 & E2 & H2); [lia|].
      exists s2. rewrite (exec_bind _ _ _ _ _ E1). split; [done|].
      by replace (Z.of_nat (S k)) with (Z.of_nat k + 1) by lia. }
  split; [done|]. destruct (Hk 14%nat) as (s1 & E1 & H1); [lia|].
  destruct (adc_finish_step (cpu s) s1 H1) as (s2 & E2 & _ & H2).
  exists s2. split; [|done]. change (times 15 sab_adc_tick s) with (bind (times 14 sab_adc_tick) (fun _ => sab_adc_tick) s).
  by rewrite (exec_bind _ _ _ _ _ E1).
Qed.

End AdcProps.

(** *** Instances *)

(** A conversion of channel 3, half scale, full references, armed. *)
Definition adc_demo : em8051 :=
  set_mSABADCArmed true (set_mSABADCInputs [0; 0; 0; 0x8000; 0; 0; 0; 0]
    (set_sfr ADCON 3 (boot EM8051_VARIANT_SAB80535 [0x00]))).

Lemma adc_demo_ready : adc_ready adc_demo.
Proof. constructor; [solve_wf|by vm_compute..]. Qed.

Lemma references_valid_spec_witness :
  dapr_lower 0x42 <= 12 /\ (0x42 / 16 = 0 \/ 4 <= 0x42 / 16) /\ dapr_lower 0x42 + 4 <= dapr_upper 0x42
  <-> sab_adc_references_valid 0x42 = true.
Proof.
  symmetry. apply (references_valid_spec 0x42). split; [discriminate|reflexivity].
Defined.

Lemma adc_convert_exact_witness : sab_adc_convert 0x8000 0 = 128.
Proof.
  rewrite (adc_convert_exact 0x8000 0).
  - vm_compute. reflexivity.
  - split; [discriminate|reflexivity].
  - split; [discriminate|reflexivity].
  - vm_compute. reflexivity.
Defined.

Lemma adc_convert_monotone_witness : sab_adc_convert 0x1000 0x84 <= sab_adc_convert 0x5000 0x84.
Proof.
  apply (adc_convert_monotone 0x1000 0x5000 0x84).
  - split; [discriminate|reflexivity].
  - split; [discriminate|reflexivity].
  - split; [discriminate|reflexivity].
  - vm_compute. reflexivity.
  - discriminate.
Defined.

Lemma adc_conversion_time_witness :
  exists s', times 15 sab_adc_tick (start adc_demo) = Done () s' /\ sfr (cpu s') ADDAT = 128.
Proof.
  destruct (adc_conversion_time (start adc_demo) adc_demo_ready) as [_ (s' & E & Ha & _)].
  exists s'. split; [exact E|]. rewrite Ha. vm_compute. reflexivity.
Defined.
