(* ===== verification/UartProps.v ===== *)
(** Properties of the SAB80535 mode-3 UART: the frame a transmission sends, bit
    by bit and on time, and the delivery or loss of a received frame. *)
From S2P Require Import Prelude State Machine Ports Uart Adc Irq Sfr Memory Opcodes Dispatch.
From S2P Require Import Wf Logic Timers PeriphSafe Interrupts Cpu CpuSafe Reset Concrete Effect TimerProps.

(** ** The UART as a function of the CPU *)

Definition tx_load (c : em8051) : em8051 :=
  set_mSABUartTxBitIndex 0 (set_mSABUartTxActive true (set_mSABUartTxPending false
    (set_mSABUartTxNinth (mSABUartTxPendingNinth c) (set_mSABUartTxData (mSABUartTxPendingData c) c)))).

Definition tx_next (c : em8051) : em8051 :=
  if negb (mSABUartTxActive c) then if mSABUartTxPending c then tx_load c else c
  else if mSABUartTxBitIndex c <? 9 then set_mSABUartTxBitIndex (mSABUartTxBitIndex c + 1) c
  else if mSABUartTxBitIndex c =? 9 then
    set_sfr REG_SCON (Z.lor (sfr c REG_SCON) SCONMASK_TI) (set_mSABUartTxBitIndex 10 c)
  else if mSABUartTxPending c then tx_load (set_mSABUartTxActive false c)
  else set_mSABUartTxActive false c.

(** An accepted frame: SBUF, then RB8, then RI. *)
Definition rx_deliver (c : em8051) : em8051 :=
  let c1 := set_sfr REG_SBUF (u8 (mSABUartRxPendingData c)) (set_mSABUartRxData (mSABUartRxPendingData c) c) in
  let c2 := set_sfr REG_SCON (clr (sfr c1 REG_SCON) SCONMASK_RB8) c1 in
  let c3 := if mSABUartRxPendingNinth c then set_sfr REG_SCON (Z.lor (sfr c2 REG_SCON) SCONMASK_RB8) c2 else c2 in
  set_sfr REG_SCON (Z.lor (sfr c3 REG_SCON) SCONMASK_RI) c3.

Definition rx_next (c : em8051) : em8051 :=
  let c1 := set_mSABUartRxBitIndex (mSABUartRxBitIndex c + 1) c in
  if mSABUartRxBitIndex c1 =? 10 then if sab_uart_rx_accepts c1 then rx_deliver c1 else c1
  else if mSABUartRxBitIndex c1 =? 11 then set_mSABUartRxActive false c1 else c1.

Definition divided (phase : Z) (smod : bool) : Z := fst (sab_uart_divider_step phase smod).
Definition at_boundary (phase : Z) (smod : bool) : bool := snd (sab_uart_divider_step phase smod).

Definition tx_half (smod : bool) (c : em8051) : em8051 :=
  let c1 := set_mSABUartDividerPhase (divided (mSABUartDividerPhase c) smod) c in
  if at_boundary (mSABUartDividerPhase c) smod then tx_next c1 else c1.

Definition rx_half (smod : bool) (c : em8051) : em8051 :=
  if mSABUartRxActive c then
    let c1 := set_mSABUartRxDividerPhase (divided (mSABUartRxDividerPhase c) smod) c in
    if at_boundary (mSABUartRxDividerPhase c) smod then rx_next c1 else c1
  else c.

(** ** What the two halves leave to each other *)

(** Setting or clearing flags keeps every bit outside them. *)
Lemma sfr_lor_keep c i k m :
  wf c -> 0 <= i < 128 -> byte k -> Z.land k m = 0 ->
  Z.land (sfr (set_sfr i (Z.lor (sfr c i) k) c) i) m = Z.land (sfr c i) m.
Proof.
  intros Hw Hi Hk Hd. rewrite sfr_set_sfr_eq by done.
  rewrite u8_id by (apply byte_lor; [by apply sfr_byte|done]).
  by rewrite Z.land_lor_distr_l, Hd, Z.lor_0_r.
Qed.

Lemma sfr_clr_keep c i k m :
  wf c -> 0 <= i < 128 -> Z.land (not8 k) m = m ->
  Z.land (sfr (set_sfr i (clr (sfr c i) k) c) i) m = Z.land (sfr c i) m.
Proof.
  intros Hw Hi Hd. rewrite sfr_set_sfr_eq by done.
  rewrite u8_id by (apply byte_clr; by apply sfr_byte).
  unfold clr. by rewrite <- Z.land_assoc, Hd.
Qed.

(** The mode, the clock source and the software's SCON bits: neither half
    changes them. *)
Definition control (c : em8051) : Z * Z * Z * Z :=
  (mVariant c, sfr c REG_PCON, sfr c (SAB_SFR_INDEX EM8051_SAB_SFR_ADCON), Z.land (sfr c REG_SCON) 0xf8).

(** What belongs to the transmitter, and what to the receiver. *)
Definition tx_view (c : em8051) :=
  (mSABUartDividerPhase c, mSABUartTxPendingData c, mSABUartTxData c, mSABUartTxBitIndex c,
   mSABUartTxPendingNinth c, mSABUartTxNinth c, mSABUartTxPending c, mSABUartTxActive c,
   Z.land (sfr c REG_SCON) SCONMASK_TI).
Definition rx_view (c : em8051) :=
  (mSABUartRxDividerPhase c, mSABUartRxPendingData c, mSABUartRxBitIndex c, mSABUartRxPendingNinth c,
   mSABUartRxActive c, sfr c REG_SBUF, Z.land (sfr c REG_SCON) (Z.lor SCONMASK_RI SCONMASK_RB8)).

Lemma control_mode3 c c' : control c' = control c -> sab_uart_mode3 c' = sab_uart_mode3 c.
Proof.
  intros [= Ev _ Ea Es]. unfold sab_uart_mode3, is_sab. rewrite Ev, Ea.
  assert (forall x, Z.land x (Z.lor SCONMASK_SM0 SCONMASK_SM1) =
    Z.land (Z.land x 0xf8) (Z.lor SCONMASK_SM0 SCONMASK_SM1)) as E by (intros; by rewrite <- Z.land_assoc).
  by rewrite (E (sfr c' _)), (E (sfr c _)), Es.
Qed.

Lemma wf_tx_half smod c : wf c -> wf (tx_half smod c).
Proof. intros Hw. unfold tx_half, tx_next, tx_load. cbv zeta. repeat case_if; eauto 10 with emu. Qed.

(** The transmitter touches only TI in SCON, the receiver only RI and RB8. *)
Lemma tx_half_scon smod c m :
  wf c -> Z.land SCONMASK_TI m = 0 -> Z.land (sfr (tx_half smod c) REG_SCON) m = Z.land (sfr c REG_SCON) m.
Proof.
  intros Hw Hm. unfold tx_half, tx_next, tx_load. cbv zeta. repeat case_if; try done.
  set (c1 := set_mSABUartTxBitIndex _ _). assert (wf c1) by (unfold c1; eauto with emu).
  exact (sfr_lor_keep c1 REG_SCON SCONMASK_TI m ltac:(done) ltac:(done) ltac:(done) Hm).
Qed.

Lemma rx_deliver_scon c m :
  wf c -> Z.land (not8 SCONMASK_RB8) m = m -> Z.land SCONMASK_RB8 m = 0 -> Z.land SCONMASK_RI m = 0 ->
  Z.land (sfr (rx_deliver c) REG_SCON) m = Z.land (sfr c REG_SCON) m.
Proof.
  intros Hw Hn Hb Hr. unfold rx_deliver. cbv zeta. set (c1 := set_sfr REG_SBUF _ _).
  assert (wf c1) as Hw1 by (unfold c1; eauto with emu).
  set (c2 := set_sfr REG_SCON (clr _ _) c1). assert (wf c2) as Hw2 by by apply wf_set_sfr.
  set (c3 := if mSABUartRxPendingNinth c then _ else c2). assert (wf c3) as Hw3 by (unfold c3; case_if; eauto with emu).
  rewrite sfr_lor_keep by done.
  assert (Z.land (sfr c3 REG_SCON) m = Z.land (sfr c2 REG_SCON) m) as ->.
  { unfold c3. case_if; [by apply sfr_lor_keep|done]. }
  unfold c2. rewrite sfr_clr_keep by done. unfold c1. by rewrite sfr_set_sfr_ne by done.
Qed.

Lemma rx_half_scon smod c m :
  wf c -> Z.land (not8 SCONMASK_RB8) m = m -> Z.land SCONMASK_RB8 m = 0 -> Z.land SCONMASK_RI m = 0 ->
  Z.land (sfr (rx_half smod c) REG_SCON) m = Z.land (sfr c REG_SCON) m.
Proof.
  intros Hw Hn Hb Hr. unfold rx_half, rx_next. cbv zeta. repeat case_if; try done.
  rewrite rx_deliver_scon by eauto with emu. done.
Qed.

Lemma rx_deliver_other c i : i <> REG_SCON -> i <> REG_SBUF -> 0 <= i -> sfr (rx_deliver c) i = sfr c i.
Proof.
  intros H1 H2 Hi. unfold rx_deliver. cbv zeta. case_if; by rewrite !sfr_set_sfr_ne by done.
Qed.

Lemma tx_half_other smod c i : i <> REG_SCON -> 0 <= i -> sfr (tx_half smod c) i = sfr c i.
Proof.
  intros Hne Hi. unfold tx_half, tx_next, tx_load. cbv zeta. repeat case_if; try done.
  by rewrite sfr_set_sfr_ne by done.
Qed.
Lemma rx_half_other smod c i :
  i <> REG_SCON -> i <> REG_SBUF -> 0 <= i -> sfr (rx_half smod c) i = sfr c i.
Proof.
  intros H1 H2 Hi. unfold rx_half, rx_next. cbv zeta. repeat case_if; try done. by rewrite rx_deliver_other.
Qed.

Lemma tx_half_control smod c : wf c -> control (tx_half smod c) = control c.
Proof.
  intros Hw. unfold control. rewrite !tx_half_other, tx_half_scon by done. do 3 f_equal.
  unfold tx_half, tx_next, tx_load. cbv zeta. by repeat case_if.
Qed.
Lemma rx_half_control smod c : wf c -> control (rx_half smod c) = control c.
Proof.
  intros Hw. unfold control. rewrite !rx_half_other, rx_half_scon by done. do 3 f_equal.
  unfold rx_half, rx_next, rx_deliver. cbv zeta. by repeat case_if.
Qed.

Lemma rx_half_tx_view smod c : wf c -> tx_view (rx_half smod c) = tx_view c.
Proof.
  intros Hw. unfold tx_view. rewrite rx_half_scon by done. f_equal.
  unfold rx_half, rx_next, rx_deliver. cbv zeta. by repeat case_if.
Qed.
Lemma tx_half_rx_view smod c : wf c -> rx_view (tx_half smod c) = rx_view c.
Proof.
  intros Hw. unfold rx_view. rewrite tx_half_scon, tx_half_other by done. do 2 f_equal.
  unfold tx_half, tx_next, tx_load. cbv zeta. by repeat case_if.
Qed.

(** ** The divider *)

(** Timer-1 overflows per bit. *)
Definition period (smod : bool) : Z := if smod then 16 else 32.

Lemma divider phase smod : 0 <= phase < 32 ->
  divided phase smod = (phase + 1) mod 32 /\
  at_boundary phase smod = (phase mod period smod =? period smod - 1) /\
  divided phase smod mod period smod =
    (if at_boundary phase smod then 0 else phase mod period smod + 1).
Proof.
  intros Hp.
  pose (ok p := (divided p smod =? (p + 1) mod 32) &&
    eqb (at_boundary p smod) (p mod period smod =? period smod - 1) &&
    (divided p smod mod period smod =? (if at_boundary p smod then 0 else p mod period smod + 1))).
  assert (ok phase = true) as H by (apply (forall_range ok 32); [by destruct smod|done]).
  unfold ok in H. rewrite !andb_true_iff, !Z.eqb_eq, eqb_true_iff in H. tauto.
Qed.

(** After [t] overflows in all, boundaries passed and position in the bit. *)
Lemma period_step smod t : 0 <= t ->
  (t + 1) / period smod = t / period smod + (if t mod period smod =? period smod - 1 then 1 else 0) /\
  (t + 1) mod period smod = (if t mod period smod =? period smod - 1 then 0 else t mod period smod + 1).
Proof.
  intros Ht. unfold period. destruct smod; case_if; Z.div_mod_to_equations; lia.
Qed.

(** ** The transmitter *)

(** The frame: START, eight data bits LSB first, the ninth bit, STOP. *)
Definition frame (d : Z) (ninth : bool) : list bool :=
  [false] ++ map (fun i => Z.testbit d i) (seqZ 0 8) ++ [ninth; true].

(** After [j] bit boundaries: waiting, sending bit [j - 1], or finished. *)
Definition tx_line (d : Z) (ninth : bool) (j : Z) (c : em8051) : Prop :=
  if j =? 0 then
    mSABUartTxActive c = false /\ mSABUartTxPending c = true /\
    mSABUartTxPendingData c = d /\ mSABUartTxPendingNinth c = ninth
  else if j <=? 11 then
    mSABUartTxActive c = true /\ mSABUartTxPending c = false /\
    mSABUartTxData c = d /\ mSABUartTxNinth c = ninth /\ mSABUartTxBitIndex c = j - 1
  else mSABUartTxActive c = false /\ mSABUartTxPending c = false.

Record tx_state (d : Z) (ninth smod : bool) (j r : Z) (c : em8051) : Prop := {
  tx_wf : wf c;
  tx_mode : sab_uart_mode3 c = true;
  tx_smod : has (sfr c REG_PCON) PCONMASK_SMOD = smod;
  tx_range : 0 <= mSABUartDividerPhase c < 32;
  tx_phase : mSABUartDividerPhase c mod period smod = r;
  tx_bits : tx_line d ninth j c;
  tx_ti : has (sfr c REG_SCON) SCONMASK_TI = (11 <=? j)
}.

(** The bit on the line while bit [j - 1] is being sent. *)
Lemma tx_bit_frame d ninth j c :
  byte d -> 1 <= j <= 11 -> tx_line d ninth j c ->
  frame d ninth !! Z.to_nat (j - 1) = Some (sab_uart_tx_bit_value c (mSABUartTxBitIndex c)).
Proof.
  intros Hd Hj. unfold tx_line. destruct (Z.eqb_spec j 0); [lia|]. destruct (Z.leb_spec j 11); [|lia].
  intros (_ & _ & <- & <- & ->). unfold sab_uart_tx_bit_value.
  assert (forall i, 0 <= i -> negb (Z.land (Z.shiftr (mSABUartTxData c) i) 1 =? 0) = Z.testbit (mSABUartTxData c) i) as Hb.
  { intros i Hi. rewrite <- (Z.add_0_l i) at 2. rewrite <- Z.shiftr_spec by lia. change 1 with (Z.ones 1).
    rewrite Z.land_ones, Z.bit0_odd by lia. change (2 ^ 1) with 2. rewrite Zmod_odd. by case_if. }
  assert (j = 1 \/ j = 2 \/ j = 3 \/ j = 4 \/ j = 5 \/ j = 6 \/ j = 7 \/ j = 8 \/ j = 9 \/ j = 10 \/ j = 11)
    as Hc by lia.
  repeat destruct Hc as [->|Hc]; [..|subst j]; try done; cbn [Z.sub Z.add]; by rewrite Hb.
Qed.

(** One bit boundary. *)
Lemma tx_next_line d ninth j c :
  wf c -> byte d -> 0 <= j -> tx_line d ninth j c ->
  tx_line d ninth (j + 1) (tx_next c) /\
  has (sfr (tx_next c) REG_SCON) SCONMASK_TI = has (sfr c REG_SCON) SCONMASK_TI || (j =? 10).
Proof.
  intros Hw Hd Hj. unfold tx_line, tx_next. destruct (Z.eqb_spec j 0) as [->|Hne].
  { intros (-> & -> & Ed & En). rewrite orb_false_r. cbn -[u8 sfr]. by rewrite Ed, u8_id. }
  destruct (Z.eqb_spec (j + 1) 0); [lia|]. destruct (Z.leb_spec j 11).
  2: { intros [Ea Ep]. rewrite Ea, Ep. destruct (Z.leb_spec (j + 1) 11), (Z.eqb_spec j 10); try lia. by rewrite orb_false_r. }
  intros (Ea & Ep & Ed & En & Ei). rewrite Ea, Ep, Ei. cbn [negb].
  destruct (Z.ltb_spec (j - 1) 9); [|destruct (Z.eqb_spec (j - 1) 9)].
  - destruct (Z.leb_spec (j + 1) 11); [|lia]. destruct (Z.eqb_spec j 10); [lia|]. rewrite orb_false_r.
    split; [|done]. cbn -[u8 sfr]. rewrite u8_id by (unfold byte; lia). split_and!; [done..|lia].
  - replace j with 10 by lia. cbn -[u8 sfr Z.lor set_sfr]. split; [done|]. rewrite orb_true_r.
    set (c1 := set_mSABUartTxBitIndex 10 c). assert (wf c1) by (unfold c1; eauto with emu).
    rewrite sfr_set_sfr_eq by done. rewrite u8_id by (apply byte_lor; [by apply sfr_byte|done]).
    by apply has_lor_same.
  - replace j with 11 by lia. cbn. by rewrite orb_false_r.
Qed.

Lemma tx_half_line d ninth smod j c :
  wf c -> byte d -> 0 <= j -> 0 <= mSABUartDividerPhase c < 32 -> tx_line d ninth j c ->
  has (sfr c REG_SCON) SCONMASK_TI = (11 <=? j) ->
  let b := mSABUartDividerPhase c mod period smod =? period smod - 1 in
  let j' := j + (if b then 1 else 0) in
  let c' := tx_half smod c in
  tx_line d ninth j' c' /\ has (sfr c' REG_SCON) SCONMASK_TI = (11 <=? j') /\
  0 <= mSABUartDividerPhase c' < 32 /\
  mSABUartDividerPhase c' mod period smod = (if b then 0 else mSABUartDividerPhase c mod period smod + 1).
Proof.
  intros Hw Hd Hj Hp Hl Ht b j' c'. destruct (divider (mSABUartDividerPhase c) smod Hp) as (E1 & E2 & E3).
  fold b in E2. rewrite E2 in E3.
  set (c1 := set_mSABUartDividerPhase (divided (mSABUartDividerPhase c) smod) c).
  assert (wf c1) as Hw1 by (unfold c1; eauto with emu).
  assert (mSABUartDividerPhase c1 = (mSABUartDividerPhase c + 1) mod 32) as Ep.
  { change (u8 (divided (mSABUartDividerPhase c) smod) = (mSABUartDividerPhase c + 1) mod 32). rewrite E1.
    apply u8_id. pose proof (Z.mod_pos_bound (mSABUartDividerPhase c + 1) 32). unfold byte. lia. }
  assert (mSABUartDividerPhase c' = mSABUartDividerPhase c1) as Ep'.
  { unfold c', tx_half, tx_next, tx_load. cbv zeta. by repeat case_if. }
  assert (c' = if b then tx_next c1 else c1) as Ec by (unfold c', tx_half; by rewrite E2).
  rewrite Ep', Ep, <- E1, E3, E1. split_and!; [| |apply Z.mod_pos_bound; lia|apply Z.mod_pos_bound; lia|done];
    rewrite Ec; unfold j'; destruct b; rewrite ?Z.add_0_r; try done;
    destruct (tx_next_line d ninth j c1 Hw1 Hd Hj Hl) as [Hl' Ht']; [done|].
  rewrite Ht'. change (sfr c1 REG_SCON) with (sfr c REG_SCON). rewrite Ht. lia.
Qed.

(** ** The receiver *)

(** The registers a received frame is delivered to. *)
Definition inbox (c : em8051) : Z * bool * bool :=
  (sfr c REG_SBUF, has (sfr c REG_SCON) SCONMASK_RB8, has (sfr c REG_SCON) SCONMASK_RI).

(** Whether a CPU takes a frame with this ninth bit: the previous byte was
    read, and multiprocessor mode lets the frame through. *)
Definition takes (c : em8051) (ninth : bool) : bool :=
  negb (has (sfr c REG_SCON) SCONMASK_RI) && (negb (has (sfr c REG_SCON) SCONMASK_SM2) || ninth).

(** [j] bit boundaries after the frame [d], [ninth] began on the CPU [c0]: it
    is delivered or dropped at the tenth, and the receiver is idle from the
    eleventh on. [r] counts the overflows of the current bit. *)
Record rx_state (c0 : em8051) (d : Z) (ninth smod : bool) (j r : Z) (c : em8051) : Prop := {
  rx_wf : wf c;
  rx_control : control c = control c0;
  rx_active : mSABUartRxActive c = (j <=? 10);
  rx_frame : j <= 10 -> mSABUartRxPendingData c = d /\ mSABUartRxPendingNinth c = ninth /\
    mSABUartRxBitIndex c = j /\ 0 <= mSABUartRxDividerPhase c < 32 /\
    mSABUartRxDividerPhase c mod period smod = r;
  rx_inbox : inbox c = if (10 <=? j) && takes c0 ninth then (d, ninth, true) else inbox c0
}.

Lemma has_view v w m k : Z.land m k = k -> Z.land v m = Z.land w m -> has v k = has w k.
Proof. intros Hk E. unfold has. by rewrite <- Hk, !Z.land_assoc, E. Qed.

Lemma rx_deliver_inbox c :
  wf c -> byte (mSABUartRxPendingData c) ->
  inbox (rx_deliver c) = (mSABUartRxPendingData c, mSABUartRxPendingNinth c, true).
Proof.
  intros Hw Hd. unfold inbox, rx_deliver. cbv zeta. set (c1 := set_sfr REG_SBUF _ _).
  assert (wf c1) as Hw1 by (unfold c1; eauto with emu). pose proof (sfr_byte c1 REG_SCON Hw1 ltac:(done)) as Hb.
  assert (sfr c1 REG_SBUF = mSABUartRxPendingData c) as Es.
  { unfold c1. rewrite sfr_set_sfr_eq by (done || eauto with emu). by rewrite !u8_id by (rewrite ?u8_id by done; done). }
  set (c2 := set_sfr REG_SCON (clr _ _) c1). assert (wf c2) as Hw2 by by apply wf_set_sfr.
  assert (sfr c2 REG_SCON = clr (sfr c1 REG_SCON) SCONMASK_RB8) as E2.
  { unfold c2. rewrite sfr_set_sfr_eq by done. apply u8_id. by apply byte_clr. }
  set (c3 := if mSABUartRxPendingNinth c then _ else c2).
  assert (wf c3) as Hw3 by (unfold c3; case_if; eauto with emu).
  assert (has (sfr c3 REG_SCON) SCONMASK_RB8 = mSABUartRxPendingNinth c /\ sfr c3 REG_SBUF = sfr c1 REG_SBUF) as [E3 E3'].
  { unfold c3. destruct (mSABUartRxPendingNinth c).
    - rewrite sfr_set_sfr_eq, sfr_set_sfr_ne by done. rewrite u8_id by (apply byte_lor; [by apply sfr_byte|done]).
      rewrite has_lor_same by done. split; [done|]. by apply sfr_set_sfr_ne.
    - rewrite E2, has_clr_same by done. split; [done|]. by apply sfr_set_sfr_ne. }
  rewrite sfr_set_sfr_ne, sfr_set_sfr_eq, E3', Es by done.
  rewrite u8_id by (apply byte_lor; [by apply sfr_byte|done]).
  by rewrite has_lor_disjoint, has_lor_same, E3 by done.
Qed.

(** The transmitter's half keeps the receiver's state. *)
Lemma tx_half_rx_state c0 d ninth smod j r c :
  rx_state c0 d ninth smod j r c -> rx_state c0 d ninth smod j r (tx_half smod c).
Proof.
  intros []. pose proof (tx_half_rx_view smod c rx_wf0) as [= V1 V2 V3 V4 V5 V6 V7].
  constructor; [by apply wf_tx_half|by rewrite tx_half_control|by rewrite V5|by rewrite V1, V2, V3, V4|].
  rewrite <- rx_inbox0. unfold inbox. rewrite V6.
  by rewrite (has_view _ _ (Z.lor SCONMASK_RI SCONMASK_RB8) SCONMASK_RB8 eq_refl V7),
    (has_view _ _ (Z.lor SCONMASK_RI SCONMASK_RB8) SCONMASK_RI eq_refl V7).
Qed.

(** The acceptance test at STOP is the one of the frame's first bit. *)
Lemma rx_accepts_takes c0 c c1 ninth :
  control c = control c0 -> inbox c = inbox c0 -> sfr c1 REG_SCON = sfr c REG_SCON ->
  mSABUartRxPendingNinth c1 = ninth -> sab_uart_rx_accepts c1 = takes c0 ninth.
Proof.
  intros [= _ _ _ Hc] [= _ _ Hi] Es <-. unfold sab_uart_rx_accepts, takes.
  by rewrite Es, Hi, (has_view (sfr c REG_SCON) (sfr c0 REG_SCON) 0xf8 SCONMASK_SM2 eq_refl Hc).
Qed.

(** One bit boundary of an active reception. *)
Lemma rx_next_line c0 d ninth j c :
  wf c -> byte d -> 0 <= j <= 10 -> control c = control c0 ->
  mSABUartRxActive c = true -> mSABUartRxPendingData c = d -> mSABUartRxPendingNinth c = ninth ->
  mSABUartRxBitIndex c = j ->
  inbox c = (if (10 <=? j) && takes c0 ninth then (d, ninth, true) else inbox c0) ->
  let c' := rx_next c in
  mSABUartRxActive c' = (j + 1 <=? 10) /\ mSABUartRxPendingData c' = d /\
  mSABUartRxPendingNinth c' = ninth /\ mSABUartRxBitIndex c' = j + 1 /\
  inbox c' = (if (10 <=? j + 1) && takes c0 ninth then (d, ninth, true) else inbox c0).
Proof.
  intros Hw Hd Hj Hc Ha Ed En Ei Hi. subst d ninth. unfold rx_next. cbv zeta. rewrite Ei.
  set (c1 := set_mSABUartRxBitIndex (j + 1) c).
  assert (mSABUartRxBitIndex c1 = j + 1) as -> by (apply u8_id; unfold byte; lia).
  assert (wf c1) as Hw1 by (unfold c1; eauto with emu).
  assert (mSABUartRxBitIndex c1 = j + 1) as Ei1 by (apply u8_id; unfold byte; lia).
  destruct (Z.eqb_spec (j + 1) 10) as [E|].
  - assert ((10 <=? j) = false) as Hlt by lia. rewrite Hlt in Hi. cbn in Hi.
    rewrite (rx_accepts_takes c0 c c1 (mSABUartRxPendingNinth c)) by done. rewrite E in *. cbn [Z.leb andb Z.compare Pos.compare].
    destruct (takes c0 _); [|by split_and!].
    rewrite rx_deliver_inbox by done. 
    split_and!; try done; unfold rx_deliver; cbv zeta; by case_if.
  - destruct (Z.eqb_spec (j + 1) 11) as [E|].
    + assert (j = 10) as -> by lia. cbn -[inbox]. split_and!; done.
    + assert ((10 <=? j) = false /\ (10 <=? j + 1) = false /\ (j + 1 <=? 10) = true) as (E1 & E2 & E3) by lia.
      rewrite E1 in Hi. rewrite E2, E3. by split_and!.
Qed.

Lemma rx_next_control c : wf c -> control (rx_next c) = control c.
Proof.
  intros Hw. unfold rx_next. cbv zeta. repeat case_if; try done. unfold control.
  rewrite !rx_deliver_other, rx_deliver_scon by (done || eauto with emu). do 3 f_equal.
  unfold rx_deliver. cbv zeta. by case_if.
Qed.

(** One overflow of the receiver's half. *)
Lemma rx_half_state c0 d ninth smod j r c :
  byte d -> 0 <= j -> rx_state c0 d ninth smod j r c -> wf (rx_half smod c) ->
  rx_state c0 d ninth smod (j + (if r =? period smod - 1 then 1 else 0))
    (if r =? period smod - 1 then 0 else r + 1) (rx_half smod c).
Proof.
  intros Hd Hj [] Hw'. unfold rx_half in *. rewrite rx_active0 in *.
  destruct (Z.leb_spec j 10) as [Hle|Hgt].
  - destruct (rx_frame0 Hle) as (Ed & En & Ei & Hp & <-). clear rx_frame0.
    destruct (divider (mSABUartRxDividerPhase c) smod Hp) as (E1 & E2 & E3). cbv zeta in *.
    set (c1 := set_mSABUartRxDividerPhase (divided (mSABUartRxDividerPhase c) smod) c) in *.
    assert (wf c1) as Hw1 by (unfold c1; eauto with emu).
    assert (mSABUartRxDividerPhase c1 = divided (mSABUartRxDividerPhase c) smod) as Ep.
    { apply u8_id. rewrite E1. pose proof (Z.mod_pos_bound (mSABUartRxDividerPhase c + 1) 32). unfold byte. lia. }
    assert (0 <= divided (mSABUartRxDividerPhase c) smod < 32) as Hr by (rewrite E1; apply Z.mod_pos_bound; lia).
    rewrite <- E2. destruct (at_boundary (mSABUartRxDividerPhase c) smod).
    + destruct (rx_next_line c0 d ninth j c1 Hw1 Hd (conj Hj Hle) rx_control0 rx_active0 Ed En Ei rx_inbox0)
        as (A1 & A2 & A3 & A4 & A5).
      assert (mSABUartRxDividerPhase (rx_next c1) = mSABUartRxDividerPhase c1) as Ep1.
      { unfold rx_next, rx_deliver. cbv zeta. by repeat case_if. }
      constructor; [done| |done| |done].
      * by rewrite rx_next_control.
      * intros _. by rewrite Ep1, Ep.
    + rewrite Z.add_0_r. constructor; [done|done| |intros _; by rewrite Ep|done].
      change (mSABUartRxActive c = (j <=? 10)). lia.
  - assert (11 <= j + (if r =? period smod - 1 then 1 else 0)) as Hj' by (case_if; lia).
    set (j' := j + _) in *. constructor; [done|done| |lia|].
    + rewrite rx_active0. lia.
    + rewrite rx_inbox0. by replace (10 <=? j') with (10 <=? j) by lia.
Qed.

Section UartProps.
Context {W : Type} {HostW : Host W} (Hna : never_aborts (W := W)).

Lemma eff_uart_trace e cy d n i v c : eff (sab_uart_trace_emit e cy d n i v) c () c.
Proof. unfold sab_uart_trace_emit. eff_step. apply eff_when_quiet, eff_observe. Qed.

Lemma eff_tx_start cy c : eff (sab_uart_tx_start cy) c () (tx_load c).
Proof. unfold sab_uart_tx_start. do 8 eff_step. apply eff_uart_trace. Qed.

Lemma eff_tx_boundary cy c : eff (sab_uart_tx_boundary cy) c () (tx_next c).
Proof.
  unfold sab_uart_tx_boundary, tx_next. eff_step. case_if.
  { destruct (mSABUartTxPending c); [apply eff_tx_start|apply eff_ret]. }
  case_if; [do 2 eff_step; apply eff_uart_trace|]. case_if.
  - do 3 eff_step. eapply eff_bind; [apply eff_when_quiet, eff_raw|apply eff_uart_trace].
  - eff_step. eapply eff_bind; [apply eff_uart_trace|]. do 2 eff_step.
    destruct (mSABUartTxPending c); [apply eff_tx_start|apply eff_ret].
Qed.

Lemma eff_rx_boundary cy c : eff (sab_uart_rx_boundary cy) c () (rx_next c).
Proof.
  unfold sab_uart_rx_boundary, rx_next. do 2 eff_step. cbv zeta.
  set (c1 := set_mSABUartRxBitIndex (mSABUartRxBitIndex c + 1) c). case_if; [case_if|case_if].
  - do 3 eff_step. unfold rx_deliver. cbv zeta.
    destruct (mSABUartRxPendingNinth c1); cbn [when]; do 4 eff_step; apply eff_uart_trace.
  - eff_step. apply eff_uart_trace.
  - do 2 eff_step. apply eff_uart_trace.
  - apply eff_ret.
Qed.

(** One Timer-1 overflow advances the transmitter, then the receiver. *)
Lemma eff_uart_overflow c :
  sab_uart_mode3 c = true ->
  let smod := has (sfr c REG_PCON) PCONMASK_SMOD in
  eff sab_uart_timer1_overflow c () (rx_half smod (tx_half smod c)).
Proof.
  intros Hm smod. unfold sab_uart_timer1_overflow. eff_step. rewrite Hm. cbn [negb]. cbv zeta. fold smod.
  rewrite (surjective_pairing (sab_uart_divider_step (mSABUartDividerPhase c) smod)).
  fold (divided (mSABUartDividerPhase c) smod) (at_boundary (mSABUartDividerPhase c) smod). eff_step.
  eapply eff_bind with (c1 := tx_half smod c).
  { unfold tx_half. destruct (at_boundary _ _); [apply eff_tx_boundary|apply eff_ret]. }
  do 2 eff_step. unfold rx_half. case_if; [|apply eff_ret].
  rewrite (surjective_pairing (sab_uart_divider_step (mSABUartRxDividerPhase _) smod)).
  fold (divided (mSABUartRxDividerPhase (tx_half smod c)) smod)
    (at_boundary (mSABUartRxDividerPhase (tx_half smod c)) smod). eff_step.
  destruct (at_boundary _ _); [apply eff_rx_boundary|apply eff_ret].
Qed.

Lemma tx_step d ninth smod j r (s : machine W) :
  byte d -> 0 <= j -> tx_state d ninth smod j r (cpu s) ->
  exists s', sab_uart_timer1_overflow s = Done () s' /\
    tx_state d ninth smod (j + (if r =? period smod - 1 then 1 else 0))
      (if r =? period smod - 1 then 0 else r + 1) (cpu s').
Proof.
  intros Hd Hj []. set (c := cpu s) in *.
  pose proof (eff_uart_overflow c tx_mode0) as He. cbv zeta in He. rewrite tx_smod0 in He.
  destruct (eff_safe periph _ any s () _ He safe_uart_overflow tx_wf0) as (s' & E & Ec & Hw' & _).
  exists s'. split; [done|]. rewrite Ec. rewrite <- tx_phase0.
  destruct (tx_half_line d ninth smod j c tx_wf0 Hd Hj tx_range0 tx_bits0 tx_ti0) as (Hl & Ht & Hr & Hp).
  set (c1 := tx_half smod c) in *. pose proof (wf_tx_half smod c tx_wf0) as Hw1. fold c1 in Hw1.
  pose proof (rx_half_tx_view smod c1 Hw1) as [= V1 V2 V3 V4 V5 V6 V7 V8 V9].
  assert (control (rx_half smod c1) = control c) as Hc.
  { rewrite rx_half_control by done. by apply tx_half_control. }
  constructor; [done|by rewrite (control_mode3 _ _ Hc)|injection Hc as _ -> _ _; done|by rewrite V1|by rewrite V1| |].
  - unfold tx_line in *. by rewrite V2, V3, V4, V5, V6, V7, V8.
  - unfold has in *. by rewrite V9.
Qed.

(** A pending byte is sent, whatever the receiver does meanwhile. *)
Lemma tx_frame_run d ninth (n : nat) (s : machine W) :
  let c := cpu s in
  let smod := has (sfr c REG_PCON) PCONMASK_SMOD in
  let j := (mSABUartDividerPhase c mod period smod + Z.of_nat n) / period smod in
  byte d -> wf c -> sab_uart_mode3 c = true -> 0 <= mSABUartDividerPhase c < 32 ->
  tx_line d ninth 0 c -> has (sfr c REG_SCON) SCONMASK_TI = false ->
  exists s', times n sab_uart_timer1_overflow s = Done () s' /\
    tx_line d ninth j (cpu s') /\
    has (sfr (cpu s') REG_SCON) SCONMASK_TI = (11 <=? j) /\
    (1 <= j <= 11 ->
     frame d ninth !! Z.to_nat (j - 1) = Some (sab_uart_tx_bit_value (cpu s') (mSABUartTxBitIndex (cpu s')))).
Proof.
  intros c smod j Hd Hw Hm Hp Hl Ht. set (r0 := mSABUartDividerPhase c mod period smod) in *.
  assert (0 < period smod) as HP by by destruct smod.
  pose proof (Z.mod_pos_bound (mSABUartDividerPhase c) (period smod) HP) as Hr0. fold r0 in Hr0.
  assert (exists s', times n sab_uart_timer1_overflow s = Done () s' /\
    tx_state d ninth smod j ((r0 + Z.of_nat n) mod period smod) (cpu s')) as (s' & E & []).
  { subst j. induction n as [|n IH].
    - exists s. rewrite Z.add_0_r, Z.div_small, Z.mod_small by done. split; [done|]. by constructor.
    - destruct IH as (s1 & E1 & H1).
      assert (0 <= (r0 + Z.of_nat n) / period smod) as Hj by (apply Z.div_pos; lia).
      destruct (tx_step d ninth smod _ _ s1 Hd Hj H1) as (s2 & E2 & H2).
      exists s2. cbn [times]. rewrite (exec_bind _ _ _ _ _ E1). split; [done|].
      destruct (period_step smod (r0 + Z.of_nat n)) as [Ed Em]; [lia|]. rewrite <- Ed, <- Em in H2.
      by replace (r0 + Z.of_nat (S n)) with (r0 + Z.of_nat n + 1) by lia. }
  exists s'. split_and!; [done..|]. intros Hj1. by apply (tx_bit_frame d ninth j).
Qed.

(** C6: a byte written to SBUF is sent as one frame. With an idle transmitter
    and TI clear, write [d] to SBUF (TB8 giving the ninth bit), then let Timer 1
    overflow [n] times: [j] bit boundaries have passed, one every 32 overflows
    (16 with SMOD) of the free-running divider; for [1 <= j <= 11] the line
    carries the [j]-th bit of START, the data LSB first, the ninth bit, STOP; TI
    is set from the STOP bit on and not before; from the twelfth boundary on the
    transmitter is idle. This holds whatever the receiver does meanwhile. *)
Theorem uart_transmits_frame d (n : nat) (s : machine W) :
  let c := cpu s in
  let smod := has (sfr c REG_PCON) PCONMASK_SMOD in
  let ninth := has (sfr c REG_SCON) SCONMASK_TB8 in
  let j := (mSABUartDividerPhase c mod period smod + Z.of_nat n) / period smod in
  byte d -> wf c -> sab_uart_mode3 c = true -> 0 <= mSABUartDividerPhase c < 32 ->
  mSABUartTxActive c = false -> has (sfr c REG_SCON) SCONMASK_TI = false ->
  exists s', (sab_uart_sbuf_write d ;; times n sab_uart_timer1_overflow) s = Done () s' /\
    tx_line d ninth j (cpu s') /\
    has (sfr (cpu s') REG_SCON) SCONMASK_TI = (11 <=? j) /\
    (1 <= j <= 11 ->
     frame d ninth !! Z.to_nat (j - 1) = Some (sab_uart_tx_bit_value (cpu s') (mSABUartTxBitIndex (cpu s')))).
Proof.
  intros c smod ninth j Hd Hw Hm Hp Ha Ht.
  set (c1 := set_mSABUartTxPending true (set_mSABUartTxPendingNinth ninth (set_mSABUartTxPendingData d c))).
  assert (eff (sab_uart_sbuf_write (W := W) d) c () c1) as He.
  { unfold sab_uart_sbuf_write. eff_step. rewrite Hm. cbn [negb]. eff_auto. }
  destruct (eff_safe periph _ any s () c1 He (safe_sbuf_write d) Hw) as (s1 & E1 & Ec & Hw1 & _).
  rewrite (exec_bind _ _ _ _ _ E1). pose proof (tx_frame_run d ninth n s1) as H.
  cbv zeta in H. rewrite Ec in H. apply H; try done. cbn -[u8]. by rewrite u8_id.
Qed.

Lemma rx_step c0 d ninth smod j r (s : machine W) :
  byte d -> 0 <= j -> sab_uart_mode3 c0 = true -> has (sfr c0 REG_PCON) PCONMASK_SMOD = smod ->
  rx_state c0 d ninth smod j r (cpu s) ->
  exists s', sab_uart_timer1_overflow s = Done () s' /\
    rx_state c0 d ninth smod (j + (if r =? period smod - 1 then 1 else 0))
      (if r =? period smod - 1 then 0 else r + 1) (cpu s').
Proof.
  intros Hd Hj Hm Hs Hr. pose proof (rx_control _ _ _ _ _ _ _ Hr) as Hc. pose proof (rx_wf _ _ _ _ _ _ _ Hr) as Hw.
  rewrite <- (control_mode3 _ _ Hc) in Hm. pose proof (eff_uart_overflow (cpu s) Hm) as He. cbv zeta in He.
  injection Hc as _ Hpc _ _. rewrite Hpc, Hs in He.
  destruct (eff_safe periph _ any s () _ He safe_uart_overflow Hw) as (s' & E & Ec & Hw' & _).
  exists s'. split; [done|]. rewrite Ec. apply rx_half_state; [done..|by apply tx_half_rx_state|done].
Qed.

(** C7: an injected frame is received once, or dropped, at its STOP bit. With
    REN set and an idle receiver, inject [d] and [ninth], then let Timer 1
    overflow [n] times; [j] is the number of complete bit times. Before the
    tenth, SBUF, RB8 and RI are unchanged; from the tenth on they hold the
    frame exactly when RI was clear and SM2 or the ninth bit let it through,
    and are unchanged otherwise (the drop leaves only an observation record); the
    receiver is busy until the eleventh. This holds whatever the transmitter does meanwhile. *)
Theorem uart_receives_frame d ninth (n : nat) (s : machine W) :
  let c := cpu s in
  let smod := has (sfr c REG_PCON) PCONMASK_SMOD in
  let j := Z.of_nat n / period smod in
  byte d -> wf c -> sab_uart_mode3 c = true -> has (sfr c REG_SCON) SCONMASK_REN = true ->
  mSABUartRxActive c = false ->
  exists s1 s', em8051_sab_uart_inject_rx_frame d ninth s = Done true s1 /\
    times n sab_uart_timer1_overflow s1 = Done () s' /\
    mSABUartRxActive (cpu s') = (j <=? 10) /\
    inbox (cpu s') = (if (10 <=? j) && takes c ninth then (d, ninth, true) else inbox c).
Proof.
  intros c smod j Hd Hw Hm Hren Ha.
  set (c1 := set_mSABUartRxActive true (set_mSABUartRxBitIndex 0 (set_mSABUartRxDividerPhase 0
    (set_mSABUartRxPendingNinth ninth (set_mSABUartRxPendingData d c))))).
  assert (eff (em8051_sab_uart_inject_rx_frame (W := W) d ninth) c true c1) as He.
  { unfold em8051_sab_uart_inject_rx_frame. eff_step. rewrite Hm, Hren, Ha. cbn [negb orb]. do 6 eff_step.
    eapply eff_bind; [apply eff_uart_trace|apply eff_ret]. }
  assert (wf c1) as Hw1 by (unfold c1; eauto 10 with emu).
  destruct (eff_run _ s true c1 He) as (s1 & E1 & Ec). exists s1.
  assert (0 < period smod) as HP by by destruct smod.
  assert (exists s', times n sab_uart_timer1_overflow s1 = Done () s' /\
    rx_state c d ninth smod j (Z.of_nat n mod period smod) (cpu s')) as (s' & E & []); [|by exists s'].
  subst j. induction n as [|n IH].
  - exists s1. rewrite Z.div_small, Z.mod_small by done. split; [done|]. rewrite Ec.
    constructor; [done..| |done]. intros _. cbn -[u8]. rewrite u8_id by done. split_and!; try done.
  - destruct IH as (s2 & E2 & H2).
    assert (0 <= Z.of_nat n / period smod) as Hj by (apply Z.div_pos; lia).
    destruct (rx_step c d ninth smod _ _ s2 Hd Hj Hm eq_refl H2) as (s3 & E3 & H3).
    exists s3. cbn [times]. rewrite (exec_bind _ _ _ _ _ E2). split; [done|].
    destruct (period_step smod (Z.of_nat n)) as [Ed Em]; [lia|]. rewrite <- Ed, <- Em in H3.
    by replace (Z.of_nat (S n)) with (Z.of_nat n + 1) by lia.
Qed.

End UartProps.

(** *** Instances *)

(** Mode 3 with reception enabled and TB8 set. *)
Definition uart_demo : em8051 :=
  set_sfr REG_SCON 0xd8 (boot EM8051_VARIANT_SAB80535 [0x00]).

Lemma uart_demo_wf : wf uart_demo.
Proof. solve_wf. Qed.

(** 0xA5 with the ninth bit set: during the fourth bit (data bit 2) and at the
    end of the STOP bit. *)
Lemma uart_transmits_frame_witness :
  exists s', (sab_uart_sbuf_write 0xa5 ;; times (4 * 32) sab_uart_timer1_overflow) (start uart_demo) = Done () s' /\
    Some (sab_uart_tx_bit_value (cpu s') (mSABUartTxBitIndex (cpu s'))) = Some true.
Proof.
  destruct (uart_transmits_frame log_never_aborts 0xa5 (4 * 32) (start uart_demo)) as (s' & E & _ & _ & Hf).
  - split; [discriminate|reflexivity].
  - exact uart_demo_wf.
  - vm_compute. reflexivity.
  - vm_compute. split; [discriminate|reflexivity].
  - vm_compute. reflexivity.
  - vm_compute. reflexivity.
  - exists s'. split; [exact E|]. rewrite <- Hf; [vm_compute; reflexivity|vm_compute; split; discriminate].
Defined.

Lemma uart_receives_frame_witness :
  exists s1 s', em8051_sab_uart_inject_rx_frame 0x3c true (start uart_demo) = Done true s1 /\
    times (10 * 32) sab_uart_timer1_overflow s1 = Done () s' /\ inbox (cpu s') = (0x3c, true, true).
Proof.
  destruct (uart_receives_frame log_never_aborts 0x3c true (10 * 32) (start uart_demo))
    as (s1 & s' & E1 & E & _ & Hi).
  - split; [discriminate|reflexivity].
  - exact uart_demo_wf.
  - vm_compute. reflexivity.
  - vm_compute. reflexivity.
  - vm_compute. reflexivity.
  - exists s1, s'. split; [exact E1|]. split; [exact E|]. rewrite Hi. vm_compute. reflexivity.
Defined.
