(* ===== verification/PortProps.v ===== *)
(** Properties of the SAB80535 ports: pins seen through latches and external
    drivers, edge detection on the external-interrupt inputs, and the stimulus
    schedule as a queue. *)
From stdpp Require Import sorting.
From S2P Require Import Prelude State Machine Ports Uart Adc Irq Sfr Memory Opcodes Dispatch.
From S2P Require Import Wf Logic Timers PeriphSafe Interrupts Cpu CpuSafe Reset Concrete Effect.

Definition T2CON : Z := SAB_SFR_INDEX EM8051_SAB_SFR_T2CON.
Definition IRCON : Z := SAB_SFR_INDEX EM8051_SAB_SFR_IRCON.

(** ** Sampling *)

(** What sampling a port leaves alone: the external drivers and every SFR but
    the request registers. *)
Record pins_kept (c c' : em8051) : Prop := {
  pk_drivers : (mVariant c', mSABPortExternalMask c', mSABPortExternalLevels c') =
    (mVariant c, mSABPortExternalMask c, mSABPortExternalLevels c);
  pk_sfr : forall i, 0 <= i -> i <> REG_TCON -> i <> IRCON -> sfr c' i = sfr c i
}.

#[export] Instance pins_kept_preorder : PreOrder pins_kept.
Proof.
  split; [by constructor|]. intros a b c [] []. constructor; [congruence|].
  intros i Hi H1 H2. transitivity (sfr b i); auto.
Qed.

(** The edge an edge-triggered input of port 1 reacts to: INT2 and INT3 falling
    or rising by T2CON, the others rising. *)
Definition qualifies (c : em8051) (source : Z) (old new : bool) : bool :=
  let rising :=
    if source =? EM8051_SAB_EXTERNAL_INT2 then has (sfr c T2CON) SAB_T2CONMASK_I2FR
    else if source =? EM8051_SAB_EXTERNAL_INT3 then has (sfr c T2CON) SAB_T2CONMASK_I3FR
    else true in
  if rising then negb old && new else old && negb new.

(** The request bit of such an input in IRCON. *)
Definition request_bit (source : Z) : Z :=
  u8 (Z.shiftl SAB_IRCONMASK_IEX2 (source - EM8051_SAB_EXTERNAL_INT2)).

Definition p1_source (source : Z) : Prop :=
  EM8051_SAB_EXTERNAL_INT2 <= source <= EM8051_SAB_EXTERNAL_INT6.

(** ** Pins *)

Lemma port_index_cases c port : 0 <= sab_port_index c port ->
  is_sab c = true /\ port ∈ [EM8051_SAB_PORT_P1; EM8051_SAB_PORT_P3; EM8051_SAB_PORT_P4; EM8051_SAB_PORT_P5] /\
  sab_port_index c port < 4.
Proof.
  unfold sab_port_index. destruct (is_sab c); cbn [negb]; [|lia]. split; [done|].
  repeat match goal with
  | H : context [?x =? ?y] |- _ => destruct (Z.eqb_spec x y)
  end; subst; try (split; [set_solver|lia]); lia.
Qed.

Lemma port_index_inj c p q :
  0 <= sab_port_index c p -> sab_port_index c p = sab_port_index c q -> p = q.
Proof.
  intros Hp E. destruct (port_index_cases c p Hp) as (Hsab & Hip & _). rewrite E in Hp.
  destruct (port_index_cases c q Hp) as (_ & Hiq & _). unfold sab_port_index in E. rewrite Hsab in E.
  rewrite !elem_of_cons, elem_of_nil in Hip, Hiq.
  destruct_or! Hip; destruct_or! Hiq; subst; done.
Qed.

(** A pin is high when its latch is and nothing pulls it low. *)
Lemma pins_bit c port pins i :
  wf c -> em8051_sab_port_get_pins c port = Some pins -> 0 <= i < 8 ->
  Z.testbit pins i = Z.testbit (sfr c (port - 0x80)) i &&
    (negb (Z.testbit (geti (mSABPortExternalMask c) (sab_port_index c port)) i) ||
     Z.testbit (geti (mSABPortExternalLevels c) (sab_port_index c port)) i).
Proof.
  unfold em8051_sab_port_get_pins. intros Hw Hp Hi. cbv zeta in Hp.
  destruct (Z.ltb_spec (sab_port_index c port) 0); [done|]. injection Hp as <-.
  destruct (port_index_cases c port) as (_ & Hport & _); [done|].
  assert (byte (sfr c (port - 0x80))) as Hb.
  { apply sfr_byte; [done|]. rewrite !elem_of_cons, elem_of_nil in Hport. destruct_or! Hport; by subst. }
  rewrite u8_id by (by apply byte_land_l). by rewrite Z.land_spec, Z.lor_spec, not8_testbit.
Qed.

(** The level of one pin and of one latch bit. *)
Definition pin (c : em8051) (port i : Z) : bool :=
  match em8051_sab_port_get_pins c port with Some pins => Z.testbit pins i | None => false end.
Definition latch (c : em8051) (port i : Z) : bool :=
  match em8051_sab_port_get_latch c port with Some v => Z.testbit v i | None => false end.

Lemma u8_testbit x i : 0 <= i < 8 -> Z.testbit (u8 x) i = Z.testbit x i.
Proof. intros. unfold u8. change 256 with (2 ^ 8). by rewrite Z.mod_pow2_bits_low by lia. Qed.

(** New drivers [m] and levels [l] on one port. *)
Definition wire (port m l : Z) (c : em8051) : em8051 :=
  let index := sab_port_index c port in
  set_mSABPortExternalMask (seti (mSABPortExternalMask c) index (u8 m))
    (set_mSABPortExternalLevels (seti (mSABPortExternalLevels c) index (u8 l)) c).

Lemma wf_wire port m l c : wf c -> wf (wire port m l c).
Proof. 
  intros Hw. unfold wire. cbv zeta. pose proof (wf_cpu_ports _ Hw) as [].
  apply wf_set_mSABPortExternalMask; [apply wf_set_mSABPortExternalLevels|..];
    rewrite ?length_seti; try done; apply Forall_seti; (done || apply u8_byte).
Qed.

Lemma kept_pins c c' q : pins_kept c c' -> em8051_sab_port_get_pins c' q = em8051_sab_port_get_pins c q.
Proof.
  intros [[= Ev Em El] Hs]. unfold em8051_sab_port_get_pins. cbv zeta.
  assert (sab_port_index c' q = sab_port_index c q) as -> by (unfold sab_port_index, is_sab; by rewrite Ev).
  destruct (Z.ltb_spec (sab_port_index c q) 0); [done|]. rewrite Em, El.
  destruct (port_index_cases c q) as (_ & Hq & _); [done|]. rewrite Hs; [done|..];
    rewrite !elem_of_cons, elem_of_nil in Hq; destruct_or! Hq; subst; done.
Qed.

Lemma wire_pin port m l c i :
  wf c -> 0 <= sab_port_index c port -> 0 <= i < 8 ->
  pin (wire port m l c) port i = latch c port i && (negb (Z.testbit m i) || Z.testbit l i).
Proof.
  intros Hw Hi Hb. destruct (port_index_cases c port Hi) as (_ & _ & Hlt).
  pose proof (wf_cpu_ports _ Hw) as []. unfold pin, latch, em8051_sab_port_get_latch.
  destruct (Z.ltb_spec (sab_port_index c port) 0); [lia|].
  destruct (em8051_sab_port_get_pins (wire port m l c) port) as [pins|] eqn:Ep.
  - rewrite (pins_bit _ _ _ _ (wf_wire port m l c Hw) Ep Hb).
    change (sab_port_index (wire port m l c) port) with (sab_port_index c port).
    change (mSABPortExternalMask (wire port m l c)) with (seti (mSABPortExternalMask c) (sab_port_index c port) (u8 m)).
    change (mSABPortExternalLevels (wire port m l c)) with (seti (mSABPortExternalLevels c) (sab_port_index c port) (u8 l)).
    rewrite !geti_seti_eq, !u8_testbit by lia. done.
  - exfalso. revert Ep. unfold em8051_sab_port_get_pins. cbv zeta.
    change (sab_port_index (wire port m l c) port) with (sab_port_index c port).
    by destruct (Z.ltb_spec (sab_port_index c port) 0); [lia|].
Qed.

Lemma wire_others port m l c q :
  0 <= sab_port_index c port -> q <> port ->
  em8051_sab_port_get_pins (wire port m l c) q = em8051_sab_port_get_pins c q.
Proof.
  intros Hi Hne. unfold em8051_sab_port_get_pins. cbv zeta.
  change (sab_port_index (wire port m l c) q) with (sab_port_index c q).
  destruct (Z.ltb_spec (sab_port_index c q) 0); [done|].
  assert (sab_port_index c port <> sab_port_index c q) by (intros E; by apply Hne, eq_sym, (port_index_inj c)).
  change (mSABPortExternalMask (wire port m l c)) with (seti (mSABPortExternalMask c) (sab_port_index c port) (u8 m)).
  change (mSABPortExternalLevels (wire port m l c)) with (seti (mSABPortExternalLevels c) (sab_port_index c port) (u8 l)).
  by rewrite !geti_seti_ne by done.
Qed.

Lemma pin_formula c port i :
  wf c -> 0 <= sab_port_index c port -> 0 <= i < 8 ->
  pin c port i = latch c port i &&
    (negb (Z.testbit (geti (mSABPortExternalMask c) (sab_port_index c port)) i) ||
     Z.testbit (geti (mSABPortExternalLevels c) (sab_port_index c port)) i).
Proof.
  intros Hw Hi Hb. unfold pin, latch, em8051_sab_port_get_latch.
  destruct (em8051_sab_port_get_pins c port) as [pins|] eqn:Ep.
  - rewrite (pins_bit c port pins i) by done. by destruct (Z.ltb_spec (sab_port_index c port) 0); [lia|].
  - exfalso. revert Ep. unfold em8051_sab_port_get_pins. cbv zeta.
    by destruct (Z.ltb_spec (sab_port_index c port) 0); [lia|].
Qed.

(** ** Edges on port 1 *)

Lemma p1_cases k : p1_source k -> k = 2 \/ k = 3 \/ k = 4 \/ k = 5 \/ k = 6.
Proof. unfold p1_source, EM8051_SAB_EXTERNAL_INT2, EM8051_SAB_EXTERNAL_INT6. lia. Qed.

Lemma p1_disjoint k j : p1_source k -> p1_source j -> k <> j ->
  Z.land (request_bit k) (request_bit j) = 0 /\
  Z.land (sab_external_sample_bit k) (sab_external_sample_bit j) = 0.
Proof.
  intros Hk%p1_cases Hj%p1_cases. destruct_or! Hk; destruct_or! Hj; subst; done.
Qed.

Lemma p1_bits k : p1_source k ->
  byte (request_bit k) /\ request_bit k <> 0 /\
  byte (sab_external_sample_bit k) /\ sab_external_sample_bit k <> 0.
Proof. intros Hk%p1_cases. destruct_or! Hk; subst; done. Qed.

(** The sampled level of an input, and its request flag. *)
Definition level (c : em8051) (k : Z) : bool := has (mSABExternalSampledLevels c) (sab_external_sample_bit k).
Definition requested (c : em8051) (k : Z) : bool := has (sfr c IRCON) (request_bit k).

(** The pin of a port-1 input. *)
Definition p1_pin (pins k : Z) : bool :=
  match sab_external_pin k with Some (_, m) => has pins m | None => false end.

(** Input [k] was sampled between [c] and [c']: its level is the pin's, and an
    edge that qualifies set its request. *)
Definition input_sampled (pins : Z) (c c' : em8051) (k : Z) : Prop :=
  level c' k = p1_pin pins k /\
  requested c' k = requested c k || qualifies c k (level c k) (p1_pin pins k).
Definition input_kept (c c' : em8051) (k : Z) : Prop :=
  level c' k = level c k /\ requested c' k = requested c k.

(** The new sampled levels after input [k] moved to [new]. *)
Definition resample (k : Z) (new : bool) (c : em8051) : em8051 :=
  set_mSABExternalSampledLevels
    (if new then Z.lor (mSABExternalSampledLevels c) (sab_external_sample_bit k)
     else clr (mSABExternalSampledLevels c) (sab_external_sample_bit k)) c.

Lemma level_resample c k j new :
  wf c -> p1_source k -> p1_source j ->
  level (resample k new c) j = (if j =? k then new else level c j).
Proof.
  intros Hw Hk Hj. pose proof (wf_sampled _ (wf_cpu_ports _ Hw)) as Hb.
  destruct (p1_bits k Hk) as (_ & _ & Hs & Hs0). destruct (p1_bits j Hj) as (_ & _ & Hsj & _).
  unfold level. change (mSABExternalSampledLevels (resample k new c)) with
    (u8 (if new then Z.lor (mSABExternalSampledLevels c) (sab_external_sample_bit k)
         else clr (mSABExternalSampledLevels c) (sab_external_sample_bit k))).
  rewrite u8_id by (destruct new; [by apply byte_lor|by apply byte_clr]).
  destruct (Z.eqb_spec j k) as [->|Hne].
  - destruct new; [by apply has_lor_same|by apply has_clr_same].
  - destruct (p1_disjoint k j Hk Hj (not_eq_sym Hne)) as [_ Hd].
    destruct new; [by apply has_lor_disjoint|by apply has_clr_disjoint].
Qed.

Lemma requested_set c k j :
  wf c -> p1_source k -> p1_source j ->
  requested (set_sfr IRCON (Z.lor (sfr c IRCON) (request_bit k)) c) j = (j =? k) || requested c j.
Proof.
  intros Hw Hk Hj. destruct (p1_bits k Hk) as (Hb & H0 & _). unfold requested. rewrite sfr_set_sfr_eq by done.
  rewrite u8_id by (apply byte_lor; [by apply sfr_byte|done]).
  destruct (Z.eqb_spec j k) as [->|Hne]; [by apply has_lor_same|].
  destruct (p1_disjoint k j Hk Hj (not_eq_sym Hne)) as [Hd _]. by apply has_lor_disjoint.
Qed.

(** ** The schedule as a queue *)

Definition event_at (c : em8051) (i : Z) : schedule_event :=
  default zero_event (mSABExternalSchedule c !! Z.to_nat ((mSABExternalScheduleHead c + i) mod 64)).

(** The events waiting in the ring, oldest first. *)
Definition queue (c : em8051) : list schedule_event :=
  map (event_at c) (seqZ 0 (mSABExternalScheduleCount c)).

Definition dequeue (c : em8051) : em8051 :=
  set_mSABExternalScheduleCount (mSABExternalScheduleCount c - 1)
    (set_mSABExternalScheduleHead ((mSABExternalScheduleHead c + 1) mod 64) c).

(** The events whose cycle has come, and those that follow. *)
Fixpoint due (now : Z) (l : list schedule_event) : list schedule_event :=
  match l with
  | [] => []
  | e :: l => if now <? se_machine_cycle e then [] else e :: due now l
  end.
Fixpoint later (now : Z) (l : list schedule_event) : list schedule_event :=
  match l with
  | [] => []
  | e :: l => if now <? se_machine_cycle e then e :: l else later now l
  end.

(** Events in the order of their cycles. *)
Definition earlier (e e' : schedule_event) : Prop := se_machine_cycle e <= se_machine_cycle e'.

Lemma later_future now l : Sorted earlier l -> Forall (fun e => now < se_machine_cycle e) (later now l).
Proof.
  intros Hs. assert (Transitive earlier) as Ht by (unfold earlier; intros ???; lia).
  apply Sorted_StronglySorted in Hs; [|done]. induction Hs as [|e l Hs IH Hall]; [done|]. cbn.
  destruct (Z.ltb_spec now (se_machine_cycle e)); [|done]. constructor; [done|].
  eapply Forall_impl; [exact Hall|]. unfold earlier. intros; lia.
Qed.

Lemma dequeue_count c : wf c -> mSABExternalScheduleCount c <> 0 ->
  mSABExternalScheduleCount (dequeue c) = mSABExternalScheduleCount c - 1 /\
  mSABExternalScheduleHead (dequeue c) = (mSABExternalScheduleHead c + 1) mod 64.
Proof.
  intros Hw Hn. pose proof (wf_cpu_ports _ Hw) as []. split; apply u8_id; unfold byte; [lia|].
  pose proof (Z.mod_pos_bound (mSABExternalScheduleHead c + 1) 64). lia.
Qed.

Lemma wf_dequeue c : wf c -> mSABExternalScheduleCount c <> 0 -> wf (dequeue c).
Proof.
  intros Hw Hn. pose proof (wf_cpu_ports _ Hw) as [].
  apply wf_set_mSABExternalScheduleCount; [|rewrite u8_id; unfold byte; lia].
  apply wf_set_mSABExternalScheduleHead; [done|]. by apply u8_mod.
Qed.

Lemma queue_dequeue c : wf c -> mSABExternalScheduleCount c <> 0 ->
  queue c = event_at c 0 :: queue (dequeue c).
Proof.
  intros Hw Hn. pose proof (wf_cpu_ports _ Hw) as []. destruct (dequeue_count c Hw Hn) as [Ec Eh].
  unfold queue. rewrite Ec, (seqZ_cons 0) by lia. cbn [map]. f_equal.
  replace (Z.succ 0) with (1 + 0) by lia. rewrite <- fmap_add_seqZ, <- Z.sub_1_r.
  rewrite <- list_fmap_compose. apply list_fmap_ext. intros _ i _. unfold event_at, compose.
  change (mSABExternalSchedule (dequeue c)) with (mSABExternalSchedule c).
  by rewrite Eh, Zplus_mod_idemp_l, Z.add_assoc.
Qed.

Lemma queue_head c : wf c -> mSABExternalScheduleCount c <> 0 ->
  aget (mSABExternalSchedule c) (mSABExternalScheduleHead c) = Some (event_at c 0).
Proof.
  intros Hw Hn. pose proof (wf_cpu_ports _ Hw) as []. unfold event_at. rewrite Z.add_0_r, Z.mod_small by lia.
  destruct (aget_Some (mSABExternalSchedule c) (mSABExternalScheduleHead c)) as (e & -> & ->); [lia|done].
Qed.

(** The queue depends on the ring only. *)
Lemma queue_ring (c c' : em8051) :
  (mSABExternalSchedule c', mSABExternalScheduleHead c', mSABExternalScheduleCount c') =
  (mSABExternalSchedule c, mSABExternalScheduleHead c, mSABExternalScheduleCount c) -> queue c' = queue c.
Proof. intros [= E1 E2 E3]. unfold queue, event_at. by rewrite E1, E2, E3. Qed.

Lemma seqZ_snoc n : 0 <= n -> seqZ 0 (n + 1) = seqZ 0 n ++ [n].
Proof.
  intros Hn. by rewrite seqZ_app by lia.
Qed.

(** The newest event. *)
Lemma queue_last c : wf c -> mSABExternalScheduleCount c <> 0 ->
  exists e, last (queue c) = Some e /\
    aget (mSABExternalSchedule c)
      (u8 ((mSABExternalScheduleHead c + mSABExternalScheduleCount c - 1) mod 64)) = Some e.
Proof.
  intros Hw Hn. pose proof (wf_cpu_ports _ Hw) as []. set (n := mSABExternalScheduleCount c) in *.
  exists (event_at c (n - 1)). split.
  - unfold queue. fold n. replace n with (n - 1 + 1) at 1 by lia. rewrite seqZ_snoc by lia.
    rewrite map_app. cbn [map]. by rewrite last_snoc.
  - rewrite u8_id by (pose proof (Z.mod_pos_bound (mSABExternalScheduleHead c + n - 1) 64); unfold byte; lia).
    unfold event_at. rewrite Z.add_sub_assoc.
    destruct (aget_Some (mSABExternalSchedule c) ((mSABExternalScheduleHead c + n - 1) mod 64))
      as (e & -> & ->); [pose proof (Z.mod_pos_bound (mSABExternalScheduleHead c + n - 1) 64); lia|done].
Qed.

Definition enqueue (e : schedule_event) (c : em8051) : em8051 :=
  set_mSABExternalScheduleCount (mSABExternalScheduleCount c + 1)
    (set_mSABExternalSchedule
      (<[Z.to_nat ((mSABExternalScheduleHead c + mSABExternalScheduleCount c) mod 64) := e]>
        (mSABExternalSchedule c)) c).

Lemma queue_enqueue e c : wf c -> mSABExternalScheduleCount c < 64 -> queue (enqueue e c) = queue c ++ [e].
Proof.
  intros Hw Hn. pose proof (wf_cpu_ports _ Hw) as []. set (n := mSABExternalScheduleCount c) in *.
  set (h := mSABExternalScheduleHead c) in *.
  assert (mSABExternalScheduleCount (enqueue e c) = n + 1) as Ec by (apply u8_id; unfold byte; lia).
  pose proof (Z.mod_pos_bound (h + n) 64 ltac:(lia)) as Hm.
  unfold queue. rewrite Ec. fold n. rewrite seqZ_snoc by lia. rewrite map_app. f_equal.
  - apply list_fmap_ext. intros _ i Hi%list_elem_of_lookup_2. apply elem_of_seqZ in Hi. unfold event_at.
    change (mSABExternalSchedule (enqueue e c)) with (<[Z.to_nat ((h + n) mod 64) := e]> (mSABExternalSchedule c)).
    change (mSABExternalScheduleHead (enqueue e c)) with h. fold h.
    rewrite list_lookup_insert_ne; [done|]. pose proof (Z.mod_pos_bound (h + i) 64 ltac:(lia)).
    intros E%Z2Nat.inj; [|lia..]. revert E. Z.div_mod_to_equations. lia.
  - cbn [map]. f_equal. unfold event_at.
    change (mSABExternalSchedule (enqueue e c)) with (<[Z.to_nat ((h + n) mod 64) := e]> (mSABExternalSchedule c)).
    change (mSABExternalScheduleHead (enqueue e c)) with h.
    rewrite list_lookup_insert_eq by lia. done.
Qed.

Section PortProps.
Context {W : Type} {HostW : Host W}.

Lemma eff_external_trace source b1 b2 t c : eff (sab_external_trace_emit source b1 b2 t) c () c.
Proof. unfold sab_external_trace_emit. eff_step. apply eff_when_quiet, eff_observe. Qed.

(** After the edge was classified: latch the request, refresh, report. *)
Lemma eff_latch source i m q b1 b2 c :
  exists c', (forall t, eff (c0 ← get_cpu;
      when q (emu_cpu_irq_write i (Z.lor (sfr c0 i) m) (mMachineCycleCount c0)) ;;
      sab_irq_sync ;; sab_external_trace_emit source b1 b2 t) c () c') /\
    synced (if q then set_sfr i (Z.lor (sfr c i) m) c else c) c'.
Proof.
  destruct (eff_irq_sync (W := W) (if q then set_sfr i (Z.lor (sfr c i) m) c else c)) as (c' & E & H).
  exists c'. split; [|done]. intros t. eff_step.
  eapply eff_bind with (c1 := if q then set_sfr i (Z.lor (sfr c i) m) c else c).
  - destruct q; [apply eff_irq_write|apply eff_ret].
  - eapply eff_bind; [exact E|apply eff_external_trace].
Qed.

(** An edge-triggered input of port 1. *)
Lemma eff_observe_p1 source old new c :
  p1_source source ->
  exists c', eff (sab_external_observe_change source old new) c () c' /\
    synced (if qualifies c source old new
            then set_sfr IRCON (Z.lor (sfr c IRCON) (request_bit source)) c else c) c'.
Proof.
  intros Hs. unfold p1_source in Hs.
  assert (sab_external_request_sfr source = Some (IRCON, request_bit source)) as Er.
  { unfold sab_external_request_sfr, EM8051_SAB_EXTERNAL_INT0, EM8051_SAB_EXTERNAL_INT1,
      EM8051_SAB_EXTERNAL_INT2, EM8051_SAB_EXTERNAL_INT6 in *.
    destruct (Z.eqb_spec source 0), (Z.eqb_spec source 1); try lia.
    destruct (Z.leb_spec 2 source), (Z.leb_spec source 6); try lia. done. }
  unfold sab_external_observe_change, qualifies. rewrite Er.
  assert ((source =? EM8051_SAB_EXTERNAL_INT0) || (source =? EM8051_SAB_EXTERNAL_INT1) = false) as E01.
  { unfold EM8051_SAB_EXTERNAL_INT0, EM8051_SAB_EXTERNAL_INT1, EM8051_SAB_EXTERNAL_INT2 in *. lia. }
  fold T2CON.
  destruct (source =? EM8051_SAB_EXTERNAL_INT2); [|destruct (source =? EM8051_SAB_EXTERNAL_INT3)]; cbv zeta;
    (edestruct eff_latch as (c' & E & H); exists c'; split; [|exact H];
     eff_step; rewrite E01; cbn [orb]; cbv zeta; eff_step; apply E).
Qed.

Lemma synced_kept c c1 c' : pins_kept c c1 -> synced c1 c' -> pins_kept c c'.
Proof.
  intros [Hd Hs] [Ht [= W1 W2 W3 _]]. constructor; [congruence|].
  intros i Hi H1 H2. rewrite Ht by done. by apply Hs.
Qed.

Lemma kept_set_request i v c : i = REG_TCON \/ i = IRCON -> pins_kept c (set_sfr i v c).
Proof.
  intros Hi. constructor; [done|]. intros j Hj H1 H2. apply sfr_set_sfr_ne; destruct Hi; subst; done || lia.
Qed.
Hint Resolve kept_set_request : core.

Lemma eff_latch_kept source i m q b1 b2 c c1 :
  i = REG_TCON \/ i = IRCON -> pins_kept c c1 ->
  exists c', (forall t, eff (c0 ← get_cpu;
      when q (emu_cpu_irq_write i (Z.lor (sfr c0 i) m) (mMachineCycleCount c0)) ;;
      sab_irq_sync ;; sab_external_trace_emit source b1 b2 t) c1 () c') /\ pins_kept c c'.
Proof.
  intros Hi Hc. destruct (eff_latch source i m q b1 b2 c1) as (c' & E & H). exists c'. split; [done|].
  eapply synced_kept; [|exact H]. destruct q; [|done]. etransitivity; [exact Hc|auto].
Qed.

(** Observing a change on any input, level-triggered ones included. *)
Lemma eff_observe_any source old new c :
  exists c', eff (sab_external_observe_change source old new) c () c' /\ pins_kept c c'.
Proof.
  unfold sab_external_observe_change.
  destruct (sab_external_request_sfr source) as [[i m]|] eqn:Er;
    [|exists c; split; [apply eff_ret|done]]. apply request_sfr_cases in Er. fold IRCON in Er.
  destruct ((source =? EM8051_SAB_EXTERNAL_INT0) || (source =? EM8051_SAB_EXTERNAL_INT1)).
  - cbv zeta. set (mode := if source =? EM8051_SAB_EXTERNAL_INT0 then TCONMASK_IT0 else TCONMASK_IT1).
    destruct (has (sfr c REG_TCON) mode) eqn:Em; [|destruct new].
    + destruct (old && negb new);
        (edestruct (eff_latch_kept source i m) as (c' & E & H); [done| |exists c'; split; [|exact H]];
         [|eff_step; rewrite Em; eff_step; apply E]; done).
    + set (c1 := if has (mSABExternalLevelAsserted c) (sab_external_sample_bit source)
                 then set_sfr i (clr (sfr c i) m) c else c).
      assert (pins_kept c c1) as [] by (unfold c1; case_if; [auto|done]).
      edestruct (eff_latch_kept source i m) as (c' & E & H); [done| |exists c'; split; [|exact H]].
      2: { eff_step. rewrite Em. cbn [negb]. eff_step. eapply eff_bind with (c1 := c1).
        { unfold c1. destruct (has (mSABExternalLevelAsserted c) _); [apply eff_modify|apply eff_ret]. }
        do 3 eff_step. apply E. }
      by constructor.
    + edestruct (eff_latch_kept source i m) as (c' & E & H); [done| |exists c'; split; [|exact H]].
      2: { eff_step. rewrite Em. cbn [negb]. do 3 eff_step. apply E. }
      by constructor.
  - destruct ((source =? EM8051_SAB_EXTERNAL_INT2) || (source =? EM8051_SAB_EXTERNAL_INT3)); cbv zeta;
      (edestruct (eff_latch_kept source i m) as (c' & E & H); [done| |exists c'; split; [|exact H]];
       [|do 2 eff_step; apply E]; done).
Qed.

Lemma eff_sample_port port c :
  exists c', eff (sab_external_sample_port port) c () c' /\ pins_kept c c'.
Proof.
  unfold sab_external_sample_port. destruct (em8051_sab_port_get_pins c port) as [pins|] eqn:Ep.
  2: { exists c. split; [eff_step; rewrite Ep; apply eff_ret|done]. }
  edestruct (eff_for_each (W := W) pins_kept (seqZ EM8051_SAB_EXTERNAL_INT0 EM8051_SAB_EXTERNAL_SOURCE_COUNT))
    as (c' & E & H); [| | |exists c'; split; [eff_step; rewrite Ep; exact E|exact H]].
  - done.
  - intros ???. by etransitivity.
  - intros source c1. cbv beta. destruct (sab_external_pin source) as [[p m]|]; [|exists c1; split; [apply eff_ret|done]].
    cbv zeta. set (old := has (mSABExternalSampledLevels c1) (sab_external_sample_bit source)).
    destruct (negb (p =? port) || eqb old (has pins m)) eqn:Eq.
    + exists c1. split; [|done]. eff_step. fold old. rewrite Eq. apply eff_ret.
    + edestruct (eff_observe_any source old (has pins m)) as (c' & E & H). exists c'. split.
      * eff_step. fold old. rewrite Eq. eff_step. exact E.
      * destruct H. by constructor.
Qed.

(** C19: the pins follow latch and drivers. Driving bits [mask] of a port with
    [levels] makes each driven pin the AND of its latch bit and its level;
    releasing them makes each the latch bit alone; pins outside [mask] and the
    other ports keep their levels, although either operation samples the
    interrupt inputs. *)
Theorem port_drive_release port mask levels (s : machine W) :
  let c := cpu s in
  wf c -> 0 <= sab_port_index c port ->
  (exists s', em8051_sab_port_drive port mask levels s = Done true s' /\
    (forall i, 0 <= i < 8 -> pin (cpu s') port i =
      if Z.testbit mask i then latch c port i && Z.testbit levels i else pin c port i) /\
    (forall q, q <> port -> em8051_sab_port_get_pins (cpu s') q = em8051_sab_port_get_pins c q)) /\
  (exists s', em8051_sab_port_release port mask s = Done true s' /\
    (forall i, 0 <= i < 8 -> pin (cpu s') port i =
      if Z.testbit mask i then latch c port i else pin c port i) /\
    (forall q, q <> port -> em8051_sab_port_get_pins (cpu s') q = em8051_sab_port_get_pins c q)).
Proof.
  intros c Hw Hi. assert ((sab_port_index c port <? 0) = false) as Hneg by lia.
  set (m0 := geti (mSABPortExternalMask c) (sab_port_index c port)).
  set (l0 := geti (mSABPortExternalLevels c) (sab_port_index c port)).
  assert (forall m l c' i, pins_kept (wire port m l c) c' -> 0 <= i < 8 ->
    pin c' port i = latch c port i && (negb (Z.testbit m i) || Z.testbit l i)) as Hpin.
  { intros m l c' i Hk Hb. unfold pin at 1. rewrite (kept_pins _ _ port Hk). by apply wire_pin. }
  assert (forall m l c' q, pins_kept (wire port m l c) c' -> q <> port ->
    em8051_sab_port_get_pins c' q = em8051_sab_port_get_pins c q) as Hother.
  { intros m l c' q Hk Hq. rewrite (kept_pins _ _ q Hk). by apply wire_others. }
  split.
  - destruct (eff_sample_port port (wire port (Z.lor m0 mask) (Z.lor (clr l0 mask) (Z.land levels mask)) c))
      as (c' & E & Hk).
    destruct (eff_run (em8051_sab_port_drive port mask levels) s true c') as (s' & Es & Ec).
    { unfold em8051_sab_port_drive. eff_step. fold c. rewrite Hneg. do 2 eff_step.
      eapply eff_bind; [exact E|apply eff_ret]. }
    exists s'. rewrite Ec. split_and!; [done| |by eauto]. intros i Hb. rewrite (Hpin _ _ _ i Hk Hb).
    rewrite (pin_formula c port i) by done. fold m0 l0. unfold clr.
    rewrite !Z.lor_spec, !Z.land_spec, not8_testbit by done.
    destruct (latch c port i), (Z.testbit mask i), (Z.testbit levels i), (Z.testbit m0 i), (Z.testbit l0 i); done.
  - destruct (eff_sample_port port (wire port (clr m0 mask) (clr l0 mask) c)) as (c' & E & Hk).
    destruct (eff_run (em8051_sab_port_release port mask) s true c') as (s' & Es & Ec).
    { unfold em8051_sab_port_release. eff_step. fold c. rewrite Hneg. do 2 eff_step.
      eapply eff_bind; [exact E|apply eff_ret]. }
    exists s'. rewrite Ec. split_and!; [done| |by eauto]. intros i Hb. rewrite (Hpin _ _ _ i Hk Hb).
    rewrite (pin_formula c port i) by done. fold m0 l0. unfold clr.
    rewrite !Z.land_spec, not8_testbit by done.
    destruct (latch c port i), (Z.testbit mask i), (Z.testbit m0 i), (Z.testbit l0 i); done.
Qed.

(** The body of the sampling loop. *)
Definition sample_source (aPort pins source : Z) : M W () :=
  match sab_external_pin source with
  | None => mret ()
  | Some (source_port, pin_mask) =>
    c ← get_cpu;
    if negb (source_port =? aPort) || eqb (level c source) (has pins pin_mask) then mret ()
    else
      modify (set_mSABExternalSampledLevels
        (if has pins pin_mask then Z.lor (mSABExternalSampledLevels c) (sab_external_sample_bit source)
         else clr (mSABExternalSampledLevels c) (sab_external_sample_bit source))) ;;
      sab_external_observe_change source (level c source) (has pins pin_mask)
  end.

Lemma safe_sample_source port pins source : safe periph (sample_source port pins source) any.
Proof.
  intros s Hw. unfold sample_source. destruct (sab_external_pin source) as [[p m]|]; [|ok_auto].
  ok_step. ok_step; [ok_auto|]. ok_auto. apply safe_observe_change.
Qed.

(** One turn of the loop, for an input of port 1. *)
Lemma sample_source_step pins k (s : machine W) :
  wf (cpu s) -> p1_source k ->
  exists s', sample_source EM8051_SAB_PORT_P1 pins k s = Done () s' /\ wf (cpu s') /\
    sfr (cpu s') T2CON = sfr (cpu s) T2CON /\ input_sampled pins (cpu s) (cpu s') k /\
    forall j, p1_source j -> j <> k -> input_kept (cpu s) (cpu s') j.
Proof.
  intros Hw Hk. set (c := cpu s). set (new := p1_pin pins k).
  assert (exists m, sab_external_pin k = Some (EM8051_SAB_PORT_P1, m) /\ has pins m = new) as (m & Em & En).
  { unfold new, p1_pin. apply p1_cases in Hk. destruct_or! Hk; subst; by eexists. }
  destruct (eqb (level c k) new) eqn:El.
  - exists s. fold c. split_and!; [|done..| |done].
    + unfold sample_source. rewrite Em, En. unfold bind, get_cpu. fold c. by rewrite El, orb_true_r.
    + apply eqb_prop in El. split; [done|]. fold new. rewrite <- El. unfold qualifies.
      destruct (level c k); cbn; by rewrite ?andb_false_r; case_if; rewrite orb_false_r.
  - set (c1 := resample k new c). assert (wf c1) as Hw1 by (unfold c1, resample; eauto with emu).
    destruct (eff_observe_p1 k (level c k) new c1 Hk) as (c' & E & Hsync).
    assert (eff (sample_source EM8051_SAB_PORT_P1 pins k) c () c') as He.
    { unfold sample_source. rewrite Em, En. eff_step. rewrite El, Z.eqb_refl. cbn [negb orb].
      eff_step. exact E. }
    destruct (eff_safe periph _ any s () c' He (safe_sample_source _ _ _) Hw) as (s' & Es & Ec & Hw' & _).
    exists s'. rewrite Ec. change (qualifies c1 k (level c k) new) with (qualifies c k (level c k) new) in Hsync.
    destruct Hsync as [Ht [= _ _ _ Hl]].
    assert (forall j, level c' j = level c1 j) as Hlev by (intros j; unfold level; rewrite Hl; by case_if).
    assert (forall j, p1_source j -> requested c' j = requested c j || ((j =? k) && qualifies c k (level c k) new)) as Hreq.
    { intros j Hj. unfold requested at 1. rewrite Ht by done. destruct (qualifies c k (level c k) new).
      - fold (requested (set_sfr IRCON (Z.lor (sfr c1 IRCON) (request_bit k)) c1) j).
        rewrite requested_set, andb_true_r by done. apply orb_comm.
      - by rewrite andb_false_r, orb_false_r. }
    split_and!; [done..| | |].
    + rewrite Ht by done. case_if; [by rewrite sfr_set_sfr_ne|done].
    + split; [rewrite Hlev; unfold c1; rewrite level_resample by done; by rewrite Z.eqb_refl|].
      rewrite Hreq, Z.eqb_refl by done. done.
    + intros j Hj Hne. apply Z.eqb_neq in Hne. split.
      * rewrite Hlev. unfold c1. rewrite level_resample by done. by rewrite Hne.
      * rewrite Hreq, Hne by done. apply orb_false_r.
Qed.

(** A loop over distinct inputs samples each of them once. *)
Lemma sample_loop pins l (s : machine W) :
  wf (cpu s) -> NoDup l -> (forall k, k ∈ l -> p1_source k) ->
  exists s', for_each l (sample_source EM8051_SAB_PORT_P1 pins) s = Done () s' /\ wf (cpu s') /\
    sfr (cpu s') T2CON = sfr (cpu s) T2CON /\
    forall j, p1_source j -> (j ∈ l -> input_sampled pins (cpu s) (cpu s') j) /\
      (j ∉ l -> input_kept (cpu s) (cpu s') j).
Proof.
  revert s. induction l as [|k l IH]; intros s Hw Hnd Hl.
  { exists s. split_and!; [done..|]. intros j _. split; [by intros ?%elem_of_nil|done]. }
  apply NoDup_cons in Hnd as [Hk Hnd]. pose proof (Hl k ltac:(set_solver)) as Hpk.
  destruct (sample_source_step pins k s Hw Hpk) as (s1 & E1 & Hw1 & Ht1 & Hs1 & Ho1).
  destruct (IH s1 Hw1 Hnd ltac:(set_solver)) as (s2 & E2 & Hw2 & Ht2 & Ho2).
  exists s2. cbn [for_each]. rewrite (exec_bind _ _ _ _ _ E1). split_and!; [done..|congruence|].
  intros j Hj. destruct (Ho2 j Hj) as [Hin Hout]. unfold input_sampled, input_kept in *.
  assert (forall a b, qualifies (cpu s1) j a b = qualifies (cpu s) j a b) as Hq by (intros; unfold qualifies; by rewrite Ht1).
  split.
  - intros [->|Hjl]%elem_of_cons.
    + destruct (Hout Hk) as [-> ->]. exact Hs1.
    + assert (j <> k) as Hne by by intros ->. destruct (Ho1 j Hj Hne) as [E3 E4].
      destruct (Hin Hjl) as [-> ->]. by rewrite E3, E4, Hq.
  - intros [Hne Hjl]%not_elem_of_cons. destruct (Ho1 j Hj Hne) as [<- <-]. by apply Hout.
Qed.

(** C18: edge detection on port 1 is exact. Sampling the port runs to completion
    and, for each of the inputs INT2 to INT6, records the pin's level and sets
    the input's IRCON request exactly when the change from the last sampled
    level to the pin is the edge the input is programmed for (T2CON selects it
    for INT2 and INT3, the others react to rising edges); a request already
    pending is never lost. *)
Theorem port1_edge_detection (s : machine W) pins :
  wf (cpu s) -> em8051_sab_port_get_pins (cpu s) EM8051_SAB_PORT_P1 = Some pins ->
  exists s', sab_external_sample_port EM8051_SAB_PORT_P1 s = Done () s' /\
    forall k, p1_source k -> input_sampled pins (cpu s) (cpu s') k.
Proof.
  intros Hw Hp. destruct (sample_loop pins [2; 3; 4; 5; 6] s Hw) as (s' & E & _ & _ & Hs).
  - by apply (bool_decide_unpack _).
  - intros k Hk. rewrite !elem_of_cons, elem_of_nil in Hk. destruct_or! Hk; subst; done.
  - exists s'. split.
    + unfold sab_external_sample_port, bind at 1, get_cpu at 1. rewrite Hp.
      change (seqZ EM8051_SAB_EXTERNAL_INT0 EM8051_SAB_EXTERNAL_SOURCE_COUNT) with ([0; 1] ++ [2; 3; 4; 5; 6]). exact E.
    + intros k Hk. apply Hs; [done|]. apply p1_cases in Hk. rewrite !elem_of_cons. tauto.
Qed.

(** Whether the ring takes an event of the future: there is room, and the
    event is not earlier than the newest one. *)
Definition takes_event (e : schedule_event) (c : em8051) : bool :=
  (mSABExternalScheduleCount c <? 64) &&
  match last (queue c) with Some e' => se_machine_cycle e' <=? se_machine_cycle e | None => true end.

Lemma queue_nil (c : em8051) : mSABExternalScheduleCount c = 0 -> queue c = [].
Proof. intros E. unfold queue. by rewrite E. Qed.

Lemma eff_schedule e c :
  wf c -> is_sab c = true -> 0 <= se_source e < 7 -> 0 <= se_action e <= 1 ->
  mMachineCycleCount c < se_machine_cycle e ->
  eff (em8051_sab_external_schedule (W := W) e) c (takes_event e c) (if takes_event e c then enqueue e c else c).
Proof.
  intros Hw Hsab Hs Ha Hc. pose proof (wf_cpu_ports _ Hw) as []. unfold em8051_sab_external_schedule. eff_step.
  rewrite Hsab. cbn [negb orb].
  assert (u32 (se_source e) = se_source e /\ u32 (se_action e) = se_action e) as [-> ->]
    by (unfold u32; rewrite !Z.mod_small by lia; done).
  unfold EM8051_SAB_EXTERNAL_SOURCE_COUNT, EM8051_SAB_EXTERNAL_SCHEDULE_RELEASE, EM8051_SAB_EXTERNAL_SCHEDULE_CAPACITY.
  destruct (Z.leb_spec 7 (se_source e)); [lia|]. destruct (Z.ltb_spec 1 (se_action e)); [lia|].
  destruct (Z.ltb_spec (se_machine_cycle e) (mMachineCycleCount c)); [lia|]. cbn [orb].
  destruct (Z.eqb_spec (se_machine_cycle e) (mMachineCycleCount c)); [lia|clear n].
  set (h := mSABExternalScheduleHead c) in *. set (n := mSABExternalScheduleCount c) in *.
  pose (in_order := match last (queue c) with Some e' => se_machine_cycle e' <=? se_machine_cycle e | None => true end).
  apply eff_bind with (a := in_order) (c1 := c).
  { unfold in_order. destruct (Z.eqb_spec n 0) as [En|En]; [rewrite (queue_nil c En); apply eff_ret|].
    destruct (queue_last c Hw En) as (e' & -> & Eg). eapply eff_in_range; [exact Eg|]. apply eff_ret. }
  unfold takes_event. fold n in_order. destruct (Z.ltb_spec n 64), (Z.leb_spec 64 n); try lia.
  - rewrite orb_false_r. destruct in_order; cbn [negb andb]; [|apply eff_ret].
    assert (u8 ((h + n) mod 64) = (h + n) mod 64) as Eu.
    { apply u8_id. pose proof (Z.mod_pos_bound (h + n) 64 ltac:(lia)). unfold byte. lia. }
    rewrite Eu. eapply eff_in_range; [apply aset_Some; pose proof (Z.mod_pos_bound (h + n) 64 ltac:(lia)); lia|].
    do 2 eff_step. apply eff_ret.
  - rewrite orb_true_r. apply eff_ret.
Qed.

(** C10: scheduling appends to a bounded, time-ordered queue. A valid event of
    the future is accepted exactly when fewer than 64 events wait and it is not
    earlier than the newest of them; accepted, it goes to the end of the queue,
    rejected, it changes nothing; a queue ordered by cycle stays ordered. *)
Theorem schedule_enqueues e (s : machine W) :
  let c := cpu s in
  wf c -> is_sab c = true -> 0 <= se_source e < 7 -> 0 <= se_action e <= 1 ->
  mMachineCycleCount c < se_machine_cycle e ->
  exists s', em8051_sab_external_schedule e s = Done (takes_event e c) s' /\
    queue (cpu s') = (if takes_event e c then queue c ++ [e] else queue c) /\
    (takes_event e c = false -> cpu s' = c) /\
    (Sorted earlier (queue c) -> Sorted earlier (queue (cpu s'))).
Proof.
  intros c Hw Hsab Hs Ha Hc.
  destruct (eff_run _ s _ _ (eff_schedule e c Hw Hsab Hs Ha Hc)) as (s' & E & Ec).
  exists s'. split; [done|]. rewrite Ec. unfold takes_event in *.
  destruct (Z.ltb_spec (mSABExternalScheduleCount c) 64); [|done]. cbn [andb].
  destruct (last (queue c)) as [e'|] eqn:El.
  - destruct (Z.leb_spec (se_machine_cycle e') (se_machine_cycle e)); [|done].
    rewrite queue_enqueue by done. split_and!; [done..|]. intros Hsort. apply Sorted_snoc; [done|].
    apply last_Some in El as [l ->]. by constructor.
  - rewrite queue_enqueue by done. apply last_None in El. rewrite El. split_and!; [done..|].
    intros _. by repeat constructor.
Qed.

(** Events applied one after another, each taken off the queue first. *)
Inductive drains : list schedule_event -> machine W -> machine W -> Prop :=
  | drains_nil s : drains [] s s
  | drains_cons e l s b s1 s2 :
      head (queue (cpu s)) = Some e ->
      sab_external_apply_event e (mk_machine (dequeue (cpu s)) (world s)) = Done b s1 ->
      drains l s1 s2 -> drains (e :: l) s s2.

Lemma apply_loop_drains fuel (s : machine W) :
  wf (cpu s) -> is_sab (cpu s) = true -> (length (queue (cpu s)) < fuel)%nat ->
  let now := mMachineCycleCount (cpu s) in
  exists s', apply_scheduled_loop fuel s = Done () s' /\ wf (cpu s') /\
    drains (due now (queue (cpu s))) s s' /\ queue (cpu s') = later now (queue (cpu s)).
Proof.
  revert s. induction fuel as [|fuel IH]; intros s Hw Hsab Hf now; [lia|]. cbn [apply_scheduled_loop].
  rewrite exec_get, Hsab. cbn [andb].
  destruct (Z.eqb_spec (mSABExternalScheduleCount (cpu s)) 0) as [En|En]; cbn [negb].
  { rewrite (queue_nil _ En). exists s. split; [done|]. split; [done|]. split; [constructor|by apply queue_nil]. }
  rewrite (queue_head _ Hw En), exec_some. rewrite (queue_dequeue _ Hw En) in Hf |- *. cbn [due later].
  fold now. set (e := event_at (cpu s) 0) in *.
  destruct (Z.ltb_spec now (se_machine_cycle e)).
  { exists s. split; [done|]. split; [done|]. split; [constructor|by apply queue_dequeue]. }
  set (s0 := mk_machine (dequeue (cpu s)) (world s)). pose proof (wf_dequeue _ Hw En) as Hw0.
  destruct (safe_apply_event e s0 Hw0) as (b & s1 & E1 & Hw1 & [Hcy Hcc Hring] & _).
  cbn [cpu s0] in Hring, Hcc. apply queue_ring in Hring.
  destruct (IH s1) as (s2 & E2 & Hw2 & Hd & Hq); [done| | |].
  { unfold is_sab. by rewrite (cy_variant _ _ Hcy). }
  { rewrite Hring. cbn in Hf. lia. }
  rewrite Hring in Hd, Hq. assert (mMachineCycleCount (cpu s1) = now) as Enow by exact Hcc. rewrite Enow in Hd, Hq.
  exists s2. split_and!; [|done| |done].
  - rewrite !exec_modify. by rewrite (exec_bind _ _ _ _ _ E1).
  - eapply drains_cons; [by rewrite (queue_dequeue _ Hw En)|exact E1|exact Hd].
Qed.

(** C9: scheduled events are applied on time and in order. At the end of a
    machine cycle exactly the events whose cycle has come are taken off the
    queue, oldest first, each applied once; the others keep their order; and
    when the queue was ordered, every event that remains is in the future. The
    loop needs no more iterations than the fuel it is given. *)
Theorem schedule_drains (s : machine W) :
  let c := cpu s in
  let now := mMachineCycleCount c in
  wf c -> is_sab c = true ->
  exists s1 s', sab_external_apply_scheduled s = Done () s' /\
    drains (due now (queue c)) s s1 /\
    s' = mk_machine (if mSABExternalScheduleCount (cpu s1) =? 0 then set_mSABExternalScheduleHead 0 (cpu s1)
                     else cpu s1) (world s1) /\
    queue (cpu s') = later now (queue c) /\
    (Sorted earlier (queue c) -> Forall (fun e => now < se_machine_cycle e) (queue (cpu s'))).
Proof.
  intros c now Hw Hsab. destruct (apply_loop_drains 256 s Hw Hsab) as (s1 & E1 & Hw1 & Hd & Hq).
  { unfold queue. rewrite length_map, length_seqZ. pose proof (wf_cpu_ports _ Hw) as []. fold c. lia. }
  set (c' := if mSABExternalScheduleCount (cpu s1) =? 0 then set_mSABExternalScheduleHead 0 (cpu s1) else cpu s1).
  assert (queue c' = queue (cpu s1)) as Eq.
  { unfold c'. destruct (Z.eqb_spec (mSABExternalScheduleCount (cpu s1)) 0) as [En|]; [|done].
    rewrite (queue_nil (cpu s1)) by done. by apply queue_nil. }
  exists s1, (mk_machine c' (world s1)). split_and!; [|done..|exact (eq_trans Eq Hq)|].
  - unfold sab_external_apply_scheduled. rewrite (exec_bind _ _ _ _ _ E1), exec_get. unfold c'.
    destruct (mSABExternalScheduleCount (cpu s1) =? 0); [done|]. by destruct s1.
  - intros Hs. cbn [cpu]. rewrite Eq, Hq. by apply later_future.
Qed.

End PortProps.

(** *** Instances *)

Definition port_demo : em8051 := boot EM8051_VARIANT_SAB80535 [0x00].

Lemma port_demo_wf : wf port_demo.
Proof. solve_wf. Qed.

(** INT4 driven low, then high again at cycle 5. *)
Definition rising_int4 : schedule_event :=
  {| se_machine_cycle := 5; se_source := EM8051_SAB_EXTERNAL_INT4;
     se_action := EM8051_SAB_EXTERNAL_SCHEDULE_DRIVE; se_level := true |}.

(** The CPU with that event waiting, at cycle 5. *)
Definition port_due : em8051 := set_mMachineCycleCount 5 (enqueue rising_int4 port_demo).

Lemma port_due_wf : wf port_due.
Proof. solve_wf. Qed.

Lemma port_drive_release_witness :
  exists s', em8051_sab_port_drive EM8051_SAB_PORT_P4 0x0f 0x05 (start port_demo) = Done true s' /\
    pin (cpu s') EM8051_SAB_PORT_P4 1 = false /\ pin (cpu s') EM8051_SAB_PORT_P4 2 = true.
Proof.
  destruct (port_drive_release EM8051_SAB_PORT_P4 0x0f 0x05 (start port_demo)) as [(s' & E & Hp & _) _].
  - exact port_demo_wf.
  - vm_compute. discriminate.
  - exists s'. split; [exact E|]. split.
    + rewrite Hp; [vm_compute; reflexivity|split; [discriminate|reflexivity]].
    + rewrite Hp; [vm_compute; reflexivity|split; [discriminate|reflexivity]].
Defined.

(** INT4 last sampled low, its pin high: a rising edge. *)
Lemma port1_edge_detection_witness :
  exists s', sab_external_sample_port EM8051_SAB_PORT_P1 (start (resample 4 false port_demo)) = Done () s' /\
    requested (cpu s') EM8051_SAB_EXTERNAL_INT4 = true.
Proof.
  destruct (port1_edge_detection (start (resample 4 false port_demo)) 0xff) as (s' & E & Hs).
  - apply wfb_sound; vm_compute; reflexivity.
  - vm_compute. reflexivity.
  - exists s'. split; [exact E|]. destruct (Hs EM8051_SAB_EXTERNAL_INT4) as [_ Hr].
    + split; discriminate.
    + rewrite Hr. vm_compute. reflexivity.
Defined.

Lemma schedule_enqueues_witness :
  exists s', em8051_sab_external_schedule rising_int4 (start port_demo) = Done true s' /\
    queue (cpu s') = [rising_int4].
Proof.
  destruct (schedule_enqueues rising_int4 (start port_demo)) as (s' & E & Hq & _).
  - exact port_demo_wf.
  - vm_compute. reflexivity.
  - split; [discriminate|reflexivity].
  - split; discriminate.
  - vm_compute. reflexivity.
  - exists s'. split; [exact E|]. rewrite Hq. vm_compute. reflexivity.
Defined.

Lemma schedule_drains_witness :
  exists s1 s', sab_external_apply_scheduled (start port_due) = Done () s' /\
    drains [rising_int4] (start port_due) s1 /\ queue (cpu s') = [].
Proof.
  destruct (schedule_drains (start port_due)) as (s1 & s' & E & Hd & _ & Hq & _).
  - exact port_due_wf.
  - vm_compute. reflexivity.
  - exists s1, s'. split; [exact E|]. split; [exact Hd|]. rewrite Hq. vm_compute. reflexivity.
Defined.
